(* ===== verification/_CoqProject ===== *)
-Q . S2P
Prelude.v
PyStr.v
StreamWrapper.v
PunctNmt.v
PunctMain.v
PunctFst.v
PromptTable.v
DiarMetric.v
DiarSteps.v
ClusterEmb.v
ClusterRun.v
TsvadModel.v
