(* ===== verification/Prelude.v ===== *)
(** * A verification development for the NeMo toolkit components

    This library models, in Rocq, the algorithmic parts of five source files
    of the repository and proves what makes them correct (or, where the code
    cannot do what it means to, proves exactly how it fails).

    ** The program and how its parts interact

    The repository is a set of loosely coupled modules of a deep-learning
    toolkit.  Their algorithmic cores are:

    - [src/nemo/collections/asr/parts/submodules/stream_wrapper.py]:
      [StreamWrapper], a wrapper that runs a convolution or pooling layer
      one time step (or one stride) at a time, keeping a ring buffer of the
      last input frames ("state"), either inside the module (internal state)
      or passed in and out by the caller (external state).  It computes the
      ring-buffer size from the wrapped layer's kernel, stride and dilation
      ([_initialize_ring_buffer_size_in_time_dim]), builds the state lazily
      on the first call ([_build_states]) and dispatches on the inference
      mode ([forward]).
    - [src/examples/nlp/machine_translation/punctuation_infer/
      punctuate_capitalize_nmt.py]: a script that splits long queries into
      overlapping word segments ([split_into_segments]), lets a sequence
      model label every segment, and merges the labels of overlapping
      segments by voting ([update_label_counter], [get_label_votes],
      [select_best_label], [apply_autoregressive_labels]).
    - [src/nemo/collections/nlp/modules/common/prompt_table.py]:
      [PromptTable], a table of soft-prompt embeddings keyed by task name,
      with a second table from task ids to task names.
    - [src/nemo_text_processing/text_normalization/verbalizers/
      punctuation.py]: [PunctuationFst], a finite-state transducer, built
      with pynini, that verbalizes a serialized punctuation token.
    - [src/nemo/collections/asr/models/tsvad_models.py]: the TS-VAD
      diarization model.  [MultiBinaryAcc] is a torchmetrics metric whose
      counters [update] accumulates and [compute] turns into precision,
      recall and F1; [EncDecDiarLabelModel] creates one such object
      ([self._accuracy]) and its training, validation and test steps
      and epoch ends all call, read and overwrite it; [ClusterEmbedding]
      prepares the clustering results the model is trained on (labels
      of longer segments by majority vote, average embeddings per
      speaker, speaker mappings checked against the RTTM files) from
      the files the clustering diarizer writes, and caches them as
      pickles ([run_clustering_diarizer]); [EncDecDiarLabelModel.__init__]
      takes that [ClusterEmbedding] object, copies its results, and builds
      the data loader of each split from that split's results.

    Apart from the TS-VAD model, whose steps share the one metric object
    and whose data come from the clustering run,
    the components do not call each other: each is a leaf of the
    deep-learning framework.  What they share are the Python and PyTorch
    primitives they are written with (exceptions, list slicing, string
    splitting, loops that may raise), which this file models once for
    all of them.

    ** Files

    - [Prelude.v] (this file): the error type [exn] of the Python exceptions
      the code raises, the result type [res] with its bind notation
      [let?] in [nemo_scope], dict lookup [py_getitem], [for] loops that
      may raise ([res_map], [res_fold_left], with their invariant and
      keyed-loop lemmas), the state and exception monad [st] of an
      object's methods with [let!], the tactic [st_run] and Hoare triples
      on it ([st_spec], [st_inv], the tactic [st_inv_solve]), Python list
      indexing and slicing with negative indices ([py_index], [py_slice],
      [py_setitem]), the hint databases [nemo] and [nemo_rw], and the
      list and rational lemmas the components share.
    - [PyStr.v]: [Module PyStr], the [str] methods the scripts call
      ([split], [join], [split(sep)], [in], [upper], [capitalize], a
      regex character-class count) on Stdlib [string]s.
    - [StreamWrapper.v]: [Module StreamWrapper].  The object's attributes
      are the record [wrapper]; each method ([__init__],
      [_initialize_ring_buffer_size_in_time_dim], [_build_states],
      [get_input_state], [get_output_state], [_non_streaming],
      [_streaming_internal_state], [_streaming_external_state],
      [forward]) is one definition returning the new object and a result
      or an exception; tensors are [tensor] records whose time dimension
      is a list of frames.  The ring-buffer step is also stated on its own
      ([ring_step], [strided_step]) so that the streaming algorithm can be
      compared with the non-streaming one ([conv_valid]).
    - [PunctNmt.v]: [Module PunctNmt], the functions of
      punctuate_capitalize_nmt.py that do not call the model or the file
      system: [split_into_segments], [adjust_predicted_labels_length],
      [update_label_counter], [get_label_votes], [select_best_label],
      [apply_autoregressive_labels], each loop a [Fixpoint]; vote
      counters are association lists in insertion order.
    - [PunctMain.v]: [Module PunctMain], [get_args] (the checks after
      [parse_args]), [load_manifest] and [main] of the same script.  The
      parser, the model ([restore_from], the beam search generator,
      [translate]), [json] and the files are the environment class
      [MainEnv]; [main] composes [read_queries], [partition_queries],
      [PunctNmt]'s [split_into_segments] and
      [apply_autoregressive_labels], [translate_loop], [fill] and
      [write_output], and returns what it writes.
    - [PunctFst.v]: [Module PunctFst], the transducer [PunctuationFst]
      builds.  A transducer is the executable function from an input to
      the outputs of its accepting paths, and the pynini operations the
      constructor uses (concatenation, [pynutil.delete], acceptors,
      closures and differences of character sets) are written over it.
    - [PromptTable.v]: [Module PromptTable] (stdpp [gmap]), the two
      classes of prompt_table.py.  The object is the record
      [prompt_table_state], its [ModuleDict] a [gmap] with the checks of
      [add_module]; the methods run in [st]; [reachable] is the object's
      life (construction, then any sequence of method calls).
    - [DiarMetric.v]: [Module DiarMetric], [MultiBinaryAcc.__init__],
      [update] and [compute].  A 3-d tensor is its shape and entry
      function, with PyTorch broadcasting; the metric's attributes are
      the record [metric], and since a counter starts as the Python int
      [0] and becomes a tensor updated in place at its first [+=], the
      counters are cells of a heap ([world]).  [updated] is the metric's
      life (construction, then updates).
    - [DiarSteps.v]: [Module DiarSteps], the metric bookkeeping of the
      model's [training_step], [validation_step], [test_step],
      [multi_validation_epoch_end] and [multi_test_epoch_end].  The two
      torchmetrics calls are the interface class [MetricHooks] with its
      laws [MetricLaws] (a call runs [update] [calls_per_forward >= 1]
      times; [reset] changes no attribute of this metric); the steps and
      their theorems are stated against the interface, and
      [repeat_update k] implements it.
    - [ClusterEmb.v]: [Module ClusterEmb] (stdpp [gmap] and [gset]),
      [assign_labels_to_longer_segs], [get_clus_emb], [get_uniq_id],
      [s2n], [parse_rttm], [get_manifest_uniq_ids] and
      [check_embedding_and_RTTM] of [ClusterEmbedding].  File reading,
      [float], [int], [json.loads] and the iteration order of Python
      sets are the environment class [ClusterEnv], whose laws
      [ClusterEnvLaws] only say that a set is listed with each element
      once.
    - [ClusterRun.v]: [Module ClusterRun], the object [ClusterEmbedding]
      ([__init__], [prepare_cluster_embs], [run_clustering_diarizer],
      the pickle loaders and saver, [load_embeddings_from_pickle],
      [get_scale_map], [getMultiScaleCosAffinityMatrix]) on a file
      system of directories, pickles and text files, in [st]; the
      clustering diarizer and [get_argmin_mat] are the environment class
      [DiarizerEnv].  It calls [ClusterEmb]'s [get_clus_emb] and
      [check_embedding_and_RTTM].
    - [TsvadModel.v]: [Module TsvadModel], [EncDecDiarLabelModel]'s
      [__init__], [get_emb_clus], [extract_labels],
      [__setup_dataloader_from_config], the three setup methods,
      [test_dataloader], [input_types], [output_types], [forward] and the
      module helpers [sprint] and [write_json_file].  A [DictConfig] is a
      [gmap]; the framework ([ModelPT.__init__]), the featurizer, dataset
      and loader constructors, the preprocessor and the TS-VAD network
      are the environment class [TsvadEnv].  It takes [ClusterRun]'s
      object as the [emb_clus] of [__init__]; the invariant that a
      clustering run keeps the stored results is proved with the Hoare
      triples [st_spec] / [st_inv] of this file.

    ** What the theorems show (groups)

    - Stream wrapper (C1-C4, C6-C8): the ring-buffer sizes computed
      from the layer's attributes and the guards that reject a layer, with
      the exception raised; that the samplewise ring buffer is a sliding window
      of the last [k] frames, so that streaming a signal frame by frame
      through a window function gives the same outputs as the
      non-streaming layer on the causally padded signal (refinement); that
      internal and external strided streaming feed the wrapped layer
      different inputs; and that the methods as written raise before the
      wrapped layer is ever called.
    - Segmenting and voting (C14-C19, C21): [split_into_segments] terminates for
      [step >= 1] and diverges for [step <= 0]; its segments are aligned
      runs of words that never reach a query's last word, and their start
      offsets increase across queries (the start is never reset);
      [apply_autoregressive_labels] never returns (its index walk leaves
      the list); the punctuation votes are ignored; and the equivalence of [select_best_label]'s two stable sorts
      with a lexicographic arg-max.
    - Punctuation script (C26, C27, C35): [main] writes its output only
      when the input has no query: otherwise it raises (the first batch
      reads [args.source_lang], which the parser never declares) or
      never returns; with [margin] and [batch_size] at least one and a
      long first query it raises [AttributeError]; and [get_args]
      accepts [--margin 0], after which [main], which passes [margin] as
      [split_into_segments]' [step], never returns.
    - Prompt table (C22-C25): on every reachable object the id table is
      empty, so [forward] always raises; [remove_prompt] raises
      [NameError], and even read with [self.] it cannot remove a stored
      task; the trimming of [init_prompt_from_text] equals cyclic
      repetition of the ids; the embedding it stores and its [forward].
    - Metric (C28-C30, C32): the invariant of the counters over every
      sequence of updates (with [predicted_true] counting the predicted
      negatives); their types (Python ints only before the first update);
      [compute] gives [-1] or [2tp/(2tp+fp+fn)], and raises
      [ZeroDivisionError] before any update; a broadcast target batch
      counts every comparison once per prediction in the batch.
    - Model steps (C33, C34): the outputs of the validation steps alias
      the metric's counters, so the epoch end sums [n] copies of the
      final totals and reports an F1 that ignores the sums; training
      never clears the counters, which hold the counts of all batches
      so far.
    - Punctuation verbalizer (C36): the transducer is functional and
      maps exactly the well-formed serialized tokens to their name.
    - Clustering bookkeeping (C37-C40): exactly when the speaker-mapping
      completion passes its assertion, and what it returns, for every
      set order; that a passing [check_embedding_and_RTTM] leaves every
      mapping keyed by its RTTM speakers; that every longer segment gets
      a most frequent base label; and that a missing session reuses the
      previous session's labels after the debugger.
    - Cluster embeddings (C9, C10, C20): the average embedding
      [get_clus_emb] stores for a session is, column by column, the mean
      of the session's embeddings of that speaker label, zero for an
      unused label; a label at or above [max_num_of_spks] raises
      [IndexError] although the assertion on the number of speakers
      passed; and [get_clus_emb] composes the label-file loop,
      [assign_labels_to_longer_segs] and these averages, session by
      session and scale by scale.
    - Model construction (C5, C12, C31): [prepare_cluster_embs], then
      [__init__], then a split's setup method build that split's loader
      from the results of the clustering run on that split; a split config
      whose manifest is missing or [None] still needs a [sample_rate] (the
      featurizer comes first), and a missing key raises [KeyError] where
      [None] gives no loader; [forward] hands the network at most 3000
      frames and the length 3000 for every element, so short batches are
      reported longer than they are.
    - Clustering run (C11, C13): the cache of [run_clustering_diarizer] is
      transparent: a second run with the same arguments takes the cached
      branch, does not call the diarizer, changes nothing and returns
      the same result; what [save_dict_as_pkl] writes, the two pickle
      loaders read back.

    ** Bounds and fuel

    Only the [while] loop of [split_into_segments] can run forever, so only
    it takes fuel: [fuel_bound] (one more than the longest query's word
    count minus [max_seq_length]) is enough for every query when
    [step >= 1], since each pass raises the start by at least one and the
    loop stops once start + length reaches the word count; C14 proves that
    every fuel above the bound gives the same result and C15 that for
    [step <= 0] no fuel is enough; [main] takes the same fuel, and C35
    shows that no fuel is enough for it with [--margin 0].  The other loops always stop (the
    [while] loops of [get_label_votes] and [adjust_predicted_labels_length]
    at the latest with an [IndexError]) and recurse on an exact measure:
    the number of indices left before that error.  The TS-VAD parts
    need no fuel: every loop runs over a finite list (batches, sessions,
    scales, segments), and the number of [update] calls per framework call
    is the interface's [calls_per_forward], which the theorems leave
    arbitrary (at least one).

    ** Not modelled

    Non-ASCII characters in the verbalizer; in tsvad_models.py the neural
    network itself (the preprocessor and the TS-VAD module behind
    [forward], the loss), [ModelPT]'s own methods, the featurizer,
    dataset and [DataLoader] classes (environment classes), logging and
    [@typecheck], the commented-out methods (lines 192-233), and the
    result cache of torchmetrics' [compute]; the clustering diarizer
    itself and [get_argmin_mat] (library code, an environment class);
    the bytes of pickle files (a pickle is the object it stores) and
    path normalisation (a path is its string);
    [argparse] itself, file I/O and model inference of the scripts (the
    environment class [MainEnv]); and
    the numerical content of tensors in StreamWrapper and PromptTable
    (random initialisation and dropout are parameters of the model).

    ** Modelling conventions

    Python [int] is [Z]; list lengths are [nat] and are compared through
    [Z.of_nat].  A Python exception is an [Err] value carrying its class;
    state changes made before the exception are kept in the returned
    object, as in Python.  PyTorch tensors keep their shape metadata, and
    their time dimension is a list of abstract frames: every operation the
    code applies to tensors (concatenation and slicing along the time axis,
    zero tensors, broadcasting addition) acts uniformly on the other
    dimensions.  In the metric, floats are exact rationals; tensor
    division gives [nan] and [inf] and Python division raises, as the two
    do.  What a library or the environment provides is a class of
    operations with a class of laws, and the theorems hold for every
    instance; the examples use concrete instances. *)

From Stdlib Require Export List ZArith Lia Bool.
From Stdlib Require Import QArith.
Export ListNotations.

Declare Scope nemo_scope.
Delimit Scope nemo_scope with nemo.
Open Scope Z_scope.

(** ** Python exceptions and results *)

Inductive exn :=
| ValueError
| TypeError
| AttributeError
| IndexError
| KeyError
| NameError
| ZeroDivisionError
| AssertionError
| RuntimeError
| OSError
| StatisticsError
| SystemExit.

Inductive res (A : Type) : Type :=
| Ok (a : A)
| Err (e : exn).
Arguments Ok {A} a.
Arguments Err {A} e.

Definition res_bind {A B : Type} (m : res A) (k : A -> res B) : res B :=
  match m with
  | Ok a => k a
  | Err e => Err e
  end.

Notation "'let?' x ':=' m 'in' k" := (res_bind m (fun x => k))
  (at level 10, x name, m at level 100, k at level 200) : nemo_scope.
Open Scope nemo_scope.

Definition is_ok {A} (r : res A) : bool :=
  match r with Ok _ => true | Err _ => false end.

(** [d[k]] on a Python dict: [KeyError] on a missing key. *)
Definition py_getitem {A} (o : option A) : res A :=
  match o with Some a => Ok a | None => Err KeyError end.

(** A [for] loop building a list, or updating an accumulator, whose body
    may raise: the first exception ends it. *)
Fixpoint res_map {A B} (f : A -> res B) (l : list A) : res (list B) :=
  match l with
  | [] => Ok []
  | x :: l' => let? y := f x in let? ys := res_map f l' in Ok (y :: ys)
  end.

Fixpoint res_fold_left {A B} (f : A -> B -> res A) (l : list B) (a : A) : res A :=
  match l with
  | [] => Ok a
  | x :: l' => let? a' := f a x in res_fold_left f l' a'
  end.

(** ** Python list indexing and slicing *)

Section PyList.
Context {A : Type}.

(** [l[i]]: a negative index counts from the end. *)
Definition py_index (l : list A) (i : Z) : res A :=
  let n := Z.of_nat (length l) in
  let j := if i <? 0 then i + n else i in
  if (j <? 0) || (n <=? j) then Err IndexError
  else match nth_error l (Z.to_nat j) with
       | Some x => Ok x
       | None => Err IndexError
       end.

(** [l[i] = x]. *)
Definition py_setitem (l : list A) (i : Z) (x : A) : res (list A) :=
  let n := Z.of_nat (length l) in
  let j := if i <? 0 then i + n else i in
  if (j <? 0) || (n <=? j) then Err IndexError
  else Ok (firstn (Z.to_nat j) l ++ x :: skipn (S (Z.to_nat j)) l).

(** A slice bound, normalised as CPython does: negative bounds count from
    the end, then the bound is clamped to [0, len]. *)
Definition py_slice_bound (n : Z) (b : Z) : Z :=
  let b' := if b <? 0 then b + n else b in
  Z.max 0 (Z.min n b').

(** [l[start:stop]]; [None] is an omitted bound. *)
Definition py_slice (l : list A) (start stop : option Z) : list A :=
  let n := Z.of_nat (length l) in
  let a := match start with Some b => py_slice_bound n b | None => 0 end in
  let b := match stop with Some b => py_slice_bound n b | None => n end in
  firstn (Z.to_nat (b - a)) (skipn (Z.to_nat a) l).
End PyList.

(** ** Automation *)

Create HintDb nemo discriminated.
Create Rewrite HintDb nemo_rw.

Ltac inv_res :=
  repeat match goal with
  | H : Ok _ = Ok _ |- _ => injection H as H; subst
  | H : Ok _ = Err _ |- _ => discriminate H
  | H : Err _ = Ok _ |- _ => discriminate H
  | H : Err _ = Err _ |- _ => injection H as H; subst
  end.

(** ** Shared lemmas *)

Lemma res_bind_ok {A B} (a : A) (k : A -> res B) : res_bind (Ok a) k = k a.
Proof. reflexivity. Qed.

Lemma res_bind_err {A B} (e : exn) (k : A -> res B) : res_bind (Err e) k = Err e.
Proof. reflexivity. Qed.

#[export] Hint Rewrite @res_bind_ok @res_bind_err : nemo_rw.

Lemma skipn_length_le {A} (n : nat) (l : list A) :
  (length l <= n)%nat -> skipn n l = [].
Proof. intros H. apply skipn_all2. exact H. Qed.

(** Slicing from [start] to [None] drops [start] elements. *)
Lemma py_slice_from {A} (l : list A) (s : Z) :
  0 <= s -> py_slice l (Some s) None = skipn (Z.to_nat s) l.
Proof.
  intros Hs. unfold py_slice, py_slice_bound.
  destruct (Z.ltb_spec s 0); [lia|].
  destruct (Z.le_gt_cases s (Z.of_nat (length l))) as [Hle|Hgt].
  - rewrite Z.min_r, Z.max_r by lia. apply firstn_all2.
    rewrite length_skipn. lia.
  - rewrite Z.min_l, Z.max_r by lia.
    rewrite !skipn_length_le by lia. now rewrite firstn_nil.
Qed.

(** The last [k] elements, [l[-k:]] for [k > 0]. *)
Lemma py_slice_last {A} (l : list A) (k : Z) :
  0 < k -> py_slice l (Some (- k)) None = skipn (length l - Z.to_nat k) l.
Proof.
  intros Hk. unfold py_slice, py_slice_bound.
  destruct (Z.ltb_spec (- k) 0); [|lia].
  rewrite Z.min_r by lia.
  replace (Z.to_nat (Z.max 0 (- k + Z.of_nat (length l))))
    with (length l - Z.to_nat k)%nat by lia.
  apply firstn_all2. rewrite length_skipn. lia.
Qed.

Lemma length_py_slice {A} (l : list A) (a b : option Z) :
  (length (py_slice l a b) <= length l)%nat.
Proof.
  unfold py_slice. rewrite length_firstn, length_skipn. lia.
Qed.

#[export] Hint Resolve length_py_slice : nemo.

(** ** Methods of a Python object: state and exceptions *)

(** A method of an object of type [S] returns the object as it is after
    the call (attribute writes made before an exception are kept) and the
    return value or the exception. *)
Definition st (S A : Type) : Type := S -> S * res A.

Definition st_ret {S A} (a : A) : st S A := fun s => (s, Ok a).
Definition st_throw {S A} (e : exn) : st S A := fun s => (s, Err e).
Definition st_lift {S A} (r : res A) : st S A := fun s => (s, r).
Definition st_get {S} : st S S := fun s => (s, Ok s).
Definition st_put {S} (s' : S) : st S unit := fun _ => (s', Ok tt).
Definition st_bind {S A B} (m : st S A) (k : A -> st S B) : st S B :=
  fun s => match m s with
           | (s', Ok a) => k a s'
           | (s', Err e) => (s', Err e)
           end.

Notation "'let!' x ':=' m 'in' k" := (st_bind m (fun x => k))
  (at level 10, x name, m at level 100, k at level 200) : nemo_scope.

Lemma st_bind_ret {S A B} (a : A) (k : A -> st S B) (s : S) :
  st_bind (st_ret a) k s = k a s.
Proof. reflexivity. Qed.

#[export] Hint Rewrite @st_bind_ret : nemo_rw.

(** The last [k] elements of a list. *)
Definition lastn {A} (k : nat) (l : list A) : list A := skipn (length l - k) l.

Lemma length_lastn {A} (k : nat) (l : list A) :
  length (lastn k l) = Nat.min k (length l).
Proof. unfold lastn. rewrite length_skipn. lia. Qed.

Lemma lastn_app_ge {A} (k : nat) (l1 l2 : list A) :
  (k <= length l2)%nat -> lastn k (l1 ++ l2) = lastn k l2.
Proof.
  intros H. unfold lastn. rewrite length_app.
  replace (length l1 + length l2 - k)%nat with (length l1 + (length l2 - k))%nat by lia.
  rewrite skipn_app, skipn_all2 by lia.
  replace (length l1 + (length l2 - k) - length l1)%nat with (length l2 - k)%nat by lia.
  reflexivity.
Qed.

#[export] Hint Rewrite @length_lastn : nemo_rw.

(** A slice with bounds inside the list. *)
Lemma py_slice_range {A} (l : list A) (a b : Z) :
  0 <= a -> a <= b -> b <= Z.of_nat (length l) ->
  py_slice l (Some a) (Some b) = firstn (Z.to_nat (b - a)) (skipn (Z.to_nat a) l).
Proof.
  intros Ha Hab Hb. unfold py_slice, py_slice_bound.
  destruct (Z.ltb_spec a 0); [lia|]. destruct (Z.ltb_spec b 0); [lia|].
  rewrite (Z.min_r _ a), (Z.min_r _ b) by lia.
  rewrite (Z.max_r 0 a), (Z.max_r 0 b) by lia.
  reflexivity.
Qed.

Lemma py_slice_nil {A} (a b : option Z) : py_slice (@nil A) a b = [].
Proof. unfold py_slice. simpl. now rewrite skipn_nil, firstn_nil. Qed.

(** Case analysis on every [match] and [if] in the goal and the
    hypotheses, innermost first. *)
Ltac case_matches :=
  repeat match goal with
  | |- context [match ?x with _ => _ end] =>
      lazymatch x with context [match _ with _ => _ end] => fail | _ => destruct x eqn:? end
  | H : context [match ?x with _ => _ end] |- _ =>
      lazymatch x with context [match _ with _ => _ end] => fail | _ => destruct x eqn:? end
  end.

Lemma forallb_firstn {A} (f : A -> bool) (n : nat) (l : list A) :
  forallb f l = true -> forallb f (firstn n l) = true.
Proof.
  revert l. induction n as [|n IH]; intros [|x l] H; simpl in *; auto.
  apply andb_true_iff in H as [Hx Hl]. now rewrite Hx, IH.
Qed.

Lemma forallb_skipn {A} (f : A -> bool) (n : nat) (l : list A) :
  forallb f l = true -> forallb f (skipn n l) = true.
Proof.
  revert l. induction n as [|n IH]; intros [|x l] H; simpl in *; auto.
  apply andb_true_iff in H as [_ Hl]. auto.
Qed.

Lemma nth_error_snoc {A} (l : list A) (x : A) (i : nat) :
  nth_error (l ++ [x]) i = if Nat.ltb i (length l) then nth_error l i
                          else if Nat.eqb i (length l) then Some x else None.
Proof.
  destruct (Nat.ltb_spec i (length l)).
  - now apply nth_error_app1.
  - rewrite nth_error_app2 by lia.
    destruct (Nat.eqb_spec i (length l)) as [->|Hne].
    + now rewrite Nat.sub_diag.
    + destruct (i - length l)%nat eqn:E; [lia|]. simpl. now destruct n.
Qed.

(** A non-negative index reads [nth_error]. *)
Lemma py_index_nonneg {A} (l : list A) (i : Z) :
  0 <= i -> py_index l i = match nth_error l (Z.to_nat i) with
                           | Some x => Ok x | None => Err IndexError end.
Proof.
  intros Hi. unfold py_index.
  destruct (Z.ltb_spec i 0); [lia|].
  destruct (Z.ltb_spec i 0); [lia|]. simpl.
  destruct (Z.leb_spec (Z.of_nat (length l)) i).
  - rewrite (proj2 (nth_error_None l (Z.to_nat i))) by lia. reflexivity.
  - reflexivity.
Qed.

Lemma res_map_Ok {A B} (f : A -> res B) (l : list A) (ys : list B) :
  res_map f l = Ok ys <-> Forall2 (fun x y => f x = Ok y) l ys.
Proof.
  revert ys. induction l as [|x l IH]; intros ys; cbn [res_map].
  - split; [intros [= <-]; constructor|intros H; inversion H; reflexivity].
  - destruct (f x) as [y|e] eqn:E; cbn [res_bind].
    + destruct (res_map f l) as [ys'|e] eqn:E'; cbn [res_bind].
      * split; [intros [= <-]; constructor; [exact E|apply IH; reflexivity]|].
        intros H. inversion H as [|? y' ? ys'' Hy Hys]; subst.
        rewrite E in Hy. injection Hy as <-. apply IH in Hys. congruence.
      * split; [discriminate|]. intros H. inversion H as [|? y' ? ys'' Hy Hys]; subst.
        apply IH in Hys. congruence.
    + split; [discriminate|]. intros H. inversion H; congruence.
Qed.

Lemma res_map_Err {A B} (f : A -> res B) (l1 : list A) (x : A) (l2 : list A) (e : exn) :
  Forall (fun x => is_ok (f x) = true) l1 -> f x = Err e -> res_map f (l1 ++ x :: l2) = Err e.
Proof.
  intros H1 Hx. induction H1 as [|x' l1 Hx' _ IH]; cbn [app res_map].
  - rewrite Hx. reflexivity.
  - destruct (f x') as [y|e'] eqn:E; [|discriminate]. cbn [res_bind]. rewrite IH. reflexivity.
Qed.

(** An invariant of every step of a [res_fold_left] holds at its end. *)
Lemma res_fold_left_invariant {A B} (f : A -> B -> res A) (I : A -> Prop) (l : list B) (a a' : A) :
  (forall x b b', In x l -> f b x = Ok b' -> I b -> I b') -> I a -> res_fold_left f l a = Ok a' -> I a'.
Proof.
  revert a. induction l as [|x l IH]; intros a Hstep Ha; cbn [res_fold_left].
  - now intros [= <-].
  - destruct (f a x) as [a1|e] eqn:E; cbn [res_bind]; [|discriminate].
    apply IH; [intros y b b' Hy; apply Hstep; now right|].
    exact (Hstep x a a1 (or_introl eq_refl) E Ha).
Qed.

(** A loop each of whose steps returns while an invariant holds returns. *)
Lemma res_fold_left_ok {A B} (f : A -> B -> res A) (I : A -> Prop) (l : list B) (a : A) :
  (forall x b, In x l -> I b -> exists b', f b x = Ok b' /\ I b') -> I a ->
  exists a', res_fold_left f l a = Ok a' /\ I a'.
Proof.
  revert a. induction l as [|x l IH]; intros a Hstep Ha; cbn [res_fold_left]; [eauto|].
  destruct (Hstep x a (or_introl eq_refl) Ha) as (a1 & E & Ha1). rewrite E. cbn [res_bind].
  apply IH; [intros y b Hy; apply Hstep; now right|exact Ha1].
Qed.

(** A loop whose steps have distinct keys, each step establishing its
    property and keeping those of steps of other keys: at the end every
    step's property holds. *)
Lemma res_fold_left_keyed {A B K} (f : A -> B -> res A) (key : B -> K) (P : B -> A -> Prop)
    (l : list B) (a a' : A) :
  (forall x b b', In x l -> f b x = Ok b' -> P x b') ->
  (forall x y b b', In x l -> In y l -> f b x = Ok b' -> key x <> key y -> P y b -> P y b') ->
  NoDup (map key l) -> res_fold_left f l a = Ok a' -> forall x, In x l -> P x a'.
Proof.
  intros Hest Hkeep. revert a. induction l as [|x l IH]; intros a Hnd; cbn [res_fold_left map] in *;
    [intros _ _ []|].
  apply NoDup_cons_iff in Hnd as [Hx Hnd].
  destruct (f a x) as [a1|e] eqn:E; cbn [res_bind]; [|discriminate]. intros Hf y [Hxy|Hy].
  - subst y. apply (res_fold_left_invariant f (P x) l a1 a');
      [|exact (Hest x a a1 (or_introl eq_refl) E)|exact Hf].
    intros z b b' Hz Ez. apply (Hkeep z x b b' (or_intror Hz) (or_introl eq_refl) Ez).
    intros Hk. apply Hx. rewrite <- Hk. now apply in_map.
  - refine (IH _ _ a1 Hnd Hf y Hy).
    + intros z b b' Hz. exact (Hest z b b' (or_intror Hz)).
    + intros z w b b' Hz Hw. exact (Hkeep z w b b' (or_intror Hz) (or_intror Hw)).
Qed.

(** Every step of a loop that returned returned, from a state of any
    invariant of the loop. *)
Lemma res_fold_left_step_ok {A B} (f : A -> B -> res A) (I : A -> Prop) (l : list B) (a a' : A) :
  (forall x b b', In x l -> f b x = Ok b' -> I b -> I b') -> I a -> res_fold_left f l a = Ok a' ->
  forall x, In x l -> exists b b', I b /\ f b x = Ok b'.
Proof.
  intros Hstep. revert a. induction l as [|y l IH]; intros a Ha Hf x Hx; [destruct Hx|].
  cbn [res_fold_left] in Hf. destruct (f a y) as [a1|e] eqn:E; cbn [res_bind] in Hf; [|discriminate].
  destruct Hx as [<-|Hx]; [eauto|].
  apply (IH (fun z b b' Hz => Hstep z b b' (or_intror Hz)) a1); [|exact Hf|exact Hx].
  exact (Hstep y a a1 (or_introl eq_refl) E Ha).
Qed.

(** Loops with pointwise equal steps are equal. *)
Lemma res_fold_left_ext {A B} (f g : A -> B -> res A) (l : list B) (a : A) :
  (forall b x, f b x = g b x) -> res_fold_left f l a = res_fold_left g l a.
Proof.
  intros Hfg. revert a. induction l as [|x l IH]; intros a; cbn [res_fold_left]; [reflexivity|].
  rewrite Hfg. destruct (g a x); cbn [res_bind]; [apply IH|reflexivity].
Qed.

(** A loop whose steps either return, keeping an invariant, or raise [e],
    and one of whose steps raises [e] from every state of the invariant,
    raises [e]. *)
Lemma res_fold_left_err {A B} (f : A -> B -> res A) (I : A -> Prop) (l : list B) (a : A) (x0 : B) (e : exn) :
  (forall x b, In x l -> I b -> (exists b', f b x = Ok b' /\ I b') \/ f b x = Err e) ->
  (forall b, I b -> f b x0 = Err e) -> In x0 l -> I a -> res_fold_left f l a = Err e.
Proof.
  intros Hstep Hx0. revert a. induction l as [|x l IH]; intros a Hin Ha; [destruct Hin|].
  cbn [res_fold_left]. destruct Hin as [<-|Hin].
  - now rewrite (Hx0 a Ha).
  - destruct (Hstep x a (or_introl eq_refl) Ha) as [(b' & -> & Hb')| ->]; cbn [res_bind]; [|reflexivity].
    apply IH; [intros y b Hy; apply Hstep; now right|exact Hin|exact Hb'].
Qed.

Lemma res_bind_Ok_inv {A B} (m : res A) (k : A -> res B) (b : B) :
  res_bind m k = Ok b -> exists a, m = Ok a /\ k a = Ok b.
Proof. destruct m as [a|e]; simpl; [eauto|discriminate]. Qed.

(** A bind never returns when its continuation never does. *)
Lemma is_ok_bind {A B} (m : res A) (k : A -> res B) :
  (forall a, m = Ok a -> is_ok (k a) = false) -> is_ok (res_bind m k) = false.
Proof. destruct m as [a|e]; simpl; auto. Qed.

(** Binds on the primitive methods of [st]. *)
Lemma st_bind_lift {S A B} (r : res A) (k : A -> st S B) (s : S) :
  st_bind (st_lift r) k s = match r with Ok a => k a s | Err e => (s, Err e) end.
Proof. now destruct r. Qed.

Lemma st_bind_get {S B} (k : S -> st S B) (s : S) : st_bind st_get k s = k s s.
Proof. reflexivity. Qed.

Lemma st_bind_put {S B} (s' : S) (k : unit -> st S B) (s : S) :
  st_bind (st_put s') k s = k tt s'.
Proof. reflexivity. Qed.

#[export] Hint Rewrite @st_bind_lift @st_bind_get @st_bind_put : nemo_rw.

(** A step that returns lets the continuation run from its new state. *)
Lemma st_bind_ok {S A B} (m : st S A) (k : A -> st S B) (s s' : S) (a : A) :
  m s = (s', Ok a) -> st_bind m k s = k a s'.
Proof. intros H. unfold st_bind. now rewrite H. Qed.

(** A bind that returns: its first method returned. *)
Lemma st_bind_Ok_inv {S A B} (m : st S A) (k : A -> st S B) (s s' : S) (b : B) :
  st_bind m k s = (s', Ok b) -> exists s1 a, m s = (s1, Ok a) /\ k a s1 = (s', Ok b).
Proof. unfold st_bind. destruct (m s) as [s1 [a|e]]; [eauto|discriminate]. Qed.

(** Runs a method of [st]: rewrites its binds on [st_lift], [st_get] and
    [st_put] and splits on each lifted result, until no result is left. *)
Ltac st_run :=
  repeat first
    [ rewrite st_bind_lift | rewrite st_bind_get | rewrite st_bind_put
    | match goal with
      | |- context [match ?r with Ok _ => _ | Err _ => _ end] => destruct r eqn:?
      end ].

(** ** Hoare triples on [st]

    [st_spec P m Q]: run from a state satisfying [P], the method [m]
    ends in a state and a result related to the initial state by [Q]
    (as in the Hoare state monad).  [st_inv I m] is the special case of
    an invariant [I] that [m] keeps, whether it returns or raises. *)
Definition st_spec {S A} (P : S -> Prop) (m : st S A) (Q : S -> res A -> S -> Prop) : Prop :=
  forall s, P s -> Q s (snd (m s)) (fst (m s)).

Definition st_inv {S A} (I : S -> Prop) (m : st S A) : Prop := st_spec I m (fun _ _ s' => I s').

Lemma st_spec_weaken {S A} (P P' : S -> Prop) (m : st S A) (Q Q' : S -> res A -> S -> Prop) :
  (forall s, P' s -> P s) -> (forall s r s', Q s r s' -> Q' s r s') ->
  st_spec P m Q -> st_spec P' m Q'.
Proof. unfold st_spec. auto. Qed.

(** The sequencing rule: [k a] runs from a state that [m] left and in
    which it returned [a]. *)
Lemma st_spec_bind {S A B} (P : S -> Prop) (m : st S A) (Q1 : S -> res A -> S -> Prop)
    (k : A -> st S B) (Q : S -> res B -> S -> Prop) :
  st_spec P m Q1 ->
  (forall s0 e s1, P s0 -> Q1 s0 (Err e) s1 -> Q s0 (Err e) s1) ->
  (forall s0 a, st_spec (fun s1 => P s0 /\ Q1 s0 (Ok a) s1) (k a) (fun _ r s2 => Q s0 r s2)) ->
  st_spec P (st_bind m k) Q.
Proof.
  unfold st_spec, st_bind. intros Hm He Hk s Hs. specialize (Hm s Hs).
  destruct (m s) as [s1 [a|e]]; cbn in *; [apply (Hk s a s1); auto | auto].
Qed.

Lemma st_inv_ret {S A} (I : S -> Prop) (a : A) : st_inv I (st_ret a).
Proof. intros s Hs. exact Hs. Qed.

Lemma st_inv_lift {S A} (I : S -> Prop) (r : res A) : st_inv I (st_lift r).
Proof. intros s Hs. exact Hs. Qed.

Lemma st_inv_put {S} (I : S -> Prop) (s' : S) : I s' -> st_inv I (st_put s').
Proof. intros H s _. exact H. Qed.

Lemma st_inv_bind {S A B} (I : S -> Prop) (m : st S A) (k : A -> st S B) :
  st_inv I m -> (forall a, st_inv I (k a)) -> st_inv I (st_bind m k).
Proof.
  unfold st_inv. intros Hm Hk. apply (st_spec_bind I m (fun _ _ s' => I s')); [exact Hm | auto |].
  intros s0 a s1 [_ H1]. exact (Hk a s1 H1).
Qed.

(** After [st_get] the continuation may assume the invariant of the
    state it reads. *)
Lemma st_inv_bind_get {S B} (I : S -> Prop) (k : S -> st S B) :
  (forall s, I s -> st_inv I (k s)) -> st_inv I (st_bind st_get k).
Proof. intros Hk s Hs. exact (Hk s Hs s Hs). Qed.

#[export] Hint Resolve st_inv_ret st_inv_lift st_inv_bind_get st_inv_bind : nemo.

(** Proves an invariant of a method of [st] by its binds, splitting on
    the pairs and results the method matches on. *)
Ltac st_inv_solve :=
  repeat match goal with
    | |- st_inv _ (st_bind st_get _) => apply st_inv_bind_get; intros ? ?
    | |- st_inv _ (st_bind _ _) => apply st_inv_bind; [|intros ?]
    | |- st_inv _ (st_ret _) => apply st_inv_ret
    | |- st_inv _ (st_lift _) => apply st_inv_lift
    | |- st_inv _ (st_put _) => apply st_inv_put
    | |- st_inv _ (match ?x with _ => _ end) => destruct x
    end.

(** [l[:b]] for [b >= 0]. *)
Lemma py_slice_prefix {A} (l : list A) (b : Z) :
  0 <= b -> py_slice l None (Some b) = firstn (Z.to_nat b) l.
Proof.
  intros Hb. unfold py_slice, py_slice_bound. destruct (Z.ltb_spec b 0); [lia|].
  rewrite Z.sub_0_r. simpl skipn.
  destruct (Z.le_ge_cases b (Z.of_nat (length l))).
  - now rewrite Z.min_r, Z.max_r by lia.
  - rewrite Z.min_l, Z.max_r by lia. rewrite Nat2Z.id, firstn_all.
    symmetry. apply firstn_all2. lia.
Qed.

(** A prefix read element by element. *)
Lemma firstn_as_map {A} (l : list A) (d : A) (k : nat) :
  (k <= length l)%nat -> firstn k l = map (fun j => nth j l d) (seq 0 k).
Proof.
  intros Hk. apply nth_ext with (d := d) (d' := d).
  - rewrite length_firstn, length_map, length_seq. lia.
  - intros j Hj. rewrite length_firstn in Hj.
    rewrite nth_firstn. destruct (Nat.ltb_spec j k); [|lia].
    rewrite (nth_indep (map (fun j => nth j l d) (seq 0 k)) d (nth 0 l d))
      by (rewrite length_map, length_seq; lia).
    rewrite (map_nth (fun j => nth j l d) (seq 0 k) 0%nat), seq_nth by lia. reflexivity.
Qed.

Lemma length_concat_repeat {A} (l : list A) (r : nat) :
  length (concat (repeat l r)) = (r * length l)%nat.
Proof. induction r as [|r IH]; simpl; [reflexivity|]. rewrite length_app, IH. lia. Qed.

(** Element [j] of [l] repeated [r] times is element [j mod len l] of [l]. *)
Lemma nth_concat_repeat {A} (l : list A) (d : A) (r j : nat) :
  (0 < length l)%nat -> (j < r * length l)%nat ->
  nth j (concat (repeat l r)) d = nth (j mod length l) l d.
Proof.
  intros Hn. revert j. induction r as [|r IH]; intros j Hj; simpl in *; [lia|].
  destruct (Nat.ltb_spec j (length l)).
  - rewrite app_nth1, Nat.mod_small by lia. reflexivity.
  - rewrite app_nth2, IH by lia.
    replace j with ((j - length l) + 1 * length l)%nat at 2 by lia.
    now rewrite Nat.Div0.mod_add.
Qed.

(** ** Rationals: the boolean comparisons of [Q] on integers *)

Lemma Qle_bool_false (a b : Q) : Qle_bool a b = false -> (b < a)%Q.
Proof. intros H. apply Qnot_le_lt. intros Hle. apply Qle_bool_iff in Hle. congruence. Qed.

Lemma Qle_bool_inject_Z (a b : Z) : Qle_bool (inject_Z a) (inject_Z b) = (a <=? b).
Proof.
  destruct (Z.leb_spec a b).
  - apply Qle_bool_iff. now rewrite <- Zle_Qle.
  - apply not_true_iff_false. rewrite Qle_bool_iff, <- Zle_Qle. lia.
Qed.

Lemma Qeq_bool_inject_Z (a b : Z) : Qeq_bool (inject_Z a) (inject_Z b) = (a =? b).
Proof.
  destruct (Z.eqb_spec a b) as [->|Hne].
  - now apply Qeq_bool_iff.
  - apply not_true_iff_false. now rewrite Qeq_bool_iff, inject_Z_injective.
Qed.
