(* ===== verification/PyStr.v ===== *)
(** * PyStr: the Python string operations the scripts use

    Python [str] values are Stdlib [string]s of ASCII characters.  This file
    defines [str.split()] ([py_split]), [' '.join] ([py_join]),
    [str.split(sep)] ([py_split_sep]), the [in] test between strings
    ([py_contains]), [str.capitalize], [str.upper] and [str.strip] ([py_strip]), and the count of
    [re.findall] for a character class ([count_class]); and proves the
    round trip between [py_join] and [py_split] on words. *)

From Stdlib Require Import String Ascii.
From S2P Require Import Prelude.

Open Scope string_scope.

Module PyStr.

(** [str.isspace] on an ASCII character: tab, line feed, vertical tab,
    form feed, carriage return, the separators 28-31 and space. *)
Definition is_space (c : ascii) : bool :=
  let n := nat_of_ascii c in
  ((9 <=? n) && (n <=? 13))%nat || ((28 <=? n) && (n <=? 32))%nat.

(** [cur] is the word being read. *)
Fixpoint split_ws (s : string) (cur : string) : list string :=
  match s with
  | EmptyString => if String.eqb cur "" then [] else [cur]
  | String c s' =>
    if is_space c
    then (if String.eqb cur "" then [] else [cur]) ++ split_ws s' ""
    else split_ws s' (cur ++ String c "")
  end.

(** [s.split()]: the maximal runs of non-space characters. *)
Definition py_split (s : string) : list string := split_ws s "".

(** [sep.join(ws)]. *)
Fixpoint py_join (sep : string) (ws : list string) : string :=
  match ws with
  | [] => ""
  | [w] => w
  | w :: ws' => w ++ sep ++ py_join sep ws'
  end.

(** [String.prefix p s]: [s] starts with [p]. *)
Definition starts_with (p s : string) : bool := String.prefix p s.

(** [s.split(sep)] for a non-empty [sep]: [skip] counts the characters of
    a separator just matched that are still to be dropped. *)
Fixpoint split_sep (sep : string) (skip : nat) (s : string) (cur : string) : list string :=
  match s with
  | EmptyString => [cur]
  | String c s' =>
    match skip with
    | S k => split_sep sep k s' cur
    | O =>
      if starts_with sep s then cur :: split_sep sep (String.length sep - 1) s' ""
      else split_sep sep 0 s' (cur ++ String c "")
    end
  end.

(** [s.split(sep)]: an empty separator raises [ValueError]. *)
Definition py_split_sep (s sep : string) : res (list string) :=
  if String.eqb sep "" then Err ValueError else Ok (split_sep sep 0 s "").

(** [needle in hay] for strings: the empty string is in every string. *)
Fixpoint py_contains (hay needle : string) : bool :=
  starts_with needle hay ||
  match hay with
  | EmptyString => false
  | String _ h' => py_contains h' needle
  end.

(** [c in s] for a character. *)
Fixpoint char_in (c : ascii) (s : string) : bool :=
  match s with
  | EmptyString => false
  | String d s' => Ascii.eqb c d || char_in c s'
  end.

(** [len(re.compile(f"[{labels}]").findall(s))] when [labels] holds no
    character that is special inside a class ([]], [\\], a leading [^],
    or [-] between two characters). *)
Fixpoint count_class (labels s : string) : nat :=
  match s with
  | EmptyString => 0
  | String c s' => (if char_in c labels then 1 else 0) + count_class labels s'
  end.

Definition ascii_upper (c : ascii) : ascii :=
  let n := nat_of_ascii c in
  if ((97 <=? n) && (n <=? 122))%nat then ascii_of_nat (n - 32) else c.

Definition ascii_lower (c : ascii) : ascii :=
  let n := nat_of_ascii c in
  if ((65 <=? n) && (n <=? 90))%nat then ascii_of_nat (n + 32) else c.

Fixpoint str_map (f : ascii -> ascii) (s : string) : string :=
  match s with
  | EmptyString => EmptyString
  | String c s' => String (f c) (str_map f s')
  end.

(** [s.upper()]. *)
Definition py_upper (s : string) : string := str_map ascii_upper s.

(** [s.capitalize()]: the first character upper-cased, the rest lower-cased. *)
Definition py_capitalize (s : string) : string :=
  match s with
  | EmptyString => EmptyString
  | String c s' => String (ascii_upper c) (str_map ascii_lower s')
  end.

(** A word as [str.split()] returns it: non-empty, without spaces. *)
Fixpoint no_space (s : string) : bool :=
  match s with
  | EmptyString => true
  | String c s' => negb (is_space c) && no_space s'
  end.

Definition is_word (w : string) : bool := negb (String.eqb w "") && no_space w.

(** [str.lstrip()]. *)
Fixpoint py_lstrip (s : string) : string :=
  match s with
  | EmptyString => EmptyString
  | String c s' => if is_space c then py_lstrip s' else s
  end.

Definition str_rev (s : string) : string := string_of_list_ascii (rev (list_ascii_of_string s)).

(** [str.strip()]: the leading and the trailing white space removed. *)
Definition py_strip (s : string) : string := str_rev (py_lstrip (str_rev (py_lstrip s))).

(** ** Lemmas *)

Lemma str_app_nil_r (s : string) : s ++ "" = s.
Proof. induction s as [|c s IH]; simpl; congruence. Qed.

Lemma str_app_assoc (a b c : string) : a ++ (b ++ c) = (a ++ b) ++ c.
Proof. induction a as [|x a IH]; simpl; congruence. Qed.

Lemma split_ws_word (w s cur : string) :
  no_space w = true -> split_ws (w ++ s) cur = split_ws s (cur ++ w).
Proof.
  revert cur. induction w as [|c w IH]; intros cur Hw; simpl.
  - now rewrite str_app_nil_r.
  - simpl in Hw. apply andb_true_iff in Hw as [Hc Hw].
    apply negb_true_iff in Hc. rewrite Hc, IH by exact Hw.
    now rewrite <- str_app_assoc.
Qed.

Lemma no_space_app (a b : string) : no_space (a ++ b) = no_space a && no_space b.
Proof. induction a as [|c a IH]; simpl; [reflexivity|]. now rewrite IH, andb_assoc. Qed.

Lemma split_ws_words (s cur : string) :
  no_space cur = true -> forallb is_word (split_ws s cur) = true.
Proof.
  revert cur. induction s as [|c s IH]; intros cur Hc; simpl.
  - destruct (String.eqb_spec cur ""); simpl; [reflexivity|].
    unfold is_word. rewrite Hc. now destruct (String.eqb_spec cur "").
  - destruct (is_space c) eqn:Hs.
    + rewrite forallb_app, IH by reflexivity.
      destruct (String.eqb_spec cur ""); simpl; [reflexivity|].
      unfold is_word. rewrite Hc. now destruct (String.eqb_spec cur "").
    + apply IH. rewrite no_space_app, Hc. simpl. now rewrite Hs.
Qed.

Lemma py_split_words (s : string) : forallb is_word (py_split s) = true.
Proof. apply split_ws_words. reflexivity. Qed.

Lemma split_ws_space_then (s cur : string) :
  String.eqb cur "" = false ->
  split_ws (" " ++ s) cur = cur :: split_ws s "".
Proof. intros H. simpl. now rewrite H. Qed.

Lemma py_lstrip_all_space (s : string) :
  forallb is_space (list_ascii_of_string (py_lstrip s)) = true ->
  forallb is_space (list_ascii_of_string s) = true.
Proof.
  induction s as [|c s IH]; simpl; [reflexivity|].
  destruct (is_space c) eqn:Hc; simpl; [exact IH|]. now rewrite Hc.
Qed.

Lemma str_rev_all_space (s : string) :
  forallb is_space (list_ascii_of_string (str_rev s)) = forallb is_space (list_ascii_of_string s).
Proof.
  unfold str_rev. rewrite list_ascii_of_string_of_list_ascii.
  induction (list_ascii_of_string s) as [|c l IH]; simpl; [reflexivity|].
  rewrite forallb_app, IH. simpl. now rewrite andb_true_r, andb_comm.
Qed.

Lemma str_rev_empty (s : string) : str_rev s = "" -> s = "".
Proof.
  unfold str_rev. intros H. apply (f_equal list_ascii_of_string) in H.
  rewrite list_ascii_of_string_of_list_ascii in H. apply (f_equal (@rev ascii)) in H.
  rewrite rev_involutive in H. simpl in H.
  rewrite <- (string_of_list_ascii_of_string s), H. reflexivity.
Qed.

Lemma split_ws_all_space (s : string) :
  forallb is_space (list_ascii_of_string s) = true -> split_ws s "" = [].
Proof.
  induction s as [|c s IH]; simpl; [reflexivity|].
  intros H. apply andb_true_iff in H as [Hc H]. rewrite Hc. simpl. exact (IH H).
Qed.

(** A line that [strip()] empties has no word. *)
Lemma py_strip_empty_split (s : string) : py_strip s = "" -> py_split s = [].
Proof.
  unfold py_strip. intros H. apply str_rev_empty in H.
  apply split_ws_all_space, py_lstrip_all_space.
  rewrite <- str_rev_all_space. apply py_lstrip_all_space. now rewrite H.
Qed.

(** Joining words with single spaces and splitting the
    result on whitespace gives the words back, when every word is what
    [str.split()] returns (non-empty, no whitespace). *)
Theorem py_split_join (ws : list string) :
  forallb is_word ws = true -> py_split (py_join " " ws) = ws.
Proof.
  unfold py_split. induction ws as [|w ws IH]; intros Hws; [reflexivity|].
  simpl in Hws. apply andb_true_iff in Hws as [Hw Hws].
  unfold is_word in Hw. apply andb_true_iff in Hw as [Hne Hw].
  apply negb_true_iff in Hne.
  destruct ws as [|w' ws'].
  - simpl. rewrite <- (str_app_nil_r w) at 1. rewrite split_ws_word by exact Hw.
    simpl. now rewrite Hne.
  - change (py_join " " (w :: w' :: ws')) with (w ++ " " ++ py_join " " (w' :: ws')).
    rewrite split_ws_word by exact Hw.
    change (split_ws (" " ++ py_join " " (w' :: ws')) ("" ++ w))
      with ((if String.eqb w "" then [] else [w]) ++ split_ws (py_join " " (w' :: ws')) "")%list.
    rewrite Hne, IH by exact Hws. reflexivity.
Qed.


End PyStr.
