(* ===== verification/StreamWrapper.v ===== *)
(** * StreamWrapper: streaming inference with a ring buffer

    Models [src/nemo/collections/asr/parts/submodules/stream_wrapper.py].
    The attributes of a [StreamWrapper] object are the record [wrapper];
    every method is a definition of the same name that takes the object and
    returns the object after the call with a result or a Python exception.
    Tensors are [tensor] records: batch size, the time axis as a list of
    frames of an abstract type [F], and the trailing feature dimensions.

    The ring-buffer update of the samplewise mode is also stated on frames
    alone ([ring_step]) with the non-streaming convolution it replaces
    ([conv_valid] on the causally padded signal), and the theorems relate
    the two. *)

From Stdlib Require Import String.
From S2P Require Import Prelude.

Module StreamWrapper.

(** ** Data *)

Inductive StreamInferenceMode :=
| TRAINING
| STREAM_INTERNAL_STATE_INFERENCE
| STREAM_EXTERNAL_STATE_INFERENCE
| NON_STREAM_INFERENCE.

(** [self.mode in (TRAINING, NON_STREAM_INFERENCE)] *)
Definition is_non_streaming (m : StreamInferenceMode) : bool :=
  match m with
  | TRAINING | NON_STREAM_INFERENCE => true
  | _ => false
  end.

(** A layer attribute that PyTorch stores as an int or a tuple of ints
    ([nn.Conv*] and [nn.AvgPool1d] always store tuples; [nn.AvgPool2d]
    keeps what it was given). *)
Inductive intlike :=
| IInt (z : Z)
| ITuple (l : list Z).

(** [padding] may also be a string (['valid'], ['same']). *)
Inductive padval :=
| PadInt (z : Z)
| PadTuple (l : list Z)
| PadStr (s : string).

(** [v[0]]: an int is not subscriptable. *)
Definition getitem0 (v : intlike) : res Z :=
  match v with
  | ITuple l => py_index l 0
  | IInt _ => Err TypeError
  end.

(** [padding != 0]: a tuple or a string is never equal to an int. *)
Definition pad_ne_zero (p : padval) : bool :=
  match p with
  | PadInt z => negb (z =? 0)
  | _ => true
  end.

(** The wrapped layer, with the attributes the wrapper reads. *)
Inductive module :=
| Conv1d (padding : padval) (stride dilation kernel_size : intlike)
| Conv2d (padding : padval) (stride dilation kernel_size : intlike)
| AvgPool1d (stride kernel_size : intlike)
| AvgPool2d (stride kernel_size : intlike)
| Flatten
| AdaptiveMaxPool1d
| AdaptiveAvgPool1d
| OtherModule.

Definition _is_conv_op (m : module) : bool :=
  match m with Conv1d _ _ _ _ | Conv2d _ _ _ _ => true | _ => false end.

Definition _is_pool_op (m : module) : bool :=
  match m with AvgPool1d _ _ | AvgPool2d _ _ => true | _ => false end.

Definition _is_global_time_dim_op (m : module) : bool :=
  match m with Flatten | AdaptiveMaxPool1d | AdaptiveAvgPool1d => true | _ => false end.

(** A Python list or a [torch.Size] (a tuple subclass) of ints. *)
Inductive pyseq :=
| PyList (l : list Z)
| PySize (l : list Z).

Definition pyseq_elems (s : pyseq) : list Z :=
  match s with PyList l | PySize l => l end.

(** [a + b]: a list only concatenates with a list, a tuple with a tuple. *)
Definition py_add (a b : pyseq) : res pyseq :=
  match a, b with
  | PyList x, PyList y => Ok (PyList (x ++ y))
  | PySize x, PySize y => Ok (PySize (x ++ y))
  | _, _ => Err TypeError
  end.

(** Truth value of an optional sequence ([None] or empty is false). *)
Definition seq_truthy (s : option pyseq) : bool :=
  match s with Some q => negb (Nat.eqb (length (pyseq_elems q)) 0) | None => false end.

(** Truth value of the optional ring-buffer size ([None] and [0] are false). *)
Definition int_truthy (z : option Z) : bool :=
  match z with Some v => negb (v =? 0) | None => false end.

Section Wrapper.

Context {F : Type} (F0 : F).
(** [F] is one time step of a tensor (all batch and feature entries);
    [F0] is that step filled with zeros. *)
Context {R O : Type}.
(** [R] stands for [inputs[1:]], passed through unchanged; [O] is the
    wrapped layer's output. *)

Record tensor := mkTensor {
  t_batch : Z;
  t_frames : list F;
  t_feat : list Z
}.

Definition t_shape (x : tensor) : list Z :=
  t_batch x :: Z.of_nat (length (t_frames x)) :: t_feat x.

(** [torch.zeros( *shape)]; a shape of rank below two has no time axis. *)
Definition torch_zeros (shape : list Z) : tensor :=
  match shape with
  | b :: t :: feat => mkTensor b (repeat F0 (Z.to_nat t)) feat
  | [b] => mkTensor b [] []
  | [] => mkTensor 1 [] []
  end.

Definition list_Z_eqb (a b : list Z) : bool :=
  if list_eq_dec Z.eq_dec a b then true else false.

(** [torch.cat([a, b], dim=1)]: the other dimensions must agree. *)
Definition cat1 (a b : tensor) : res tensor :=
  if (t_batch a =? t_batch b) && list_Z_eqb (t_feat a) (t_feat b)
  then Ok (mkTensor (t_batch a) (t_frames a ++ t_frames b) (t_feat a))
  else Err RuntimeError.

(** [x[:, start:stop, :]]: three indices need a tensor of rank three. *)
Definition slice_time (x : tensor) (start stop : option Z) : res tensor :=
  match t_feat x with
  | [] => Err IndexError
  | _ => Ok (mkTensor (t_batch x) (py_slice (t_frames x) start stop) (t_feat x))
  end.

(** [a * 0 + b]: broadcasting along the time axis (a length of one
    stretches).  A frame is abstract over the batch and feature
    dimensions, so broadcasting along those cannot be written: the model
    asks them to agree and raises [RuntimeError] otherwise, where PyTorch
    would also stretch a dimension of size one. *)
Definition zero_mul_add (a b : tensor) : res tensor :=
  let la := length (t_frames a) in
  let lb := length (t_frames b) in
  if negb ((t_batch a =? t_batch b) && list_Z_eqb (t_feat a) (t_feat b))
  then Err RuntimeError
  else if Nat.eqb la lb || Nat.eqb la 1 then Ok b
  else if Nat.eqb lb 1 then
    Ok (mkTensor (t_batch b) (concat (repeat (t_frames b) la)) (t_feat b))
  else Err RuntimeError.

(** An attribute registered as an [nn.Parameter], or a plain tensor. *)
Inductive param :=
| Param (t : tensor)
| Plain (t : tensor).

Definition param_tensor (p : param) : tensor :=
  match p with Param t | Plain t => t end.

(** The attributes of a [StreamWrapper] object.  An attribute that the
    object may not have is an [option] ([None]: reading it raises
    [AttributeError]); a Python [None] value inside it is a nested
    [option]. *)
Record wrapper := mkWrapper {
  inner_module : module;
  inference_batch_size : Z;
  mode : StreamInferenceMode;
  pad_time_dim : option string;
  state_shape : option pyseq;
  ring_buffer_size_in_time_dim : option Z;
  samplewise_inference : bool;
  stride : Z;
  built : bool;
  states : option param;
  input_state : option (option tensor);
  output_state : option (option tensor);
  cell : option (tensor -> R -> O);
  use_one_step : option bool
}.

Definition set_stride (w : wrapper) (s : Z) : wrapper :=
  {| inner_module := inner_module w; inference_batch_size := inference_batch_size w;
     mode := mode w; pad_time_dim := pad_time_dim w; state_shape := state_shape w;
     ring_buffer_size_in_time_dim := ring_buffer_size_in_time_dim w;
     samplewise_inference := samplewise_inference w; stride := s; built := built w;
     states := states w; input_state := input_state w; output_state := output_state w;
     cell := cell w; use_one_step := use_one_step w |}.

Definition set_rbs (w : wrapper) (r : option Z) : wrapper :=
  {| inner_module := inner_module w; inference_batch_size := inference_batch_size w;
     mode := mode w; pad_time_dim := pad_time_dim w; state_shape := state_shape w;
     ring_buffer_size_in_time_dim := r;
     samplewise_inference := samplewise_inference w; stride := stride w; built := built w;
     states := states w; input_state := input_state w; output_state := output_state w;
     cell := cell w; use_one_step := use_one_step w |}.

(** ** Construction *)

(** [_initialize_ring_buffer_size_in_time_dim] (lines 172-235; the
    warning for a size of one has no effect on the object). *)
Definition _initialize_ring_buffer_size_in_time_dim (w : wrapper) (m : module)
  : res wrapper :=
  match ring_buffer_size_in_time_dim w with
  | Some _ => Ok w
  | None =>
    match m with
    | Conv1d padding strides dilation_rate kernel_size
    | Conv2d padding strides dilation_rate kernel_size =>
      let? s0 := getitem0 strides in
      let w := set_stride w s0 in
      let? _ :=
        if is_non_streaming (mode w) then Ok tt
        else if pad_ne_zero padding then Err ValueError
        else if samplewise_inference w && (1 <? s0) then Err ValueError
        else Ok tt in
      let? d0 := getitem0 dilation_rate in
      let? k0 := getitem0 kernel_size in
      if samplewise_inference w
      then Ok (set_rbs w (Some (d0 * (k0 - 1) + 1)))
      else Ok (set_rbs w (Some (Z.max 0 (d0 * (k0 - 1) - (s0 - 1)))))
    | AvgPool1d strides kernel_size
    | AvgPool2d strides kernel_size =>
      let? s0 := getitem0 strides in
      let w := set_stride w s0 in
      let? _ :=
        if is_non_streaming (mode w) then Ok tt
        else (let? k0 := getitem0 kernel_size in
              if s0 =? k0 then Ok tt else Err ValueError) in
      let? k0 := getitem0 kernel_size in
      Ok (set_rbs w (Some k0))
    | Flatten | AdaptiveMaxPool1d | AdaptiveAvgPool1d =>
      match state_shape w with
      | Some sh =>
        if seq_truthy (Some sh)
        then (let? r := py_index (pyseq_elems sh) 1 in Ok (set_rbs w (Some r)))
        else Ok w
      | None => Ok w
      end
    | OtherModule => Err ValueError
    end
  end.

(** [StreamWrapper.__init__] (lines 112-146). *)
Definition __init__ (m : module) (inference_batch_size : Z)
  (mode : StreamInferenceMode) (pad_time_dim : option string)
  (state_shape : option pyseq) (ring_buffer_size_in_time_dim : option Z)
  (samplewise_inference : bool) : res wrapper :=
  let w := {| inner_module := m; inference_batch_size := inference_batch_size;
              mode := mode; pad_time_dim := pad_time_dim; state_shape := state_shape;
              ring_buffer_size_in_time_dim := ring_buffer_size_in_time_dim;
              samplewise_inference := samplewise_inference; stride := 1;
              built := false; states := None; input_state := None;
              output_state := None; cell := None; use_one_step := None |} in
  if negb samplewise_inference && _is_global_time_dim_op m then Err ValueError
  else _initialize_ring_buffer_size_in_time_dim w m.


Definition set_state_shape (w : wrapper) (v : option pyseq) : wrapper :=
  {| inner_module := inner_module w; inference_batch_size := inference_batch_size w;
     mode := mode w; pad_time_dim := pad_time_dim w; state_shape := v;
     ring_buffer_size_in_time_dim := ring_buffer_size_in_time_dim w;
     samplewise_inference := samplewise_inference w; stride := stride w; built := built w;
     states := states w; input_state := input_state w; output_state := output_state w;
     cell := cell w; use_one_step := use_one_step w |}.

Definition set_built (w : wrapper) : wrapper :=
  {| inner_module := inner_module w; inference_batch_size := inference_batch_size w;
     mode := mode w; pad_time_dim := pad_time_dim w; state_shape := state_shape w;
     ring_buffer_size_in_time_dim := ring_buffer_size_in_time_dim w;
     samplewise_inference := samplewise_inference w; stride := stride w; built := true;
     states := states w; input_state := input_state w; output_state := output_state w;
     cell := cell w; use_one_step := use_one_step w |}.

Definition set_states (w : wrapper) (v : option param) : wrapper :=
  {| inner_module := inner_module w; inference_batch_size := inference_batch_size w;
     mode := mode w; pad_time_dim := pad_time_dim w; state_shape := state_shape w;
     ring_buffer_size_in_time_dim := ring_buffer_size_in_time_dim w;
     samplewise_inference := samplewise_inference w; stride := stride w; built := built w;
     states := v; input_state := input_state w; output_state := output_state w;
     cell := cell w; use_one_step := use_one_step w |}.

Definition set_io_state (w : wrapper) (i o : option (option tensor)) : wrapper :=
  {| inner_module := inner_module w; inference_batch_size := inference_batch_size w;
     mode := mode w; pad_time_dim := pad_time_dim w; state_shape := state_shape w;
     ring_buffer_size_in_time_dim := ring_buffer_size_in_time_dim w;
     samplewise_inference := samplewise_inference w; stride := stride w; built := built w;
     states := states w; input_state := i; output_state := o;
     cell := cell w; use_one_step := use_one_step w |}.

Definition mode_eqb (a b : StreamInferenceMode) : bool :=
  match a, b with
  | TRAINING, TRAINING
  | STREAM_INTERNAL_STATE_INFERENCE, STREAM_INTERNAL_STATE_INFERENCE
  | STREAM_EXTERNAL_STATE_INFERENCE, STREAM_EXTERNAL_STATE_INFERENCE
  | NON_STREAM_INFERENCE, NON_STREAM_INFERENCE => true
  | _, _ => false
  end.

(** ** Building the state *)

(** [_build_states] (lines 237-289).  [input_shape[1:-1]] is a
    [torch.Size]; the list [[batch, size]] does not concatenate with it. *)
Definition _build_states (w : wrapper) (x : tensor) : res wrapper :=
  if built w then Ok w else
  let input_shape := PySize (py_slice (t_shape x) (Some 1) (Some (-1))) in
  let head := PyList [inference_batch_size w;
                      match ring_buffer_size_in_time_dim w with Some r => r | None => 0 end] in
  let? w :=
    if _is_conv_op (inner_module w) then
      let? sh := py_add head input_shape in Ok (set_state_shape w (Some sh))
    else if _is_global_time_dim_op (inner_module w) && negb (seq_truthy (state_shape w)) then
      (* [StreamInferenceMode.Modes] is not an attribute of the enum *)
      Err AttributeError
    else if int_truthy (ring_buffer_size_in_time_dim w) then
      let? sh := py_add head input_shape in Ok (set_state_shape w (Some sh))
    else Ok w in
  let? w :=
    match mode w with
    | STREAM_INTERNAL_STATE_INFERENCE =>
      if int_truthy (ring_buffer_size_in_time_dim w) then
        match state_shape w with
        | Some sh => Ok (set_states w (Some (Param (torch_zeros (pyseq_elems sh)))))
        | None => Err TypeError
        end
      else Ok w
    | STREAM_EXTERNAL_STATE_INFERENCE =>
      if int_truthy (ring_buffer_size_in_time_dim w) then
        match state_shape w with
        | Some sh => Ok (set_io_state w (Some (Some (torch_zeros (tl (pyseq_elems sh))))) (Some None))
        | None => Err TypeError
        end
      else Ok (set_io_state w (Some None) (Some None))
    | _ => Ok w
    end in
  Ok (set_built w).

(** [get_input_state] and [get_output_state] (lines 291-303). *)
Definition get_input_state (w : wrapper) : res (list (option tensor)) :=
  if mode_eqb (mode w) STREAM_EXTERNAL_STATE_INFERENCE then
    match input_state w with Some v => Ok [v] | None => Err AttributeError end
  else Err ValueError.

Definition get_output_state (w : wrapper) : res (list (option tensor)) :=
  if mode_eqb (mode w) STREAM_EXTERNAL_STATE_INFERENCE then
    match output_state w with Some v => Ok [v] | None => Err AttributeError end
  else Err ValueError.

(** [self.cell( *inputs)]: the class never assigns [self.cell]. *)
Definition call_cell (w : wrapper) (x : tensor) (rest : R) : res O :=
  match cell w with
  | Some f => Ok (f x rest)
  | None => Err AttributeError
  end.

(** ** Non-streaming mode *)

(** [F.pad] on the time axis with [(left, right)]; a negative amount
    removes frames. *)
Definition pad_left (n : Z) (l : list F) : list F :=
  if 0 <=? n then repeat F0 (Z.to_nat n) ++ l else skipn (Z.to_nat (- n)) l.

Definition pad_right (n : Z) (l : list F) : list F :=
  if 0 <=? n then l ++ repeat F0 (Z.to_nat n)
  else firstn (length l - Z.to_nat (- n)) l.

(** The time padding of lines 314-324. *)
Definition time_padding (pad_time_dim : option string) (one_step : bool) (rbs : Z)
  : Z * Z :=
  let pad_total_amount := if one_step then rbs - 1 else rbs in
  match pad_time_dim with
  | Some s =>
    if String.eqb s "causal" then (pad_total_amount, 0)
    else if String.eqb s "same" then
      let half := pad_total_amount / 2 in (half, pad_total_amount - half)
    else (0, 0)
  | None => (0, 0)
  end.

(** The time-axis padding [pad[1] = [left, right]] asks for (lines
    318-323), as the padded tensor. *)
Definition pad_time (x : tensor) (lr : Z * Z) : tensor :=
  mkTensor (t_batch x) (pad_right (snd lr) (pad_left (fst lr) (t_frames x))) (t_feat x).

(** [F.pad(input, pad, 'constant')] with [pad] the list of pairs
    [[0, 0]] * rank (line 326): [F.pad] takes a flat sequence of ints, so
    a list of lists raises [TypeError]. *)
Definition F_pad (x : tensor) (pad : list (Z * Z)) : res tensor := Err TypeError.

(** [input.shape.rank]: a [torch.Size] has no attribute [rank]. *)
Definition shape_rank (x : tensor) : res Z := Err AttributeError.

Definition string_truthy (s : option string) : bool :=
  match s with Some v => negb (String.eqb v "") | None => false end.

(** [_non_streaming] (lines 305-329). *)
Definition _non_streaming (w : wrapper) (x : tensor) (rest : R) : res O :=
  let? _ :=
    if string_truthy (pad_time_dim w) && _is_global_time_dim_op (inner_module w)
    then Err ValueError else Ok tt in
  let? rank := shape_rank x in
  let? one_step := match use_one_step w with Some b => Ok b | None => Err AttributeError end in
  let? rbs := match ring_buffer_size_in_time_dim w with
              | Some r => Ok r | None => Err TypeError end in
  let? pad := py_setitem (repeat (0, 0) (Z.to_nat rank)) 1 (time_padding (pad_time_dim w) one_step rbs) in
  let? input := F_pad x pad in
  call_cell w input rest.

(** ** Streaming modes *)

(** [self.states = v]: [nn.Module] refuses to replace a registered
    parameter by a plain tensor. *)
Definition setattr_states (w : wrapper) (v : tensor) : res wrapper :=
  match states w with
  | Some (Param _) => Err TypeError
  | _ => Ok (set_states w (Some (Plain v)))
  end.

Definition get_states (w : wrapper) : res tensor :=
  match states w with
  | Some p => Ok (param_tensor p)
  | None => Err AttributeError
  end.

Definition neg_rbs (w : wrapper) : res Z :=
  match ring_buffer_size_in_time_dim w with
  | Some r => Ok (- r)
  | None => Err TypeError
  end.

(** [_streaming_internal_state] (lines 331-365). *)
Definition _streaming_internal_state (x : tensor) (rest : R) : st wrapper O :=
  let! w := st_get in
  if samplewise_inference w then
    if negb (Nat.eqb (length (t_frames x)) 1) then st_throw ValueError
    else
      let! s := st_lift (get_states w) in
      let! m0 := st_lift (slice_time s (Some 1) (ring_buffer_size_in_time_dim w)) in
      let! memory := st_lift (cat1 m0 x) in
      let! v := st_lift (zero_mul_add s memory) in
      let! w' := st_lift (setattr_states w v) in
      let! _ := st_put w' in
      st_lift (call_cell w' memory rest)
  else if int_truthy (ring_buffer_size_in_time_dim w) then
    let! s := st_lift (get_states w) in
    let! memory := st_lift (cat1 s x) in
    let! nr := st_lift (neg_rbs w) in
    let! state_update := st_lift (slice_time memory (Some nr) None) in
    let! v := st_lift (zero_mul_add s state_update) in
    let! w' := st_lift (setattr_states w v) in
    let! _ := st_put w' in
    st_lift (call_cell w' state_update rest)
  else st_lift (call_cell w x rest).

(** [_streaming_external_state] (lines 367-394): returns the output and
    the new state; a [None] state becomes [[]], which is neither sliced
    nor concatenated. *)
Definition _streaming_external_state (w : wrapper) (x : tensor) (rest : R)
  (state : option tensor) : res (O * tensor) :=
  let as_tensor := match state with Some s => Ok s | None => Err TypeError end in
  if samplewise_inference w then
    if negb (Nat.eqb (length (t_frames x)) 1) then Err ValueError
    else
      let? s := as_tensor in
      let? m0 := slice_time s (Some 1) (ring_buffer_size_in_time_dim w) in
      let? memory := cat1 m0 x in
      let? output := call_cell w memory rest in
      Ok (output, memory)
  else
    let? s := as_tensor in
    let? memory := cat1 s x in
    let? nr := neg_rbs w in
    let? state_update := slice_time memory (Some nr) None in
    let? output := call_cell w memory rest in
    Ok (output, state_update).

(** [forward] (lines 148-170).  In the external mode with a ring buffer the
    call passes [self.input_state] positionally, and the keyword-only
    parameter [state] of [_streaming_external_state] is then missing. *)
Definition forward (x : tensor) (rest : R) : st wrapper O :=
  let! w := st_get in
  let! w := st_lift (_build_states w x) in
  let! _ := st_put w in
  match mode w with
  | STREAM_INTERNAL_STATE_INFERENCE => _streaming_internal_state x rest
  | STREAM_EXTERNAL_STATE_INFERENCE =>
    if int_truthy (ring_buffer_size_in_time_dim w) then st_throw TypeError
    else st_lift (call_cell w x rest)
  | TRAINING | NON_STREAM_INFERENCE => st_lift (_non_streaming w x rest)
  end.

End Wrapper.

(** ** The ring buffer on frames *)

Section Frames.

Context {F : Type}.

(** The samplewise update of lines 341-344 and 377-380:
    [cat([state[:, 1:rbs], input], 1)] on the time axis. *)
Definition ring_step (rbs : option Z) (state x : list F) : list F :=
  py_slice state (Some 1) rbs ++ x.

(** The strided update of lines 355-357 and 388-390: the memory passed on
    and the last [rbs] frames kept. *)
Definition strided_step (rbs : Z) (state x : list F) : list F * list F :=
  let memory := state ++ x in (memory, py_slice memory (Some (- rbs)) None).

(** Feeding a signal one frame at a time; the list of buffers the wrapped
    layer sees. *)
Fixpoint run_ring (rbs : option Z) (state : list F) (xs : list F) : list (list F) :=
  match xs with
  | [] => []
  | x :: xs' => let m := ring_step rbs state [x] in m :: run_ring rbs m xs'
  end.

(** The windows of [k] consecutive frames, in order: what a convolution of
    effective kernel [k] and stride one reads from a signal. *)
Fixpoint windows (k : nat) (l : list F) : list (list F) :=
  match l with
  | [] => []
  | _ :: l' => if Nat.leb k (length l) then firstn k l :: windows k l' else []
  end.

(** A layer that maps every window of [k] frames to one output. *)
Definition conv_valid {B} (g : list F -> B) (k : nat) (l : list F) : list B :=
  map g (windows k l).

End Frames.

(** ** Callers *)

Section Callers.

Context {F R O : Type}.

(** A caller that feeds the tensors [xs] one call at a time to the
    internal-state streaming method and collects the outputs. *)
Fixpoint stream_calls (xs : list (@tensor F)) (rest : R) : st (@wrapper F R O) (list O) :=
  match xs with
  | [] => st_ret []
  | x :: xs' =>
    let! o := _streaming_internal_state x rest in
    let! os := stream_calls xs' rest in
    st_ret (o :: os)
  end.

End Callers.


(** A caller that calls [forward] on each tensor in turn, catching the
    exception of a call and going on with the object as the call left it. *)
Fixpoint forward_calls {F R O : Type} (F0 : F) (xs : list (@tensor F)) (rest : R)
  (w : @wrapper F R O) : list (res O) :=
  match xs with
  | [] => []
  | x :: xs' =>
    let '(w', r) := forward F0 x rest w in r :: forward_calls F0 xs' rest w'
  end.

(** The two convolution classes the wrapper accepts. *)
Definition conv_module (two_d : bool) (p : padval) (s d k : intlike) : module :=
  if two_d then Conv2d p s d k else Conv1d p s d k.

(** The two average-pooling classes the wrapper accepts. *)
Definition pool_module (two_d : bool) (s k : intlike) : module :=
  if two_d then AvgPool2d s k else AvgPool1d s k.

(** The ring-buffer size [_initialize_ring_buffer_size_in_time_dim]
    computes for a convolution (lines 201-211). *)
Definition conv_rbs (samplewise : bool) (s0 d0 k0 : Z) : Z :=
  if samplewise then d0 * (k0 - 1) + 1 else Z.max 0 (d0 * (k0 - 1) - (s0 - 1)).

(** ** Concrete wrappers for the examples *)

(** A wrapper with a three-frame buffer over frames of integers. *)
Definition example_wrapper (md : StreamInferenceMode) (sw : bool) (c : option (@tensor Z -> unit -> list Z)) (st : option (@param Z))
  : @wrapper Z unit (list Z) :=
  {| inner_module := Conv1d (PadInt 0) (ITuple [1]) (ITuple [1]) (ITuple [3]);
     inference_batch_size := 1; mode := md;
     pad_time_dim := None; state_shape := None;
     ring_buffer_size_in_time_dim := Some 3; samplewise_inference := sw;
     stride := 1; built := true; states := st;
     input_state := None; output_state := None; cell := c;
     use_one_step := None |}.

Definition sum3 (l : list Z) : Z := fold_right Z.add 0 l.

(** ** Lemmas on frames *)

Section FrameLemmas.

Context {F : Type}.

Lemma ring_step_full (k : Z) (s x : list F) :
  Z.of_nat (length s) = k -> ring_step (Some k) s x = skipn 1 s ++ x.
Proof.
  intros Hk. unfold ring_step. f_equal. subst k.
  destruct s as [|a s']; [apply py_slice_nil|].
  rewrite py_slice_range by (simpl length; lia).
  apply firstn_all2. rewrite length_skipn. simpl length. lia.
Qed.

Lemma windows_short (k : nat) (l : list F) :
  (length l < k)%nat -> windows k l = [].
Proof.
  intros H. destruct l as [|a l']; [reflexivity|].
  change (windows k (a :: l')) with
    (if Nat.leb k (length (a :: l')) then firstn k (a :: l') :: windows k l' else []).
  replace (Nat.leb k (length (a :: l'))) with false by (symmetry; apply Nat.leb_gt; lia).
  reflexivity.
Qed.

Lemma windows_exact (k : nat) (l : list F) :
  (1 <= k)%nat -> length l = k -> windows k l = [l].
Proof.
  intros Hk Hl. destruct l as [|a l']; [simpl in Hl; lia|].
  change (windows k (a :: l')) with
    (if Nat.leb k (length (a :: l')) then firstn k (a :: l') :: windows k l' else []).
  rewrite Hl, Nat.leb_refl, windows_short by (simpl in Hl; lia).
  rewrite <- Hl, firstn_all. reflexivity.
Qed.

Lemma windows_step (k : nat) (l : list F) :
  (k <= length l)%nat -> l <> [] -> windows k l = firstn k l :: windows k (skipn 1 l).
Proof.
  intros Hk Hne. destruct l as [|a l']; [congruence|].
  change (windows k (a :: l')) with
    (if Nat.leb k (length (a :: l')) then firstn k (a :: l') :: windows k l' else []).
  apply Nat.leb_le in Hk. rewrite Hk. reflexivity.
Qed.

(** The samplewise ring buffer is a sliding window: started from a buffer
    of [k] frames, the buffers are the windows of [k] frames of the
    buffer's last [k - 1] frames followed by the signal. *)
Lemma run_ring_windows (k : nat) (s xs : list F) :
  (1 <= k)%nat -> length s = k ->
  run_ring (Some (Z.of_nat k)) s xs = windows k (skipn 1 s ++ xs).
Proof.
  revert s. induction xs as [|x xs IH]; intros s Hk Hs.
  - rewrite app_nil_r, windows_short; [reflexivity|].
    rewrite length_skipn. lia.
  - simpl run_ring. rewrite ring_step_full by lia.
    assert (Hlen : length (skipn 1 s ++ [x]) = k) by (rewrite length_app, length_skipn; simpl; lia).
    rewrite IH by assumption.
    rewrite (windows_step k (skipn 1 s ++ x :: xs)).
    + f_equal.
      * replace (skipn 1 s ++ x :: xs) with ((skipn 1 s ++ [x]) ++ xs) by (rewrite <- app_assoc; reflexivity).
        rewrite firstn_app, Hlen, Nat.sub_diag, firstn_O, app_nil_r.
        symmetry. rewrite <- Hlen at 1. apply firstn_all.
      * f_equal. destruct (skipn 1 s) as [|y ys]; simpl; [reflexivity|].
        now rewrite <- app_assoc.
    + rewrite length_app, length_skipn. simpl. lia.
    + destruct (skipn 1 s); discriminate.
Qed.

End FrameLemmas.

(** ** Lemmas on tensors and the wrapper's methods *)

Section MethodLemmas.

Context {F : Type} (F0 : F) {R O : Type}.

Lemma list_Z_eqb_refl (l : list Z) : list_Z_eqb l l = true.
Proof. unfold list_Z_eqb. now destruct (list_eq_dec Z.eq_dec l l). Qed.

Lemma cat1_same (x y : @tensor F) :
  t_batch x = t_batch y -> t_feat x = t_feat y ->
  cat1 x y = Ok (mkTensor (t_batch x) (t_frames x ++ t_frames y) (t_feat x)).
Proof.
  intros Hb Hf. unfold cat1. rewrite Hb, Hf, Z.eqb_refl, list_Z_eqb_refl. reflexivity.
Qed.

Lemma slice_time_ok (x : @tensor F) (a b : option Z) :
  t_feat x <> [] ->
  slice_time x a b = Ok (mkTensor (t_batch x) (py_slice (t_frames x) a b) (t_feat x)).
Proof. intros H. unfold slice_time. now destruct (t_feat x). Qed.

Lemma zero_mul_add_same (a b : @tensor F) :
  t_batch a = t_batch b -> t_feat a = t_feat b ->
  length (t_frames a) = length (t_frames b) -> zero_mul_add a b = Ok b.
Proof.
  intros Hb Hf Hl. unfold zero_mul_add. rewrite Hb, Hf, Hl, Z.eqb_refl, list_Z_eqb_refl.
  now rewrite Nat.eqb_refl.
Qed.

Lemma call_cell_some (w : @wrapper F R O) (f : tensor -> R -> O) x rest :
  cell w = Some f -> call_cell w x rest = Ok (f x rest).
Proof. intros H. unfold call_cell. now rewrite H. Qed.

(** One samplewise call on a buffer held as a plain tensor: the buffer
    becomes [ring_step] of the old buffer and the frame, and the wrapped
    layer reads the new buffer. *)
Lemma internal_samplewise_plain_step (w : @wrapper F R O) (f : tensor -> R -> O)
  (k : Z) (b : Z) (feat : list Z) (s : list F) (v : F) (rest : R) :
  samplewise_inference w = true -> ring_buffer_size_in_time_dim w = Some k ->
  states w = Some (Plain (mkTensor b s feat)) -> Z.of_nat (length s) = k -> 1 <= k ->
  feat <> [] -> cell w = Some f ->
  let m := mkTensor b (ring_step (Some k) s [v]) feat in
  _streaming_internal_state (mkTensor b [v] feat) rest w
  = (set_states w (Some (Plain m)), Ok (f m rest)).
Proof.
  intros Hsw Hr Hst Hlen Hk Hfeat Hcell m.
  unfold _streaming_internal_state, st_bind, st_get, st_lift, st_put.
  rewrite Hsw. simpl length. simpl Nat.eqb. cbn iota beta.
  unfold get_states. rewrite Hst. simpl param_tensor. rewrite Hr.
  rewrite slice_time_ok by exact Hfeat. rewrite cat1_same by reflexivity.
  rewrite zero_mul_add_same; simpl; [| reflexivity | reflexivity |].
  - unfold setattr_states. rewrite Hst. unfold call_cell. simpl. rewrite Hcell. reflexivity.
  - change (py_slice s (Some 1) (Some k) ++ [v]) with (ring_step (Some k) s [v]).
    rewrite ring_step_full by exact Hlen.
    rewrite length_app, length_skipn. simpl. destruct s; simpl in *; lia.
Qed.

End MethodLemmas.

(** Every window has the window's length. *)
Lemma windows_length {F : Type} (k : nat) (l m : list F) :
  In m (windows k l) -> length m = k.
Proof.
  induction l as [|a l IH]; simpl; [tauto|].
  destruct (Nat.leb_spec k (S (length l))) as [Hle|]; simpl; [|tauto].
  intros [<-|Hin]; [|auto].
  rewrite length_firstn. simpl. lia.
Qed.

Lemma conv_valid_windows {F B : Type} (g : list F -> B) (k : nat) (l : list F) :
  (1 <= k)%nat ->
  concat (map (fun m => conv_valid g k m) (windows k l)) = conv_valid g k l.
Proof.
  intros Hk. unfold conv_valid at 2.
  assert (H : forall ms, (forall m, In m ms -> length m = k) ->
            concat (map (fun m => conv_valid g k m) ms) = map g ms).
  { induction ms as [|m ms IH]; intros Hms; [reflexivity|].
    simpl. unfold conv_valid at 1. rewrite windows_exact by auto with datatypes.
    simpl. f_equal. apply IH. auto with datatypes. }
  apply H. intros m. apply windows_length.
Qed.

Section StreamCalls.

Context {F : Type} (F0 : F) {R O : Type}.

(** A stream of single-frame calls on a plain-tensor buffer returns the
    layer's outputs on the successive ring buffers. *)
Lemma stream_calls_ring (f : @tensor F -> R -> O) (k : nat) (b : Z) (feat : list Z)
  (rest : R) (fs s : list F) (w : @wrapper F R O) :
  (1 <= k)%nat -> feat <> [] ->
  samplewise_inference w = true -> ring_buffer_size_in_time_dim w = Some (Z.of_nat k) ->
  states w = Some (Plain (mkTensor b s feat)) -> length s = k -> cell w = Some f ->
  exists w', stream_calls (map (fun v => mkTensor b [v] feat) fs) rest w
             = (w', Ok (map (fun m => f (mkTensor b m feat) rest)
                             (run_ring (Some (Z.of_nat k)) s fs))).
Proof.
  revert s w. induction fs as [|v fs IH]; intros s w Hk Hfeat Hsw Hr Hst Hlen Hcell.
  - exists w. reflexivity.
  - simpl map. simpl stream_calls. unfold st_bind at 1.
    rewrite (internal_samplewise_plain_step w f (Z.of_nat k) b feat s v rest)
      by (auto; lia).
    edestruct (IH (ring_step (Some (Z.of_nat k)) s [v])
                  (set_states w (Some (Plain (mkTensor b (ring_step (Some (Z.of_nat k)) s [v]) feat)))))
      as [w' Hw']; try assumption; try reflexivity.
    + rewrite ring_step_full by lia. rewrite length_app, length_skipn. simpl. lia.
    + exists w'. unfold st_bind. rewrite Hw'. reflexivity.
Qed.

End StreamCalls.


(** ** Lemmas on the attribute [cell] *)

Section CellLemmas.

Context {F : Type} (F0 : F) {R O : Type}.

Lemma setattr_states_cell (w w' : @wrapper F R O) v :
  setattr_states w v = Ok w' -> cell w' = cell w.
Proof. unfold setattr_states. intros H. case_matches; inv_res; reflexivity. Qed.

Lemma build_states_cell (w w' : @wrapper F R O) x :
  _build_states F0 w x = Ok w' -> cell w' = cell w.
Proof.
  unfold _build_states, res_bind, py_add. intros H.
  case_matches; inv_res; reflexivity.
Qed.

Lemma call_cell_none (w : @wrapper F R O) x rest :
  cell w = None -> call_cell w x rest = Err AttributeError.
Proof. intros H. unfold call_cell. now rewrite H. Qed.

Lemma non_streaming_err (w : @wrapper F R O) x rest :
  is_ok (_non_streaming w x rest) = false.
Proof. unfold _non_streaming, res_bind, shape_rank. now case_matches. Qed.

Lemma streaming_internal_no_cell (w : @wrapper F R O) x rest :
  cell w = None ->
  cell (fst (_streaming_internal_state x rest w)) = None /\
  is_ok (snd (_streaming_internal_state x rest w)) = false.
Proof.
  intros Hc.
  unfold _streaming_internal_state, st_bind, st_get, st_lift, st_put, st_throw,
    call_cell, setattr_states.
  case_matches; simpl in *; inv_res; simpl; rewrite ?Hc; auto; congruence.
Qed.

End CellLemmas.

(** ** Theorems *)

Section Refinement.

Context {F : Type} (F0 : F) {R : Type}.

(** C1 (refinement).  Streaming a signal frame by frame through the
    internal-state samplewise method, from a buffer of [k] zero frames held
    as a plain tensor and with a wrapped layer that maps each window of [k]
    frames to one output, returns on every call, and the outputs put
    together are the non-streaming layer's outputs on the signal padded
    causally by [_non_streaming]'s padding ([k - 1] zero frames in front). *)
Theorem internal_stream_refines_causal_conv {B : Type} (g : list F -> B) (k : nat)
  (b : Z) (feat : list Z) (rest : R) (fs : list F) (w : @wrapper F R (list B)) :
  (1 <= k)%nat -> feat <> [] ->
  samplewise_inference w = true ->
  ring_buffer_size_in_time_dim w = Some (Z.of_nat k) ->
  states w = Some (Plain (torch_zeros F0 (b :: Z.of_nat k :: feat))) ->
  cell w = Some (fun t _ => conv_valid g k (t_frames t)) ->
  exists os w',
    stream_calls (map (fun v => mkTensor b [v] feat) fs) rest w = (w', Ok os) /\
    concat os = conv_valid g k
      (t_frames (pad_time F0 (mkTensor b fs feat)
                   (time_padding (Some "causal"%string) true (Z.of_nat k)))).
Proof.
  intros Hk Hfeat Hsw Hr Hst Hcell.
  simpl torch_zeros in Hst. rewrite Nat2Z.id in Hst.
  destruct (stream_calls_ring (fun t _ => conv_valid g k (t_frames t)) k b feat rest fs
              (repeat F0 k) w) as [w' Hw']; auto using repeat_length.
  eexists _, w'. split; [exact Hw'|].
  simpl t_frames. rewrite run_ring_windows by auto using repeat_length.
  rewrite conv_valid_windows by exact Hk.
  unfold pad_time, time_padding, pad_left, pad_right. simpl.
  destruct (Z.leb_spec 0 (Z.of_nat k - 1)); [|lia].
  rewrite app_nil_r. replace (Z.to_nat (Z.of_nat k - 1)) with (k - 1)%nat by lia.
  destruct k as [|k']; [lia|]. simpl. now rewrite Nat.sub_0_r.
Qed.

End Refinement.

Lemma internal_stream_refines_causal_conv_witness :
  exists os w',
    stream_calls (map (fun v => mkTensor 1 [v] [4]) [5; 6; 7; 8]) tt
      (example_wrapper STREAM_INTERNAL_STATE_INFERENCE true (Some (fun t _ => conv_valid sum3 3 (t_frames t)))
         (Some (Plain (torch_zeros 0 [1; 3; 4])))) = (w', Ok os) /\
    concat os = conv_valid sum3 3
      (t_frames (pad_time 0 (mkTensor 1 [5; 6; 7; 8] [4])
                   (time_padding (Some "causal"%string) true (Z.of_nat 3)))).
Proof.
  apply (internal_stream_refines_causal_conv 0 sum3 3 1 [4] tt [5; 6; 7; 8]);
    [lia | discriminate | reflexivity | reflexivity | reflexivity | reflexivity].
Defined.

Section Construction.

Context {F : Type} (F0 : F) {R O : Type}.

Lemma init_cell_none m b md pad sh r sw (w : @wrapper F R O) :
  @__init__ F R O m b md pad sh r sw = Ok w -> cell w = None.
Proof.
  unfold __init__, _initialize_ring_buffer_size_in_time_dim, res_bind.
  intros H. case_matches; inv_res; reflexivity.
Qed.

Lemma forward_no_cell (w : @wrapper F R O) x rest :
  cell w = None ->
  cell (fst (forward F0 x rest w)) = None /\ is_ok (snd (forward F0 x rest w)) = false.
Proof.
  intros Hc. unfold forward, st_bind, st_get, st_lift, st_put, st_throw.
  destruct (_build_states F0 w x) as [w'|e] eqn:Hb; simpl; [|auto].
  pose proof (build_states_cell F0 _ _ _ Hb) as Hc'. rewrite Hc in Hc'.
  destruct (mode w'); simpl;
    auto using streaming_internal_no_cell, non_streaming_err.
  destruct (int_truthy (ring_buffer_size_in_time_dim w')); simpl; [auto|].
  rewrite call_cell_none by exact Hc'. auto.
Qed.

(** C2 (safety, finding).  The class never assigns [self.cell], so after
    [__init__] no call of [forward] ever returns: whatever the layer, the
    mode and the inputs, every call raises, also when a caller catches the
    exception and calls again. *)
Theorem forward_after_init_never_returns m b md pad sh r sw (w : @wrapper F R O)
  (xs : list (@tensor F)) (rest : R) :
  @__init__ F R O m b md pad sh r sw = Ok w ->
  Forall (fun o => is_ok o = false) (forward_calls F0 xs rest w).
Proof.
  intros Hi. apply init_cell_none in Hi. revert w Hi.
  induction xs as [|x xs IH]; intros w Hc; simpl; [constructor|].
  destruct (forward_no_cell w x rest Hc) as [Hc' Hr].
  destruct (forward F0 x rest w) as [w' o]. simpl in *.
  constructor; [exact Hr | apply IH, Hc'].
Qed.

(** C3 (error, finding).  In a streaming mode, [__init__] rejects every
    convolution whose [padding] is a tuple or a string, which is how
    [nn.Conv1d] and [nn.Conv2d] store it: the test [padding != 0] compares
    a tuple with an int. *)
Theorem init_streaming_conv_rejects_torch_padding two_d (p : padval) strides dil ks
  b md pad sh sw s0 :
  is_non_streaming md = false -> (forall z, p <> PadInt z) ->
  getitem0 strides = Ok s0 ->
  @__init__ F R O (conv_module two_d p strides dil ks) b md pad sh None sw = Err ValueError.
Proof.
  intros Hmd Hp Hs.
  assert (pad_ne_zero p = true) as Hne by (destruct p as [z| |]; [now elim (Hp z)|reflexivity|reflexivity]).
  unfold __init__, conv_module, _initialize_ring_buffer_size_in_time_dim;
    destruct two_d; cbn -[getitem0]; rewrite Hs; cbn -[getitem0]; rewrite Hmd, Hne, andb_false_r;
    reflexivity.
Qed.

(** C4 (functional, error).  On a convolution with attribute tuples
    [(s0, ...)], [(d0, ...)], [(k0, ...)] and no ring-buffer size given,
    [__init__] succeeds exactly in the non-streaming modes, or when the
    padding is the int [0] and a samplewise wrapper has stride at most one;
    the ring-buffer size is then [d0 * (k0 - 1) + 1] samplewise and
    [max 0 (d0 * (k0 - 1) - (s0 - 1))] strided, and [stride] is [s0].
    Otherwise it raises [ValueError]. *)
Theorem init_conv_ring_buffer_size two_d p strides dil ks b md pad sh sw s0 d0 k0 :
  getitem0 strides = Ok s0 -> getitem0 dil = Ok d0 -> getitem0 ks = Ok k0 ->
  ((is_non_streaming md = true \/ (p = PadInt 0 /\ (sw = false \/ s0 <= 1))) ->
   exists w, @__init__ F R O (conv_module two_d p strides dil ks) b md pad sh None sw = Ok w /\
     ring_buffer_size_in_time_dim w = Some (conv_rbs sw s0 d0 k0) /\ stride w = s0) /\
  (~ (is_non_streaming md = true \/ (p = PadInt 0 /\ (sw = false \/ s0 <= 1))) ->
   @__init__ F R O (conv_module two_d p strides dil ks) b md pad sh None sw = Err ValueError).
Proof.
  intros Hs Hd Hk. split.
  - intros Hc. unfold __init__, conv_module, _initialize_ring_buffer_size_in_time_dim;
      destruct two_d; cbn -[getitem0]; rewrite Hs; cbn -[getitem0]; rewrite andb_false_r;
      (assert (Hg : (if is_non_streaming md then Ok tt
                     else if pad_ne_zero p then Err ValueError
                     else if sw && (1 <? s0) then Err ValueError else Ok tt) = Ok tt)
         by (destruct Hc as [->|[-> [->| Hle]]]; simpl; [reflexivity|now case_matches|];
             destruct (is_non_streaming md); [reflexivity|];
             replace (1 <? s0) with false by lia; now rewrite andb_false_r));
      rewrite Hg; cbn -[getitem0]; rewrite Hd, Hk; cbn -[getitem0];
      unfold conv_rbs; destruct sw; (eexists; split; [reflexivity|]); simpl; auto.
  - intros Hc. unfold __init__, conv_module, _initialize_ring_buffer_size_in_time_dim;
      destruct two_d; cbn -[getitem0]; rewrite Hs; cbn -[getitem0]; rewrite andb_false_r;
      (destruct (is_non_streaming md) eqn:Hm; [exfalso; auto|]);
      (destruct p as [z|l|t]; simpl; try reflexivity);
      (destruct (Z.eqb_spec z 0); simpl; [subst|reflexivity]);
      (destruct sw; simpl; [|exfalso; auto]);
      (destruct (Z.ltb_spec 1 s0); [reflexivity|exfalso; auto]).
Qed.

End Construction.

(** A stride-one, kernel-three [nn.Conv1d] as PyTorch stores it. *)
Lemma forward_after_init_never_returns_witness :
  exists w, @__init__ Z unit (list Z)
              (Conv1d (PadTuple [0]) (ITuple [1]) (ITuple [1]) (ITuple [3])) 1
              NON_STREAM_INFERENCE None None None true = Ok w /\
    Forall (fun o => is_ok o = false)
      (forward_calls 0 [mkTensor 1 [5] [4]; mkTensor 1 [6] [4]] tt w).
Proof.
  eexists. split; [reflexivity|].
  apply (forward_after_init_never_returns 0
           (Conv1d (PadTuple [0]) (ITuple [1]) (ITuple [1]) (ITuple [3])) 1
           NON_STREAM_INFERENCE None None None true).
  reflexivity.
Defined.

Lemma init_streaming_conv_rejects_torch_padding_witness :
  (forall z, PadTuple [0] <> PadInt z) /\
  @__init__ Z unit (list Z) (conv_module false (PadTuple [0]) (ITuple [1]) (ITuple [1]) (ITuple [3]))
    1 STREAM_INTERNAL_STATE_INFERENCE None None None true = Err ValueError.
Proof.
  split; [discriminate|].
  apply (init_streaming_conv_rejects_torch_padding false (PadTuple [0]) (ITuple [1]) (ITuple [1])
           (ITuple [3]) 1 STREAM_INTERNAL_STATE_INFERENCE None None true 1);
    [reflexivity | discriminate | reflexivity].
Defined.

Lemma init_conv_ring_buffer_size_witness :
  exists w, @__init__ Z unit (list Z) (conv_module true (PadInt 0) (ITuple [1; 1]) (ITuple [2; 1]) (ITuple [3; 3]))
              1 STREAM_EXTERNAL_STATE_INFERENCE None None None true = Ok w /\
    ring_buffer_size_in_time_dim w = Some (conv_rbs true 1 2 3) /\ stride w = 1.
Proof.
  apply (proj1 (init_conv_ring_buffer_size true (PadInt 0) (ITuple [1; 1]) (ITuple [2; 1]) (ITuple [3; 3])
                  1 STREAM_EXTERNAL_STATE_INFERENCE None None true 1 2 3
                  eq_refl eq_refl eq_refl)).
  right. split; [reflexivity | right; lia].
Defined.

Section Streaming.

Context {F : Type} (F0 : F) {R O : Type}.

Lemma slice_time_last (x : @tensor F) (k : Z) :
  0 < k -> t_feat x <> [] ->
  slice_time x (Some (- k)) None
  = Ok (mkTensor (t_batch x) (lastn (Z.to_nat k) (t_frames x)) (t_feat x)).
Proof.
  intros Hk Hf. rewrite slice_time_ok by exact Hf. now rewrite py_slice_last.
Qed.

(** Finding.  [_build_states] on an object not yet built
    raises for every convolution ([TypeError]: a list plus a
    [torch.Size]), for every global time-dimension layer without a state
    shape ([AttributeError]: [StreamInferenceMode.Modes]), and for every
    other layer with a ring buffer ([TypeError] again); it can only succeed
    without a ring buffer. *)
Theorem build_states_unbuilt_raises (w : @wrapper F R O) (x : @tensor F) :
  built w = false ->
  (_is_conv_op (inner_module w) = true -> _build_states F0 w x = Err TypeError) /\
  (_is_conv_op (inner_module w) = false -> _is_global_time_dim_op (inner_module w) = true ->
   seq_truthy (state_shape w) = false -> _build_states F0 w x = Err AttributeError) /\
  (_is_conv_op (inner_module w) = false ->
   _is_global_time_dim_op (inner_module w) && negb (seq_truthy (state_shape w)) = false ->
   int_truthy (ring_buffer_size_in_time_dim w) = true -> _build_states F0 w x = Err TypeError).
Proof.
  intros Hb. unfold _build_states. rewrite Hb. repeat split.
  - intros Hc. now rewrite Hc.
  - intros Hc Hg Hs. now rewrite Hc, Hg, Hs.
  - intros Hc Hg Hr. now rewrite Hc, Hg, Hr.
Qed.

(** C6 (error, finding).  The buffer that [_build_states] creates in the
    internal mode is an [nn.Parameter]; the streaming update assigns it a
    plain tensor, which [nn.Module] refuses: with a well-shaped buffer the
    call raises [TypeError] and leaves the object unchanged. *)
Theorem internal_param_state_raises (w : @wrapper F R O) (s x : @tensor F) (k : Z) (rest : R) :
  ring_buffer_size_in_time_dim w = Some k -> 1 <= k ->
  states w = Some (Param s) -> Z.of_nat (length (t_frames s)) = k -> t_feat s <> [] ->
  t_batch x = t_batch s -> t_feat x = t_feat s ->
  (samplewise_inference w = true -> length (t_frames x) = 1%nat) ->
  _streaming_internal_state x rest w = (w, Err TypeError).
Proof.
  intros Hr Hk Hst Hlen Hfeat Hb Hf Hone.
  unfold _streaming_internal_state, st_bind, st_get, st_lift, st_put, st_throw.
  unfold get_states, setattr_states. rewrite Hst, Hr. simpl param_tensor.
  destruct (samplewise_inference w) eqn:Hsw.
  - rewrite Hone by reflexivity. simpl.
    rewrite slice_time_ok by exact Hfeat. simpl. rewrite cat1_same by auto. simpl.
    rewrite zero_mul_add_same; simpl; auto.
    change (py_slice (t_frames s) (Some 1) (Some k) ++ t_frames x)
      with (ring_step (Some k) (t_frames s) (t_frames x)).
    rewrite ring_step_full, length_app, length_skipn by exact Hlen. lia.
  - unfold int_truthy. replace (k =? 0) with false by lia. simpl.
    rewrite cat1_same by auto. unfold neg_rbs. rewrite Hr. simpl.
    rewrite slice_time_last by (simpl; auto; lia). simpl.
    rewrite zero_mul_add_same; simpl; auto.
    rewrite length_lastn, length_app. lia.
Qed.

(** C7 (functional).  The external-state samplewise step returns the
    wrapped layer's output on the new buffer and the new buffer itself,
    which is [ring_step] of the given state and has the state's length; a
    missing state raises [TypeError]. *)
Theorem external_samplewise_step (w : @wrapper F R O) (f : @tensor F -> R -> O)
  (s x : @tensor F) (k : Z) (rest : R) :
  samplewise_inference w = true -> ring_buffer_size_in_time_dim w = Some k -> 1 <= k ->
  Z.of_nat (length (t_frames s)) = k -> t_feat s <> [] -> length (t_frames x) = 1%nat ->
  t_batch s = t_batch x -> t_feat s = t_feat x -> cell w = Some f ->
  let m := mkTensor (t_batch s) (ring_step (Some k) (t_frames s) (t_frames x)) (t_feat s) in
  _streaming_external_state w x rest (Some s) = Ok (f m rest, m) /\
  length (t_frames m) = length (t_frames s) /\
  _streaming_external_state w x rest None = Err TypeError.
Proof.
  intros Hsw Hr Hk Hlen Hfeat Hone Hb Hf Hc m.
  unfold _streaming_external_state. rewrite Hsw, Hone, Hr. simpl.
  rewrite slice_time_ok by exact Hfeat. simpl. rewrite cat1_same by auto. simpl.
  rewrite (call_cell_some w f) by exact Hc. repeat split.
  unfold m. simpl. rewrite ring_step_full, length_app, length_skipn by exact Hlen. lia.
Qed.

(** C8 (spec-code divergence).  In the strided mode the two streaming
    methods feed the wrapped layer different frames from the same state
    and input: the internal one passes only the [k] frames it keeps, the
    external one the whole concatenation; both keep the last [k] frames. *)
Theorem strided_internal_external_diverge (w : @wrapper F R O) (f : @tensor F -> R -> O)
  (s x : @tensor F) (k : Z) (rest : R) :
  samplewise_inference w = false -> ring_buffer_size_in_time_dim w = Some k -> 1 <= k ->
  states w = Some (Plain s) -> Z.of_nat (length (t_frames s)) = k -> t_feat s <> [] ->
  t_batch x = t_batch s -> t_feat x = t_feat s -> cell w = Some f ->
  let memory := mkTensor (t_batch s) (t_frames s ++ t_frames x) (t_feat s) in
  let kept := mkTensor (t_batch s) (lastn (Z.to_nat k) (t_frames s ++ t_frames x)) (t_feat s) in
  snd (_streaming_internal_state x rest w) = Ok (f kept rest) /\
  _streaming_external_state w x rest (Some s) = Ok (f memory rest, kept) /\
  (t_frames x <> [] -> kept <> memory).
Proof.
  intros Hsw Hr Hk Hst Hlen Hfeat Hb Hf Hc memory kept.
  assert (Hint : int_truthy (Some k) = true) by (unfold int_truthy; replace (k =? 0) with false by lia; reflexivity).
  repeat split.
  - unfold _streaming_internal_state, st_bind, st_get, st_lift, st_put.
    rewrite Hsw, Hr, Hint. unfold get_states, setattr_states. rewrite Hst. simpl.
    rewrite cat1_same by auto. unfold neg_rbs. rewrite Hr. simpl.
    rewrite slice_time_last by (simpl; auto; lia). simpl.
    rewrite zero_mul_add_same; simpl; auto.
    + unfold call_cell. simpl. rewrite Hc. reflexivity.
    + rewrite length_lastn, length_app. lia.
  - unfold _streaming_external_state. rewrite Hsw. simpl.
    rewrite cat1_same by auto. unfold neg_rbs. rewrite Hr. simpl.
    rewrite slice_time_last by (simpl; auto; lia). simpl.
    rewrite (call_cell_some w f) by exact Hc. reflexivity.
  - intros Hx Heq. apply (f_equal (fun t => length (t_frames t))) in Heq.
    unfold kept, memory in Heq. simpl in Heq. rewrite length_lastn, length_app in Heq.
    destruct (t_frames x); [congruence|]. simpl in Heq. lia.
Qed.

End Streaming.

Lemma build_states_unbuilt_raises_witness :
  exists w, @__init__ Z unit (list Z)
              (Conv1d (PadTuple [0]) (ITuple [1]) (ITuple [1]) (ITuple [3])) 1
              TRAINING None None None true = Ok w /\
    _build_states 0 w (mkTensor 1 [5; 6; 7] [4]) = Err TypeError.
Proof.
  eexists. split; [reflexivity|].
  match goal with
  | |- _build_states _ ?w ?x = _ => apply (proj1 (build_states_unbuilt_raises 0 w x eq_refl))
  end.
  reflexivity.
Defined.

Lemma internal_param_state_raises_witness :
  _streaming_internal_state (mkTensor 1 [9] [4]) tt
    (example_wrapper STREAM_INTERNAL_STATE_INFERENCE true (Some (fun t _ => t_frames t)) (Some (Param (torch_zeros 0 [1; 3; 4]))))
  = (example_wrapper STREAM_INTERNAL_STATE_INFERENCE true (Some (fun t _ => t_frames t)) (Some (Param (torch_zeros 0 [1; 3; 4]))),
     Err TypeError).
Proof.
  apply (internal_param_state_raises _ (torch_zeros 0 [1; 3; 4]) _ 3);
    try reflexivity; try lia; discriminate.
Defined.

Lemma external_samplewise_step_witness :
  _streaming_external_state (example_wrapper STREAM_INTERNAL_STATE_INFERENCE true (Some (fun t _ => t_frames t)) None)
    (mkTensor 1 [9] [4]) tt (Some (mkTensor 1 [1; 2; 3] [4]))
  = Ok ([2; 3; 9], mkTensor 1 [2; 3; 9] [4]) /\
  length [2; 3; 9] = length [1; 2; 3] /\
  _streaming_external_state (example_wrapper STREAM_INTERNAL_STATE_INFERENCE true (Some (fun t _ => t_frames t)) None)
    (mkTensor 1 [9] [4]) tt None = Err TypeError.
Proof.
  apply (external_samplewise_step _ (fun t _ => t_frames t) (mkTensor 1 [1; 2; 3] [4])
           (mkTensor 1 [9] [4]) 3 tt); try reflexivity; try lia; discriminate.
Defined.

Lemma strided_internal_external_diverge_witness :
  snd (_streaming_internal_state (mkTensor 1 [8; 9] [4]) tt
         (example_wrapper STREAM_INTERNAL_STATE_INFERENCE false (Some (fun t _ => t_frames t)) (Some (Plain (mkTensor 1 [1; 2; 3] [4])))))
    = Ok [3; 8; 9] /\
  _streaming_external_state
    (example_wrapper STREAM_INTERNAL_STATE_INFERENCE false (Some (fun t _ => t_frames t)) (Some (Plain (mkTensor 1 [1; 2; 3] [4]))))
    (mkTensor 1 [8; 9] [4]) tt (Some (mkTensor 1 [1; 2; 3] [4]))
    = Ok ([1; 2; 3; 8; 9], mkTensor 1 [3; 8; 9] [4]) /\
  ([8; 9] <> [] -> mkTensor 1 [3; 8; 9] [4] <> mkTensor 1 [1; 2; 3; 8; 9] [4]).
Proof.
  apply (strided_internal_external_diverge _ (fun t _ => t_frames t) (mkTensor 1 [1; 2; 3] [4])
           (mkTensor 1 [8; 9] [4]) 3 tt); try reflexivity; try lia; discriminate.
Defined.

Section MoreStreaming.

Context {F : Type} (F0 : F) {R O : Type}.

(** On an average pooling with stride [s0] and
    kernel [k0] in time, [__init__] sets the ring buffer to [k0] and
    [stride] to [s0]; in a streaming mode it raises [ValueError] unless
    [s0 = k0]. *)
Theorem init_pool_stride_equals_kernel two_d strides ks b md pad sh sw s0 k0 :
  getitem0 strides = Ok s0 -> getitem0 ks = Ok k0 ->
  ((is_non_streaming md = true \/ s0 = k0) ->
   exists w, @__init__ F R O (pool_module two_d strides ks) b md pad sh None sw = Ok w /\
     ring_buffer_size_in_time_dim w = Some k0 /\ stride w = s0) /\
  (is_non_streaming md = false -> s0 <> k0 ->
   @__init__ F R O (pool_module two_d strides ks) b md pad sh None sw = Err ValueError).
Proof.
  intros Hs Hk. split.
  - intros Hc. unfold __init__, pool_module, _initialize_ring_buffer_size_in_time_dim;
      destruct two_d; cbn -[getitem0]; rewrite andb_false_r, Hs; cbn -[getitem0];
      rewrite Hk; cbn -[getitem0];
      (destruct (is_non_streaming md) eqn:Hm;
       [| destruct Hc as [Hc|Hc]; [discriminate|subst; rewrite Z.eqb_refl]]);
      (eexists; split; [reflexivity|]); simpl; auto.
  - intros Hm Hne. unfold __init__, pool_module, _initialize_ring_buffer_size_in_time_dim;
      destruct two_d; cbn -[getitem0]; rewrite andb_false_r, Hs; cbn -[getitem0];
      rewrite Hm, Hk; cbn -[getitem0];
      (destruct (Z.eqb_spec s0 k0); [contradiction|reflexivity]).
Qed.

(** The strided ring-buffer size leaves room for exactly
    one stride: a buffer of [max 0 (d0 * (k0 - 1) - (s0 - 1))] frames
    followed by one chunk of [s0] frames is as long as the effective kernel
    [d0 * (k0 - 1) + 1] when that is at least [s0], and is the chunk
    otherwise. *)
Theorem strided_memory_spans_kernel (s0 d0 k0 : Z) (state x : list F) :
  Z.of_nat (length state) = conv_rbs false s0 d0 k0 -> Z.of_nat (length x) = s0 ->
  Z.of_nat (length (fst (strided_step (conv_rbs false s0 d0 k0) state x)))
  = Z.max s0 (conv_rbs true s0 d0 k0).
Proof.
  unfold strided_step, conv_rbs. simpl. intros Hs Hx. rewrite length_app. lia.
Qed.

(** Spec gap.  With a ring-buffer size of [0], the
    external strided step keeps [memory[:, -0:, :]], which is the whole
    memory: the state a caller passes back grows by the input's length on
    every call instead of staying empty. *)
Theorem external_strided_zero_buffer_keeps_all (w : @wrapper F R O) (f : @tensor F -> R -> O)
  (s x : @tensor F) (rest : R) :
  samplewise_inference w = false -> ring_buffer_size_in_time_dim w = Some 0 ->
  t_feat s <> [] -> t_batch x = t_batch s -> t_feat x = t_feat s -> cell w = Some f ->
  let m := mkTensor (t_batch s) (t_frames s ++ t_frames x) (t_feat s) in
  _streaming_external_state w x rest (Some s) = Ok (f m rest, m) /\
  length (t_frames m) = (length (t_frames s) + length (t_frames x))%nat.
Proof.
  intros Hsw Hr Hfeat Hb Hf Hc m. split; [|apply length_app].
  unfold _streaming_external_state. rewrite Hsw. simpl.
  rewrite cat1_same by auto. unfold neg_rbs. rewrite Hr. simpl.
  rewrite slice_time_ok by exact Hfeat. simpl.
  rewrite (call_cell_some w f) by exact Hc.
  rewrite py_slice_from by lia. reflexivity.
Qed.

(** Finding.  Once built in the external-state mode with a
    ring buffer, [forward] raises [TypeError] without touching the object:
    it passes [self.input_state] positionally to [_streaming_external_state],
    whose [state] parameter is keyword-only. *)
Theorem forward_external_ring_buffer_raises (w : @wrapper F R O) (x : @tensor F) (rest : R) :
  built w = true -> mode w = STREAM_EXTERNAL_STATE_INFERENCE ->
  int_truthy (ring_buffer_size_in_time_dim w) = true ->
  forward F0 x rest w = (w, Err TypeError).
Proof.
  intros Hb Hm Hr. unfold forward, st_bind, st_get, st_lift, st_put, st_throw, _build_states.
  rewrite Hb. simpl. rewrite Hm, Hr. reflexivity.
Qed.

End MoreStreaming.

Lemma init_pool_stride_equals_kernel_witness :
  @__init__ Z unit (list Z) (pool_module false (ITuple [2]) (ITuple [3])) 1
    STREAM_INTERNAL_STATE_INFERENCE None None None true = Err ValueError.
Proof.
  apply (proj2 (init_pool_stride_equals_kernel false (ITuple [2]) (ITuple [3]) 1
                  STREAM_INTERNAL_STATE_INFERENCE None None true 2 3 eq_refl eq_refl));
    [reflexivity | lia].
Defined.

Lemma strided_memory_spans_kernel_witness :
  Z.of_nat (length (fst (strided_step (conv_rbs false 2 1 5) [1; 2; 3] [4; 5])))
  = Z.max 2 (conv_rbs true 2 1 5).
Proof. apply strided_memory_spans_kernel; reflexivity. Defined.

Lemma external_strided_zero_buffer_keeps_all_witness :
  _streaming_external_state
    (set_rbs (example_wrapper STREAM_INTERNAL_STATE_INFERENCE false (Some (fun t _ => t_frames t)) None) (Some 0))
    (mkTensor 1 [8; 9] [4]) tt (Some (mkTensor 1 [1; 2] [4]))
  = Ok ([1; 2; 8; 9], mkTensor 1 [1; 2; 8; 9] [4]) /\
  length [1; 2; 8; 9] = (length [1; 2] + length [8; 9])%nat.
Proof.
  apply (external_strided_zero_buffer_keeps_all _ (fun t _ => t_frames t)
           (mkTensor 1 [1; 2] [4]) (mkTensor 1 [8; 9] [4]) tt);
    try reflexivity; discriminate.
Defined.

Lemma forward_external_ring_buffer_raises_witness :
  forward 0 (mkTensor 1 [9] [4]) tt
    (set_io_state (example_wrapper STREAM_EXTERNAL_STATE_INFERENCE true None None) (Some None) (Some None))
  = (set_io_state (example_wrapper STREAM_EXTERNAL_STATE_INFERENCE true None None) (Some None) (Some None),
     Err TypeError).
Proof.
  apply forward_external_ring_buffer_raises; reflexivity.
Defined.

End StreamWrapper.
