(* ===== verification/PunctNmt.v ===== *)
(** * PunctNmt: segmenting queries and voting on overlapping labels

    Models the functions of
    [src/examples/nlp/machine_translation/punctuation_infer/
    punctuate_capitalize_nmt.py] that do not call the model or the file
    system.  Python dicts used as vote counters keep their insertion order
    and are association lists ([counter]); lists of dicts updated in place
    are lists updated with [py_setitem] (each dict is created on its own,
    so no two positions share one).

    Loops: the [while] of [split_into_segments] does not terminate when
    [step <= 0], so it runs on fuel and returns [None] when the fuel is
    spent.  The [while] loops of [adjust_predicted_labels_length] and
    [get_label_votes] always stop, at the latest with an [IndexError] when
    their index leaves the list; they recurse on the number of indices left
    before that error, which is exact, not fuel. *)

From Stdlib Require Import String Ascii QArith Lqa Sorted.
From S2P Require Import Prelude PyStr.

Module PunctNmt.
Import PyStr.
Local Open Scope Z_scope.

(** ** [split_into_segments] (lines 163-173) *)

Record segs := mkSegs {
  segments : list string;
  query_indices : list Z;
  start_word_i : list Z
}.

Definition segs_empty : segs := mkSegs [] [] [].

(** One pass of the inner loop body. *)
Definition add_segment (acc : segs) (words : list string) (L q_i start : Z) : segs :=
  mkSegs (segments acc ++ [py_join " " (py_slice words (Some start) (Some (start + L)))])
         (query_indices acc ++ [q_i]) (start_word_i acc ++ [start]).

(** [while segment_start + max_seq_length < len(words)]: the new
    [segment_start] and the segments so far; [None] when the fuel runs out. *)
Fixpoint segment_loop (fuel : nat) (words : list string) (L step q_i start : Z) (acc : segs)
  : option (Z * segs) :=
  match fuel with
  | O => None
  | S f =>
    if start + L <? Z.of_nat (length words)
    then segment_loop f words L step q_i (start + step) (add_segment acc words L q_i start)
    else Some (start, acc)
  end.

(** [for q_i, query in enumerate(texts)]; [segment_start] is set once
    before the loop. *)
Fixpoint split_loop (fuel : nat) (texts : list string) (L step q_i start : Z) (acc : segs)
  : option segs :=
  match texts with
  | [] => Some acc
  | query :: texts' =>
    match segment_loop fuel (py_split query) L step q_i start acc with
    | Some (start', acc') => split_loop fuel texts' L step (q_i + 1) start' acc'
    | None => None
    end
  end.

Definition split_into_segments (fuel : nat) (texts : list string) (max_seq_length step : Z)
  : option segs :=
  split_loop fuel texts max_seq_length step 0 0 segs_empty.


(** ** Bounds used by the statements *)

(** Enough fuel for every query: one more than the longest query's word
    count minus the segment length. *)
Definition fuel_bound (texts : list string) (L : Z) : nat :=
  S (Z.to_nat (Z.of_nat (list_max (map (fun t => length (py_split t)) texts)) - L)).


(** What a list of segments should be: the three lists are aligned, and
    segment [i] is the run of [max_seq_length] words of query
    [query_indices[i]] from word [start_word_i[i]] on, which ends before
    the query's last word. *)
Definition segs_ok (texts : list string) (L : Z) (acc : segs) : Prop :=
  length (query_indices acc) = length (segments acc) /\
  length (start_word_i acc) = length (segments acc) /\
  forall i seg q st,
    nth_error (segments acc) i = Some seg -> nth_error (query_indices acc) i = Some q ->
    nth_error (start_word_i acc) i = Some st ->
    exists query, nth_error texts (Z.to_nat q) = Some query /\ 0 <= q /\ 0 <= st /\
      st + L < Z.of_nat (length (py_split query)) /\
      py_split seg = firstn (Z.to_nat L) (skipn (Z.to_nat st) (py_split query)).


(** Strictly increasing. *)
Definition increasing (l : list Z) : Prop :=
  forall i j a b, (i < j)%nat -> nth_error l i = Some a -> nth_error l j = Some b -> a < b.


(** Non-decreasing, as the [query_indices] of [split_into_segments]. *)
Definition sorted_le (l : list Z) : Prop :=
  forall i j a b, (i <= j)%nat -> nth_error l i = Some a -> nth_error l j = Some b -> a <= b.


(** The same, as a test on adjacent elements. *)
Fixpoint sorted_leb (l : list Z) : bool :=
  match l with
  | x :: (y :: _) as l' => (x <=? y) && sorted_leb l'
  | _ => true
  end.

(** ** Python strings as sequences of characters *)

Definition str_index (s : string) (i : Z) : res ascii := py_index (list_ascii_of_string s) i.

Definition str_slice (s : string) (a b : option Z) : string :=
  string_of_list_ascii (py_slice (list_ascii_of_string s) a b).

Fixpoint str_repeat (s : string) (n : nat) : string :=
  match n with O => "" | S n' => s ++ str_repeat s n' end.

(** ** [adjust_predicted_labels_length] (lines 176-196) *)

(** [while i > num_words: ...; pos -= 1]; [n] is the number of indices
    [pos] can still take before [labels[pos]] raises. *)
Fixpoint trim_loop (n : nat) (labels cap : string) (i num_words pos : Z) : res Z :=
  if num_words <? i then
    match n with
    | O => Err IndexError
    | S n' =>
      let? ch := str_index labels pos in
      trim_loop n' labels cap (if char_in ch cap then i - 1 else i) num_words (pos - 1)
    end
  else Ok pos.

Definition adjust_one (cap segment labels : string) : res string :=
  let num_words := Z.of_nat (length (py_split segment)) in
  let num_word_labels := Z.of_nat (count_class cap segment) in
  if num_word_labels <? num_words then
    let? last := str_index labels (-1) in
    if negb (Ascii.eqb last " ") then
      let? c0 := str_index cap 0 in
      Ok (labels ++ " " ++ str_repeat (String c0 " ") (Z.to_nat (num_words - num_word_labels)))
    else Ok labels
  else if num_words <? num_word_labels then
    let len := Z.of_nat (String.length labels) in
    let? pos := trim_loop (Z.to_nat (2 * len)) labels cap num_word_labels num_words (len - 1) in
    Ok (str_slice labels None (Some (pos + 1)))
  else Ok labels.

Fixpoint adjust_predicted_labels_length (segments labels : list string) (cap : string)
  : res (list string) :=
  match segments, labels with
  | seg :: segs', lbl :: lbls' =>
    let? l := adjust_one cap seg lbl in
    let? rest := adjust_predicted_labels_length segs' lbls' cap in
    Ok (l :: rest)
  | _, _ => Ok []
  end.

(** ** Vote counters *)

(** A [Dict[str, List[int]]] of [[count, score]], in insertion order. *)
Definition counter := list (string * (Z * Z)).

Fixpoint counter_get (c : counter) (k : string) : option (Z * Z) :=
  match c with
  | [] => None
  | (k', v) :: c' => if String.eqb k k' then Some v else counter_get c' k
  end.

Fixpoint counter_set (c : counter) (k : string) (v : Z * Z) : counter :=
  match c with
  | [] => [(k, v)]
  | (k', v') :: c' => if String.eqb k k' then (k', v) :: c' else (k', v') :: counter_set c' k v
  end.

(** [update_label_counter] (lines 199-206). *)
Definition update_label_counter (c : counter) (lbl : string) (num_words_in_segment word_ind_in_segment : Z)
  : counter :=
  let score := Z.min (word_ind_in_segment + 1) (num_words_in_segment - word_ind_in_segment - 1) in
  match counter_get c lbl with
  | Some (cnt, sc) => counter_set c lbl (cnt + 1, sc + score)
  | None => counter_set c lbl (1, score)
  end.

(** ** [select_best_label] (lines 253-256) *)

(** Python's [sorted] is stable: an element goes after every element
    already placed whose key is not greater. *)
Fixpoint insert_by {A} (key : A -> Q) (x : A) (l : list A) : list A :=
  match l with
  | [] => [x]
  | y :: l' => if negb (Qle_bool (key y) (key x)) then x :: l else y :: insert_by key x l'
  end.

Definition sort_by {A} (key : A -> Q) (l : list A) : list A :=
  fold_left (fun acc x => insert_by key x acc) l [].

(** [-x[1][1] / x[1][0]] (a float in Python, exact here). *)
Definition key_avg (v : string * (Z * Z)) : Q :=
  Qopp (inject_Z (snd (snd v)) / inject_Z (fst (snd v))).

(** [-x[1][0]]. *)
Definition key_count (v : string * (Z * Z)) : Q := inject_Z (- fst (snd v)).

Definition select_best_label (votes : counter) : res string :=
  if existsb (fun v => fst (snd v) =? 0) votes then Err ZeroDivisionError
  else match sort_by key_count (sort_by key_avg votes) with
       | [] => Err IndexError
       | v :: _ => Ok (fst v)
       end.

(** The specification of [select_best_label]: the first element of a list
    that no later element strictly [lt]-precedes. *)
Fixpoint first_best {A} (lt : A -> A -> bool) (l : list A) : option A :=
  match l with
  | [] => None
  | x :: l' =>
    match first_best lt l' with
    | Some m => if lt m x then Some m else Some x
    | None => Some x
    end
  end.

Definition key_lt {A} (k : A -> Q) (a b : A) : bool := negb (Qle_bool (k b) (k a)).

(** The order of [sorted(sorted(l, key=k1), key=k2)]: by [k2], ties by [k1]. *)
Definition lex_lt {A} (k2 k1 : A -> Q) (a b : A) : bool :=
  key_lt k2 a b || (Qeq_bool (k2 a) (k2 b) && key_lt k1 a b).

(** The average score of a label: its score sum over its vote count. *)
Definition vote_avg (v : string * (Z * Z)) : Q :=
  inject_Z (snd (snd v)) / inject_Z (fst (snd v)).

(** [m] beats [v]: more votes, or as many and a higher average score. *)
Definition beats (m v : string * (Z * Z)) : bool :=
  (fst (snd v) <? fst (snd m)) ||
  ((fst (snd m) =? fst (snd v)) && negb (Qle_bool (vote_avg m) (vote_avg v))).

Definition best_label (votes : counter) : res string :=
  if existsb (fun v => fst (snd v) =? 0) votes then Err ZeroDivisionError
  else match first_best beats votes with
       | None => Err IndexError
       | Some v => Ok (fst v)
       end.

(** ** [get_label_votes] (lines 209-250) *)

Record vote_state := mkVotes {
  punctuation_voting : list counter;
  capitalization_voting : list counter
}.

(** [voting[query_word_i]] updated in place. *)
Definition vote_at (voting : list counter) (i : Z) (lbl : string) (nwis wis : Z)
  : res (list counter) :=
  let? c := py_index voting i in
  py_setitem voting i (update_label_counter c lbl nwis wis).

(** The [for lbl_i, lbl in enumerate(labels)] loop: [n] is
    [num_processed_words_in_segment]; [break] returns the votes so far. *)
Fixpoint labels_loop (labels : list string) (lbl_i : Z) (cap : string)
  (segment_id_in_query current_segment_i step margin num_words_in_segment : Z)
  (the_last_segment : bool) (n : Z) (st : vote_state) : res vote_state :=
  match labels with
  | [] => Ok st
  | lbl :: labels' =>
    let n := if py_contains cap lbl then n + 1 else n in
    let continue st := labels_loop labels' (lbl_i + 1) cap segment_id_in_query
                         current_segment_i step margin num_words_in_segment
                         the_last_segment n st in
    if (0 <? segment_id_in_query) && (n <=? margin) && negb (margin =? 0) then continue st
    else if negb the_last_segment && (num_words_in_segment - margin <? n) then Ok st
    else
      let query_word_i := step * current_segment_i + n - 1 in
      if negb (lbl_i mod 2 =? 0) then
        if negb (py_contains cap lbl) then Err AssertionError else
        let? cv := vote_at (capitalization_voting st) query_word_i lbl num_words_in_segment (n - 1) in
        continue (mkVotes (punctuation_voting st) cv)
      else
        if py_contains cap lbl then Err AssertionError else
        let? pv := vote_at (punctuation_voting st) query_word_i lbl num_words_in_segment (n - 1) in
        continue (mkVotes pv (capitalization_voting st))
  end.

(** [while query_indices[current_segment_i] == q_i]: [k] is the number of
    indices left before [query_indices[current_segment_i]] raises. *)
Fixpoint votes_while (k : nat) (num_words q_i : Z) (seg_labels : list string)
  (query_indices : list Z) (step margin : Z) (cap : string)
  (segment_id_in_query current_segment_i : Z) (st : vote_state) : res (vote_state * Z) :=
  match k with
  | O => Err IndexError
  | S k' =>
    let? qc := py_index query_indices current_segment_i in
    if negb (qc =? q_i) then Ok (st, current_segment_i) else
    let? seg := py_index seg_labels current_segment_i in
    let num_words_in_segment := Z.of_nat (count_class cap seg) in
    let the_last_segment := num_words <=? segment_id_in_query * step + num_words_in_segment in
    let? labels := py_split_sep cap seg in
    let? st := labels_loop labels 0 cap segment_id_in_query current_segment_i step margin
                 num_words_in_segment the_last_segment 0 st in
    votes_while k' num_words q_i seg_labels query_indices step margin cap
      (segment_id_in_query + 1) (current_segment_i + 1) st
  end.

Definition get_label_votes (query : string) (q_i current_segment_i : Z)
  (segment_autoregressive_labels : list string) (query_indices : list Z)
  (step margin : Z) (cap : string) : res (vote_state * Z) :=
  let num_words := length (py_split query) in
  let st := mkVotes (repeat [] (S num_words)) (repeat [] num_words) in
  votes_while (S (Z.to_nat (Z.of_nat (length query_indices) - current_segment_i)))
    (Z.of_nat num_words) q_i segment_autoregressive_labels query_indices step margin cap
    0 current_segment_i st.

(** ** [apply_autoregressive_labels] (lines 259-311) *)

(** The word with its capitalization label applied, or [ValueError]. *)
Definition capitalize_word (no_all_upper_label : bool) (lbl word : string) : res string :=
  if no_all_upper_label then
    if String.eqb lbl "U" then Ok (py_capitalize word)
    else if String.eqb lbl "O" then Ok word
    else Err ValueError
  else
    if String.eqb lbl "U" then Ok (py_upper word)
    else if String.eqb lbl "u" then Ok (py_capitalize word)
    else if String.eqb lbl "O" then Ok word
    else Err ValueError.

(** The inner [for i, (word, cv, pv) in enumerate(zip(...))] loop, with the
    processed query and the united labels so far. *)
Fixpoint words_loop (no_all_upper_label : bool) (words : list string)
  (cv pv : list counter) (processed united : string) : res (string * string) :=
  match words, cv, pv with
  | word :: words', c :: cv', p :: pv' =>
    let? capitalization_label := select_best_label c in
    let? punctuation_label := select_best_label c in
    let? w := capitalize_word no_all_upper_label capitalization_label word in
    words_loop no_all_upper_label words' cv' pv'
      (processed ++ w ++ punctuation_label)
      (united ++ capitalization_label ++ punctuation_label)
  | _, _, _ => Ok (processed, united)
  end.

Fixpoint queries_loop (queries : list string) (q_i : Z) (seg_labels : list string)
  (query_indices : list Z) (step margin : Z) (cap : string) (no_all_upper_label : bool)
  (current_segment_i : Z) : res (list string * list string) :=
  match queries with
  | [] => Ok ([], [])
  | query :: queries' =>
    let? r := get_label_votes query q_i current_segment_i seg_labels query_indices step margin cap in
    let '(st, current_segment_i) := r in
    let words := py_split query in
    let? p0 := py_index (punctuation_voting st) 0 in
    let? lead := select_best_label p0 in
    let? pu := words_loop no_all_upper_label words (capitalization_voting st)
                 (punctuation_voting st) lead lead in
    let? rest := queries_loop queries' (q_i + 1) seg_labels query_indices step margin cap
                   no_all_upper_label current_segment_i in
    Ok (fst pu :: fst rest, snd pu :: snd rest)
  end.

Definition apply_autoregressive_labels (queries segment_autoregressive_labels : list string)
  (query_indices start_word_i : list Z) (step margin : Z) (capitalization_labels : string)
  (no_all_upper_label : bool) : res (list string * list string) :=
  queries_loop queries 0 segment_autoregressive_labels query_indices step margin
    capitalization_labels no_all_upper_label 0.

(** ** Termination of [split_into_segments] *)

Section SegmentLoop.

Variables (words : list string) (L step q_i : Z).
Hypothesis Hstep : 1 <= step.

Lemma segment_loop_enough (fuel : nat) (start : Z) (acc : segs) :
  (Z.to_nat (Z.of_nat (length words) - L - start) < fuel)%nat ->
  exists r, segment_loop fuel words L step q_i start acc = Some r /\
    forall fuel', (Z.to_nat (Z.of_nat (length words) - L - start) < fuel')%nat ->
      segment_loop fuel' words L step q_i start acc = Some r.
Proof.
  revert start acc. induction fuel as [|f IH]; intros start acc Hf; [lia|].
  simpl. destruct (Z.ltb_spec (start + L) (Z.of_nat (length words))) as [Hlt|Hge].
  - destruct (IH (start + step) (add_segment acc words L q_i start)) as [r [Hr Hall]]; [lia|].
    exists r. split; [exact Hr|].
    intros [|f'] Hf'; [lia|]. simpl.
    destruct (Z.ltb_spec (start + L) (Z.of_nat (length words))); [|lia].
    apply Hall. lia.
  - exists (start, acc). split; [reflexivity|].
    intros [|f'] Hf'; [lia|]. simpl.
    destruct (Z.ltb_spec (start + L) (Z.of_nat (length words))); [lia|reflexivity].
Qed.

Lemma segment_loop_start (fuel : nat) (start start' : Z) (acc acc' : segs) :
  segment_loop fuel words L step q_i start acc = Some (start', acc') -> start <= start'.
Proof.
  revert start acc. induction fuel as [|f IH]; intros start acc H; simpl in H; [discriminate|].
  destruct (start + L <? Z.of_nat (length words)).
  - apply IH in H. lia.
  - injection H as <- <-. lia.
Qed.

End SegmentLoop.

Lemma list_max_in (l : list nat) (x : nat) : In x l -> (x <= list_max l)%nat.
Proof.
  intros H. pose proof (proj1 (list_max_le l (list_max l)) (Nat.le_refl _)) as Hall.
  rewrite Forall_forall in Hall. auto.
Qed.

Lemma split_loop_enough (texts all : list string) (L step q_i start : Z) (acc : segs) :
  1 <= step -> 0 <= start -> incl texts all ->
  exists r, forall fuel, (fuel_bound all L <= fuel)%nat ->
    split_loop fuel texts L step q_i start acc = Some r.
Proof.
  intros Hs. revert q_i start acc. induction texts as [|t ts IH]; intros q_i start acc Hst Hinc.
  - exists acc. intros. reflexivity.
  - assert (Hlen : (length (py_split t) <= list_max (map (fun t => length (py_split t)) all))%nat).
    { apply list_max_in, (in_map (fun t => length (py_split t))), Hinc. now left. }
    destruct (segment_loop_enough (py_split t) L step q_i Hs (fuel_bound all L) start acc)
      as [[start' acc'] [H1 Hall]]; [unfold fuel_bound; lia|].
    pose proof H1 as Hle. apply segment_loop_start in Hle; [|exact Hs].
    destruct (IH (q_i + 1) start' acc') as [r Hr]; [lia | intros x Hx; apply Hinc; now right|].
    exists r. intros fuel Hf. simpl. rewrite Hall by (unfold fuel_bound in Hf; lia).
    apply Hr, Hf.
Qed.

(** C14 (termination).  With [step >= 1], [split_into_segments] returns,
    and returns the same segments for every fuel of at least one more than
    the longest query's word count minus [max_seq_length]. *)
Theorem split_into_segments_terminates (texts : list string) (L step : Z) :
  1 <= step ->
  exists r, forall fuel, (fuel_bound texts L <= fuel)%nat ->
    split_into_segments fuel texts L step = Some r.
Proof.
  intros Hs. apply split_loop_enough; [exact Hs | lia | apply incl_refl].
Qed.

(** With [step <= 0] and a query longer than [max_seq_length] words, the
    inner [while] started at [segment_start <= 0] never ends. *)
Lemma segment_loop_nonpos_step (words : list string) (L step q : Z) :
  step <= 0 -> L < Z.of_nat (length words) ->
  forall f start acc, start <= 0 -> segment_loop f words L step q start acc = None.
Proof.
  intros Hs HL. induction f as [|f IH]; intros start acc Hst; [reflexivity|]. simpl.
  destruct (Z.ltb_spec (start + L) (Z.of_nat (length words))); [|lia].
  apply IH. lia.
Qed.

(** C15 (termination, divergence).  With [step <= 0], as soon as the first
    query has more than [max_seq_length] words the inner [while] never
    ends: no fuel is enough. *)
Theorem split_into_segments_diverges (t : string) (ts : list string) (L step : Z) :
  step <= 0 -> L < Z.of_nat (length (py_split t)) ->
  forall fuel, split_into_segments fuel (t :: ts) L step = None.
Proof.
  intros Hs HL fuel. unfold split_into_segments. simpl.
  now rewrite segment_loop_nonpos_step by lia.
Qed.

(** ** The segments *)

Lemma add_segment_ok (texts : list string) (L q st : Z) (query : string) (acc : segs) :
  segs_ok texts L acc -> nth_error texts (Z.to_nat q) = Some query -> 0 <= q -> 0 <= st ->
  0 <= L -> st + L < Z.of_nat (length (py_split query)) ->
  segs_ok texts L (add_segment acc (py_split query) L q st).
Proof.
  intros [Hl1 [Hl2 Hall]] Hq Hq0 Hst HL Hlt.
  unfold add_segment, segs_ok; simpl. rewrite !length_app, Hl1, Hl2. repeat split.
  intros i seg q' st'. rewrite !nth_error_snoc, Hl1, Hl2.
  destruct (Nat.ltb_spec i (length (segments acc))); [apply Hall|].
  destruct (Nat.eqb_spec i (length (segments acc))); [|discriminate].
  intros [= <-] [= <-] [= <-]. exists query. repeat split; auto.
  rewrite py_slice_range by lia. rewrite py_split_join.
  - f_equal. lia.
  - apply forallb_firstn, forallb_skipn, py_split_words.
Qed.

Lemma segment_loop_ok (texts : list string) (query : string) (L step q : Z) :
  nth_error texts (Z.to_nat q) = Some query -> 0 <= q -> 0 <= L -> 0 <= step ->
  forall fuel start acc start' acc',
    segs_ok texts L acc -> 0 <= start ->
    segment_loop fuel (py_split query) L step q start acc = Some (start', acc') ->
    segs_ok texts L acc' /\ start <= start'.
Proof.
  intros Hq Hq0 HL Hs fuel. induction fuel as [|f IH]; intros start acc start' acc' Hok Hst H;
    simpl in H; [discriminate|].
  destruct (Z.ltb_spec (start + L) (Z.of_nat (length (py_split query)))).
  - assert (Hok' : segs_ok texts L (add_segment acc (py_split query) L q start))
      by (apply add_segment_ok; auto).
    assert (Hst' : 0 <= start + step) by lia.
    destruct (IH _ _ _ _ Hok' Hst' H) as [Hr Hle]. split; [exact Hr|lia].
  - injection H as <- <-. split; [assumption|lia].
Qed.

Lemma split_loop_ok (texts : list string) (L step : Z) :
  0 <= L -> 0 <= step ->
  forall fuel rest prefix start acc r,
    texts = (prefix ++ rest)%list -> segs_ok texts L acc -> 0 <= start ->
    split_loop fuel rest L step (Z.of_nat (length prefix)) start acc = Some r ->
    segs_ok texts L r.
Proof.
  intros HL Hs fuel rest. induction rest as [|t ts IH]; intros prefix start acc r Ht Hok Hst H;
    simpl in H; [now injection H as <-|].
  destruct (segment_loop fuel (py_split t) L step (Z.of_nat (length prefix)) start acc)
    as [[start' acc']|] eqn:Hseg; [|discriminate].
  assert (Hq : nth_error texts (Z.to_nat (Z.of_nat (length prefix))) = Some t)
    by (rewrite Nat2Z.id, Ht, nth_error_app2, Nat.sub_diag by lia; reflexivity).
  assert (Hp : 0 <= Z.of_nat (length prefix)) by lia.
  destruct (segment_loop_ok texts t L step _ Hq Hp HL Hs fuel start acc start' acc' Hok Hst Hseg)
    as [Hok' Hle].
  apply (IH (prefix ++ [t])%list start' acc' r); auto.
  - now rewrite <- app_assoc.
  - lia.
  - rewrite length_app. simpl. now rewrite Nat2Z.inj_add.
Qed.

(** C16 (functional).  With [max_seq_length >= 0] and [step >= 0], the
    three lists [split_into_segments] returns are aligned, and segment [i]
    splits into exactly the [max_seq_length] words of query
    [query_indices[i]] that start at word [start_word_i[i]]; that run ends
    before the query's last word, so the last word of a query is in no
    segment and a query of at most [max_seq_length] words has none. *)
Theorem split_into_segments_segments (fuel : nat) (texts : list string) (L step : Z) (r : segs) :
  0 <= L -> 0 <= step -> split_into_segments fuel texts L step = Some r -> segs_ok texts L r.
Proof.
  intros HL Hs H. unfold split_into_segments in H.
  apply (split_loop_ok texts L step HL Hs fuel texts [] 0 segs_empty r); auto; [|lia].
  unfold segs_ok. simpl. repeat split. intros [|i]; discriminate.
Qed.

Lemma increasing_snoc (l : list Z) (x : Z) :
  increasing l -> Forall (fun a => a < x) l -> increasing (l ++ [x]).
Proof.
  intros Hi Hf i j a b Hij. rewrite !nth_error_snoc.
  destruct (Nat.ltb_spec i (length l)); [|destruct (Nat.eqb_spec i (length l)); [|discriminate]].
  - destruct (Nat.ltb_spec j (length l)); [now apply Hi|].
    destruct (Nat.eqb_spec j (length l)); [|discriminate].
    intros Ha [= <-]. rewrite Forall_forall in Hf. apply Hf. eapply nth_error_In; eauto.
  - destruct (Nat.ltb_spec j (length l)); [lia|].
    destruct (Nat.eqb_spec j (length l)); [lia|discriminate].
Qed.

Lemma segment_loop_increasing (words : list string) (L step q : Z) :
  1 <= step -> forall fuel start acc start' acc',
    increasing (start_word_i acc) -> Forall (fun a => a < start) (start_word_i acc) ->
    segment_loop fuel words L step q start acc = Some (start', acc') ->
    increasing (start_word_i acc') /\ Forall (fun a => a < start') (start_word_i acc') /\
    start <= start'.
Proof.
  intros Hs fuel. induction fuel as [|f IH]; intros start acc start' acc' Hi Hf H;
    simpl in H; [discriminate|].
  destruct (start + L <? Z.of_nat (length words)).
  - assert (Hi' : increasing (start_word_i (add_segment acc words L q start)))
      by (apply increasing_snoc; auto).
    assert (Hf' : Forall (fun a => a < start + step) (start_word_i (add_segment acc words L q start))).
    { simpl. apply Forall_app. split; [|constructor; [lia|constructor]].
      eapply Forall_impl; [|exact Hf]. simpl. intros. lia. }
    destruct (IH _ _ _ _ Hi' Hf' H) as [Ha [Hb Hc]]. repeat split; auto. lia.
  - injection H as <- <-. auto with zarith.
Qed.

(** C17 (invariant, finding).  With [step >= 1] the start indices of all
    segments, over all queries, strictly increase: [segment_start] is not
    reset for a new query, so after a query that had segments the next
    query's segments start where the previous one stopped, never at its
    first word. *)
Theorem split_into_segments_start_increasing (fuel : nat) (texts : list string) (L step : Z)
  (r : segs) :
  1 <= step -> split_into_segments fuel texts L step = Some r -> increasing (start_word_i r).
Proof.
  intros Hs. unfold split_into_segments.
  assert (H : forall ts q start acc, increasing (start_word_i acc) ->
            Forall (fun a => a < start) (start_word_i acc) ->
            split_loop fuel ts L step q start acc = Some r -> increasing (start_word_i r)).
  { induction ts as [|t ts IH]; intros q start acc Hi Hf H; simpl in H.
    - now injection H as <-.
    - destruct (segment_loop fuel (py_split t) L step q start acc) as [[st' acc']|] eqn:E;
        [|discriminate].
      destruct (segment_loop_increasing _ _ _ _ Hs _ _ _ _ _ Hi Hf E) as [Hi' [Hf' _]].
      eapply IH; eauto. }
  intros Hr. eapply H; [| |exact Hr].
  - intros [|i] j a b _ Hn; discriminate.
  - constructor.
Qed.

Lemma split_into_segments_terminates_witness :
  exists r, forall fuel, (fuel_bound ["a b c d"; "e f g h"] 2 <= fuel)%nat ->
    split_into_segments fuel ["a b c d"; "e f g h"] 2 1 = Some r.
Proof. apply split_into_segments_terminates. lia. Defined.

Lemma split_into_segments_diverges_witness :
  0 <= 0 /\ 1 < Z.of_nat (length (py_split "a b c")) /\
  split_into_segments 1000 ["a b c"] 1 0 = None.
Proof.
  split; [lia|]. split; [reflexivity|].
  apply split_into_segments_diverges; [lia | reflexivity].
Defined.

Lemma split_into_segments_segments_witness :
  exists r, split_into_segments 10 ["a b c d"; "e f g h"] 2 1 = Some r /\
    segs_ok ["a b c d"; "e f g h"] 2 r.
Proof.
  eexists. split; [reflexivity|].
  apply (split_into_segments_segments 10 _ 2 1); [lia | lia | reflexivity].
Defined.

(** Two queries of four words, segments of two words, step one: the second
    query gets no segment, because the start carried over is 2. *)
Lemma split_into_segments_start_increasing_witness :
  split_into_segments 10 ["a b c d"; "e f g h"] 2 1
    = Some (mkSegs ["a b"; "b c"] [0; 0] [0; 1]) /\
  increasing [0; 1].
Proof.
  split; [reflexivity|].
  apply (split_into_segments_start_increasing 10 ["a b c d"; "e f g h"] 2 1
           (mkSegs ["a b"; "b c"] [0; 0] [0; 1])); [lia | reflexivity].
Defined.

(** ** The vote walk of [apply_autoregressive_labels] *)

Section VoteWalk.

Variables (num_words q_i : Z) (seg_labels : list string) (qi : list Z) (step margin : Z)
  (cap : string).

(** A normal return of the [while] loop stops at an index holding another
    query, after indices that all held [q_i]. *)
Lemma votes_while_ok (k : nat) (sid cur : Z) (st st' : vote_state) (cur' : Z) :
  0 <= cur ->
  votes_while k num_words q_i seg_labels qi step margin cap sid cur st = Ok (st', cur') ->
  cur <= cur' /\ nth_error qi (Z.to_nat cur') <> None /\ nth_error qi (Z.to_nat cur') <> Some q_i.
Proof.
  revert sid cur st. induction k as [|k IH]; intros sid cur st Hc H; simpl in H; [discriminate|].
  rewrite py_index_nonneg in H by exact Hc.
  destruct (nth_error qi (Z.to_nat cur)) as [qc|] eqn:Hq; simpl in H; [|discriminate].
  destruct (Z.eqb_spec qc q_i) as [->|Hne]; simpl in H.
  - apply res_bind_Ok_inv in H as [seg [_ H]].
    apply res_bind_Ok_inv in H as [labels [_ H]].
    apply res_bind_Ok_inv in H as [st1 [_ H]].
    apply IH in H as [H1 H2]; [|lia]. split; [lia|exact H2].
  - injection H as <- <-. rewrite Hq. split; [lia|split; congruence].
Qed.

(** When every index from [cur] on holds [q_i], the loop never returns
    normally: it ends on [query_indices[len]]. *)
Lemma votes_while_all_eq (k : nat) (sid cur : Z) (st : vote_state) :
  0 <= cur ->
  (forall j x, cur <= Z.of_nat j -> nth_error qi j = Some x -> x = q_i) ->
  is_ok (votes_while k num_words q_i seg_labels qi step margin cap sid cur st) = false.
Proof.
  revert sid cur st. induction k as [|k IH]; intros sid cur st Hc Hall; [reflexivity|].
  simpl. rewrite py_index_nonneg by exact Hc.
  destruct (nth_error qi (Z.to_nat cur)) as [qc|] eqn:Hq; [|reflexivity].
  cbn [res_bind]. rewrite (Hall _ _ (ltac:(lia) : cur <= Z.of_nat (Z.to_nat cur)) Hq), Z.eqb_refl.
  cbn [negb].
  apply is_ok_bind; intros seg _. apply is_ok_bind; intros labels _.
  apply is_ok_bind; intros st1 _.
  apply IH; [lia|]. intros j x Hj. apply Hall. lia.
Qed.

End VoteWalk.

Lemma queries_loop_never_ok (qi : list Z) (seg_labels : list string) (step margin : Z)
  (cap : string) (nau : bool) :
  sorted_le qi ->
  forall queries q cur,
    queries <> [] -> 0 <= cur ->
    (forall j x, nth_error qi j = Some x -> x < q + Z.of_nat (length queries)) ->
    (forall j x, cur <= Z.of_nat j -> nth_error qi j = Some x -> q <= x) ->
    is_ok (queries_loop queries q seg_labels qi step margin cap nau cur) = false.
Proof.
  intros Hsort queries. induction queries as [|query qs IH]; intros q cur Hne Hc Hlt Hge;
    [congruence|].
  simpl. apply is_ok_bind. intros [st cur'] E. unfold get_label_votes in E.
  destruct qs as [|query' qs'].
  - apply (f_equal is_ok) in E.
    rewrite votes_while_all_eq in E; [discriminate | exact Hc |].
    intros j x Hj Hx. specialize (Hlt j x Hx). specialize (Hge j x Hj Hx). simpl in Hlt. lia.
  - destruct (votes_while_ok _ _ _ _ _ _ _ _ _ _ _ _ _ Hc E) as [Hle [Hin Hnq]].
    destruct (nth_error qi (Z.to_nat cur')) as [x'|] eqn:Hx'; [|congruence].
    assert (Hx'q : q < x').
    { assert (q <= x') by (apply (Hge (Z.to_nat cur')); [lia|exact Hx']).
      assert (x' <> q) by congruence. lia. }
    apply is_ok_bind; intros p0 _. apply is_ok_bind; intros lead _.
    apply is_ok_bind; intros pu _. apply is_ok_bind; intros rest Er.
    assert (Hno : is_ok (queries_loop (query' :: qs') (q + 1) seg_labels qi step margin cap nau cur')
                  = false).
    { apply IH; [discriminate | lia | |].
      - intros j x Hx. specialize (Hlt j x Hx). simpl in *. lia.
      - intros j x Hj Hx. assert (x' <= x) by (apply (Hsort (Z.to_nat cur') j); auto; lia). lia. }
    rewrite Er in Hno. discriminate.
Qed.

Lemma sorted_leb_head (x : Z) (l : list Z) (j : nat) (b : Z) :
  sorted_leb (x :: l) = true -> nth_error (x :: l) j = Some b -> x <= b.
Proof.
  revert x j. induction l as [|y l IH]; intros x j Hs Hj.
  - destruct j as [|[|j]]; simpl in Hj; try discriminate. injection Hj as <-. lia.
  - simpl in Hs. apply andb_true_iff in Hs as [Hxy Hs]. apply Z.leb_le in Hxy.
    destruct j as [|j]; simpl in Hj; [injection Hj as <-; lia|].
    specialize (IH y j Hs Hj). lia.
Qed.

Lemma sorted_leb_sorted (l : list Z) : sorted_leb l = true -> sorted_le l.
Proof.
  induction l as [|x l IH]; intros Hs i j a b Hij Ha Hb.
  - destruct i; discriminate.
  - destruct i as [|i].
    + injection Ha as <-. eapply sorted_leb_head; eauto.
    + destruct j as [|j]; [lia|]. simpl in Ha, Hb.
      assert (Hs' : sorted_leb l = true) by (destruct l; simpl in *; [reflexivity|]; apply andb_true_iff in Hs; tauto).
      apply (IH Hs' i j); auto. lia.
Qed.

(** C18 (error, finding).  For every non-empty list of queries and every
    [query_indices] that [split_into_segments] can produce (non-decreasing,
    each an index of a query), [apply_autoregressive_labels] never returns:
    on the last query the [while] of [get_label_votes] reads past the end
    of [query_indices], if nothing raised earlier. *)
Theorem apply_autoregressive_labels_never_returns (queries seg_labels : list string)
  (qi swi : list Z) (step margin : Z) (cap : string) (nau : bool) :
  queries <> [] -> sorted_leb qi = true ->
  forallb (fun q => (0 <=? q) && (q <? Z.of_nat (length queries))) qi = true ->
  is_ok (apply_autoregressive_labels queries seg_labels qi swi step margin cap nau) = false.
Proof.
  intros Hne Hsort Hrange. unfold apply_autoregressive_labels.
  assert (Hr : forall q, In q qi -> 0 <= q < Z.of_nat (length queries)).
  { intros q Hq. rewrite forallb_forall in Hrange. specialize (Hrange q Hq).
    apply andb_true_iff in Hrange as [H1 H2]. lia. }
  apply queries_loop_never_ok; auto using sorted_leb_sorted; [lia | |].
  - intros j x Hx. apply nth_error_In in Hx. apply Hr in Hx. lia.
  - intros j x _ Hx. apply nth_error_In in Hx. apply Hr in Hx. lia.
Qed.

(** One query of three words cut into one segment of two words. *)
Lemma apply_autoregressive_labels_never_returns_witness :
  is_ok (apply_autoregressive_labels ["a b c"] ["Oa Ob"] [0] [0] 1 0 "OuU" false) = false.
Proof.
  apply apply_autoregressive_labels_never_returns; [discriminate | reflexivity | reflexivity].
Defined.

(** ** The label application and the counters *)

(** C19 (functional, finding).  The words loop of
    [apply_autoregressive_labels] reads the capitalization votes for both
    labels of a word ([punctuation_label = select_best_label(cv)]): its
    result does not depend on the punctuation votes at all, beyond their
    number. *)
Theorem words_loop_ignores_punctuation_votes (nau : bool) (words : list string)
  (cv pv1 pv2 : list counter) (processed united : string) :
  length pv1 = length pv2 ->
  words_loop nau words cv pv1 processed united = words_loop nau words cv pv2 processed united.
Proof.
  revert cv pv1 pv2 processed united.
  induction words as [|w ws IH]; intros cv pv1 pv2 processed united Hl; [reflexivity|].
  destruct cv as [|c cv]; [reflexivity|].
  destruct pv1 as [|p1 pv1], pv2 as [|p2 pv2]; try discriminate; [reflexivity|].
  simpl. unfold res_bind.
  destruct (select_best_label c); [|reflexivity].
  destruct (capitalize_word nau a w); [|reflexivity].
  apply IH. simpl in Hl. lia.
Qed.

Lemma words_loop_ignores_punctuation_votes_witness :
  length [[("," , (1, 1))]] = length [[("." , (2, 0))]] /\
  words_loop false ["hi"] [[("U", (1, 1))]] [[("," , (1, 1))]] "" ""
  = words_loop false ["hi"] [[("U", (1, 1))]] [[("." , (2, 0))]] "" "".
Proof. split; [reflexivity|]. apply words_loop_ignores_punctuation_votes. reflexivity. Defined.

Lemma counter_get_set_eq (c : counter) (k : string) (v : Z * Z) :
  counter_get (counter_set c k v) k = Some v.
Proof.
  induction c as [|[k' v'] c IH]; simpl; [now rewrite String.eqb_refl|].
  destruct (String.eqb_spec k k') as [->|Hne]; simpl; [now rewrite String.eqb_refl|].
  apply String.eqb_neq in Hne. now rewrite Hne.
Qed.

Lemma counter_get_set_ne (c : counter) (k k2 : string) (v : Z * Z) :
  k2 <> k -> counter_get (counter_set c k v) k2 = counter_get c k2.
Proof.
  intros Hne. induction c as [|[k' v'] c IH]; simpl.
  - apply String.eqb_neq in Hne. now rewrite Hne.
  - destruct (String.eqb_spec k k') as [->|Hk]; simpl.
    + apply String.eqb_neq in Hne. now rewrite Hne.
    + now rewrite IH.
Qed.

Lemma counter_set_keys (c : counter) (k : string) (v : Z * Z) :
  map fst (counter_set c k v) =
  match counter_get c k with Some _ => map fst c | None => (map fst c ++ [k])%list end.
Proof.
  induction c as [|[k' v'] c IH]; simpl; [reflexivity|].
  destruct (String.eqb_spec k k') as [->|Hk]; simpl; [reflexivity|].
  rewrite IH. now destruct (counter_get c k).
Qed.

(** [update_label_counter] adds one to the label's
    count and [min(i + 1, n - i - 1)] to its score (a new label starts at
    one and that score), leaves every other label alone, and keeps the
    dict's insertion order, appending a new label at the end. *)
Theorem update_label_counter_spec (c : counter) (lbl : string) (n i : Z) :
  let score := Z.min (i + 1) (n - i - 1) in
  counter_get (update_label_counter c lbl n i) lbl
    = Some match counter_get c lbl with
           | Some (cnt, sc) => (cnt + 1, sc + score)
           | None => (1, score)
           end /\
  (forall k, k <> lbl -> counter_get (update_label_counter c lbl n i) k = counter_get c k) /\
  map fst (update_label_counter c lbl n i)
    = match counter_get c lbl with Some _ => map fst c | None => (map fst c ++ [lbl])%list end.
Proof.
  intros score. unfold update_label_counter. fold score.
  destruct (counter_get c lbl) as [[cnt sc]|] eqn:E; repeat split;
    try apply counter_get_set_eq; try (intros; now apply counter_get_set_ne);
    rewrite counter_set_keys, E; reflexivity.
Qed.

(** *** [select_best_label] is the lexicographic arg-max *)

Section FirstBest.
Context {A : Type} (lt : A -> A -> bool).
Hypothesis lt_trans : forall a b c, lt a b = true -> lt b c = true -> lt a c = true.
Hypothesis nlt_trans : forall a b c, lt a b = false -> lt b c = false -> lt a c = false.

(** An element appended at the end replaces the best so far only when it
    strictly precedes it. *)
Lemma first_best_snoc (l : list A) (x : A) :
  first_best lt (l ++ [x])%list =
  Some match first_best lt l with None => x | Some m => if lt x m then x else m end.
Proof.
  induction l as [|y l IH]; simpl; [reflexivity|]. rewrite IH.
  destruct (first_best lt l) as [m|]; [|now destruct (lt x y)].
  destruct (lt x m) eqn:Hxm, (lt m y) eqn:Hmy, (lt x y) eqn:Hxy; simpl;
    rewrite ?Hxm, ?Hmy, ?Hxy; try reflexivity.
  - now rewrite (lt_trans _ _ _ Hxm Hmy) in Hxy.
  - now rewrite (nlt_trans _ _ _ Hxm Hmy) in Hxy.
Qed.

End FirstBest.

Lemma first_best_ext {A} (lt1 lt2 : A -> A -> bool) (l : list A) :
  (forall a b, lt1 a b = lt2 a b) -> first_best lt1 l = first_best lt2 l.
Proof.
  intros H. induction l as [|x l IH]; simpl; [reflexivity|].
  rewrite IH. destruct (first_best lt2 l); [now rewrite H|reflexivity].
Qed.

Lemma first_best_in {A} (lt : A -> A -> bool) (l : list A) (m : A) :
  first_best lt l = Some m -> In m l.
Proof.
  induction l as [|x l IH]; simpl; [discriminate|].
  destruct (first_best lt l) as [m'|]; [destruct (lt m' x)|]; intros [= <-]; auto.
Qed.

(** Turns every [Qle_bool] and [Qeq_bool] of the goal into a hypothesis on [Q]. *)
Ltac qbool :=
  repeat match goal with
  | |- context [Qle_bool ?a ?b] =>
    let H := fresh "Hq" in destruct (Qle_bool a b) eqn:H;
    [apply Qle_bool_iff in H | apply Qle_bool_false in H]
  | |- context [Qeq_bool ?a ?b] =>
    let H := fresh "Hq" in destruct (Qeq_bool a b) eqn:H;
    [apply Qeq_bool_iff in H | apply Qeq_bool_neq in H]
  | _ : context [Qle_bool ?a ?b] |- _ =>
    let H := fresh "Hq" in destruct (Qle_bool a b) eqn:H;
    [apply Qle_bool_iff in H | apply Qle_bool_false in H]
  | _ : context [Qeq_bool ?a ?b] |- _ =>
    let H := fresh "Hq" in destruct (Qeq_bool a b) eqn:H;
    [apply Qeq_bool_iff in H | apply Qeq_bool_neq in H]
  end.

Ltac qlin := unfold lex_lt, key_lt; intros; qbool; simpl in *;
  solve [reflexivity | discriminate | lra | exfalso; lra].

Lemma key_lt_trans {A} (k : A -> Q) a b c :
  key_lt k a b = true -> key_lt k b c = true -> key_lt k a c = true.
Proof. qlin. Qed.

Lemma key_lt_ntrans {A} (k : A -> Q) a b c :
  key_lt k a b = false -> key_lt k b c = false -> key_lt k a c = false.
Proof. qlin. Qed.

Lemma lex_lt_trans {A} (k2 k1 : A -> Q) a b c :
  lex_lt k2 k1 a b = true -> lex_lt k2 k1 b c = true -> lex_lt k2 k1 a c = true.
Proof. qlin. Qed.

Lemma lex_lt_ntrans {A} (k2 k1 : A -> Q) a b c :
  lex_lt k2 k1 a b = false -> lex_lt k2 k1 b c = false -> lex_lt k2 k1 a c = false.
Proof. qlin. Qed.

Lemma sort_by_snoc {A} (k : A -> Q) (l : list A) (x : A) :
  sort_by k (l ++ [x])%list = insert_by k x (sort_by k l).
Proof. unfold sort_by. now rewrite fold_left_app. Qed.

Lemma in_insert_by {A} (k : A -> Q) (x z : A) (l : list A) :
  In z (insert_by k x l) <-> x = z \/ In z l.
Proof.
  induction l as [|y l IH]; simpl; [tauto|].
  destruct (negb (Qle_bool (k y) (k x))); simpl; [tauto|]. rewrite IH. tauto.
Qed.

(** [sorted] by [k]: non-decreasing keys. *)
Definition key_sorted {A} (k : A -> Q) : list A -> Prop :=
  StronglySorted (fun a b => (k a <= k b)%Q).

Lemma insert_by_sorted {A} (k : A -> Q) (x : A) (l : list A) :
  key_sorted k l -> key_sorted k (insert_by k x l).
Proof.
  unfold key_sorted. induction l as [|y l IH]; intros Hs; simpl.
  - repeat constructor.
  - apply StronglySorted_inv in Hs as [Hs Hy].
    rewrite Forall_forall in Hy.
    destruct (Qle_bool (k y) (k x)) eqn:Hq; simpl.
    + apply Qle_bool_iff in Hq. constructor; [now apply IH|].
      apply Forall_forall. intros z Hz. apply in_insert_by in Hz as [->|Hz]; auto.
    + apply Qle_bool_false in Hq. constructor; [constructor; [exact Hs|]|].
      * now apply Forall_forall.
      * constructor; [lra|]. apply Forall_forall. intros z Hz. specialize (Hy z Hz). lra.
Qed.

Lemma sort_by_sorted {A} (k : A -> Q) (l : list A) : key_sorted k (sort_by k l).
Proof.
  induction l as [|x l IH] using rev_ind; [constructor|].
  rewrite sort_by_snoc. now apply insert_by_sorted.
Qed.

Lemma hd_sort_by {A} (k : A -> Q) (l : list A) :
  hd_error (sort_by k l) = first_best (key_lt k) l.
Proof.
  induction l as [|x l IH] using rev_ind; [reflexivity|].
  rewrite sort_by_snoc, first_best_snoc by (apply key_lt_trans || apply key_lt_ntrans).
  rewrite <- IH. destruct (sort_by k l) as [|y S]; [reflexivity|]. simpl.
  unfold key_lt. now destruct (Qle_bool (k y) (k x)).
Qed.

Lemma first_best_cons {A} (lt : A -> A -> bool) (x : A) (l : list A) :
  first_best lt (x :: l) =
  Some match first_best lt l with Some m => if lt m x then m else x | None => x end.
Proof. simpl. destruct (first_best lt l) as [m|]; [destruct (lt m x)|]; reflexivity. Qed.

Lemma first_best_sorted_le {A} (k1 : A -> Q) (lt : A -> A -> bool) (y : A) (S : list A) (m : A) :
  Forall (fun b => (k1 y <= k1 b)%Q) S -> first_best lt S = Some m -> (k1 y <= k1 m)%Q.
Proof. rewrite Forall_forall. intros Hy E. apply Hy, (first_best_in lt), E. Qed.

(** Inserting into a list sorted by [k1] and taking the [k2]-best gives
    the better of the new element and the old best, ties broken by [k1]. *)
Lemma first_best_insert_lex {A} (k2 k1 : A -> Q) (x : A) (S : list A) :
  key_sorted k1 S ->
  first_best (key_lt k2) (insert_by k1 x S) =
  Some match first_best (key_lt k2) S with
       | None => x
       | Some m => if lex_lt k2 k1 x m then x else m
       end.
Proof.
  induction S as [|y S IH]; intros Hs; [reflexivity|].
  apply StronglySorted_inv in Hs as [Hs Hy]. simpl insert_by.
  destruct (Qle_bool (k1 y) (k1 x)) eqn:Hq; simpl negb; cbv iota.
  - apply Qle_bool_iff in Hq. rewrite !first_best_cons, IH by exact Hs.
    destruct (first_best (key_lt k2) S) as [m|] eqn:E; [|qlin].
    pose proof (first_best_sorted_le k1 _ y S m Hy E). qlin.
  - apply Qle_bool_false in Hq. rewrite (first_best_cons _ x).
    destruct (first_best (key_lt k2) (y :: S)) as [m|] eqn:E;
      [|now rewrite first_best_cons in E].
    assert (Hm : (k1 y <= k1 m)%Q).
    { apply first_best_in in E as [->|Hin]; [lra|].
      rewrite Forall_forall in Hy. now apply Hy. }
    qlin.
Qed.

(** Sorting by [k1] and then, stably, by [k2] puts first the first
    element that is best for [k2] with ties broken by [k1]. *)
Lemma first_best_sort_lex {A} (k2 k1 : A -> Q) (l : list A) :
  first_best (key_lt k2) (sort_by k1 l) = first_best (lex_lt k2 k1) l.
Proof.
  induction l as [|x l IH] using rev_ind; [reflexivity|].
  rewrite sort_by_snoc, first_best_insert_lex by apply sort_by_sorted.
  rewrite IH, first_best_snoc by (apply lex_lt_trans || apply lex_lt_ntrans).
  reflexivity.
Qed.

Lemma Qle_bool_opp (a b : Q) : Qle_bool (- a) (- b) = Qle_bool b a.
Proof. qbool; solve [reflexivity | exfalso; lra]. Qed.

Lemma beats_lex (m v : string * (Z * Z)) : beats m v = lex_lt key_count key_avg m v.
Proof.
  unfold beats, lex_lt, key_lt, key_count, key_avg, vote_avg.
  rewrite !Qle_bool_inject_Z, Qeq_bool_inject_Z, Qle_bool_opp. f_equal.
  - destruct (Z.ltb_spec (fst (snd v)) (fst (snd m))), (Z.leb_spec (- fst (snd v)) (- fst (snd m)));
      simpl; lia.
  - f_equal. destruct (Z.eqb_spec (fst (snd m)) (fst (snd v))), (Z.eqb_spec (- fst (snd m)) (- fst (snd v)));
      lia.
Qed.

(** C21 (equivalence).  [select_best_label], which sorts the votes by
    average score and then stably by count and takes the head, returns the
    label that [best_label] names: the first label in insertion order that
    no later label beats (more votes, or as many and a higher average);
    a label with no votes raises [ZeroDivisionError] and an empty counter
    [IndexError] in both. *)
Theorem select_best_label_spec (votes : counter) :
  select_best_label votes = best_label votes.
Proof.
  unfold select_best_label, best_label.
  destruct (existsb _ votes); [reflexivity|].
  rewrite (first_best_ext beats (lex_lt key_count key_avg)) by exact beats_lex.
  rewrite <- first_best_sort_lex, <- hd_sort_by.
  destruct (sort_by key_count (sort_by key_avg votes)); reflexivity.
Qed.

End PunctNmt.
