(* ===== verification/PunctMain.v ===== *)
(** * PunctMain: the command line and [main] of the punctuation script

    Models [get_args] (lines 13-151), [load_manifest] (154-160) and
    [main] (314-396) of
    [src/examples/nlp/machine_translation/punctuation_infer/
    punctuate_capitalize_nmt.py], on top of the segmenting and voting
    functions of [PunctNmt].

    [argparse] itself, the model ([MTEncDecModel.restore_from], the
    device moves, [BeamSearchSequenceGenerator], [model.translate]),
    reading and writing files and [json] are the environment class
    [MainEnv]: the parsed namespace is a record [args] of the options the
    parser declares; what [get_args] checks after parsing is written out,
    [parser.error] being [SystemExit].  A JSON value of a manifest is a
    string or something else ([JOther]), a manifest item an association
    list in key order.  [main] returns what it writes (the output path
    and its lines), or [None] when [split_into_segments] runs out of
    fuel: with [step <= 0] its [while] loop never ends. *)

From Stdlib Require Import String Ascii QArith.
From S2P Require Import Prelude PyStr PunctNmt.

Module PunctMain.
Import PyStr PunctNmt.
Local Open Scope Z_scope.

(** ** Data *)

(** The namespace [parser.parse_args()] returns: one field per option. *)
Record args := mkArgs {
  input_manifest : option string;
  input_text : option string;
  output_manifest : option string;
  output_text : option string;
  model_path : string;
  max_seq_length : Z;
  step : Z;
  margin : Z;
  batch_size : Z;
  beam_size : Z;
  len_pen : Q;
  max_delta_length : Z;
  device : option string;
  add_source_num_words_to_batch : bool;
  capitalization_labels : string;
  no_all_upper_label : bool;
  save_labels_instead_of_text : bool
}.

(** The attribute names of the namespace, one per [add_argument]. *)
Definition namespace_attrs : list string :=
  ["input_manifest"; "input_text"; "output_manifest"; "output_text"; "model_path";
   "max_seq_length"; "step"; "margin"; "batch_size"; "beam_size"; "len_pen";
   "max_delta_length"; "device"; "add_source_num_words_to_batch"; "capitalization_labels";
   "no_all_upper_label"; "save_labels_instead_of_text"].

Inductive jval := JStr (s : string) | JOther.

Definition json_item := list (string * jval).

(** ** The environment *)

Class MainEnv := {
  parse_args : res args;                            (* parser.parse_args() *)
  expanduser : string -> string;                    (* Path.expanduser *)
  restore_from : string -> option string -> res unit; (* restore_from, .cuda() / .cpu() / .to(device) *)
  read_lines : string -> res (list string);         (* the lines of an opened file *)
  json_loads : string -> res json_item;
  json_dumps : json_item -> string;
  beam_search_setup : args -> res unit;             (* BeamSearchSequenceGenerator(...) *)
  translate : list string -> res (list string);     (* model.translate *)
  write_lines : string -> list string -> res unit   (* mkdir(parents=True) and the writes *)
}.

(** ** Python operations *)

(** [getattr(args, name)] on the namespace. *)
Definition args_getattr (name : string) : res unit :=
  if existsb (String.eqb name) namespace_attrs then Ok tt else Err AttributeError.

(** [range(0, n, b)]. *)
Definition py_range_step (n b : Z) : res (list Z) :=
  if b =? 0 then Err ValueError
  else if 0 <? b then Ok (map (fun k => Z.of_nat k * b) (seq 0 (Z.to_nat ((n + b - 1) / b))))
  else Ok [].

(** [item[key]] of a JSON object. *)
Fixpoint json_get (key : string) (item : json_item) : res jval :=
  match item with
  | [] => Err KeyError
  | (k, v) :: item' => if String.eqb k key then Ok v else json_get key item'
  end.

(** [item[key] = v]. *)
Fixpoint json_set (key : string) (v : jval) (item : json_item) : json_item :=
  match item with
  | [] => [(key, v)]
  | (k, w) :: item' => if String.eqb k key then (k, v) :: item' else (k, w) :: json_set key v item'
  end.

(** A text of the queries: [text.strip()] needs a [str]. *)
Definition as_str (v : jval) : res string :=
  match v with JStr s => Ok s | JOther => Err AttributeError end.

Definition opt_attr {A} (o : option A) : res A :=
  match o with Some a => Ok a | None => Err AttributeError end.

Section Main.
Context `{ME : MainEnv}.

(** ** [get_args] *)

(** The checks after [parser.parse_args()], then [expanduser] on the
    paths. *)
Definition get_args : res args :=
  let? a := parse_args in
  if match input_manifest a, output_manifest a with None, Some _ => true | _, _ => false end
  then Err SystemExit
  else if max_seq_length a <=? 0 then Err SystemExit
  else if max_seq_length a - 2 * margin a <? step a then Err SystemExit
  else Ok (mkArgs (option_map expanduser (input_manifest a)) (option_map expanduser (input_text a))
             (option_map expanduser (output_manifest a)) (option_map expanduser (output_text a))
             (expanduser (model_path a)) (max_seq_length a) (step a) (margin a) (batch_size a)
             (beam_size a) (len_pen a) (max_delta_length a) (device a)
             (add_source_num_words_to_batch a) (capitalization_labels a) (no_all_upper_label a)
             (save_labels_instead_of_text a)).

(** ** [load_manifest] *)

Definition load_manifest (manifest : string) : res (list json_item) :=
  let? lines := read_lines manifest in
  res_map json_loads lines.

(** ** [main] *)

(** The queries: the stripped lines of the text file, or the [pred_text]
    (if the first item has it) or [text] values of the manifest, with
    the manifest and its key. *)
Definition read_queries (a : args) : res (list jval * option (list json_item * string)) :=
  match input_manifest a with
  | None =>
      let? p := opt_attr (input_text a) in
      let? lines := read_lines p in
      Ok (map (fun line => JStr (py_strip line)) lines, None)
  | Some p =>
      let? manifest := load_manifest p in
      let? m0 := py_index manifest 0 in
      let text_key := if is_ok (json_get "pred_text" m0) then "pred_text" else "text" in
      let? texts := res_map (json_get text_key) manifest in
      Ok (texts, Some (manifest, text_key))
  end.

Record parts := mkParts {
  texts_str : list string;
  not_empty_queries : list string;
  not_empty_indices : list Z;
  empty_queries : list string;
  empty_indices : list Z
}.

(** [for i, text in enumerate(texts)]: the non-blank and the blank
    queries with their indices. *)
Fixpoint partition_queries (texts : list jval) (i : Z) : res parts :=
  match texts with
  | [] => Ok (mkParts [] [] [] [] [])
  | v :: texts' =>
      let? text := as_str v in
      let? p := partition_queries texts' (i + 1) in
      if negb (String.eqb (py_strip text) "")
      then Ok (mkParts (text :: texts_str p) (text :: not_empty_queries p) (i :: not_empty_indices p)
                 (empty_queries p) (empty_indices p))
      else Ok (mkParts (text :: texts_str p) (not_empty_queries p) (not_empty_indices p)
                 (text :: empty_queries p) (i :: empty_indices p))
  end.

(** The arguments of one [model.translate] call, evaluated in order. *)
Definition translate_args : list string :=
  ["source_lang"; "target_lang"; "write_scores"; "write_timing"; "add_src_num_words_to_batch"].

(** [for i in range(0, len(segments), args.batch_size)]. *)
Definition translate_loop (segs : list string) (bs : Z) : res (list string) :=
  let? starts := py_range_step (Z.of_nat (length segs)) bs in
  res_fold_left (fun acc i =>
      let batch := py_slice segs (Some i) (Some (i + bs)) in
      let? _ := res_fold_left (fun _ name => args_getattr name) translate_args tt in
      let? out := translate batch in
      Ok (app acc out)) starts [].

(** [for i, t, l in zip(indices, texts, labels)]: [result_texts[i] = t],
    then [result_labels[i] = l]. *)
Definition fill (result_texts result_labels : list string) (idx : list Z) (ts ls : list string)
    : res (list string * list string) :=
  res_fold_left (fun r itl =>
      let '(rt, rl) := r in
      let '(i, (t, l)) := itl in
      let? rt' := py_setitem rt i t in
      let? rl' := py_setitem rl i l in
      Ok (rt', rl')) (combine idx (combine ts ls)) (result_texts, result_labels).

(** The output: the path and the lines [main] writes. *)
Definition write_output (a : args) (mf : option (list json_item * string))
    (result_texts result_labels : list string) : res (string * list string) :=
  let out := if save_labels_instead_of_text a then result_labels else result_texts in
  match output_manifest a with
  | None =>
      let? p := opt_attr (output_text a) in
      let lines := map (fun t => t ++ String "010"%char EmptyString) out in
      let? _ := write_lines p lines in
      Ok (p, lines)
  | Some p =>
      let? m := match mf with Some m => Ok m | None => Err NameError end in
      let '(manifest, text_key) := m in
      let lines := map (fun it => json_dumps (json_set text_key (JStr (snd it)) (fst it)) ++
                                   String "010"%char EmptyString) (combine manifest out) in
      let? _ := write_lines p lines in
      Ok (p, lines)
  end.

(** The part of [main] after [split_into_segments]. *)
Definition main_after_split (a : args) (mf : option (list json_item * string)) (pq : parts) (sg : segs)
    : res (string * list string) :=
  let? _ := beam_search_setup a in
  let? labels := translate_loop (segments sg) (batch_size a) in
  let? r := apply_autoregressive_labels (texts_str pq) labels (query_indices sg) (start_word_i sg)
              (step a) (margin a) (capitalization_labels a) (no_all_upper_label a) in
  let '(processed_queries, united_labels) := r in
  let n := length (texts_str pq) in
  let? r1 := fill (repeat "" n) (repeat "" n) (not_empty_indices pq) processed_queries united_labels in
  let? r2 := fill (fst r1) (snd r1) (empty_indices pq) (empty_queries pq) (empty_queries pq) in
  write_output a mf (fst r2) (snd r2).

(** [main], with [fuel] for the [while] loop of [split_into_segments];
    [None] is that loop still running. *)
Definition main (fuel : nat) : option (res (string * list string)) :=
  match get_args with
  | Err e => Some (Err e)
  | Ok a =>
    match restore_from (model_path a) (device a) with
    | Err e => Some (Err e)
    | Ok _ =>
      match read_queries a with
      | Err e => Some (Err e)
      | Ok (texts, mf) =>
        match partition_queries texts 0 with
        | Err e => Some (Err e)
        | Ok pq =>
          match split_into_segments fuel (not_empty_queries pq) (max_seq_length a) (margin a) with
          | None => None
          | Some sg => Some (main_after_split a mf pq sg)
          end
        end
      end
    end
  end.

End Main.

(** ** A concrete environment *)

(** One text file of [lines], output to a text file, [max_seq_length] 4,
    [step] 1, [margin] [mg], [batch_size] 1; the model loads. *)
Definition ex_args (mg : Z) : args :=
  mkArgs None (Some "in.txt") None (Some "out.txt") "model.nemo" 4 1 mg 1 4 (6 # 10) 5 None
    false "OuU" false false.

Definition ex_menv (mg : Z) (lines : list string) : MainEnv := {|
  parse_args := Ok (ex_args mg);
  expanduser := fun p => p;
  restore_from := fun _ _ => Ok tt;
  read_lines := fun _ => Ok lines;
  json_loads := fun _ => Err ValueError;
  json_dumps := fun _ => "";
  beam_search_setup := fun _ => Ok tt;
  translate := fun b => Ok b;
  write_lines := fun _ _ => Ok tt
|}.

(** ** Lemmas *)

Lemma sorted_leb_snoc (l : list Z) (x : Z) :
  sorted_leb l = true -> Forall (fun y => y <= x) l -> sorted_leb (app l [x]) = true.
Proof.
  induction l as [|y l IH]; intros Hs Hf; [reflexivity|].
  inversion Hf as [|? ? Hy Hf']; subst. destruct l as [|z l].
  - cbn. apply andb_true_iff. split; [apply Z.leb_le; lia|reflexivity].
  - cbn in Hs |- *. apply andb_true_iff in Hs as [Hyz Hs]. rewrite Hyz. cbn.
    exact (IH Hs Hf').
Qed.

Lemma sorted_leb_repeat (l : list Z) (x : Z) (k : nat) :
  sorted_leb l = true -> Forall (fun y => y <= x) l -> sorted_leb (app l (repeat x k)) = true.
Proof.
  revert l. induction k as [|k IH]; intros l Hs Hf; [now rewrite app_nil_r|].
  replace (app l (repeat x (S k))) with (app (app l [x]) (repeat x k))
    by (now rewrite <- app_assoc).
  apply IH; [now apply sorted_leb_snoc|]. apply Forall_app. split; [exact Hf|].
  constructor; [lia|constructor].
Qed.

(** The inner [while] appends [k] segments of query [q], at least one
    when it is entered. *)
Lemma segment_loop_appends (fuel : nat) (words : list string) (L step q start : Z) (acc : segs)
    start' acc' :
  segment_loop fuel words L step q start acc = Some (start', acc') ->
  exists k, query_indices acc' = app (query_indices acc) (repeat q k) /\
    length (segments acc') = (length (segments acc) + k)%nat /\
    (start + L < Z.of_nat (length words) -> k <> O).
Proof.
  revert start acc. induction fuel as [|f IH]; intros start acc H; cbn in H; [discriminate|].
  destruct (Z.ltb_spec (start + L) (Z.of_nat (length words))) as [Hlt|Hge].
  - destruct (IH _ _ H) as (k & Hk & Hl & _). exists (S k).
    rewrite Hk, Hl. cbn. rewrite <- app_assoc, length_app. cbn. split; [reflexivity|]. split; lia.
  - injection H as <- <-. exists O. rewrite app_nil_r. split; [reflexivity|]. split; lia.
Qed.

(** [split_into_segments] only appends: its [query_indices] stay sorted
    and index the queries. *)
Lemma split_loop_qi (fuel : nat) (ts : list string) (L step : Z) :
  forall q start acc r, split_loop fuel ts L step q start acc = Some r -> 0 <= q ->
  sorted_leb (query_indices acc) = true -> Forall (fun x => 0 <= x < q) (query_indices acc) ->
  sorted_leb (query_indices r) = true /\
  Forall (fun x => 0 <= x < q + Z.of_nat (length ts)) (query_indices r) /\
  (length (segments acc) <= length (segments r))%nat.
Proof.
  induction ts as [|t ts IH]; intros q start acc r H Hq Hs Hf; cbn in H.
  - injection H as <-. split; [exact Hs|]. split; [|lia]. eapply Forall_impl; [|exact Hf]. cbn. lia.
  - destruct (segment_loop fuel (py_split t) L step q start acc) as [[st' acc']|] eqn:E;
      [|discriminate].
    destruct (segment_loop_appends _ _ _ _ _ _ _ _ _ E) as (k & Hk & Hl & _).
    destruct (IH (q + 1) st' acc' r H) as (H1 & H2 & H3); [lia| | |].
    + rewrite Hk. apply sorted_leb_repeat; [exact Hs|]. eapply Forall_impl; [|exact Hf]. cbn. lia.
    + rewrite Hk. apply Forall_app. split; [eapply Forall_impl; [|exact Hf]; cbn; lia|].
      apply Forall_forall. intros x Hx%repeat_spec. lia.
    + split; [exact H1|]. split; [|lia]. eapply Forall_impl; [|exact H2]. cbn. lia.
Qed.

Lemma split_into_segments_qi (fuel : nat) (ts : list string) (L step : Z) (r : segs) :
  split_into_segments fuel ts L step = Some r ->
  sorted_leb (query_indices r) = true /\
  Forall (fun x => 0 <= x < Z.of_nat (length ts)) (query_indices r).
Proof.
  intros H. destruct (split_loop_qi fuel ts L step 0 0 segs_empty r H) as (H1 & H2 & _);
    [lia | reflexivity | constructor |]. auto.
Qed.

(** A first query longer than [max_seq_length] words gives a segment. *)
Lemma split_into_segments_nonempty (fuel : nat) (t : string) (ts : list string) (L step : Z)
    (r : segs) :
  split_into_segments fuel (t :: ts) L step = Some r -> L < Z.of_nat (length (py_split t)) ->
  segments r <> [].
Proof.
  unfold split_into_segments. cbn. intros H HL.
  destruct (segment_loop fuel (py_split t) L step 0 0 segs_empty) as [[st' acc']|] eqn:E;
    [|discriminate].
  destruct (segment_loop_appends _ _ _ _ _ _ _ _ _ E) as (k & _ & Hl & Hk).
  destruct (split_loop_qi fuel ts L step 1 st' acc' r H) as (_ & _ & Hr); [lia| | |].
  - destruct (segment_loop_appends _ _ _ _ _ _ _ _ _ E) as (k' & -> & _). apply sorted_leb_repeat;
      constructor.
  - destruct (segment_loop_appends _ _ _ _ _ _ _ _ _ E) as (k' & -> & _).
    apply Forall_forall. intros x Hx%repeat_spec. lia.
  - intros Hn. rewrite Hn in Hr. cbn in Hl, Hr. specialize (Hk ltac:(lia)). lia.
Qed.

(** [range(0, len(segments), batch_size)] and the first [getattr] of the
    loop body: [ValueError] for a batch size of [0], [AttributeError] as
    soon as there is a batch, and no label otherwise. *)
Lemma translate_loop_cases `{MainEnv} (segs : list string) (bs : Z) :
  translate_loop segs bs =
    if bs =? 0 then Err ValueError
    else if (0 <? bs) && negb (length segs =? 0)%nat then Err AttributeError else Ok [].
Proof.
  unfold translate_loop, py_range_step.
  destruct (Z.eqb_spec bs 0) as [|Hb0]; [reflexivity|]. destruct (Z.ltb_spec 0 bs) as [Hb|Hb].
  - destruct segs as [|s0 segs']; cbn [length Nat.eqb negb andb].
    + rewrite Z.div_small by lia. reflexivity.
    + assert (Hd : 1 <= (Z.of_nat (length (s0 :: segs')) + bs - 1) / bs).
      { rewrite <- (Z.div_same bs) at 1 by lia. apply Z.div_le_mono; cbn [length]; lia. }
      cbn [length] in Hd. destruct (Z.to_nat _) as [|k] eqn:Ek; [lia|]. reflexivity.
  - reflexivity.
Qed.

Section MainLemmas.
Context `{ME : MainEnv}.

(** What the checks of [get_args] guarantee of the options it returns. *)
Lemma get_args_bounds (a : args) :
  get_args = Ok a -> 0 < max_seq_length a /\ step a <= max_seq_length a - 2 * margin a.
Proof.
  unfold get_args. destruct parse_args as [a0|]; cbn [res_bind]; [|discriminate].
  destruct (match input_manifest a0, output_manifest a0 with None, Some _ => true | _, _ => false end);
    [discriminate|].
  destruct (Z.leb_spec (max_seq_length a0) 0); [discriminate|].
  destruct (Z.ltb_spec (max_seq_length a0 - 2 * margin a0) (step a0)); [discriminate|].
  intros [= <-]. cbn [max_seq_length step margin]. lia.
Qed.

Lemma partition_queries_length (texts : list jval) (i : Z) (pq : parts) :
  partition_queries texts i = Ok pq ->
  length (texts_str pq) = length texts /\ (length (not_empty_queries pq) <= length texts)%nat.
Proof.
  revert i pq. induction texts as [|v texts IH]; intros i pq H; cbn in H.
  - injection H as <-. cbn. lia.
  - destruct (as_str v) as [text|]; [|discriminate]. cbn in H.
    destruct (partition_queries texts (i + 1)) as [p|] eqn:Ep; [|discriminate]. cbn in H.
    destruct (IH _ _ Ep) as [H1 H2].
    destruct (negb _); injection H as <-; cbn; lia.
Qed.

(** Text queries are always split into the non-blank ones, the first of
    which is the first query when it has a word. *)
Lemma partition_queries_strs (ts : list string) (i : Z) :
  exists pq, partition_queries (map JStr ts) i = Ok pq /\ incl (not_empty_queries pq) ts /\
    forall t ts', ts = t :: ts' -> py_split t <> [] -> exists ne, not_empty_queries pq = t :: ne.
Proof.
  revert i. induction ts as [|t ts IH]; intros i.
  - exists (mkParts [] [] [] [] []). split; [reflexivity|]. split; [intros x []|]. discriminate.
  - destruct (IH (i + 1)) as (p & Ep & Hinc & _). cbn [map partition_queries as_str res_bind].
    rewrite Ep. cbn [res_bind].
    destruct (String.eqb_spec (py_strip t) "") as [He|Hne]; cbn [negb].
    + eexists. split; [reflexivity|]. split; [cbn; intros x Hx; right; auto|].
      intros t' ts' [= <- <-] Hw. exfalso. exact (Hw (py_strip_empty_split _ He)).
    + eexists. split; [reflexivity|]. split.
      * intros x [<-|Hx]; [now left|right; auto].
      * intros t' ts' [= <- <-] _. cbn. eauto.
Qed.

(** [apply_autoregressive_labels] on the queries of a partition and the
    [query_indices] of [split_into_segments] of its non-blank queries. *)
Lemma apply_after_split_never_ok (pq : parts) (labels : list string) (fuel : nat) (L st : Z)
    (sg : segs) (step margin : Z) (cap : string) (nau : bool) :
  split_into_segments fuel (not_empty_queries pq) L st = Some sg ->
  texts_str pq <> [] ->
  (length (not_empty_queries pq) <= length (texts_str pq))%nat ->
  is_ok (apply_autoregressive_labels (texts_str pq) labels (query_indices sg) (start_word_i sg)
           step margin cap nau) = false.
Proof.
  intros Es Hne Hle. destruct (split_into_segments_qi _ _ _ _ _ Es) as [Hs Hf].
  rewrite Forall_forall in Hf. unfold apply_autoregressive_labels.
  apply queries_loop_never_ok; auto using sorted_leb_sorted; [lia | |].
  - intros j x Hx. apply nth_error_In, Hf in Hx. lia.
  - intros j x _ Hx. apply nth_error_In, Hf in Hx. lia.
Qed.

End MainLemmas.


(** ** What [main] does *)

Section MainTheorems.
Context `{ME : MainEnv}.

(** C26 (safety, finding).  [main] writes its output only when the input
    has no query at all: on every non-empty input it raises or never
    returns, whatever the options, the model and the files are.  With a
    batch, [model.translate] reads attributes the parser does not declare;
    with none, [apply_autoregressive_labels] reads past the end of
    [query_indices] on the last query. *)
Theorem main_returns_only_without_queries (fuel : nat) (out : string * list string) :
  main fuel = Some (Ok out) -> exists a mf, get_args = Ok a /\ read_queries a = Ok ([], mf).
Proof.
  unfold main. destruct get_args as [a|]; [|discriminate].
  destruct (restore_from _ _); [|discriminate].
  destruct (read_queries a) as [[texts mf]|] eqn:Erq; [|discriminate].
  destruct (partition_queries texts 0) as [pq|] eqn:Ep; [|discriminate].
  destruct (split_into_segments _ _ _ _) as [sg|] eqn:Es; [|discriminate].
  intros [= Hm]. exists a, mf. split; [reflexivity|].
  destruct texts as [|v texts']; [exact Erq|]. exfalso.
  destruct (partition_queries_length _ _ _ Ep) as [Hl1 Hl2].
  unfold main_after_split in Hm.
  apply res_bind_Ok_inv in Hm as (_ & _ & Hm). apply res_bind_Ok_inv in Hm as (labels & Ht & Hm).
  apply res_bind_Ok_inv in Hm as (r & Ha & _).
  pose proof (apply_after_split_never_ok pq labels fuel _ _ sg (step a) (margin a)
                (capitalization_labels a) (no_all_upper_label a) Es) as Hno.
  rewrite Ha in Hno. discriminate Hno; [intros Hn; rewrite Hn in Hl1; discriminate | lia].
Qed.

(** C27 (error, finding).  With the checks of [get_args] passed,
    [margin] and [batch_size] at least [1], the model loaded and a first
    text query longer than [max_seq_length] words, [main] returns, with
    enough fuel, and raises [AttributeError] at the first batch. *)
Theorem main_attribute_error (a : args) (t : string) (rest : list string)
    (mf : option (list json_item * string)) :
  get_args = Ok a -> restore_from (model_path a) (device a) = Ok tt ->
  read_queries a = Ok (map JStr (t :: rest), mf) -> beam_search_setup a = Ok tt ->
  1 <= margin a -> 1 <= batch_size a -> max_seq_length a < Z.of_nat (length (py_split t)) ->
  forall fuel, (fuel_bound (t :: rest) (max_seq_length a) <= fuel)%nat ->
  main fuel = Some (Err AttributeError).
Proof.
  intros Hg Hr Hq Hb Hm Hbs HL fuel Hf. unfold main. rewrite Hg, Hr, Hq.
  destruct (partition_queries_strs (t :: rest) 0) as (pq & Ep & Hinc & Hfst). rewrite Ep.
  destruct (Hfst t rest eq_refl) as [ne Hne];
    [intros Hn; rewrite Hn in HL; apply get_args_bounds in Hg; cbn in HL; lia|].
  destruct (split_loop_enough (not_empty_queries pq) (t :: rest) (max_seq_length a) (margin a)
              0 0 segs_empty) as [sg Hsg]; [lia | lia | exact Hinc|].
  unfold split_into_segments. rewrite (Hsg fuel Hf). f_equal.
  assert (Hseg : segments sg <> []).
  { apply (split_into_segments_nonempty fuel t ne (max_seq_length a) (margin a)); [|exact HL].
    unfold split_into_segments. rewrite <- Hne. apply Hsg, Hf. }
  unfold main_after_split. rewrite Hb. cbn [res_bind]. rewrite translate_loop_cases.
  destruct (Z.eqb_spec (batch_size a) 0); [lia|]. destruct (Z.ltb_spec 0 (batch_size a)); [|lia].
  destruct (segments sg); [congruence|]. reflexivity.
Qed.

(** C35 (liveness, finding).  [get_args] accepts [--margin 0] (it only
    checks [max_seq_length - 2 * margin >= step]), and [main] passes
    [args.margin] as the [step] of [split_into_segments]: then, as soon as
    the first text query has more than [max_seq_length] words, [main]
    never returns. *)
Theorem main_diverges_margin_nonpos (a : args) (t : string) (rest : list string)
    (mf : option (list json_item * string)) :
  get_args = Ok a -> restore_from (model_path a) (device a) = Ok tt ->
  read_queries a = Ok (map JStr (t :: rest), mf) ->
  margin a <= 0 -> max_seq_length a < Z.of_nat (length (py_split t)) ->
  forall fuel, main fuel = None.
Proof.
  intros Hg Hr Hq Hm HL fuel. unfold main. rewrite Hg, Hr, Hq.
  destruct (partition_queries_strs (t :: rest) 0) as (pq & Ep & _ & Hfst). rewrite Ep.
  destruct (Hfst t rest eq_refl) as [ne ->];
    [intros Hn; rewrite Hn in HL; apply get_args_bounds in Hg; cbn in HL; lia|].
  unfold split_into_segments. cbn [split_loop].
  now rewrite segment_loop_nonpos_step by (cbn; lia).
Qed.

End MainTheorems.

(** An empty text file: [main] writes an empty output file. *)
Lemma main_returns_only_without_queries_witness :
  @main (ex_menv 1 []) 1 = Some (Ok ("out.txt", [])) /\
  exists a mf, @get_args (ex_menv 1 []) = Ok a /\ @read_queries (ex_menv 1 []) a = Ok ([], mf).
Proof.
  split; [vm_compute; reflexivity|].
  apply (@main_returns_only_without_queries (ex_menv 1 []) 1 ("out.txt", [])).
  vm_compute. reflexivity.
Defined.

(** One line of five words, segments of four words. *)
Lemma main_attribute_error_witness :
  @main (ex_menv 1 ["a b c d e"]) 2 = Some (Err AttributeError).
Proof.
  apply (@main_attribute_error (ex_menv 1 ["a b c d e"]) (ex_args 1) "a b c d e" [] None);
    try (vm_compute; reflexivity); cbn; lia.
Defined.

(** The same with [--margin 0]: [get_args] accepts it, [main] never ends. *)
Lemma main_diverges_margin_nonpos_witness :
  @get_args (ex_menv 0 ["a b c d e"]) = Ok (ex_args 0) /\
  forall fuel, @main (ex_menv 0 ["a b c d e"]) fuel = None.
Proof.
  split; [vm_compute; reflexivity|].
  apply (@main_diverges_margin_nonpos (ex_menv 0 ["a b c d e"]) (ex_args 0) "a b c d e" [] None);
    try (vm_compute; reflexivity); cbn; lia.
Defined.

End PunctMain.
