(* ===== verification/PunctFst.v ===== *)
(** * PunctFst: the punctuation verbalizer of text normalization

    Models [PunctuationFst] of [src/nemo_text_processing/
    text_normalization/verbalizers/punctuation.py] (lines 27-44): the
    transducer [self.fst] its constructor builds from pynini
    combinators and the [graph_utils] constants it imports (line 16),
    and the import guard [PYNINI_AVAILABLE] (lines 18-26).

    A transducer is, for a whole input string, the list of the outputs of
    its accepting paths ([transducer]); it is executable.  The pynini
    operations the class uses are written over it: [+] ([pconcat], over
    every split of the input), [pynutil.delete] ([pdelete], every output
    becomes empty), acceptors of a string ([accept_str]) and the closure
    of a set of characters with a minimum count ([closure_cs]); the
    character sets of [graph_utils] are boolean predicates on ASCII
    characters ([NEMO_CHAR] is an ASCII character, [NEMO_WHITE_SPACE]
    leaves out the non-breaking space, which is not ASCII).  [optimize]
    keeps the relation, so it is the identity here. *)

From Stdlib Require Import String Ascii.
From S2P Require Import Prelude PyStr.

Module PunctFst.
Import PyStr.
Local Open Scope string_scope.

(** ** Transducers *)

Definition transducer := string -> list string.

(** The ways of writing [s] as [a ++ b]. *)
Fixpoint splits (s : string) : list (string * string) :=
  match s with
  | EmptyString => [("", "")]
  | String c s' => ("", s) :: map (fun p => (String c (fst p), snd p)) (splits s')
  end.

(** [a + b]: concatenation. *)
Definition pconcat (a b : transducer) : transducer :=
  fun s => flat_map (fun p => flat_map (fun o1 => map (fun o2 => o1 ++ o2) (b (snd p))) (a (fst p)))
                    (splits s).

(** [pynutil.delete(a)]: the paths of [a], each with the empty output. *)
Definition pdelete (a : transducer) : transducer := fun s => map (fun _ => "") (a s).

(** The acceptor of the string [l]. *)
Definition accept_str (l : string) : transducer := fun s => if String.eqb s l then [s] else [].

(** A set of characters, as pynini's single-character acceptors. *)
Definition charset := ascii -> bool.

Definition cs_all (p : charset) (s : string) : bool := forallb p (list_ascii_of_string s).

(** [pynini.closure(p, m)]: strings of at least [m] characters of [p]. *)
Definition closure_cs (p : charset) (m : nat) : transducer :=
  fun s => if cs_all p s && Nat.leb m (String.length s) then [s] else [].

(** [pynini.difference(p, c)] for a single character [c]. *)
Definition cs_diff (p : charset) (c : ascii) : charset := fun x => p x && negb (Ascii.eqb x c).

(** ** The constants of [graph_utils] *)

Definition quote_char : ascii := ascii_of_nat 34.
Definition quote : string := String quote_char "".
Definition rbrace : ascii := "}"%char.

(** [utf8.VALID_UTF8_CHAR], on ASCII. *)
Definition NEMO_CHAR : charset := fun c => Nat.ltb (nat_of_ascii c) 128.

(** [pynini.union] of space, tab, line feed and carriage return. *)
Definition NEMO_WHITE_SPACE : charset :=
  fun c => let n := nat_of_ascii c in
           Nat.eqb n 32 || Nat.eqb n 9 || Nat.eqb n 10 || Nat.eqb n 13.

(** [pynini.difference] of [NEMO_CHAR] and the double quote. *)
Definition NEMO_NOT_QUOTE : charset := cs_diff NEMO_CHAR quote_char.

(** [pynutil.delete(pynini.closure(NEMO_WHITE_SPACE))]. *)
Definition delete_space : transducer := pdelete (closure_cs NEMO_WHITE_SPACE 0).

(** ** [PunctuationFst] *)

(** The graph [char] of [__init__] (lines 36-43), [+] nested to the left
    as Python evaluates it. *)
Definition char : transducer :=
  pconcat (pconcat (pconcat (pconcat (pconcat
    (pdelete (accept_str "name:"))
    delete_space)
    (pdelete (accept_str quote)))
    (closure_cs NEMO_NOT_QUOTE 1))
    (pdelete (accept_str (quote ++ " pause_length"))))
    (pdelete (closure_cs (cs_diff NEMO_CHAR rbrace) 0)).

(** A serialized punctuation token: [name:], a space, the comma in quotes,
    and [pause_length: PAUSE_MEDIUM] with the value in quotes. *)
Definition ex_token : string :=
  "name: " ++ quote ++ "," ++ quote ++ " pause_length: " ++ quote ++ "PAUSE_MEDIUM" ++ quote.

(** A [GraphFst]: its name, kind and transducer. *)
Record graph_fst := mkGraph { g_name : string; g_kind : string; g_fst : transducer }.

(** [PunctuationFst()]: [self.fst = char.optimize()]. *)
Definition PunctuationFst : graph_fst := mkGraph "punctuation" "verbalize" char.

(** [PunctuationFst()] where the [try] of lines 20-26 set
    [PYNINI_AVAILABLE]: without pynini, [pynutil] is an unbound name when
    the constructor reaches [pynutil.delete], which raises [NameError]. *)
Definition PunctuationFst_init (PYNINI_AVAILABLE : bool) : res graph_fst :=
  if PYNINI_AVAILABLE then Ok PunctuationFst else Err NameError.

(** The serialized tokens the verbalizer reads: [name:], white space,
    the quoted name [q], then [pause_length] and anything without a
    closing brace. *)
Definition token_form (s q : string) : Prop :=
  exists w r, s = "name:" ++ w ++ quote ++ q ++ quote ++ " pause_length" ++ r /\
    cs_all NEMO_WHITE_SPACE w = true /\ q <> "" /\ cs_all NEMO_NOT_QUOTE q = true /\
    cs_all (cs_diff NEMO_CHAR rbrace) r = true.


(** ** Lemmas *)

Lemma str_app_nil_l (s : string) : "" ++ s = s.
Proof. reflexivity. Qed.

Lemma str_app_inv_l (a b c : string) : a ++ b = a ++ c -> b = c.
Proof. induction a as [|x a IH]; cbn; [easy|]. intros H. injection H. exact IH. Qed.

Lemma splits_spec (s : string) (p : string * string) : In p (splits s) <-> s = fst p ++ snd p.
Proof.
  revert p. induction s as [|c s IH]; intros [a b]; cbn [splits fst snd].
  - split; [intros [H|[]]; injection H as <- <-; reflexivity|].
    destruct a; cbn; [intros <-; now left|discriminate].
  - split.
    + intros [H|H]; [injection H as <- <-; reflexivity|].
      apply in_map_iff in H as ([a' b'] & H & Hin). injection H as <- <-. cbn.
      apply IH in Hin. cbn in Hin. now rewrite Hin.
    + destruct a as [|c' a]; cbn; intros H; [left; now rewrite H|right].
      injection H as <- H. apply in_map_iff. exists (a, b). split; [reflexivity|].
      apply IH. exact H.
Qed.

Lemma pconcat_spec (x y : transducer) (s o : string) :
  In o (pconcat x y s) <->
  exists s1 s2 o1 o2, s = s1 ++ s2 /\ In o1 (x s1) /\ In o2 (y s2) /\ o = o1 ++ o2.
Proof.
  unfold pconcat. rewrite in_flat_map. split.
  - intros ([s1 s2] & Hs & Ho). apply splits_spec in Hs. cbn in Hs, Ho.
    apply in_flat_map in Ho as (o1 & H1 & Ho). apply in_map_iff in Ho as (o2 & <- & H2).
    exists s1, s2, o1, o2. auto.
  - intros (s1 & s2 & o1 & o2 & -> & H1 & H2 & ->). exists (s1, s2).
    split; [now apply splits_spec|]. cbn. apply in_flat_map. exists o1. split; [easy|].
    apply in_map. exact H2.
Qed.

Lemma pdelete_spec (x : transducer) (s o : string) :
  In o (pdelete x s) <-> o = "" /\ exists o', In o' (x s).
Proof.
  unfold pdelete. rewrite in_map_iff. split.
  - intros (o' & <- & H). eauto.
  - intros (-> & o' & H). eauto.
Qed.

Lemma accept_str_spec (l s o : string) : In o (accept_str l s) <-> s = l /\ o = l.
Proof.
  unfold accept_str. destruct (String.eqb_spec s l) as [->|Hne]; cbn.
  - split; [intros [<-|[]]; auto|intros [_ <-]; now left].
  - split; [intros []|intros [? _]; congruence].
Qed.

Lemma closure_cs_spec (p : charset) (m : nat) (s o : string) :
  In o (closure_cs p m s) <-> o = s /\ cs_all p s = true /\ (m <= String.length s)%nat.
Proof.
  unfold closure_cs. destruct (cs_all p s) eqn:E, (Nat.leb_spec m (String.length s)) as [Hm|Hm]; cbn.
  - split; [intros [<-|[]]; auto|intros (-> & _ & _); now left].
  - split; [intros []|intros (_ & _ & H); lia].
  - split; [intros []|intros (_ & H & _); discriminate].
  - split; [intros []|intros (_ & H & _); discriminate].
Qed.

Lemma cs_all_app (p : charset) (a b : string) : cs_all p (a ++ b) = cs_all p a && cs_all p b.
Proof. unfold cs_all. induction a as [|c a IH]; cbn; [easy|]. now rewrite IH, andb_assoc. Qed.

Lemma cs_all_impl (p p' : charset) (s : string) :
  (forall c, p c = true -> p' c = true) -> cs_all p s = true -> cs_all p' s = true.
Proof.
  unfold cs_all. intros H. induction s as [|c s IH]; cbn; [easy|].
  rewrite !andb_true_iff. intros [Hc Hs]. split; [now apply H|now apply IH].
Qed.

(** Before the first quote: two strings without a quote, each followed by
    a quote, are equal when the whole strings are. *)
Lemma app_quote_unique (p : charset) (a1 a2 b1 b2 : string) :
  p quote_char = false -> cs_all p a1 = true -> cs_all p a2 = true ->
  a1 ++ quote ++ b1 = a2 ++ quote ++ b2 -> a1 = a2 /\ b1 = b2.
Proof.
  intros Hq. revert a2. induction a1 as [|c a1 IH]; intros [|c' a2] H1 H2; cbn -[quote_char].
  - intros H. now injection H.
  - intros H. injection H as <- _. cbn -[quote_char] in H2. rewrite Hq in H2. discriminate.
  - intros H. injection H as -> _. cbn -[quote_char] in H1. rewrite Hq in H1. discriminate.
  - intros H. injection H as <- H. cbn in H1, H2. apply andb_true_iff in H1 as [_ H1].
    apply andb_true_iff in H2 as [_ H2]. destruct (IH a2 H1 H2 H) as [-> ->]. easy.
Qed.

Lemma white_not_quote (c : ascii) : NEMO_WHITE_SPACE c = true -> NEMO_NOT_QUOTE c = true.
Proof.
  unfold NEMO_WHITE_SPACE, NEMO_NOT_QUOTE, cs_diff, NEMO_CHAR, quote_char.
  destruct c as [b0 b1 b2 b3 b4 b5 b6 b7].
  destruct b0, b1, b2, b3, b4, b5, b6, b7; vm_compute; intros H; (reflexivity || discriminate).
Qed.

(** Takes apart a membership in a combination of transducers. *)
Ltac fst_inv :=
  repeat match goal with
  | H : In _ (pconcat _ _ _) |- _ =>
      let s1 := fresh "s" in let s2 := fresh "s" in let o1 := fresh "o" in let o2 := fresh "o" in
      apply pconcat_spec in H as (s1 & s2 & o1 & o2 & ? & ? & ? & ?)
  | H : In _ (pdelete _ _) |- _ => apply pdelete_spec in H as [? [? ?]]
  | H : In _ (accept_str _ _) |- _ => apply accept_str_spec in H as [? ?]
  | H : In _ (closure_cs _ _ _) |- _ => apply closure_cs_spec in H as (? & ? & ?)
  end; subst.

(** A path of [pdelete] through an acceptor. *)
Lemma pdelete_accept (l : string) : In "" (pdelete (accept_str l) l).
Proof. apply pdelete_spec. split; [reflexivity|]. exists l. now apply accept_str_spec. Qed.

Lemma pdelete_closure (p : charset) (m : nat) (s : string) :
  cs_all p s = true -> (m <= String.length s)%nat -> In "" (pdelete (closure_cs p m) s).
Proof. intros H1 H2. apply pdelete_spec. split; [reflexivity|]. exists s. now apply closure_cs_spec. Qed.

(** What [char] outputs, stage by stage. *)
Lemma char_spec (s o : string) :
  In o (char s) <->
  exists w q r, s = (((("name:" ++ w) ++ quote) ++ q) ++ (quote ++ " pause_length")) ++ r /\
    cs_all NEMO_WHITE_SPACE w = true /\ cs_all NEMO_NOT_QUOTE q = true /\
    (1 <= String.length q)%nat /\ cs_all (cs_diff NEMO_CHAR rbrace) r = true /\ o = q.
Proof.
  unfold char, delete_space. split.
  - intros H. fst_inv. eexists _, _, _. split; [reflexivity|].
    repeat split; try assumption. cbn. now rewrite !str_app_nil_r.
  - intros (w & q & r & -> & Hw & Hq & Hl & Hr & ->).
    apply pconcat_spec. exists (((("name:" ++ w) ++ quote) ++ q) ++ (quote ++ " pause_length")), r, q, "".
    split; [reflexivity|]. split; [|split; [apply pdelete_closure; [exact Hr|lia]|symmetry; apply str_app_nil_r]].
    apply pconcat_spec. exists ((("name:" ++ w) ++ quote) ++ q), (quote ++ " pause_length"), q, "".
    split; [reflexivity|]. split; [|split; [apply pdelete_accept|symmetry; apply str_app_nil_r]].
    apply pconcat_spec. exists (("name:" ++ w) ++ quote), q, "", q.
    split; [reflexivity|]. split; [|split; [apply closure_cs_spec; auto|reflexivity]].
    apply pconcat_spec. exists ("name:" ++ w), quote, "", "".
    split; [reflexivity|]. split; [|split; [apply pdelete_accept|reflexivity]].
    apply pconcat_spec. exists "name:", w, "", "".
    split; [reflexivity|]. split; [apply pdelete_accept|].
    split; [apply pdelete_closure; [exact Hw|lia]|reflexivity].
Qed.


Lemma token_assoc (w q r : string) :
  (((("name:" ++ w) ++ quote) ++ q) ++ (quote ++ " pause_length")) ++ r =
  "name:" ++ w ++ quote ++ q ++ quote ++ " pause_length" ++ r.
Proof. rewrite <- !str_app_assoc. reflexivity. Qed.

Lemma length_pos_nonempty (q : string) : (1 <= String.length q)%nat <-> q <> "".
Proof. destruct q; cbn; split; intros H; try lia; try congruence. Qed.

(** A token has one quoted name. *)
Lemma token_form_unique (s q1 q2 : string) : token_form s q1 -> token_form s q2 -> q1 = q2.
Proof.
  intros (w1 & r1 & -> & Hw1 & _ & Hq1 & _) (w2 & r2 & E & Hw2 & _ & Hq2 & _).
  apply str_app_inv_l in E.
  assert (Hnq : NEMO_NOT_QUOTE quote_char = false) by reflexivity.
  destruct (app_quote_unique NEMO_NOT_QUOTE w1 w2 _ _ Hnq (cs_all_impl _ _ _ white_not_quote Hw1)
              (cs_all_impl _ _ _ white_not_quote Hw2) E) as [_ E'].
  exact (proj1 (app_quote_unique NEMO_NOT_QUOTE q1 q2 _ _ Hnq Hq1 Hq2 E')).
Qed.

(** C36 (functional).  The transducer [PunctuationFst] builds is
    functional and verbalizes exactly the serialized punctuation tokens:
    an input [name:], white space, a non-empty quoted name without quotes,
    then a quote, [pause_length] and anything without a closing brace, has the
    one output the name, and any other input has none. *)
Theorem punctuation_verbalizes (s : string) :
  (forall o, In o (g_fst PunctuationFst s) <-> token_form s o) /\
  (forall o1 o2, In o1 (g_fst PunctuationFst s) -> In o2 (g_fst PunctuationFst s) -> o1 = o2).
Proof.
  assert (Hiff : forall o, In o (g_fst PunctuationFst s) <-> token_form s o).
  { intros o. cbn [g_fst PunctuationFst]. rewrite char_spec. split.
    - intros (w & q & r & -> & Hw & Hq & Hl & Hr & ->). exists w, r.
      rewrite token_assoc. repeat split; try assumption. now apply length_pos_nonempty.
    - intros (w & r & -> & Hw & Hne & Hq & Hr). exists w, o, r.
      rewrite token_assoc. repeat split; try assumption. now apply length_pos_nonempty. }
  split; [exact Hiff|]. intros o1 o2 H1 H2.
  exact (token_form_unique s o1 o2 (proj1 (Hiff o1) H1) (proj1 (Hiff o2) H2)).
Qed.

Lemma punctuation_verbalizes_witness : In "," (g_fst PunctuationFst ex_token).
Proof.
  apply (proj1 (punctuation_verbalizes ex_token) ",").
  exists " ", (": " ++ quote ++ "PAUSE_MEDIUM" ++ quote).
  split; [reflexivity|]. split; [reflexivity|]. split; [discriminate|].
  split; reflexivity.
Defined.

End PunctFst.
