(* ===== verification/PromptTable.v ===== *)
(** * PromptTable: the table of soft-prompt embeddings of p-tuning

    Models [src/nemo/collections/nlp/modules/common/prompt_table.py]:
    [PromptEmbedding] (its constructor and [forward]) and [PromptTable]
    ([__init__], [forward], [remove_prompt], [init_prompt_from_random],
    [init_prompt_from_text], [add_prompt_from_p_tuning_encoder]).

    A [PromptTable] object is the record [prompt_table_state]; its
    [torch.nn.ModuleDict] is a stdpp [gmap] from task names (the order of a
    ModuleDict is not observable by these methods) with the checks of
    [nn.Module.add_module]; [task_id_num_to_name] is a [gmap Z string].
    Methods run in the state and exception monad [st] of the prelude, so an
    exception raised half-way keeps the attribute updates made before it.
    An embedding weight is its list of rows over an abstract entry type
    [W]; what the random initialiser and dropout draw are section
    variables, as is [HAVE_APEX].  [remove_prompt] reads the module
    globals [prompt_table] and [task_id_num_to_name]; they are the record
    [module_globals], which the module itself leaves unbound. *)

From stdpp Require Import base gmap strings.
From Stdlib Require Import QArith Ascii.
From S2P Require Import Prelude PyStr.

Module PromptTable.
Import PyStr.
Local Open Scope Z_scope.
#[local] Set Warnings "-clear-no-such-hyp".

(** Concrete instances for the examples: a zero initialiser, dropout that
    keeps its input, and [training] as the one clashing attribute. *)
Definition ex_xavier (n h : Z) : list (list Z) := repeat (repeat 0 (Z.to_nat h)) (Z.to_nat n).
Definition ex_dropout (p : Q) (rows : list (list Z)) : list (list Z) := rows.
Definition ex_is_attr (n : string) : bool := String.eqb n "training".

Section Prompt.
Context {W : Type}.
(** [xavier n h]: the [n] rows of [h] entries [init.xavier_normal_] draws. *)
Variable xavier : Z -> Z -> list (list W).
(** What [torch.nn.Dropout(p)] makes of the rows for [p <> 0]. *)
Variable dropout_draw : Q -> list (list W) -> list (list W).
(** [hasattr(module_dict, name)] for a name that is not a key: the
    attributes and methods of an [nn.ModuleDict] ([training], [keys], ...). *)
Variable is_attr : string -> bool.
(** Whether [from apex.transformer import tensor_parallel] succeeded. *)
Variable HAVE_APEX : bool.

(** ** [PromptEmbedding] (lines 126-171) *)

(** [weight] is [None] for [nn.Parameter(None)], an empty 1-d tensor. *)
Record prompt_embedding := mkPE {
  pe_hidden_size : Z;
  pe_total_soft_tokens : Z;
  weight : option (list (list W));
  indices : list Z;
  dropout_p : Q
}.

(** [list(range(n))]. *)
Definition py_range (n : Z) : list Z := map Z.of_nat (seq 0 (Z.to_nat n)).

(** [torch.nn.Embedding(n, h)] and [init_method] on its weight: a negative
    size raises [RuntimeError]; [xavier_normal_] divides by
    [fan_in + fan_out]. *)
Definition nn_Embedding_init (n h : Z) : res (list (list W)) :=
  if (n <? 0) || (h <? 0) then Err RuntimeError
  else if n + h =? 0 then Err ZeroDivisionError
  else Ok (xavier n h).

(** [torch.nn.Dropout(p)] checks [0 <= p <= 1]. *)
Definition nn_Dropout (p : Q) : res Q :=
  if Qle_bool 0 p && Qle_bool p 1 then Ok p else Err ValueError.

Definition PromptEmbedding (init_from_prompt_text : bool) (hidden_size total_soft_tokens : Z)
  (word_embedding_weights : option (list (list W))) (prompt_embedding_dropout_prob : Q)
  : res prompt_embedding :=
  let? w := nn_Embedding_init total_soft_tokens hidden_size in
  let w := if init_from_prompt_text then word_embedding_weights else Some w in
  let? p := nn_Dropout prompt_embedding_dropout_prob in
  Ok (mkPE hidden_size total_soft_tokens w (py_range total_soft_tokens) p).

(** Row [i] of an embedding weight: no wrap-around for negative indices. *)
Definition embedding_row (wt : list (list W)) (i : Z) : res (list W) :=
  if i <? 0 then Err IndexError
  else match nth_error wt (Z.to_nat i) with Some r => Ok r | None => Err IndexError end.

(** [F.embedding(idx, weight)]. *)
Fixpoint embedding_lookup (wt : list (list W)) (idx : list Z) : res (list (list W)) :=
  match idx with
  | [] => Ok []
  | i :: idx' =>
    let? r := embedding_row wt i in
    let? rs := embedding_lookup wt idx' in
    Ok (r :: rs)
  end.

(** [PromptEmbedding.forward]: a 1-d weight raises [RuntimeError]. *)
Definition PromptEmbedding_forward (pe : prompt_embedding) : res (list (list W)) :=
  match weight pe with
  | None => Err RuntimeError
  | Some wt =>
    let? rows := embedding_lookup wt (indices pe) in
    Ok (if Qeq_bool (dropout_p pe) 0 then rows else dropout_draw (dropout_p pe) rows)
  end.

(** ** [torch.nn.ModuleDict] *)

Abbreviation module_dict := (gmap string prompt_embedding).

(** The checks of [add_module] that raise [KeyError]: an attribute of the
    dict that is not a key, a dot in the name, the empty name. *)
Definition module_name_error (d : module_dict) (name : string) : bool :=
  match d !! name with Some _ => false | None => is_attr name end
  || char_in "."%char name || String.eqb name "".

(** [d[name] = m]. *)
Definition md_setitem (d : module_dict) (name : string) (m : prompt_embedding) : res module_dict :=
  if module_name_error d name then Err KeyError else Ok (<[name := m]> d).

Definition md_getitem (d : module_dict) (name : string) : res prompt_embedding :=
  match d !! name with Some m => Ok m | None => Err KeyError end.

Definition md_delitem (d : module_dict) (name : string) : res module_dict :=
  match d !! name with Some _ => Ok (delete name d) | None => Err KeyError end.

(** ** [PromptTable] (lines 31-124) *)

Record prompt_table_state := mkPT {
  total_soft_tokens : Z;
  hidden_size : Z;
  prompt_table : module_dict;
  task_id_num_to_name : gmap Z string
}.

Definition set_prompt_table (d : module_dict) (s : prompt_table_state) : prompt_table_state :=
  mkPT (total_soft_tokens s) (hidden_size s) d (task_id_num_to_name s).

Definition set_task_id_num_to_name (d : gmap Z string) (s : prompt_table_state)
  : prompt_table_state :=
  mkPT (total_soft_tokens s) (hidden_size s) (prompt_table s) d.

(** The loop of [__init__] over [existing_tasks]: a [None] name raises
    [TypeError] in [add_module]. *)
Fixpoint add_existing_tasks (tasks : list (option string)) (hidden total : Z) (d : module_dict)
  : res module_dict :=
  match tasks with
  | [] => Ok d
  | t :: tasks' =>
    let? pe := PromptEmbedding false hidden total None 0 in
    match t with
    | None => Err TypeError
    | Some name =>
      let? d := md_setitem d name pe in
      add_existing_tasks tasks' hidden total d
    end
  end.

(** [PromptTable(existing_tasks, total_soft_tokens, hidden_size)];
    [existing_tasks] is [None] or a list of names and [None]s. *)
Definition __init__ (existing_tasks : option (list (option string))) (total_soft_tokens hidden_size : Z)
  : res prompt_table_state :=
  match existing_tasks with
  | Some ((Some _ :: _) as tasks) =>
    let? d := add_existing_tasks tasks hidden_size total_soft_tokens ∅ in
    Ok (mkPT total_soft_tokens hidden_size d ∅)
  | _ => Ok (mkPT total_soft_tokens hidden_size ∅ ∅)
  end.

Definition forward (task_id_num : Z) : st prompt_table_state (list (list W)) :=
  let! self := st_get in
  let! taskname := st_lift (match task_id_num_to_name self !! task_id_num with
                            | Some n => Ok n
                            | None => Err KeyError
                            end) in
  let! pe := st_lift (md_getitem (prompt_table self) taskname) in
  st_lift (PromptEmbedding_forward pe).

(** The module globals [remove_prompt] reads: [prompt_table] (its keys,
    for [in]) and [task_id_num_to_name] (its items in order). *)
Record module_globals := mkGlobals {
  g_prompt_table : option (list string);
  g_task_id_num_to_name : option (list (Z * string))
}.

(** prompt_table.py binds neither name at module level. *)
Definition prompt_table_globals : module_globals := mkGlobals None None.

(** The globals bound to the object's own attributes, as [self.prompt_table]
    and [self.task_id_num_to_name] would read. *)
Definition self_globals (s : prompt_table_state) : module_globals :=
  mkGlobals (Some (map fst (map_to_list (prompt_table s))))
            (Some (map_to_list (task_id_num_to_name s))).

Definition global_value {A} (v : option A) : res A :=
  match v with Some a => Ok a | None => Err NameError end.

(** [for key, value in ...items(): if value == taskname: ... break]. *)
Fixpoint find_task_id (items : list (Z * string)) (taskname : string) : option Z :=
  match items with
  | [] => None
  | (k, v) :: items' => if String.eqb v taskname then Some k else find_task_id items' taskname
  end.

(** [del self.task_id_num_to_name[task_id_num]]; the keys are ints, so
    [del d[None]] raises [KeyError]. *)
Definition dict_delitem (d : gmap Z string) (k : option Z) : res (gmap Z string) :=
  match k with
  | Some k => match d !! k with Some _ => Ok (delete k d) | None => Err KeyError end
  | None => Err KeyError
  end.

Definition remove_prompt (g : module_globals) (taskname : string) : st prompt_table_state unit :=
  let! pt := st_lift (global_value (g_prompt_table g)) in
  if negb (existsb (String.eqb taskname) pt) then st_ret tt else
  let! items := st_lift (global_value (g_task_id_num_to_name g)) in
  let task_id_num := find_task_id items taskname in
  let! self := st_get in
  let! d := st_lift (dict_delitem (task_id_num_to_name self) task_id_num) in
  let! _ := st_put (set_task_id_num_to_name d self) in
  let! self := st_get in
  let! d := st_lift (md_delitem (prompt_table self) taskname) in
  st_put (set_prompt_table d self).

(** [self.prompt_table[taskname] = pe]. *)
Definition store_prompt (taskname : string) (pe : prompt_embedding) : st prompt_table_state unit :=
  let! self := st_get in
  let! d := st_lift (md_setitem (prompt_table self) taskname pe) in
  st_put (set_prompt_table d self).

Definition init_prompt_from_random (taskname : string) : st prompt_table_state unit :=
  let! self := st_get in
  let! pe := st_lift (PromptEmbedding false (hidden_size self) (total_soft_tokens self) None 0) in
  store_prompt taskname pe.

(** [l * k] for a list. *)
Definition py_list_mul {A} (l : list A) (k : Z) : list A := concat (repeat l (Z.to_nat k)).

(** [math.ceil(a / b)] for [b > 0], exact (the float quotient is exact
    below 2^53). *)
Definition ceil_div (a b : Z) : Z := - ((- a) / b).

(** Lines 86-100: trim or repeat the ids to [total_soft_tokens]. *)
Definition trim_token_ids (init_token_ids : list Z) (total_soft_tokens : Z) : res (list Z) :=
  let num_text_tokens := Z.of_nat (length init_token_ids) in
  let? ids :=
    if total_soft_tokens <? num_text_tokens
    then Ok (py_slice init_token_ids None (Some total_soft_tokens))
    else if num_text_tokens <? total_soft_tokens then
      if num_text_tokens =? 0 then Err ZeroDivisionError
      else Ok (py_list_mul init_token_ids (ceil_div total_soft_tokens num_text_tokens))
    else Ok init_token_ids in
  Ok (py_slice ids None (Some total_soft_tokens)).

(** [tensor_parallel.broadcast_data]: the name is unbound without apex; on
    one rank (or rank 0) it returns the data. *)
Definition broadcast_data (ids : list Z) : res (list Z) :=
  if HAVE_APEX then Ok ids else Err NameError.

(** [word_embeddings] is the language model's token embedding, with
    weight [vocab]. *)
Definition init_prompt_from_text (taskname : string) (init_token_ids : list Z)
  (vocab : list (list W)) : st prompt_table_state unit :=
  let! self := st_get in
  let total_soft_tokens := total_soft_tokens self in
  let! ids := st_lift (trim_token_ids init_token_ids total_soft_tokens) in
  let! ids := st_lift (broadcast_data ids) in
  let! word_embedding_weights := st_lift (embedding_lookup vocab ids) in
  let! pe := st_lift (PromptEmbedding true (hidden_size self) total_soft_tokens
                        (Some word_embedding_weights) 0) in
  store_prompt taskname pe.

Definition add_prompt_from_p_tuning_encoder (taskname : string)
  (soft_prompt_embeddings : list (list W)) : st prompt_table_state unit :=
  let! self := st_get in
  let! pe := st_lift (PromptEmbedding true (hidden_size self) (total_soft_tokens self)
                        (Some soft_prompt_embeddings) 0) in
  store_prompt taskname pe.

(** ** The object's life: construction, then any sequence of method calls
    (each may raise; the caller may catch and go on). *)

Inductive pt_call :=
| CallForward (task_id_num : Z)
| CallRemovePrompt (taskname : string)
| CallInitRandom (taskname : string)
| CallInitText (taskname : string) (init_token_ids : list Z) (vocab : list (list W))
| CallAddPTuning (taskname : string) (soft_prompt_embeddings : list (list W)).

Definition run_call (c : pt_call) : st prompt_table_state unit :=
  match c with
  | CallForward i => let! _ := forward i in st_ret tt
  | CallRemovePrompt t => remove_prompt prompt_table_globals t
  | CallInitRandom t => init_prompt_from_random t
  | CallInitText t ids vocab => init_prompt_from_text t ids vocab
  | CallAddPTuning t soft => add_prompt_from_p_tuning_encoder t soft
  end.

Inductive reachable : prompt_table_state -> Prop :=
| reach_init tasks total hidden s :
    __init__ tasks total hidden = Ok s -> reachable s
| reach_call s c : reachable s -> reachable (fst (run_call c s)).

(** ** Specifications *)

(** The first [total] ids of [ids] repeated cyclically. *)
Definition cycle_ids (ids : list Z) (total : Z) : list Z :=
  map (fun j => nth (j mod length ids) ids 0) (seq 0 (Z.to_nat total)).

(** The rows of [vocab] at the given ids. *)
Definition vocab_rows (vocab : list (list W)) (ids : list Z) : list (list W) :=
  map (fun i => nth (Z.to_nat i) vocab []) ids.

(** A fresh prompt embedding with the given weight and no dropout. *)
Definition fresh_embedding (hidden total : Z) (w : option (list (list W))) : prompt_embedding :=
  mkPE hidden total w (py_range total) 0.

(** A name that [add_module] accepts in any dict. *)
Definition valid_task_name (n : string) : Prop :=
  is_attr n = false /\ char_in "."%char n = false /\ n <> ""%string.

(** ** Lemmas *)

Lemma store_prompt_run (t : string) (pe : prompt_embedding) (s : prompt_table_state) :
  store_prompt t pe s =
  match md_setitem (prompt_table s) t pe with
  | Ok d => (set_prompt_table d s, Ok tt)
  | Err e => (s, Err e)
  end.
Proof. unfold store_prompt. autorewrite with nemo_rw. now destruct (md_setitem _ _ _). Qed.

Lemma store_prompt_task_ids (t : string) (pe : prompt_embedding) (s : prompt_table_state) :
  task_id_num_to_name (fst (store_prompt t pe s)) = task_id_num_to_name s.
Proof. rewrite store_prompt_run. now destruct (md_setitem _ _ _). Qed.

Lemma forward_state (i : Z) (s : prompt_table_state) : fst (forward i s) = s.
Proof.
  unfold forward. autorewrite with nemo_rw.
  destruct (task_id_num_to_name s !! i); [|reflexivity].
  autorewrite with nemo_rw. now destruct (md_getitem _ _).
Qed.

(** The methods of the class never write [task_id_num_to_name]. *)
Lemma run_call_task_ids (c : pt_call) (s : prompt_table_state) :
  task_id_num_to_name (fst (run_call c s)) = task_id_num_to_name s.
Proof.
  destruct c; simpl run_call.
  - unfold st_bind. pose proof (forward_state task_id_num s) as Hs.
    destruct (forward task_id_num s) as [s' [r|e]]; simpl in *; now subst.
  - reflexivity.
  - unfold init_prompt_from_random. st_run; try apply store_prompt_task_ids; reflexivity.
  - unfold init_prompt_from_text. st_run; try apply store_prompt_task_ids; reflexivity.
  - unfold add_prompt_from_p_tuning_encoder. st_run; try apply store_prompt_task_ids; reflexivity.
Qed.

Lemma init_task_ids (tasks : option (list (option string))) (total hidden : Z) (s : prompt_table_state) :
  __init__ tasks total hidden = Ok s -> task_id_num_to_name s = ∅.
Proof.
  unfold __init__. destruct tasks as [[|[n|] ts]|]; intros H;
    try (injection H as <-; reflexivity).
  apply res_bind_Ok_inv in H as [d [_ [= <-]]]. reflexivity.
Qed.

Lemma reachable_no_task_ids (s : prompt_table_state) :
  reachable s -> task_id_num_to_name s = ∅.
Proof.
  induction 1 as [tasks total hidden s H|s c _ IH].
  - eapply init_task_ids; eauto.
  - now rewrite run_call_task_ids.
Qed.

Lemma existsb_keys (m : module_dict) (t : string) :
  existsb (String.eqb t) (map fst (map_to_list m)) = bool_decide (is_Some (m !! t)).
Proof.
  apply eq_true_iff_eq. rewrite existsb_exists, bool_decide_eq_true. split.
  - intros [k [Hin Hk]]. apply String.eqb_eq in Hk as ->.
    apply in_map_iff in Hin as [[k' v] [<- Hin]]. simpl. exists v.
    apply elem_of_map_to_list. now apply list_elem_of_In.
  - intros [v Hv]. exists t. split; [|apply String.eqb_refl].
    apply in_map_iff. exists (t, v). split; [reflexivity|].
    apply list_elem_of_In. now apply elem_of_map_to_list.
Qed.

(** C22 (safety).  On every object reachable from [__init__] by calls of
    the class's own methods, [task_id_num_to_name] is empty (no method
    writes it), so [forward] raises [KeyError] for every task id and
    leaves the object unchanged. *)
Theorem forward_reachable_raises (s : prompt_table_state) :
  reachable s -> forall i, forward i s = (s, Err KeyError).
Proof.
  intros Hr i. unfold forward. autorewrite with nemo_rw.
  now rewrite (reachable_no_task_ids s Hr), lookup_empty.
Qed.

(** C23 (error).  [remove_prompt] reads the unbound module globals
    [prompt_table] and [task_id_num_to_name]: it raises [NameError] and
    changes nothing.  Read as the object's own attributes, on a reachable
    object it still raises [KeyError] for a task in the table ([del] of the
    id [None], as no id names it) and returns for any other task, changing
    nothing in both cases. *)
Theorem remove_prompt_reachable (s : prompt_table_state) (t : string) :
  reachable s ->
  remove_prompt prompt_table_globals t s = (s, Err NameError) /\
  remove_prompt (self_globals s) t s =
    (s, if bool_decide (is_Some (prompt_table s !! t)) then Err KeyError else Ok tt).
Proof.
  intros Hr. split; [reflexivity|].
  unfold remove_prompt, self_globals. rewrite st_bind_lift.
  cbn [global_value g_prompt_table g_task_id_num_to_name].
  rewrite existsb_keys. destruct (bool_decide _); [|reflexivity].
  rewrite (reachable_no_task_ids s Hr), map_to_list_empty. reflexivity.
Qed.

Lemma ceil_div_bound (a b : Z) :
  0 <= a -> 0 < b -> 0 <= ceil_div a b /\ a <= ceil_div a b * b.
Proof.
  intros Ha Hb. unfold ceil_div.
  pose proof (Z.div_mod (- a) b ltac:(lia)). pose proof (Z.mod_pos_bound (- a) b Hb). nia.
Qed.

Lemma firstn_cycle (ids : list Z) (k : nat) :
  (k <= length ids)%nat -> firstn k ids = cycle_ids ids (Z.of_nat k).
Proof.
  intros Hk. unfold cycle_ids. rewrite Nat2Z.id, (firstn_as_map ids 0) by exact Hk.
  apply map_ext_in. intros j Hj. apply in_seq in Hj. now rewrite Nat.mod_small by lia.
Qed.

Lemma length_cycle_ids (ids : list Z) (total : Z) :
  length (cycle_ids ids total) = Z.to_nat total.
Proof. unfold cycle_ids. now rewrite length_map, length_seq. Qed.

Lemma cycle_ids_Forall (P : Z -> Prop) (ids : list Z) (total : Z) :
  (0 < length ids)%nat -> Forall P ids -> Forall P (cycle_ids ids total).
Proof.
  intros Hn Hids. unfold cycle_ids. apply Forall_map, Forall_forall. intros j _.
  rewrite Forall_forall in Hids. apply Hids, nth_In, Nat.mod_upper_bound. lia.
Qed.

Lemma skipn_nth_error {A} (l : list A) (a : nat) (r : A) :
  nth_error l a = Some r -> skipn a l = r :: skipn (S a) l.
Proof.
  revert a. induction l as [|x l IH]; intros [|a] H; simpl in *; try discriminate.
  - now injection H as ->.
  - now apply IH.
Qed.

(** Rows [a .. a+k-1] of a weight with at least [a] rows. *)
Lemma embedding_lookup_seq (wt : list (list W)) (a k : nat) :
  (a <= length wt)%nat ->
  embedding_lookup wt (map Z.of_nat (seq a k)) =
  if (a + k <=? length wt)%nat then Ok (firstn k (skipn a wt)) else Err IndexError.
Proof.
  revert a. induction k as [|k IH]; intros a Ha; simpl.
  - destruct (Nat.leb_spec (a + 0) (length wt)); [reflexivity|lia].
  - unfold embedding_row. destruct (Z.ltb_spec (Z.of_nat a) 0); [lia|]. rewrite Nat2Z.id.
    destruct (nth_error wt a) as [r|] eqn:E.
    + assert (a < length wt)%nat by (apply nth_error_Some; congruence).
      simpl. rewrite IH by lia. rewrite (skipn_nth_error wt a r E).
      replace (a + S k)%nat with (S a + k)%nat by lia.
      now destruct (S a + k <=? length wt)%nat.
    + apply nth_error_None in E. destruct (Nat.leb_spec (a + S k) (length wt)); [lia|].
      reflexivity.
Qed.

Lemma embedding_lookup_range (wt : list (list W)) (n : Z) :
  embedding_lookup wt (py_range n) =
  if (Z.to_nat n <=? length wt)%nat then Ok (firstn (Z.to_nat n) wt) else Err IndexError.
Proof. unfold py_range. rewrite embedding_lookup_seq by lia. reflexivity. Qed.

Lemma embedding_lookup_in (wt : list (list W)) (idx : list Z) :
  Forall (fun i => 0 <= i < Z.of_nat (length wt)) idx ->
  embedding_lookup wt idx = Ok (vocab_rows wt idx).
Proof.
  induction 1 as [|i idx Hi _ IH]; [reflexivity|]. simpl. unfold embedding_row.
  destruct (Z.ltb_spec i 0); [lia|].
  rewrite (nth_error_nth' wt []) by lia. simpl. now rewrite IH.
Qed.

Lemma PromptEmbedding_ok (b : bool) (hidden total : Z) (w : option (list (list W))) :
  0 <= total -> 0 <= hidden -> 0 < total + hidden ->
  PromptEmbedding b hidden total w 0 =
  Ok (fresh_embedding hidden total (if b then w else Some (xavier total hidden))).
Proof.
  intros Ht Hh Hth. unfold PromptEmbedding, nn_Embedding_init.
  destruct (Z.ltb_spec total 0), (Z.ltb_spec hidden 0); try lia.
  destruct (Z.eqb_spec (total + hidden) 0); [lia|]. reflexivity.
Qed.

Lemma md_setitem_ok (d : module_dict) (t : string) (pe : prompt_embedding) :
  module_name_error d t = false -> md_setitem d t pe = Ok (<[t := pe]> d).
Proof. unfold md_setitem. now intros ->. Qed.

(** C24 (equivalence).  For [total_soft_tokens >= 0], the trimming and
    repetition of [init_prompt_from_text] (lines 86-100) gives the first
    [total_soft_tokens] ids of [init_token_ids] repeated cyclically, and
    raises [ZeroDivisionError] exactly when there are no ids and
    [total_soft_tokens > 0]. *)
Theorem trim_token_ids_spec (ids : list Z) (total : Z) :
  0 <= total ->
  trim_token_ids ids total =
    if (length ids =? 0)%nat && (0 <? total) then Err ZeroDivisionError
    else Ok (cycle_ids ids total).
Proof.
  intros Ht. unfold trim_token_ids.
  destruct (Z.ltb_spec total (Z.of_nat (length ids))).
  - simpl. rewrite !py_slice_prefix by lia. rewrite firstn_firstn, Nat.min_id.
    destruct (Nat.eqb_spec (length ids) 0); [lia|]. simpl.
    rewrite firstn_cycle by lia. now rewrite Z2Nat.id.
  - destruct (Z.ltb_spec (Z.of_nat (length ids)) total).
    + destruct (Z.eqb_spec (Z.of_nat (length ids)) 0).
      * destruct (Nat.eqb_spec (length ids) 0); [|lia].
        destruct (Z.ltb_spec 0 total); [reflexivity|lia].
      * simpl. rewrite py_slice_prefix by lia.
        destruct (Nat.eqb_spec (length ids) 0); [lia|]. simpl. f_equal.
        unfold py_list_mul.
        pose proof (ceil_div_bound total (Z.of_nat (length ids)) Ht ltac:(lia)) as [Hc0 Hc].
        rewrite (firstn_as_map _ 0) by (rewrite length_concat_repeat; nia).
        unfold cycle_ids. apply map_ext_in. intros j Hj. apply in_seq in Hj.
        apply nth_concat_repeat; nia.
    + simpl. rewrite py_slice_prefix by lia.
      rewrite firstn_cycle by lia. rewrite Z2Nat.id by lia.
      destruct (Nat.eqb_spec (length ids) 0), (Z.ltb_spec 0 total); try lia; reflexivity.
Qed.

(** C25 (functional).  With apex, a valid task name, sizes
    [total_soft_tokens, hidden_size >= 0] not both zero and at least one
    id, every id a row of the vocabulary, [init_prompt_from_text] stores
    under the task name a prompt embedding whose weight is the vocabulary
    rows of the ids repeated cyclically to [total_soft_tokens] rows, and
    that embedding's [forward] returns exactly those rows. *)
Theorem init_prompt_from_text_spec (s : prompt_table_state) (t : string) (ids : list Z)
  (vocab : list (list W)) :
  HAVE_APEX = true -> (0 < length ids)%nat ->
  0 <= total_soft_tokens s -> 0 <= hidden_size s -> 0 < total_soft_tokens s + hidden_size s ->
  Forall (fun i => 0 <= i < Z.of_nat (length vocab)) ids ->
  module_name_error (prompt_table s) t = false ->
  let rows := vocab_rows vocab (cycle_ids ids (total_soft_tokens s)) in
  let pe := fresh_embedding (hidden_size s) (total_soft_tokens s) (Some rows) in
  init_prompt_from_text t ids vocab s = (set_prompt_table (<[t := pe]> (prompt_table s)) s, Ok tt) /\
  PromptEmbedding_forward pe = Ok rows /\
  length rows = Z.to_nat (total_soft_tokens s).
Proof.
  intros Hapex Hn Ht Hh Hth Hids Hname rows pe.
  assert (Hlen : length rows = Z.to_nat (total_soft_tokens s))
    by (unfold rows, vocab_rows; now rewrite length_map, length_cycle_ids).
  split; [|split; [|exact Hlen]].
  - unfold init_prompt_from_text. rewrite st_bind_get, st_bind_lift.
    rewrite trim_token_ids_spec by exact Ht.
    destruct (Nat.eqb_spec (length ids) 0); [lia|]. simpl andb. cbv iota.
    rewrite st_bind_lift. unfold broadcast_data. rewrite Hapex, st_bind_lift.
    rewrite embedding_lookup_in by (apply cycle_ids_Forall; assumption).
    rewrite st_bind_lift, PromptEmbedding_ok by assumption.
    rewrite store_prompt_run, md_setitem_ok by exact Hname. reflexivity.
  - unfold PromptEmbedding_forward. cbn [weight indices dropout_p pe fresh_embedding].
    rewrite embedding_lookup_range, Hlen, Nat.leb_refl. simpl.
    rewrite <- Hlen, firstn_all. reflexivity.
Qed.

(** Spec gap.  [add_prompt_from_p_tuning_encoder] stores the given
    embeddings as the weight without checking their number of rows: the
    stored embedding's [forward] returns the first [total_soft_tokens] rows
    when there are that many, and raises [IndexError] otherwise. *)
Theorem add_prompt_from_p_tuning_encoder_spec (s : prompt_table_state) (t : string)
  (soft : list (list W)) :
  0 <= total_soft_tokens s -> 0 <= hidden_size s -> 0 < total_soft_tokens s + hidden_size s ->
  module_name_error (prompt_table s) t = false ->
  let pe := fresh_embedding (hidden_size s) (total_soft_tokens s) (Some soft) in
  add_prompt_from_p_tuning_encoder t soft s =
    (set_prompt_table (<[t := pe]> (prompt_table s)) s, Ok tt) /\
  PromptEmbedding_forward pe =
    if (Z.to_nat (total_soft_tokens s) <=? length soft)%nat
    then Ok (firstn (Z.to_nat (total_soft_tokens s)) soft) else Err IndexError.
Proof.
  intros Ht Hh Hth Hname pe. split.
  - unfold add_prompt_from_p_tuning_encoder. rewrite st_bind_get, st_bind_lift.
    rewrite PromptEmbedding_ok by assumption.
    rewrite store_prompt_run, md_setitem_ok by exact Hname. reflexivity.
  - unfold PromptEmbedding_forward. cbn [weight indices dropout_p pe fresh_embedding].
    rewrite embedding_lookup_range. now destruct (_ <=? _)%nat.
Qed.

Lemma module_name_error_valid (d : module_dict) (n : string) :
  valid_task_name n -> module_name_error d n = false.
Proof.
  intros (Ha & Hd & Hn). unfold module_name_error. rewrite Hd.
  apply String.eqb_neq in Hn. rewrite Hn. destruct (d !! n); simpl; now rewrite ?Ha.
Qed.

Lemma add_existing_tasks_ok (names : list string) (hidden total : Z) (d : module_dict) :
  0 <= total -> 0 <= hidden -> 0 < total + hidden -> Forall valid_task_name names ->
  exists d', add_existing_tasks (map Some names) hidden total d = Ok d' /\
    forall n, d' !! n = if bool_decide (n ∈ names)
                        then Some (fresh_embedding hidden total (Some (xavier total hidden)))
                        else d !! n.
Proof.
  intros Ht Hh Hth Hv. revert d. induction Hv as [|x names Hx _ IH]; intros d.
  - exists d. split; [reflexivity|]. intros n. now rewrite bool_decide_false by set_solver.
  - simpl. rewrite PromptEmbedding_ok by assumption. simpl.
    rewrite md_setitem_ok by (now apply module_name_error_valid). simpl.
    destruct (IH (<[x := fresh_embedding hidden total (Some (xavier total hidden))]> d))
      as [d' [E Hd']]. exists d'. split; [exact E|].
    intros n. rewrite Hd'. destruct (decide (n = x)) as [->|Hne].
    + rewrite lookup_insert_eq, (bool_decide_true (x ∈ x :: names)) by set_solver.
      now destruct (bool_decide _).
    + rewrite lookup_insert_ne by congruence.
      destruct (decide (n ∈ names)).
      * rewrite !bool_decide_true by set_solver. reflexivity.
      * rewrite !bool_decide_false by set_solver. reflexivity.
Qed.

(** [PromptTable(existing_tasks, ...)] with a list of
    valid task names builds a table holding, for exactly those names, a
    randomly initialised embedding of [total_soft_tokens] rows, with no
    task ids; [None] or a list starting with [None] gives an empty table. *)
Theorem init_existing_tasks (names : list string) (total hidden : Z) :
  0 <= total -> 0 <= hidden -> 0 < total + hidden -> Forall valid_task_name names ->
  (exists s, __init__ (Some (map Some names)) total hidden = Ok s /\
     total_soft_tokens s = total /\ hidden_size s = hidden /\ task_id_num_to_name s = ∅ /\
     forall n, prompt_table s !! n =
       if bool_decide (n ∈ names)
       then Some (fresh_embedding hidden total (Some (xavier total hidden))) else None) /\
  __init__ None total hidden = Ok (mkPT total hidden ∅ ∅) /\
  (forall tasks, __init__ (Some (None :: tasks)) total hidden = Ok (mkPT total hidden ∅ ∅)).
Proof.
  intros Ht Hh Hth Hv. split; [|split; [reflexivity|intros; reflexivity]].
  destruct (add_existing_tasks_ok names hidden total ∅ Ht Hh Hth Hv) as [d [E Hd]].
  destruct names as [|x names].
  - exists (mkPT total hidden ∅ ∅). split; [reflexivity|].
    do 3 (split; [reflexivity|]). intros n. cbn [prompt_table].
    rewrite bool_decide_false by set_solver. apply lookup_empty.
  - exists (mkPT total hidden d ∅). split.
    + simpl map in E |- *. unfold __init__. now rewrite E.
    + do 3 (split; [reflexivity|]). intros n. cbn [prompt_table].
      rewrite Hd, lookup_empty. now destruct (bool_decide _).
Qed.

End Prompt.

Lemma forward_reachable_raises_witness :
  let s0 := mkPT 2 3 ∅ ∅ in
  let s := fst (run_call ex_xavier ex_dropout ex_is_attr true (CallInitRandom "b") s0) in
  reachable ex_xavier ex_dropout ex_is_attr true s /\ forward ex_dropout 0 s = (s, Err KeyError).
Proof.
  intros s0 s.
  assert (H : reachable ex_xavier ex_dropout ex_is_attr true s).
  { apply reach_call. apply (reach_init _ _ _ _ None 2 3). reflexivity. }
  split; [exact H|]. exact (forward_reachable_raises ex_xavier ex_dropout ex_is_attr true s H 0).
Defined.

Lemma remove_prompt_reachable_witness :
  let s := mkPT 2 3 (<["a" := fresh_embedding 3 2 (Some (ex_xavier 2 3))]> ∅) ∅ in
  reachable ex_xavier ex_dropout ex_is_attr true s /\
  remove_prompt prompt_table_globals "a" s = (s, Err NameError) /\
  remove_prompt (self_globals s) "a" s = (s, Err KeyError).
Proof.
  intros s.
  assert (H : reachable ex_xavier ex_dropout ex_is_attr true s).
  { apply (reach_init _ _ _ _ (Some [Some "a"]) 2 3). reflexivity. }
  destruct (remove_prompt_reachable ex_xavier ex_dropout ex_is_attr true s "a" H) as [H1 H2].
  split; [exact H|]. split; [exact H1|]. rewrite H2. reflexivity.
Defined.

Lemma trim_token_ids_spec_witness :
  0 <= 5 /\ trim_token_ids [7; 8] 5 = Ok [7; 8; 7; 8; 7].
Proof. split; [lia|]. rewrite (trim_token_ids_spec [7; 8] 5) by lia. reflexivity. Defined.

Lemma init_prompt_from_text_spec_witness :
  let s := mkPT 3 2 ∅ ∅ in
  (0 < length [1; 0])%nat /\ Forall (fun i => 0 <= i < 2) [1; 0] /\
  module_name_error ex_is_attr (prompt_table s) "p" = false /\
  init_prompt_from_text ex_xavier ex_is_attr true "p" [1; 0] [[10; 11]; [20; 21]] s =
    (set_prompt_table (<["p" := fresh_embedding 2 3 (Some [[20; 21]; [10; 11]; [20; 21]])]> ∅) s,
     Ok tt).
Proof.
  intros s.
  assert (Hn : (0 < length [1; 0])%nat) by (simpl; lia).
  assert (Hids : Forall (fun i => 0 <= i < 2) [1; 0]) by (repeat constructor; lia).
  assert (Hname : module_name_error ex_is_attr (prompt_table s) "p" = false) by reflexivity.
  split; [exact Hn|]. split; [exact Hids|]. split; [exact Hname|].
  exact (proj1 (init_prompt_from_text_spec ex_xavier ex_dropout ex_is_attr true s "p" [1; 0]
    [[10; 11]; [20; 21]] eq_refl Hn ltac:(simpl; lia) ltac:(simpl; lia) ltac:(simpl; lia)
    Hids Hname)).
Defined.

Lemma add_prompt_from_p_tuning_encoder_spec_witness :
  let s := mkPT (W := Z) 3 2 ∅ ∅ in
  module_name_error ex_is_attr (prompt_table s) "p" = false /\
  PromptEmbedding_forward ex_dropout (fresh_embedding 2 3 (Some [[1; 2]])) = Err IndexError.
Proof.
  intros s.
  assert (Hname : module_name_error ex_is_attr (prompt_table s) "p" = false) by reflexivity.
  split; [exact Hname|].
  exact (proj2 (add_prompt_from_p_tuning_encoder_spec ex_xavier ex_dropout ex_is_attr s "p"
    [[1; 2]] ltac:(simpl; lia) ltac:(simpl; lia) ltac:(simpl; lia) Hname)).
Defined.

Lemma init_existing_tasks_witness :
  Forall (valid_task_name ex_is_attr) ["a"; "b"] /\
  exists s, __init__ ex_xavier ex_is_attr (Some (map Some ["a"; "b"])) 2 3 = Ok s /\
    prompt_table s !! "b" = Some (fresh_embedding 3 2 (Some (ex_xavier 2 3))).
Proof.
  assert (Hv : Forall (valid_task_name ex_is_attr) ["a"; "b"]).
  { repeat constructor; unfold valid_task_name; repeat split; try reflexivity; discriminate. }
  split; [exact Hv|].
  destruct (init_existing_tasks ex_xavier ex_is_attr ["a"; "b"] 2 3
    ltac:(lia) ltac:(lia) ltac:(lia) Hv) as [(s & E & _ & _ & _ & Hs) _].
  exists s. split; [exact E|]. rewrite Hs. reflexivity.
Defined.

End PromptTable.
