(* ===== verification/DiarMetric.v ===== *)
(** * DiarMetric: the [MultiBinaryAcc] metric of the TS-VAD model

    Models [MultiBinaryAcc] of [src/nemo/collections/asr/models/
    tsvad_models.py] (lines 117-166): its counters, [update] and
    [compute].

    A 3-d tensor is its shape and its entry function ([tensor]); the
    elementwise operations broadcast as PyTorch does (a dimension of size
    one stretches, other mismatches raise [RuntimeError]).  Floats are
    exact rationals; [torch.round] rounds half to even.  A counter starts
    as the Python int [0] and becomes an int64 tensor at its first
    [+=]; later [+=] add in place, so the counters are cells of a heap
    ([world]) and a counter is a Python int ([CInt]) or a reference to a
    cell ([CRef]).  Whoever holds the reference sees the later in-place
    additions.  Divisions follow Python on ints ([ZeroDivisionError]) and
    PyTorch on tensors ([nan], [inf]).

    The theorems: the invariant of the counters over [updated], the
    metric's life (C28); the counters' types (C29); what [compute]
    returns after updates (C30) and before any; the overcount of
    a broadcast target batch (C32). *)

From Stdlib Require Import QArith Qround Qabs Lqa.
From S2P Require Import Prelude.

Module DiarMetric.
Local Open Scope Z_scope.

(** ** Tensors *)

Record tensor (A : Type) := mkT {
  sz0 : nat; sz1 : nat; sz2 : nat;
  get : nat -> nat -> nat -> A
}.
Arguments mkT {A}.
Arguments sz0 {A}. Arguments sz1 {A}. Arguments sz2 {A}. Arguments get {A}.

Definition tmap {A B} (f : A -> B) (x : tensor A) : tensor B :=
  mkT (sz0 x) (sz1 x) (sz2 x) (fun i j k => f (get x i j k)).

(** [x[:, :m, :]]. *)
Definition slice1 {A} (x : tensor A) (m : nat) : tensor A :=
  mkT (sz0 x) (Nat.min (sz1 x) m) (sz2 x) (get x).

(** The broadcast size of two dimensions. *)
Definition bdim (a b : nat) : option nat :=
  if Nat.eqb a b then Some a
  else if Nat.eqb a 1 then Some b
  else if Nat.eqb b 1 then Some a
  else None.

(** The index read in a dimension of size [d] that is broadcast. *)
Definition bidx (d i : nat) : nat := if Nat.eqb d 1 then 0 else i.

(** An elementwise binary operation with broadcasting. *)
Definition zip_with {A B C} (f : A -> B -> C) (x : tensor A) (y : tensor B) : res (tensor C) :=
  match bdim (sz0 x) (sz0 y), bdim (sz1 x) (sz1 y), bdim (sz2 x) (sz2 y) with
  | Some n0, Some n1, Some n2 =>
    Ok (mkT n0 n1 n2 (fun i j k =>
          f (get x (bidx (sz0 x) i) (bidx (sz1 x) j) (bidx (sz2 x) k))
            (get y (bidx (sz0 y) i) (bidx (sz1 y) j) (bidx (sz2 y) k))))
  | _, _, _ => Err RuntimeError
  end.

(** The indices of a tensor in row-major order. *)
Definition grid (n0 n1 n2 : nat) : list (nat * nat * nat) :=
  flat_map (fun i => flat_map (fun j => map (fun k => (i, j, k)) (seq 0 n2)) (seq 0 n1)) (seq 0 n0).

(** [torch.sum] of a bool tensor. *)
Definition tsum (x : tensor bool) : Z :=
  Z.of_nat (length (filter (fun '(i, j, k) => get x i j k) (grid (sz0 x) (sz1 x) (sz2 x)))).

(** [torch.prod(torch.tensor(x.shape))]. *)
Definition numel {A} (x : tensor A) : Z := Z.of_nat (sz0 x * sz1 x * sz2 x).

(** [torch.round]: to the nearest integer, ties to the even one. *)
Definition round_half_even (q : Q) : Z :=
  let f := Qfloor q in
  let r := (q - inject_Z f)%Q in
  if Qeq_bool r (1 # 2) then (if Z.even f then f else f + 1)
  else if Qle_bool r (1 # 2) then f else f + 1.

(** [x.round().bool()]. *)
Definition round_bool (q : Q) : bool := negb (round_half_even q =? 0).

(** ** Python and PyTorch numbers *)

(** An int-valued attribute: a Python int, or an int64 tensor at a cell. *)
Inductive counter := CInt (z : Z) | CRef (l : nat).

(** A float-valued result: IEEE values with [nan] and the infinities. *)
Inductive ext := Fin (q : Q) | NaN | Inf (positive : bool).

(** A Python float, or a float tensor. *)
Inductive fval := FPy (q : Q) | FT (e : ext).

(** The value [compute] leaves in [f1_score]: the int [-1] or a float. *)
Inductive f1val := F1Int (z : Z) | F1Float (v : fval).

Fixpoint heap_set (h : list Z) (l : nat) (z : Z) : list Z :=
  match h, l with
  | [], _ => []
  | _ :: h', O => z :: h'
  | x :: h', S l' => x :: heap_set h' l' z
  end.

Definition cval (h : list Z) (c : counter) : Z :=
  match c with CInt z => z | CRef l => nth l h 0 end.

Definition is_tensor (c : counter) : bool :=
  match c with CRef _ => true | CInt _ => false end.

Definition ext_neg (e : ext) : ext :=
  match e with Fin q => Fin (- q) | NaN => NaN | Inf b => Inf (negb b) end.

Definition ext_add (a b : ext) : ext :=
  match a, b with
  | NaN, _ | _, NaN => NaN
  | Inf x, Inf y => if Bool.eqb x y then Inf x else NaN
  | Inf x, Fin _ | Fin _, Inf x => Inf x
  | Fin x, Fin y => Fin (x + y)
  end.

Definition ext_mul (a b : ext) : ext :=
  match a, b with
  | NaN, _ | _, NaN => NaN
  | Inf x, Inf y => Inf (Bool.eqb x y)
  | Inf x, Fin q | Fin q, Inf x =>
    if Qeq_bool q 0 then NaN else Inf (Bool.eqb x (Qle_bool 0 q))
  | Fin x, Fin y => Fin (x * y)
  end.

Definition ext_div (a b : ext) : ext :=
  match a, b with
  | NaN, _ | _, NaN => NaN
  | Inf _, Inf _ => NaN
  | Fin _, Inf _ => Fin 0
  | Inf x, Fin q => Inf (Bool.eqb x (Qle_bool 0 q))
  | Fin x, Fin y =>
    if Qeq_bool y 0 then (if Qeq_bool x 0 then NaN else Inf (Qle_bool 0 x))
    else Fin (x / y)
  end.

Definition fval_ext (v : fval) : ext := match v with FPy q => Fin q | FT e => e end.

(** A binary float operation: on two Python floats [py], else on tensors. *)
Definition fbin (py : Q -> Q -> res Q) (t : ext -> ext -> ext) (a b : fval) : res fval :=
  match a, b with
  | FPy x, FPy y => let? q := py x y in Ok (FPy q)
  | _, _ => Ok (FT (t (fval_ext a) (fval_ext b)))
  end.

Definition py_fdiv (x y : Q) : res Q := if Qeq_bool y 0 then Err ZeroDivisionError else Ok (x / y)%Q.

Definition fadd := fbin (fun x y => Ok (x + y)%Q) ext_add.
Definition fmul := fbin (fun x y => Ok (x * y)%Q) ext_mul.
Definition fdiv := fbin py_fdiv ext_div.

(** [a / b] on two int-valued objects: true division. *)
Definition int_truediv (ta : bool) (a : Z) (tb : bool) (b : Z) : res fval :=
  if ta || tb then Ok (FT (ext_div (Fin (inject_Z a)) (Fin (inject_Z b))))
  else let? q := py_fdiv (inject_Z a) (inject_Z b) in Ok (FPy q).

(** [torch.isnan]: a Python float is not a tensor. *)
Definition isnan (v : fval) : res bool :=
  match v with FT NaN => Ok true | FT _ => Ok false | FPy _ => Err TypeError end.

(** ** The metric object *)

Record metric := mkMetric {
  correct_counts_k : counter;
  total_counts_k : counter;
  target_true : counter;
  predicted_true : counter;
  true_positive_count : counter;
  false_positive_count : counter;
  false_negative_count : counter;
  (** set by [update] *)
  positive_count : option counter;
  m_true : option (tensor bool);
  m_false : option (tensor bool);
  m_positive : option (tensor bool);
  m_negative : option (tensor bool);
  (** set by [compute] *)
  precision : option fval;
  recall : option fval;
  infer_positive_rate : option fval;
  target_true_rate : option fval;
  f1_score : option f1val
}.

(** The heap of int64 tensor cells and the metric. *)
Record world := mkWorld { heap : list Z; acc : metric }.

(** [MultiBinaryAcc.__init__] (lines 118-126). *)
Definition __init__ : metric :=
  mkMetric (CInt 0) (CInt 0) (CInt 0) (CInt 0) (CInt 0) (CInt 0) (CInt 0)
    None None None None None None None None None None.

(** The counters, in the order of the record. *)
Definition counters (m : metric) : list counter :=
  [correct_counts_k m; total_counts_k m; target_true m; predicted_true m;
   true_positive_count m; false_positive_count m; false_negative_count m].

Definition set_acc (m : metric) (w : world) : world := mkWorld (heap w) m.

(** [c += z]: a Python int gives a new tensor cell, a tensor adds in place. *)
Definition iadd (c : counter) (z : Z) : st world counter :=
  let! w := st_get in
  match c with
  | CInt n => let! _ := st_put (mkWorld (heap w ++ [n + z]) (acc w)) in
              st_ret (CRef (length (heap w)))
  | CRef l => let! _ := st_put (mkWorld (heap_set (heap w) l (nth l (heap w) 0 + z)) (acc w)) in
              st_ret (CRef l)
  end.

(** A new int64 tensor holding [z]. *)
Definition new_tensor (z : Z) : st world counter :=
  let! w := st_get in
  let! _ := st_put (mkWorld (heap w ++ [z]) (acc w)) in
  st_ret (CRef (length (heap w))).

(** [self.<counter> = c] for each counter field. *)
Inductive field := FCorrect | FTotal | FTargetTrue | FPredictedTrue | FTP | FFP | FFN.

Definition get_field (f : field) (m : metric) : counter :=
  match f with
  | FCorrect => correct_counts_k m | FTotal => total_counts_k m
  | FTargetTrue => target_true m | FPredictedTrue => predicted_true m
  | FTP => true_positive_count m | FFP => false_positive_count m
  | FFN => false_negative_count m
  end.

Definition field_eqb (f g : field) : bool :=
  match f, g with
  | FCorrect, FCorrect | FTotal, FTotal | FTargetTrue, FTargetTrue
  | FPredictedTrue, FPredictedTrue | FTP, FTP | FFP, FFP | FFN, FFN => true
  | _, _ => false
  end.

Definition set_field (f : field) (c : counter) (m : metric) : metric :=
  let g f' := if field_eqb f f' then c else get_field f' m in
  mkMetric (g FCorrect) (g FTotal) (g FTargetTrue) (g FPredictedTrue) (g FTP) (g FFP) (g FFN)
    (positive_count m) (m_true m) (m_false m) (m_positive m) (m_negative m)
    (precision m) (recall m) (infer_positive_rate m) (target_true_rate m) (f1_score m).

(** [self.<f> += z]. *)
Definition add_to (f : field) (z : Z) : st world unit :=
  let! w := st_get in
  let! c := iadd (get_field f (acc w)) z in
  let! w := st_get in
  st_put (set_acc (set_field f c (acc w)) w).

Definition set_masks (t fl p n : option (tensor bool)) (pc : option counter) (m : metric) : metric :=
  mkMetric (correct_counts_k m) (total_counts_k m) (target_true m) (predicted_true m)
    (true_positive_count m) (false_positive_count m) (false_negative_count m)
    pc t fl p n (precision m) (recall m) (infer_positive_rate m) (target_true_rate m) (f1_score m).

(** [MultiBinaryAcc.update] (lines 129-147). *)
Definition update (preds targets : tensor Q) : st world unit :=
  let min_len := Nat.min (sz1 preds) (sz1 targets) in
  let preds := slice1 preds min_len in
  let targets := slice1 targets min_len in
  let pb := tmap round_bool preds in
  let tb := tmap round_bool targets in
  let! tru := st_lift (zip_with Bool.eqb pb tb) in
  let! w := st_get in
  let! _ := st_put (set_acc (set_masks (Some tru) (m_false (acc w)) (m_positive (acc w))
                              (m_negative (acc w)) (positive_count (acc w)) (acc w)) w) in
  let! fls := st_lift (zip_with (fun a b => negb (Bool.eqb a b)) pb tb) in
  let positive := tmap (fun a => Bool.eqb a true) pb in
  let negative := tmap (fun a => Bool.eqb a false) pb in
  let! pc := new_tensor (tsum positive) in
  let! w := st_get in
  let! _ := st_put (set_acc (set_masks (Some tru) (Some fls) (Some positive) (Some negative)
                              (Some pc) (acc w)) w) in
  let! tp := st_lift (zip_with andb tru positive) in
  let! _ := add_to FTP (tsum tp) in
  let! fp := st_lift (zip_with andb fls positive) in
  let! _ := add_to FFP (tsum fp) in
  let! fn := st_lift (zip_with andb fls negative) in
  let! _ := add_to FFN (tsum fn) in
  let! _ := add_to FCorrect (tsum tru) in
  let! _ := add_to FTotal (numel targets) in
  let! _ := add_to FTargetTrue (tsum (tmap (fun b => Bool.eqb b true) tb)) in
  add_to FPredictedTrue (tsum (tmap (fun b => Bool.eqb b false) pb)).

(** [a + b] on two counters: an int unless one is a tensor. *)
Definition cadd (h : list Z) (a b : counter) : bool * Z :=
  (is_tensor a || is_tensor b, cval h a + cval h b).

Definition cdiv (h : list Z) (a : counter) (b : bool * Z) : res fval :=
  int_truediv (is_tensor a) (cval h a) (fst b) (snd b).

Definition set_results (p r ipr ttr : option fval) (f1 : option f1val) (m : metric) : metric :=
  mkMetric (correct_counts_k m) (total_counts_k m) (target_true m) (predicted_true m)
    (true_positive_count m) (false_positive_count m) (false_negative_count m)
    (positive_count m) (m_true m) (m_false m) (m_positive m) (m_negative m) p r ipr ttr f1.

(** [self.<result> = v], for each result attribute. *)
Definition put_precision (v : fval) : st world unit :=
  let! w := st_get in let m := acc w in
  st_put (set_acc (set_results (Some v) (recall m) (infer_positive_rate m)
                     (target_true_rate m) (f1_score m) m) w).
Definition put_recall (v : fval) : st world unit :=
  let! w := st_get in let m := acc w in
  st_put (set_acc (set_results (precision m) (Some v) (infer_positive_rate m)
                     (target_true_rate m) (f1_score m) m) w).
Definition put_infer_positive_rate (v : fval) : st world unit :=
  let! w := st_get in let m := acc w in
  st_put (set_acc (set_results (precision m) (recall m) (Some v)
                     (target_true_rate m) (f1_score m) m) w).
Definition put_target_true_rate (v : fval) : st world unit :=
  let! w := st_get in let m := acc w in
  st_put (set_acc (set_results (precision m) (recall m) (infer_positive_rate m)
                     (Some v) (f1_score m) m) w).
Definition put_f1_score (v : f1val) : st world unit :=
  let! w := st_get in let m := acc w in
  st_put (set_acc (set_results (precision m) (recall m) (infer_positive_rate m)
                     (target_true_rate m) (Some v) m) w).

(** [MultiBinaryAcc.compute] (lines 150-166); the prints have no effect
    on the object. *)
Definition compute : st world f1val :=
  let! w := st_get in
  let h := heap w in
  let m := acc w in
  let tp := true_positive_count m in
  let total := total_counts_k m in
  let! p := st_lift (cdiv h tp (cadd h tp (false_positive_count m))) in
  let! _ := put_precision p in
  let! r := st_lift (cdiv h tp (cadd h tp (false_negative_count m))) in
  let! _ := put_recall r in
  let! pc := st_lift (match positive_count m with Some c => Ok c | None => Err AttributeError end) in
  let! ipr := st_lift (cdiv h pc (is_tensor total, cval h total)) in
  let! _ := put_infer_positive_rate ipr in
  let! ttr := st_lift (cdiv h (target_true m) (is_tensor total, cval h total)) in
  let! _ := put_target_true_rate ttr in
  let! two_p := st_lift (fmul (FPy 2) p) in
  let! num := st_lift (fmul two_p r) in
  let! den := st_lift (fadd p r) in
  let! f1 := st_lift (fdiv num den) in
  let! _ := put_f1_score (F1Float f1) in
  let! nan := st_lift (isnan f1) in
  let f1 := if nan then F1Int (-1) else F1Float f1 in
  let! _ := put_f1_score f1 in
  st_ret f1.

(** ** Specifications *)

(** The number of indices of a shape where [g] holds. *)
Definition gcount (n0 n1 n2 : nat) (g : nat -> nat -> nat -> bool) : Z :=
  Z.of_nat (length (filter (fun '(i, j, k) => g i j k) (grid n0 n1 n2))).


(** A well-formed world: every tensor counter's cell exists, and two
    counters never share a cell. *)
Definition wf (w : world) : Prop :=
  (forall f l, get_field f (acc w) = CRef l -> (l < length (heap w))%nat) /\
  (forall f g l, f <> g -> get_field f (acc w) = CRef l -> get_field g (acc w) <> CRef l).

Definition field_value (w : world) (f : field) : Z := cval (heap w) (get_field f (acc w)).

(** Every counter that is a tensor cell in [w] is the same cell in [w']:
    whoever holds the tensor sees the later additions. *)
Definition keeps_cells (w w' : world) : Prop :=
  forall g l, get_field g (acc w) = CRef l -> get_field g (acc w') = CRef l.

(** What one [update] adds to each counter, for a target batch of the
    predictions' size or of size one (broadcast) and the same channels:
    the comparisons run over the predictions' shape, the target counts
    over the targets' own shape. *)
Definition batch_count (preds targets : tensor Q) (f : field) : Z :=
  let m := Nat.min (sz1 preds) (sz1 targets) in
  let gp i j k := round_bool (get preds i j k) in
  let gt i j k := round_bool (get targets i j k) in
  let cnt (g : bool -> bool -> bool) :=
    gcount (sz0 preds) m (sz2 preds) (fun i j k => g (gp i j k) (gt (bidx (sz0 targets) i) j k)) in
  match f with
  | FCorrect => cnt Bool.eqb
  | FTotal => numel (slice1 targets m)
  | FTargetTrue => gcount (sz0 targets) m (sz2 targets) gt
  | FPredictedTrue => gcount (sz0 preds) m (sz2 preds) (fun i j k => negb (gp i j k))
  | FTP => cnt (fun p t => p && t)
  | FFP => cnt (fun p t => p && negb t)
  | FFN => cnt (fun p t => negb p && t)
  end.

(** The target batch is the predictions' or one; the channels agree. *)
Definition bc_ok (preds targets : tensor Q) : Prop :=
  (sz0 targets = sz0 preds \/ sz0 targets = 1%nat) /\ sz2 targets = sz2 preds.

(** What [compute] makes of tensor counts [tp], [fp], [fn]: precision,
    recall and [2 p r / (p + r)] in IEEE arithmetic. *)
Definition f1_of (tp fp fn : Z) : ext :=
  let p := ext_div (Fin (inject_Z tp)) (Fin (inject_Z (tp + fp))) in
  let r := ext_div (Fin (inject_Z tp)) (Fin (inject_Z (tp + fn))) in
  ext_div (ext_mul (ext_mul (Fin 2) p) r) (ext_add p r).

(** The F1 the metric reports for counts [tp], [fp], [fn]: [-1] without a
    true positive, else [2 tp / (2 tp + fp + fn)]. *)
Definition f1_spec (tp fp fn : Z) (f1 : f1val) : Prop :=
  (tp = 0 -> f1 = F1Int (-1)) /\
  (0 < tp -> exists q, f1 = F1Float (FT (Fin q)) /\ (q == inject_Z (2 * tp) / inject_Z (2 * tp + fp + fn))%Q).

(** Batch and channel sizes agree. *)
Definition same_bc (preds targets : tensor Q) : Prop :=
  sz0 preds = sz0 targets /\ sz2 preds = sz2 targets.

(** The worlds reached from a new metric by updates with agreeing sizes. *)
Inductive updated : world -> Prop :=
| upd_init : updated (mkWorld [] __init__)
| upd_step w preds targets w' :
    updated w -> same_bc preds targets -> update preds targets w = (w', Ok tt) -> updated w'.

(** Sample batches: one speaker, two predicted frames against three target
    frames, and the same predictions for a batch of two. *)
Definition ex_preds : tensor Q := mkT 1 2 1 (fun _ j _ => if Nat.eqb j 0 then (9#10)%Q else (2#10)%Q).
Definition ex_preds2 : tensor Q := mkT 2 2 1 (fun _ j _ => if Nat.eqb j 0 then (9#10)%Q else (2#10)%Q).
Definition ex_targets : tensor Q := mkT 1 3 1 (fun _ j _ => if Nat.eqb j 0 then 1%Q else 0%Q).
Definition ex_world : world := fst (update ex_preds ex_targets (mkWorld [] __init__)).

(** ** Lemmas: tensors *)

(** [t] has shape [n0 x n1 x n2] and entries [g] at every index. *)
Definition agrees {A} (t : tensor A) (n0 n1 n2 : nat) (g : nat -> nat -> nat -> A) : Prop :=
  sz0 t = n0 /\ sz1 t = n1 /\ sz2 t = n2 /\
  forall i j k, (i < n0)%nat -> (j < n1)%nat -> (k < n2)%nat -> get t i j k = g i j k.

Lemma bdim_same (n : nat) : bdim n n = Some n.
Proof. unfold bdim. now rewrite Nat.eqb_refl. Qed.

Lemma bidx_lt (d i : nat) : (i < d)%nat -> bidx d i = i.
Proof. unfold bidx. destruct (Nat.eqb_spec d 1); lia. Qed.

Lemma zip_agrees {A B C} (f : A -> B -> C) (x : tensor A) (y : tensor B) n0 n1 n2 gx gy :
  agrees x n0 n1 n2 gx -> agrees y n0 n1 n2 gy ->
  exists t, zip_with f x y = Ok t /\ agrees t n0 n1 n2 (fun i j k => f (gx i j k) (gy i j k)).
Proof.
  intros (Hx0 & Hx1 & Hx2 & Hx) (Hy0 & Hy1 & Hy2 & Hy). unfold zip_with.
  rewrite Hx0, Hx1, Hx2, Hy0, Hy1, Hy2, !bdim_same.
  eexists. split; [reflexivity|]. repeat split.
  intros i j k Hi Hj Hk. simpl. rewrite !bidx_lt by assumption. now rewrite Hx, Hy.
Qed.

(** The second operand may have batch size one: it is broadcast. *)
Lemma zip_agrees_b {A B C} (f : A -> B -> C) (x : tensor A) (y : tensor B) n0 d0 n1 n2 gx gy :
  agrees x n0 n1 n2 gx -> agrees y d0 n1 n2 gy -> d0 = n0 \/ d0 = 1%nat ->
  exists t, zip_with f x y = Ok t /\
    agrees t n0 n1 n2 (fun i j k => f (gx i j k) (gy (bidx d0 i) j k)).
Proof.
  intros (Hx0 & Hx1 & Hx2 & Hx) (Hy0 & Hy1 & Hy2 & Hy) Hd. unfold zip_with.
  rewrite Hx0, Hx1, Hx2, Hy0, Hy1, Hy2, !bdim_same.
  assert (Hb : bdim n0 d0 = Some n0).
  { unfold bdim. destruct Hd as [->| ->]; [now rewrite Nat.eqb_refl|].
    destruct (Nat.eqb_spec n0 1); [subst; reflexivity|]. reflexivity. }
  rewrite Hb. eexists. split; [reflexivity|]. repeat split.
  intros i j k Hi Hj Hk. simpl.
  assert (Hbi : (bidx d0 i < d0)%nat).
  { destruct Hd as [->| ->]; [now rewrite bidx_lt|]. unfold bidx. simpl. lia. }
  rewrite (bidx_lt n0 i), (bidx_lt n1 j), (bidx_lt n2 k) by assumption.
  rewrite Hx by assumption. rewrite Hy by assumption. reflexivity.
Qed.

Lemma tmap_agrees {A B} (f : A -> B) (x : tensor A) n0 n1 n2 g :
  agrees x n0 n1 n2 g -> agrees (tmap f x) n0 n1 n2 (fun i j k => f (g i j k)).
Proof.
  intros (H0 & H1 & H2 & H). repeat split; try assumption.
  intros i j k Hi Hj Hk. simpl. now rewrite H.
Qed.

Lemma in_grid (n0 n1 n2 i j k : nat) :
  In (i, j, k) (grid n0 n1 n2) -> (i < n0)%nat /\ (j < n1)%nat /\ (k < n2)%nat.
Proof.
  unfold grid. rewrite in_flat_map. intros (i' & Hi & Hin).
  rewrite in_flat_map in Hin. destruct Hin as (j' & Hj & Hin).
  apply in_map_iff in Hin as (k' & [= <- <- <-] & Hk).
  apply in_seq in Hi, Hj, Hk. lia.
Qed.

Lemma gcount_ext (n0 n1 n2 : nat) (g g' : nat -> nat -> nat -> bool) :
  (forall i j k, (i < n0)%nat -> (j < n1)%nat -> (k < n2)%nat -> g i j k = g' i j k) ->
  gcount n0 n1 n2 g = gcount n0 n1 n2 g'.
Proof.
  intros H. unfold gcount. do 2 f_equal. apply filter_ext_in.
  intros [[i j] k] Hin. apply in_grid in Hin as (? & ? & ?). auto.
Qed.

Lemma tsum_agrees (t : tensor bool) n0 n1 n2 g :
  agrees t n0 n1 n2 g -> tsum t = gcount n0 n1 n2 g.
Proof.
  intros (H0 & H1 & H2 & H). unfold tsum. rewrite H0, H1, H2.
  apply (gcount_ext n0 n1 n2 (get t) g H).
Qed.

Lemma length_flat_map_const {X Y} (f : X -> list Y) (l : list X) (c : nat) :
  (forall x, length (f x) = c) -> length (flat_map f l) = (length l * c)%nat.
Proof. intros H. induction l as [|x l IH]; simpl; [reflexivity|]. rewrite length_app, H, IH. lia. Qed.

Lemma length_grid (n0 n1 n2 : nat) : length (grid n0 n1 n2) = (n0 * n1 * n2)%nat.
Proof.
  unfold grid. rewrite (length_flat_map_const _ _ (n1 * n2)), length_seq; [lia|].
  intros i. rewrite (length_flat_map_const _ _ n2), length_seq; [reflexivity|].
  intros j. now rewrite length_map, length_seq.
Qed.

Lemma filter_b2z_add {X} (f g h : X -> bool) (l : list X) :
  (forall x, In x l -> Z.b2z (f x) + Z.b2z (g x) = Z.b2z (h x)) ->
  Z.of_nat (length (filter f l)) + Z.of_nat (length (filter g l)) = Z.of_nat (length (filter h l)).
Proof.
  induction l as [|x l IH]; intros H; [reflexivity|].
  specialize (H x (or_introl eq_refl)) as Hx. assert (IH' := IH (fun y Hy => H y (or_intror Hy))).
  cbn -[Z.of_nat]. destruct (f x), (g x), (h x); cbn -[Z.of_nat] in *; lia.
Qed.

(** Two disjoint predicates whose union is a third: their counts add up. *)
Lemma gcount_add (n0 n1 n2 : nat) (g1 g2 g : nat -> nat -> nat -> bool) :
  (forall i j k, (i < n0)%nat -> (j < n1)%nat -> (k < n2)%nat ->
     Z.b2z (g1 i j k) + Z.b2z (g2 i j k) = Z.b2z (g i j k)) ->
  gcount n0 n1 n2 g1 + gcount n0 n1 n2 g2 = gcount n0 n1 n2 g.
Proof.
  intros H. unfold gcount. apply filter_b2z_add.
  intros [[i j] k] Hin. apply in_grid in Hin as (? & ? & ?). auto.
Qed.

Lemma gcount_true (n0 n1 n2 : nat) :
  gcount n0 n1 n2 (fun _ _ _ => true) = Z.of_nat (n0 * n1 * n2).
Proof.
  unfold gcount. rewrite <- length_grid. f_equal. f_equal.
  apply forallb_filter_id. apply forallb_forall. now intros [[i j] k] _.
Qed.

Lemma gcount_nonneg (n0 n1 n2 : nat) (g : nat -> nat -> nat -> bool) : 0 <= gcount n0 n1 n2 g.
Proof. unfold gcount. lia. Qed.

(** ** Lemmas: counters and the heap *)

Lemma field_eqb_spec (f g : field) : reflect (f = g) (field_eqb f g).
Proof. destruct f, g; constructor; congruence. Qed.

Lemma get_set_field (f g : field) (c : counter) (m : metric) :
  get_field g (set_field f c m) = if field_eqb f g then c else get_field g m.
Proof. destruct f, g; reflexivity. Qed.

Lemma get_set_masks (g : field) t fl p n pc (m : metric) :
  get_field g (set_masks t fl p n pc m) = get_field g m.
Proof. destruct g; reflexivity. Qed.

Lemma length_heap_set (h : list Z) (l : nat) (z : Z) : length (heap_set h l z) = length h.
Proof. revert l. induction h as [|x h IH]; intros [|l]; simpl; auto. Qed.

Lemma nth_heap_set (h : list Z) (l l' : nat) (z : Z) :
  (l' < length h)%nat -> nth l (heap_set h l' z) 0 = if Nat.eqb l l' then z else nth l h 0.
Proof.
  revert l l'. induction h as [|x h IH]; intros l l' H; simpl in H; [lia|].
  destruct l', l; simpl; auto. apply IH. lia.
Qed.

Lemma nth_app_lt (h : list Z) (z : Z) (l : nat) :
  (l < length h)%nat -> nth l (h ++ [z]) 0 = nth l h 0.
Proof. intros H. now apply app_nth1. Qed.

Lemma nth_app_len (h : list Z) (z : Z) : nth (length h) (h ++ [z]) 0 = z.
Proof. rewrite app_nth2, Nat.sub_diag by lia. reflexivity. Qed.

Lemma keeps_refl (w : world) : keeps_cells w w.
Proof. intros g l H. exact H. Qed.

Lemma keeps_trans (w1 w2 w3 : world) :
  keeps_cells w1 w2 -> keeps_cells w2 w3 -> keeps_cells w1 w3.
Proof. intros H1 H2 g l H. exact (H2 g l (H1 g l H)). Qed.

(** A cell appended to the heap changes no counter. *)
Lemma wf_snoc (w : world) (z : Z) :
  wf w -> wf (mkWorld (heap w ++ [z]) (acc w)) /\ keeps_cells w (mkWorld (heap w ++ [z]) (acc w)) /\
          forall g, field_value (mkWorld (heap w ++ [z]) (acc w)) g = field_value w g.
Proof.
  intros [Hlt Hdis]. split; [split|split; [intros g l H; exact H|]].
  - intros f l E. simpl. rewrite length_app. simpl. specialize (Hlt f l E). lia.
  - exact Hdis.
  - intros g. unfold field_value. simpl.
    destruct (get_field g (acc w)) eqn:E; [reflexivity|]. simpl.
    apply nth_app_lt. exact (Hlt g l E).
Qed.

Lemma wf_set_masks (w : world) t fl p n pc :
  wf w -> wf (set_acc (set_masks t fl p n pc (acc w)) w) /\
          keeps_cells w (set_acc (set_masks t fl p n pc (acc w)) w) /\
          forall g, field_value (set_acc (set_masks t fl p n pc (acc w)) w) g = field_value w g.
Proof.
  intros [Hlt Hdis]. unfold wf, keeps_cells, field_value, set_acc. cbn [acc heap].
  split; [split|split; [intros g l; now rewrite get_set_masks|]].
  - intros f l. rewrite get_set_masks. apply Hlt.
  - intros f g l. rewrite !get_set_masks. apply Hdis.
  - intros g. now rewrite get_set_masks.
Qed.

(** A counter set to a new tensor cell holding [z]. *)
Lemma wf_new_cell (w : world) (f : field) (z : Z) :
  wf w ->
  let w' := mkWorld (heap w ++ [z]) (set_field f (CRef (length (heap w))) (acc w)) in
  wf w' /\ field_value w' f = z /\ (forall g, g <> f -> field_value w' g = field_value w g).
Proof.
  intros [Hlt Hdis] w'. split; [split|split].
  - intros g l'. simpl. rewrite get_set_field, length_app. simpl.
    destruct (field_eqb_spec f g) as [<-|Hne]; [intros [= <-]; lia|].
    intros Hg. specialize (Hlt g l' Hg). lia.
  - intros g1 g2 l' Hne. simpl. rewrite !get_set_field.
    destruct (field_eqb_spec f g1) as [<-|H1], (field_eqb_spec f g2) as [<-|H2];
      try congruence.
    + intros [= <-] Hg2. specialize (Hlt g2 _ Hg2). lia.
    + intros Hg1 [= <-]. specialize (Hlt g1 _ Hg1). lia.
    + apply Hdis. exact Hne.
  - unfold field_value. simpl. rewrite get_set_field.
    destruct (field_eqb_spec f f) as [_|]; [apply nth_app_len|congruence].
  - intros g Hne. unfold field_value. simpl. rewrite get_set_field.
    destruct (field_eqb_spec f g) as [->|_]; [congruence|].
    destruct (get_field g (acc w)) as [|l] eqn:Eg; simpl; [reflexivity|].
    apply nth_app_lt. exact (Hlt g l Eg).
Qed.

(** [self.<f> += z] adds [z] to that counter, makes it a tensor, and
    leaves the other counters alone. *)
Lemma add_to_spec (f : field) (z : Z) (w : world) :
  wf w ->
  exists w' c, add_to f z w = (w', Ok tt) /\ acc w' = set_field f c (acc w) /\
    is_tensor c = true /\ wf w' /\ keeps_cells w w' /\
    forall g, field_value w' g = field_value w g + (if field_eqb f g then z else 0).
Proof.
  intros [Hlt Hdis]. unfold add_to, iadd, field_value.
  cbn [st_bind st_get st_put st_ret heap acc set_acc].
  destruct (get_field f (acc w)) as [n|l] eqn:E; cbn [st_bind st_get st_put st_ret heap acc set_acc].
  - destruct (wf_new_cell w f (n + z) (conj Hlt Hdis)) as (Hwf' & Hf & Hg).
    unfold field_value in Hf, Hg. cbn [heap acc] in Hf, Hg.
    eexists _, _. split; [reflexivity|]. split; [reflexivity|]. split; [reflexivity|].
    split; [exact Hwf'|]. split.
    + intros g l'. simpl. rewrite get_set_field.
      destruct (field_eqb_spec f g) as [<-|]; congruence.
    + intros g. cbn [set_acc heap acc]. destruct (field_eqb_spec f g) as [<-|Hne].
      * rewrite Hf, E. reflexivity.
      * rewrite (Hg g (fun H => Hne (eq_sym H))). lia.
  - assert (Hl : (l < length (heap w))%nat) by exact (Hlt f l E).
    eexists _, _. split; [reflexivity|]. split; [reflexivity|]. split; [reflexivity|].
    assert (Hsame : forall g, get_field g (set_field f (CRef l) (acc w)) = get_field g (acc w)).
    { intros g. rewrite get_set_field. destruct (field_eqb_spec f g) as [<-|]; congruence. }
    split; [split|split].
    + intros g l'. simpl. rewrite Hsame, length_heap_set. apply Hlt.
    + intros g1 g2 l'. simpl. rewrite !Hsame. apply Hdis.
    + intros g l'. simpl. rewrite Hsame. exact id.
    + intros g. simpl. rewrite Hsame.
      destruct (field_eqb_spec f g) as [<-|Hne].
      * rewrite E. simpl. rewrite nth_heap_set, Nat.eqb_refl by exact Hl. reflexivity.
      * destruct (get_field g (acc w)) as [n'|l'] eqn:Eg; simpl; [lia|].
        rewrite nth_heap_set by exact Hl.
        destruct (Nat.eqb_spec l' l) as [->|]; [|lia].
        exfalso. exact (Hdis f g l (fun H => Hne H) E Eg).
Qed.

Lemma slice_agrees {A} (x : tensor A) (m : nat) :
  (m <= sz1 x)%nat -> agrees (slice1 x m) (sz0 x) m (sz2 x) (get x).
Proof.
  intros H. split; [reflexivity|]. split; [simpl; lia|]. split; [reflexivity|].
  intros. reflexivity.
Qed.

(** Extends the running [keeps_cells] hypothesis [K] by one step. *)
Ltac keep_step Hk :=
  let K' := fresh "K" in
  match goal with K : keeps_cells _ _ |- _ =>
    pose proof (keeps_trans _ _ _ K Hk) as K'; clear K Hk end.

(** Runs the [self.<f> += z] at the head of the goal, in a proof about
    [update]. *)
Ltac add_step_at f z w Hwf :=
  let w' := fresh "w" in let c := fresh "c" in let E := fresh "E" in
  let Hacc := fresh "Hacc" in let Ht := fresh "Ht" in
  let Hwf' := fresh "Hwf" in let Hv := fresh "Hv" in let Hk := fresh "Hk" in
  destruct (add_to_spec f z w Hwf) as (w' & c & E & Hacc & Ht & Hwf' & Hk & Hv);
  clear Hwf; keep_step Hk; try rewrite (st_bind_ok _ _ _ _ _ E).

Ltac add_step :=
  cbv beta;
  match goal with
  | Hwf : wf ?w |- context [st_bind (add_to ?f ?z) _ ?w] => add_step_at f z w Hwf
  | Hwf : wf ?w |- context [add_to ?f ?z ?w] => add_step_at f z w Hwf
  end.

(** One [update] on a target batch of the predictions' size or of size
    one and the same channels returns, keeps the world well formed, adds
    its batch counts to the counters, leaves every counter a tensor and
    sets [positive_count]. *)
Lemma update_spec (preds targets : tensor Q) (w : world) :
  bc_ok preds targets -> wf w ->
  exists w', update preds targets w = (w', Ok tt) /\ wf w' /\ keeps_cells w w' /\
    (forall g, field_value w' g = field_value w g + batch_count preds targets g) /\
    (forall g, is_tensor (get_field g (acc w')) = true) /\
    positive_count (acc w') <> None.
Proof.
  intros [Hb Hc] Hwf. unfold update. cbv zeta. pose proof (keeps_refl w) as K.
  set (m := Nat.min (sz1 preds) (sz1 targets)).
  set (gp := fun i j k => round_bool (get preds i j k)).
  set (gt := fun i j k => round_bool (get targets i j k)).
  assert (Ap : agrees (tmap round_bool (slice1 preds m)) (sz0 preds) m (sz2 preds) gp)
    by (apply tmap_agrees, slice_agrees; unfold m; lia).
  assert (At : agrees (tmap round_bool (slice1 targets m)) (sz0 targets) m (sz2 preds) gt)
    by (rewrite <- Hc; apply tmap_agrees, slice_agrees; unfold m; lia).
  destruct (zip_agrees_b Bool.eqb _ _ _ _ _ _ _ _ Ap At Hb) as [tru [Etru Atru]].
  rewrite Etru, st_bind_lift, st_bind_get, st_bind_put. cbv beta.
  destruct (wf_set_masks w (Some tru) (m_false (acc w)) (m_positive (acc w)) (m_negative (acc w))
              (positive_count (acc w)) Hwf) as [Hwf1 [Hk1 Hv1]]. clear Hwf. keep_step Hk1.
  destruct (zip_agrees_b (fun a b => negb (Bool.eqb a b)) _ _ _ _ _ _ _ _ Ap At Hb)
    as [fls [Efls Afls]].
  rewrite Efls, st_bind_lift.
  erewrite st_bind_ok by reflexivity. cbv beta.
  destruct (wf_snoc _ (tsum (tmap (fun a => Bool.eqb a true) (tmap round_bool (slice1 preds m))))
              Hwf1) as [Hwf2 [Hk2 Hv2]]. clear Hwf1. keep_step Hk2.
  rewrite st_bind_get, st_bind_put. cbv beta.
  match goal with |- context [set_acc (set_masks ?t ?fl ?p ?n ?pc (acc ?w0)) ?w0] =>
    destruct (wf_set_masks w0 t fl p n pc Hwf2) as [Hwf3 [Hk3 Hv3]] end. clear Hwf2. keep_step Hk3.
  pose proof (tmap_agrees (fun a => Bool.eqb a true) _ _ _ _ _ Ap) as Apos.
  pose proof (tmap_agrees (fun a => Bool.eqb a false) _ _ _ _ _ Ap) as Aneg.
  destruct (zip_agrees andb _ _ _ _ _ _ _ Atru Apos) as [tp [Etp Atp]].
  rewrite Etp, st_bind_lift. add_step.
  destruct (zip_agrees andb _ _ _ _ _ _ _ Afls Apos) as [fp [Efp Afp]].
  rewrite Efp, st_bind_lift. add_step.
  destruct (zip_agrees andb _ _ _ _ _ _ _ Afls Aneg) as [fn [Efn Afn]].
  rewrite Efn, st_bind_lift. do 5 add_step.
  eexists. split; [eassumption|]. split; [eassumption|]. split; [eassumption|]. split; [|split].
  - intros g.
    repeat match goal with H : forall g, field_value _ g = _ |- _ => rewrite H; clear H end.
    rewrite (tsum_agrees _ _ _ _ _ Atp), (tsum_agrees _ _ _ _ _ Afp), (tsum_agrees _ _ _ _ _ Afn),
      (tsum_agrees _ _ _ _ _ Atru),
      (tsum_agrees _ _ _ _ _ (tmap_agrees (fun b => Bool.eqb b true) _ _ _ _ _ At)),
      (tsum_agrees _ _ _ _ _ Aneg).
    unfold batch_count. fold m. rewrite Hc.
    destruct g; cbn [field_eqb]; rewrite ?Z.add_0_r;
      try (f_equal; apply gcount_ext; intros; unfold gp, gt; cbn [get tmap slice1];
           repeat destruct (round_bool _); reflexivity).
  - intros g.
    repeat match goal with H : acc _ = set_field _ _ _ |- _ => rewrite H; clear H end.
    destruct g; rewrite !get_set_field; cbn [field_eqb]; assumption.
  - repeat match goal with H : acc _ = set_field _ _ _ |- _ => rewrite H; clear H end.
    cbn. discriminate.
Qed.

(** ** Lemmas: the counts of one batch *)


Lemma batch_laws (preds targets : tensor Q) :
  sz2 targets = sz2 preds ->
  let bc := batch_count preds targets in
  let n := Z.of_nat (sz0 preds * Nat.min (sz1 preds) (sz1 targets) * sz2 preds) in
  bc FCorrect + bc FFP + bc FFN = n /\
  bc FPredictedTrue + bc FTP + bc FFP = n /\
  bc FTotal = Z.of_nat (sz0 targets * Nat.min (sz1 preds) (sz1 targets) * sz2 preds) /\
  forall g, 0 <= bc g.
Proof.
  intros Hc bc n. unfold bc, n, batch_count. cbv zeta.
  set (m := Nat.min (sz1 preds) (sz1 targets)).
  set (gp := fun i j k => round_bool (get preds i j k)).
  set (gb := fun i j k => round_bool (get targets (bidx (sz0 targets) i) j k)).
  change (fun i j k => ?g (round_bool (get preds i j k))
                         (round_bool (get targets (bidx (sz0 targets) i) j k)))
    with (fun i j k => g (gp i j k) (gb i j k)).
  rewrite <- (gcount_true (sz0 preds) m (sz2 preds)).
  split; [|split; [|split]].
  - rewrite <- Z.add_assoc.
    rewrite (gcount_add _ _ _ (fun i j k => gp i j k && negb (gb i j k))
               (fun i j k => negb (gp i j k) && gb i j k)
               (fun i j k => negb (Bool.eqb (gp i j k) (gb i j k)))) by (intros i j k _ _ _; unfold gp, gb; destruct (round_bool (get preds i j k)), (round_bool (get targets (bidx (sz0 targets) i) j k)); reflexivity).
    apply gcount_add. (intros i j k _ _ _; unfold gp, gb; destruct (round_bool (get preds i j k)), (round_bool (get targets (bidx (sz0 targets) i) j k)); reflexivity).
  - rewrite <- Z.add_assoc.
    rewrite (gcount_add _ _ _ (fun i j k => gp i j k && gb i j k)
               (fun i j k => gp i j k && negb (gb i j k)) gp) by (intros i j k _ _ _; unfold gp, gb; destruct (round_bool (get preds i j k)), (round_bool (get targets (bidx (sz0 targets) i) j k)); reflexivity).
    apply gcount_add. (intros i j k _ _ _; unfold gp, gb; destruct (round_bool (get preds i j k)), (round_bool (get targets (bidx (sz0 targets) i) j k)); reflexivity).
  - unfold numel. simpl. rewrite Hc. do 3 f_equal. unfold m. lia.
  - intros g. destruct g; try apply gcount_nonneg. unfold numel. lia.
Qed.

(** With equal batches the target counts of the targets' shape and of the
    broadcast shape agree. *)
Lemma batch_target_true (preds targets : tensor Q) :
  same_bc preds targets ->
  batch_count preds targets FTP + batch_count preds targets FFN =
  batch_count preds targets FTargetTrue.
Proof.
  intros [Hb Hc]. unfold batch_count. cbv zeta. rewrite Hb, Hc.
  apply gcount_add. intros i j k Hi Hj Hk. rewrite bidx_lt by exact Hi.
  repeat destruct (round_bool _); reflexivity.
Qed.

Lemma wf_init : wf (mkWorld [] __init__).
Proof. split; intros [] *; simpl; congruence. Qed.

Lemma same_bc_ok (preds targets : tensor Q) : same_bc preds targets -> bc_ok preds targets.
Proof. intros [Hb Hc]. split; [left|]; congruence. Qed.

Lemma updated_wf (w : world) : updated w -> wf w.
Proof.
  induction 1 as [|w preds targets w' _ IH [Hb Hc] Hu]; [exact wf_init|].
  destruct (update_spec preds targets w (same_bc_ok preds targets (conj Hb Hc)) IH) as (w'' & E & Hwf & _).
  rewrite Hu in E. now injection E as <-.
Qed.

Lemma updated_nonneg (w : world) : updated w -> forall g, 0 <= field_value w g.
Proof.
  induction 1 as [|w preds targets w' Hw IH [Hb Hc] Hu]; [intros []; reflexivity|].
  destruct (update_spec preds targets w (same_bc_ok preds targets (conj Hb Hc)) (updated_wf w Hw))
    as (w'' & E & _ & _ & Hv & _).
  rewrite Hu in E. injection E as <-. intros g. rewrite Hv.
  destruct (batch_laws preds targets ltac:(congruence)) as (_ & _ & _ & L4).
  specialize (IH g). specialize (L4 g). lia.
Qed.

(** C28 (invariant).  On every world reached from a new [MultiBinaryAcc]
    by updates whose predictions and targets have the same batch and
    channel sizes, the counters are well-formed tensor cells and satisfy:
    correct + false positives + false negatives = total; true positives +
    false negatives = target_true; and predicted_true + true positives +
    false positives = total, so [predicted_true] counts the predicted
    negatives. *)
Theorem updated_counts (w : world) :
  updated w ->
  wf w /\
  field_value w FCorrect + field_value w FFP + field_value w FFN = field_value w FTotal /\
  field_value w FTP + field_value w FFN = field_value w FTargetTrue /\
  field_value w FPredictedTrue + field_value w FTP + field_value w FFP = field_value w FTotal /\
  forall g, 0 <= field_value w g.
Proof.
  intros Hu. split; [exact (updated_wf w Hu)|].
  split; [|split; [|split]]; [| | |exact (updated_nonneg w Hu)];
  induction Hu as [|w preds targets w' Hw IH [Hb Hc] Hu']; try reflexivity;
  destruct (update_spec preds targets w (same_bc_ok preds targets (conj Hb Hc)) (updated_wf w Hw))
    as (w'' & E & _ & _ & Hv & _); rewrite Hu' in E; injection E as <-;
  destruct (batch_laws preds targets ltac:(congruence)) as (L1 & L2 & L3 & _);
  pose proof (batch_target_true preds targets (conj Hb Hc)) as L5;
  rewrite Hb in L1, L2; rewrite !Hv; lia.
Qed.

(** ** Lemmas: [compute] *)

Lemma Qeq_bool_Z0 (a : Z) : Qeq_bool (inject_Z a) 0 = (a =? 0).
Proof. exact (Qeq_bool_inject_Z a 0). Qed.

(** [a / b] of two int tensors. *)
Lemma ext_div_Z (a b : Z) :
  ext_div (Fin (inject_Z a)) (Fin (inject_Z b)) =
  if b =? 0 then (if a =? 0 then NaN else Inf (0 <=? a)) else Fin (inject_Z a / inject_Z b).
Proof.
  unfold ext_div. rewrite !Qeq_bool_Z0. change 0%Q with (inject_Z 0).
  rewrite Qle_bool_inject_Z. reflexivity.
Qed.

(** Without true positives the F1 is [nan]. *)
Lemma f1_of_zero (fp fn : Z) : 0 <= fp -> 0 <= fn -> f1_of 0 fp fn = NaN.
Proof.
  intros Hfp Hfn. unfold f1_of. rewrite !Z.add_0_l, !ext_div_Z. cbn [Z.eqb].
  destruct (Z.eqb_spec fp 0), (Z.eqb_spec fn 0); cbn [ext_mul ext_add ext_div]; reflexivity.
Qed.

(** With true positives it is [2 tp / (2 tp + fp + fn)]. *)
Lemma f1_of_pos (tp fp fn : Z) :
  0 < tp -> 0 <= fp -> 0 <= fn ->
  exists q, f1_of tp fp fn = Fin q /\ (q == inject_Z (2 * tp) / inject_Z (2 * tp + fp + fn))%Q.
Proof.
  intros Htp Hfp Hfn. unfold f1_of. rewrite !ext_div_Z.
  destruct (Z.eqb_spec (tp + fp) 0), (Z.eqb_spec (tp + fn) 0); try lia.
  cbn [ext_mul ext_add ext_div].
  rewrite !inject_Z_plus, inject_Z_mult.
  set (x := inject_Z tp). set (y := inject_Z fp). set (z := inject_Z fn).
  assert (Hx : (0 < x)%Q) by (unfold x; change 0%Q with (inject_Z 0); rewrite <- Zlt_Qlt; lia).
  assert (Hy : (0 <= y)%Q) by (unfold y; change 0%Q with (inject_Z 0); rewrite <- Zle_Qle; lia).
  assert (Hz : (0 <= z)%Q) by (unfold z; change 0%Q with (inject_Z 0); rewrite <- Zle_Qle; lia).
  assert (H1 : (0 < x / (x + y))%Q) by (apply Qlt_shift_div_l; lra).
  assert (H2 : (0 < x / (x + z))%Q) by (apply Qlt_shift_div_l; lra).
  destruct (Qeq_bool (x / (x + y) + x / (x + z)) 0) eqn:E.
  { apply Qeq_bool_iff in E. lra. }
  eexists. split; [reflexivity|]. change (inject_Z 2) with 2%Q.
  field. repeat split; intros H; try lra. nra.
Qed.

(** [a / b] when one of the two is a tensor. *)
Lemma cdiv_tensor (h : list Z) (a : counter) (b : bool * Z) :
  is_tensor a = true \/ fst b = true ->
  cdiv h a b = Ok (FT (ext_div (Fin (inject_Z (cval h a))) (Fin (inject_Z (snd b))))).
Proof. intros H. unfold cdiv, int_truediv. destruct H as [-> | ->]; [|rewrite orb_true_r]; reflexivity. Qed.

Lemma get_set_results (g : field) p r ipr ttr f1 (m : metric) :
  get_field g (set_results p r ipr ttr f1 m) = get_field g m.
Proof. destruct g; reflexivity. Qed.

Lemma isnan_FT (e : ext) : isnan (FT e) = Ok (match e with NaN => true | _ => false end).
Proof. now destruct e. Qed.

(** [compute] on tensor counters returns, writes only its result
    attributes, and gives [-1] for a [nan] F1 and the F1 otherwise. *)
Lemma compute_tensor (w : world) :
  (forall g, is_tensor (get_field g (acc w)) = true) -> positive_count (acc w) <> None ->
  let F := f1_of (field_value w FTP) (field_value w FFP) (field_value w FFN) in
  exists w', compute w =
    (w', Ok (if match F with NaN => true | _ => false end then F1Int (-1) else F1Float (FT F))) /\
    heap w' = heap w /\ (forall g, get_field g (acc w') = get_field g (acc w)) /\
    positive_count (acc w') = positive_count (acc w).
Proof.
  intros Ht Hpc F. unfold compute. rewrite st_bind_get. cbv zeta.
  destruct (positive_count (acc w)) as [pc|] eqn:E; [|congruence].
  pose proof (Ht FTP) as Htp. pose proof (Ht FTotal) as Htot. cbn [get_field] in Htp, Htot.
  unfold cadd. rewrite !cdiv_tensor by (first [left; exact Htp | right; exact Htot]).
  unfold put_precision, put_recall, put_infer_positive_rate, put_target_true_rate, put_f1_score.
  cbn [st_bind st_get st_put st_lift st_ret set_acc acc heap set_results positive_count fst snd
       fmul fadd fdiv fbin fval_ext].
  rewrite isnan_FT, !cdiv_tensor by (right; exact Htot).
  cbn [st_bind st_get st_put st_lift st_ret set_acc acc heap set_results positive_count fst snd].
  eexists. split; [reflexivity|]. split; [reflexivity|]. split; [|exact E].
  intros g. destruct g; reflexivity.
Qed.

(** [compute] on tensor counters with nonnegative counts reports
    [f1_spec] of them. *)
Lemma compute_f1 (w : world) :
  (forall g, is_tensor (get_field g (acc w)) = true) -> positive_count (acc w) <> None ->
  (forall g, 0 <= field_value w g) ->
  exists w' f1, compute w = (w', Ok f1) /\ heap w' = heap w /\
    (forall g, get_field g (acc w') = get_field g (acc w)) /\
    positive_count (acc w') = positive_count (acc w) /\
    f1_spec (field_value w FTP) (field_value w FFP) (field_value w FFN) f1.
Proof.
  intros Ht Hpc Hnn.
  destruct (compute_tensor w Ht Hpc) as (w' & E & Hh & Hg & Hp).
  exists w'. eexists. split; [exact E|]. do 3 (split; [assumption|]). split.
  - intros H0. rewrite H0, f1_of_zero by apply Hnn. reflexivity.
  - intros Hpos. destruct (f1_of_pos _ _ _ Hpos (Hnn FFP) (Hnn FFN)) as (q & Eq & Hq).
    rewrite Eq. exists q. split; [reflexivity|exact Hq].
Qed.

(** After the first update every counter is a tensor. *)
Lemma updated_tensors (w : world) :
  updated w -> w = mkWorld [] __init__ \/
    ((forall g, is_tensor (get_field g (acc w)) = true) /\ positive_count (acc w) <> None).
Proof.
  intros Hu. destruct Hu as [|w preds targets w' Hw [Hb Hc] Hu]; [now left|right].
  destruct (update_spec preds targets w (same_bc_ok preds targets (conj Hb Hc)) (updated_wf w Hw))
    as (w'' & E & _ & _ & _ & Ht & Hpc).
  rewrite Hu in E. injection E as <-. now split.
Qed.

(** C29 (type).  A metric reached by updates is either the new one, whose
    counters are the Python int [0] and whose [compute] raises
    [ZeroDivisionError], or one whose seven counters are all int64 tensor
    cells, pairwise distinct, and whose [compute] returns. *)
Theorem updated_counter_types (w : world) :
  updated w ->
  (w = mkWorld [] __init__ /\ compute w = (w, Err ZeroDivisionError)) \/
  ((forall g, is_tensor (get_field g (acc w)) = true) /\ wf w /\ is_ok (snd (compute w)) = true).
Proof.
  intros Hu. destruct (updated_tensors w Hu) as [->|[Ht Hpc]]; [left; split; reflexivity|].
  right. split; [exact Ht|]. split; [exact (updated_wf w Hu)|].
  destruct (compute_tensor w Ht Hpc) as (w' & E & _). rewrite E. reflexivity.
Qed.

(** C30 (functional).  After at least one update, [compute] returns
    without changing a counter: [-1] when there is no true positive, and
    otherwise the F1 [2 tp / (2 tp + fp + fn)] (the harmonic mean of
    precision and recall). *)
Theorem compute_after_updates (w : world) :
  updated w -> w <> mkWorld [] __init__ ->
  let tp := field_value w FTP in
  let fp := field_value w FFP in
  let fn := field_value w FFN in
  exists w' f1, compute w = (w', Ok f1) /\ heap w' = heap w /\
    (forall g, get_field g (acc w') = get_field g (acc w)) /\
    (tp = 0 -> f1 = F1Int (-1)) /\
    (0 < tp -> exists q, f1 = F1Float (FT (Fin q)) /\
                         (q == inject_Z (2 * tp) / inject_Z (2 * tp + fp + fn))%Q).
Proof.
  intros Hu Hne tp fp fn.
  destruct (updated_tensors w Hu) as [E0|[Ht Hpc]]; [contradiction|].
  destruct (compute_f1 w Ht Hpc (updated_nonneg w Hu)) as (w' & f1 & E & Hh & Hg & _ & Hf).
  exists w', f1. split; [exact E|]. split; [exact Hh|]. split; [exact Hg|]. exact Hf.
Qed.


Lemma ex_world_update : update ex_preds ex_targets (mkWorld [] __init__) = (ex_world, Ok tt).
Proof.
  assert (E : snd (update ex_preds ex_targets (mkWorld [] __init__)) = Ok tt)
    by (vm_compute; reflexivity).
  rewrite <- E. unfold ex_world. destruct (update _ _ _); reflexivity.
Qed.

(** When the true and false positive counts are still
    Python ints (no [update] has run) and add to [0], [compute] raises
    [ZeroDivisionError] at the precision, before any attribute is
    written. *)
Theorem compute_int_zero_division (w : world) :
  is_tensor (true_positive_count (acc w)) = false ->
  is_tensor (false_positive_count (acc w)) = false ->
  field_value w FTP + field_value w FFP = 0 ->
  compute w = (w, Err ZeroDivisionError).
Proof.
  intros H1 H2 H0. unfold compute, cdiv, cadd, int_truediv. rewrite st_bind_get.
  cbv zeta. rewrite H1, H2. cbn [orb fst snd].
  unfold field_value in H0. cbn [get_field] in H0. rewrite H0.
  reflexivity.
Qed.

(** C32 (bounds).  A target batch of size one broadcasts against the
    predictions: one [update] adds [B] times as much to
    correct + false positives + false negatives as to [total_counts_k],
    [B] the predictions' batch size, so the accuracy
    [correct_counts_k / total_counts_k] can exceed one. *)
Theorem broadcast_overcounts (preds targets : tensor Q) (w : world) :
  wf w -> sz0 targets = 1%nat -> sz2 targets = sz2 preds ->
  exists w', update preds targets w = (w', Ok tt) /\
    (field_value w' FCorrect - field_value w FCorrect) +
    (field_value w' FFP - field_value w FFP) + (field_value w' FFN - field_value w FFN) =
    Z.of_nat (sz0 preds) * (field_value w' FTotal - field_value w FTotal).
Proof.
  intros Hwf H1 Hc.
  destruct (update_spec preds targets w (conj (or_intror H1) Hc) Hwf) as (w' & E & _ & _ & Hv & _).
  exists w'. split; [exact E|]. rewrite !Hv.
  destruct (batch_laws preds targets Hc) as (L1 & _ & L3 & _).
  rewrite H1, Nat.mul_1_l in L3. rewrite !Nat2Z.inj_mul in L1, L3. nia.
Qed.

Lemma updated_counter_types_witness :
  updated ex_world /\
  ((ex_world = mkWorld [] __init__ /\ compute ex_world = (ex_world, Err ZeroDivisionError)) \/
   ((forall g, is_tensor (get_field g (acc ex_world)) = true) /\ wf ex_world /\
    is_ok (snd (compute ex_world)) = true)).
Proof.
  assert (Hu : updated ex_world)
    by (apply (upd_step (mkWorld [] __init__) ex_preds ex_targets); [exact upd_init|split; reflexivity|exact ex_world_update]).
  split; [exact Hu|exact (updated_counter_types ex_world Hu)].
Defined.


Lemma compute_after_updates_witness :
  updated ex_world /\ ex_world <> mkWorld [] __init__ /\
  exists w' f1, compute ex_world = (w', Ok f1) /\ heap w' = heap ex_world /\
    (forall g, get_field g (acc w') = get_field g (acc ex_world)) /\
    (field_value ex_world FTP = 0 -> f1 = F1Int (-1)) /\
    (0 < field_value ex_world FTP -> exists q, f1 = F1Float (FT (Fin q)) /\
       (q == inject_Z (2 * field_value ex_world FTP) /
             inject_Z (2 * field_value ex_world FTP + field_value ex_world FFP +
                       field_value ex_world FFN))%Q).
Proof.
  assert (Hu : updated ex_world)
    by (apply (upd_step (mkWorld [] __init__) ex_preds ex_targets); [exact upd_init|split; reflexivity|exact ex_world_update]).
  assert (Hne : ex_world <> mkWorld [] __init__).
  { intros H. apply (f_equal heap) in H. vm_compute in H. discriminate. }
  split; [exact Hu|]. split; [exact Hne|]. exact (compute_after_updates ex_world Hu Hne).
Defined.

Lemma compute_int_zero_division_witness :
  compute (mkWorld [] __init__) = (mkWorld [] __init__, Err ZeroDivisionError).
Proof. apply compute_int_zero_division; reflexivity. Defined.

Lemma broadcast_overcounts_witness :
  exists w', update ex_preds2 ex_targets (mkWorld [] __init__) = (w', Ok tt) /\
    (field_value w' FCorrect - 0) + (field_value w' FFP - 0) + (field_value w' FFN - 0) =
    2 * (field_value w' FTotal - 0).
Proof. exact (broadcast_overcounts ex_preds2 ex_targets _ wf_init eq_refl eq_refl). Defined.


Lemma updated_counts_witness :
  wf ex_world /\
  field_value ex_world FCorrect + field_value ex_world FFP + field_value ex_world FFN =
    field_value ex_world FTotal /\
  field_value ex_world FTP + field_value ex_world FFN = field_value ex_world FTargetTrue /\
  field_value ex_world FPredictedTrue + field_value ex_world FTP + field_value ex_world FFP =
    field_value ex_world FTotal /\
  forall g, 0 <= field_value ex_world g.
Proof.
  apply updated_counts.
  exact (upd_step (mkWorld [] __init__) ex_preds ex_targets ex_world upd_init
           (conj eq_refl eq_refl) ex_world_update).
Defined.

End DiarMetric.
