(* ===== verification/DiarSteps.v ===== *)
(** * DiarSteps: the metric bookkeeping of [EncDecDiarLabelModel]

    Models what [training_step] (lines 623-649), [validation_step]
    (651-673), [multi_validation_epoch_end] (675-692), [test_step]
    (694-709) and [multi_test_epoch_end] (711-727) of
    [src/nemo/collections/asr/models/tsvad_models.py] do to the one
    [MultiBinaryAcc] object [self._accuracy] that [__init__] creates
    (line 470) and that all three kinds of step share.  The network
    ([forward]) and the loss belong to the framework: a [batch] carries
    their results.

    The steps call torchmetrics twice: [self._accuracy(preds, targets)]
    and [self._accuracy.reset()].  The interface [MetricHooks] names the
    two calls and [MetricLaws] states what the steps rely on: a call runs
    [update] [calls_per_forward >= 1] times (torchmetrics' [forward] runs
    it once or twice, by version), and [reset] restores only the states
    registered with [add_state], of which [MultiBinaryAcc] has none, so it
    changes nothing of the metric.  [repeat_update k] implements the
    interface for every [k >= 1].  The result cache of torchmetrics'
    [compute] is not modelled: [compute] is [MultiBinaryAcc.compute].

    The theorems, stated for every implementation of the interface: the
    epoch end after validation steps sums aliased counters (C33); the
    training counters accumulate over all batches (C34), and so does the
    accuracy a training step logs; the epoch end's exceptions. *)

From Stdlib Require Import QArith Lqa.
From S2P Require Import Prelude DiarMetric.

Module DiarSteps.
Import DiarMetric.
Local Open Scope Z_scope.

(** ** The metric framework *)

Class MetricHooks := {
  metric_call : tensor Q -> tensor Q -> st world unit;   (* self._accuracy(preds, targets) *)
  metric_reset : st world unit;                          (* self._accuracy.reset() *)
  calls_per_forward : nat
}.

(** What any version of the framework does to [MultiBinaryAcc]. *)
Class MetricLaws (M : MetricHooks) := {
  calls_pos : (1 <= calls_per_forward)%nat;
  call_spec : forall preds targets w, bc_ok preds targets -> wf w ->
    exists w', metric_call preds targets w = (w', Ok tt) /\ wf w' /\ keeps_cells w w' /\
      (forall g, field_value w' g =
                 field_value w g + Z.of_nat calls_per_forward * batch_count preds targets g) /\
      (forall g, is_tensor (get_field g (acc w')) = true) /\ positive_count (acc w') <> None;
  reset_spec : forall w, metric_reset w = (w, Ok tt)
}.

(** [k] calls of [update]. *)
Fixpoint update_n (k : nat) (preds targets : tensor Q) : st world unit :=
  match k with
  | O => st_ret tt
  | S k' => let! _ := update preds targets in update_n k' preds targets
  end.

(** A framework whose [forward] runs [update] [k] times and whose [reset]
    touches no attribute of the metric. *)
Definition repeat_update (k : nat) : MetricHooks :=
  {| metric_call := update_n k; metric_reset := st_ret tt; calls_per_forward := k |}.

(** ** The steps *)

(** A batch: the predictions [forward] gives, the targets, and the loss. *)
Record batch := mkBatch { b_preds : tensor Q; b_targets : tensor Q; b_loss : Q }.

(** The dictionary a validation or test step returns. *)
Record step_out := mkOut {
  o_loss : Q; o_correct_counts : counter; o_total_counts : counter; o_acc : f1val
}.

(** [torch.stack([...]).sum(axis=0)] of 0-d int tensors: [RuntimeError]
    on no tensor, [TypeError] on a Python int. *)
Definition stack_sum (h : list Z) (cs : list counter) : res Z :=
  match cs with
  | [] => Err RuntimeError
  | _ => if forallb is_tensor cs then Ok (fold_right Z.add 0 (map (cval h) cs)) else Err TypeError
  end.

(** [torch.stack([...]).mean()] of the losses. *)
Definition stack_mean (ls : list Q) : res Q :=
  match ls with
  | [] => Err RuntimeError
  | _ => Ok (fold_right Qplus 0 ls / inject_Z (Z.of_nat (length ls)))%Q
  end.

Section Steps.
Context {M : MetricHooks}.

(** [training_step]: the loss it returns and the accuracy it logs. *)
Definition training_step (b : batch) : st world (Q * f1val) :=
  let! _ := metric_call (b_preds b) (b_targets b) in
  let! a := compute in
  let! _ := metric_reset in
  st_ret (b_loss b, a).

(** [validation_step]: it returns the counter objects themselves. *)
Definition validation_step (b : batch) : st world step_out :=
  let! _ := metric_call (b_preds b) (b_targets b) in
  let! a := compute in
  let! w := st_get in
  st_ret (mkOut (b_loss b) (correct_counts_k (acc w)) (total_counts_k (acc w)) a).

(** [test_step] has the body of [validation_step]. *)
Definition test_step (b : batch) : st world step_out :=
  let! _ := metric_call (b_preds b) (b_targets b) in
  let! a := compute in
  let! w := st_get in
  st_ret (mkOut (b_loss b) (correct_counts_k (acc w)) (total_counts_k (acc w)) a).

(** [multi_validation_epoch_end]: the mean loss and the accuracy. *)
Definition multi_validation_epoch_end (outputs : list step_out) : st world (Q * f1val) :=
  let! val_loss_mean := st_lift (stack_mean (map o_loss outputs)) in
  let! w := st_get in
  let! c := st_lift (stack_sum (heap w) (map o_correct_counts outputs)) in
  let! correct_counts := new_tensor c in
  let! w := st_get in
  let! t := st_lift (stack_sum (heap w) (map o_total_counts outputs)) in
  let! total_counts := new_tensor t in
  let! w := st_get in
  let! _ := st_put (set_acc (set_field FCorrect correct_counts (acc w)) w) in
  let! w := st_get in
  let! _ := st_put (set_acc (set_field FTotal total_counts (acc w)) w) in
  let! a := compute in
  let! _ := metric_reset in
  st_ret (val_loss_mean, a).

(** [multi_test_epoch_end] has the same body. *)
Definition multi_test_epoch_end (outputs : list step_out) : st world (Q * f1val) :=
  let! test_loss_mean := st_lift (stack_mean (map o_loss outputs)) in
  let! w := st_get in
  let! c := st_lift (stack_sum (heap w) (map o_correct_counts outputs)) in
  let! correct_counts := new_tensor c in
  let! w := st_get in
  let! t := st_lift (stack_sum (heap w) (map o_total_counts outputs)) in
  let! total_counts := new_tensor t in
  let! w := st_get in
  let! _ := st_put (set_acc (set_field FCorrect correct_counts (acc w)) w) in
  let! w := st_get in
  let! _ := st_put (set_acc (set_field FTotal total_counts (acc w)) w) in
  let! a := compute in
  let! _ := metric_reset in
  st_ret (test_loss_mean, a).

End Steps.

(** The framework's loop: one step per batch, in order, the outputs
    collected. *)
Fixpoint run_steps {A} (step : batch -> st world A) (bs : list batch) : st world (list A) :=
  match bs with
  | [] => st_ret []
  | b :: bs' => let! o := step b in let! os := run_steps step bs' in st_ret (o :: os)
  end.

(** The sum over batches of one counter's batch counts. *)
Definition batches_count (bs : list batch) (g : field) : Z :=
  fold_right Z.add 0 (map (fun b => batch_count (b_preds b) (b_targets b) g) bs).

(** A sample batch of [DiarMetric], with loss [0]. *)
Definition ex_batch : batch := mkBatch ex_preds ex_targets 0.

(** ** Lemmas: the framework *)

Lemma keeps_tensor (w w' : world) (g : field) :
  keeps_cells w w' -> is_tensor (get_field g (acc w)) = true -> is_tensor (get_field g (acc w')) = true.
Proof.
  intros K. destruct (get_field g (acc w)) as [|l] eqn:E; [discriminate|].
  now rewrite (K g l E).
Qed.

Lemma keeps_tensor_same (w w' : world) (g : field) :
  keeps_cells w w' -> is_tensor (get_field g (acc w)) = true -> get_field g (acc w') = get_field g (acc w).
Proof.
  intros K. destruct (get_field g (acc w)) as [|l] eqn:E; [discriminate|].
  intros _. exact (K g l E).
Qed.

Lemma update_n_spec (k : nat) (preds targets : tensor Q) (w : world) :
  bc_ok preds targets -> wf w ->
  exists w', update_n k preds targets w = (w', Ok tt) /\ wf w' /\ keeps_cells w w' /\
    (forall g, field_value w' g = field_value w g + Z.of_nat k * batch_count preds targets g) /\
    ((1 <= k)%nat -> (forall g, is_tensor (get_field g (acc w')) = true) /\
                     positive_count (acc w') <> None).
Proof.
  intros Hbc. revert w. induction k as [|k IH]; intros w Hwf.
  - exists w. split; [reflexivity|]. split; [exact Hwf|]. split; [apply keeps_refl|].
    split; [intros g; lia|]. lia.
  - destruct (update_spec preds targets w Hbc Hwf) as (w1 & E1 & Hwf1 & K1 & Hv1 & Ht1 & Hp1).
    destruct (IH w1 Hwf1) as (w' & E & Hwf' & K & Hv & Hk).
    exists w'. cbn [update_n]. rewrite (st_bind_ok _ _ _ _ _ E1). split; [exact E|].
    split; [exact Hwf'|]. split; [exact (keeps_trans _ _ _ K1 K)|].
    split; [intros g; rewrite Hv, Hv1; lia|]. intros _.
    destruct k as [|k].
    + cbn in E. injection E as <-. split; assumption.
    + exact (Hk ltac:(lia)).
Qed.

#[export] Instance repeat_update_laws (k : nat) (Hk : (1 <= k)%nat) : MetricLaws (repeat_update k).
Proof.
  split; cbn [metric_call metric_reset calls_per_forward repeat_update].
  - exact Hk.
  - intros preds targets w Hbc Hwf.
    destruct (update_n_spec k preds targets w Hbc Hwf) as (w' & E & Hwf' & K & Hv & Ht).
    destruct (Ht Hk) as [Ht' Hp]. exists w'. exact (conj E (conj Hwf' (conj K (conj Hv (conj Ht' Hp))))).
  - reflexivity.
Qed.


(** ** Lemmas: the steps *)

(** [compute] on a world whose counters are tensors changes no counter. *)
Lemma compute_keeps (w : world) :
  (forall g, is_tensor (get_field g (acc w)) = true) -> positive_count (acc w) <> None -> wf w ->
  exists w' a, compute w = (w', Ok a) /\ wf w' /\ keeps_cells w w' /\
    (forall g, field_value w' g = field_value w g) /\
    (forall g, get_field g (acc w') = get_field g (acc w)) /\
    positive_count (acc w') <> None.
Proof.
  intros Ht Hpc [Hlt Hdis]. destruct (compute_tensor w Ht Hpc) as (w' & E & Hh & Hg & Hp).
  exists w'. eexists. split; [exact E|].
  split; [split; intros *; rewrite ?Hg, ?Hh; [apply Hlt|apply Hdis]|].
  split; [intros g l; rewrite Hg; exact id|].
  split; [intros g; unfold field_value; rewrite Hg, Hh; reflexivity|].
  split; [exact Hg|]. rewrite Hp. exact Hpc.
Qed.

(** [torch.stack] of [n] references to one tensor sums [n] times its value. *)
Lemma stack_sum_alias (h : list Z) (cs : list counter) (x : counter) :
  Forall (fun c => c = x) cs -> cs <> [] -> is_tensor x = true ->
  stack_sum h cs = Ok (Z.of_nat (length cs) * cval h x).
Proof.
  intros Hall Hne Hx.
  assert (Hf : forallb is_tensor cs = true).
  { apply forallb_forall. intros c Hc. rewrite Forall_forall in Hall. now rewrite (Hall c Hc). }
  assert (Hs : fold_right Z.add 0 (map (cval h) cs) = Z.of_nat (length cs) * cval h x).
  { clear Hne Hf. induction Hall as [|c cs -> _ IH]; cbn [map fold_right length]; lia. }
  destruct cs as [|c cs]; [congruence|]. unfold stack_sum. rewrite Hf, Hs. reflexivity.
Qed.

Lemma tensors_set_field (f : field) (c : counter) (m : metric) :
  is_tensor c = true -> (forall g, is_tensor (get_field g m) = true) ->
  forall g, is_tensor (get_field g (set_field f c m)) = true.
Proof. intros Hc Ht g. rewrite get_set_field. destruct (field_eqb f g); auto. Qed.

(** [compute] reports the same value on two worlds whose true positive,
    false positive and false negative counts agree. *)
Lemma compute_same_f1 (w1 w2 : world) :
  (forall g, is_tensor (get_field g (acc w1)) = true) -> positive_count (acc w1) <> None ->
  (forall g, is_tensor (get_field g (acc w2)) = true) -> positive_count (acc w2) <> None ->
  field_value w1 FTP = field_value w2 FTP -> field_value w1 FFP = field_value w2 FFP ->
  field_value w1 FFN = field_value w2 FFN ->
  exists w1' w2' a, compute w1 = (w1', Ok a) /\ compute w2 = (w2', Ok a).
Proof.
  intros Ht1 Hp1 Ht2 Hp2 E1 E2 E3.
  destruct (compute_tensor w1 Ht1 Hp1) as (w1' & C1 & _).
  destruct (compute_tensor w2 Ht2 Hp2) as (w2' & C2 & _).
  rewrite E1, E2, E3 in C1. eauto.
Qed.

Lemma batches_count_nonneg (bs : list batch) (g : field) :
  Forall (fun b => bc_ok (b_preds b) (b_targets b)) bs -> 0 <= batches_count bs g.
Proof.
  unfold batches_count. induction 1 as [|b bs [_ Hc] _ IH]; cbn [map fold_right]; [lia|].
  destruct (batch_laws (b_preds b) (b_targets b) Hc) as (_ & _ & _ & L4).
  specialize (L4 g). lia.
Qed.

Lemma batches_count_app (bs bs' : list batch) (g : field) :
  batches_count (bs ++ bs') g = batches_count bs g + batches_count bs' g.
Proof. unfold batches_count. induction bs as [|b bs IH]; cbn [app map fold_right]; lia. Qed.

Lemma field_value_init (g : field) : field_value (mkWorld [] __init__) g = 0.
Proof. destruct g; reflexivity. Qed.

Section StepLemmas.
Context {M : MetricHooks} {L : MetricLaws M}.

(** One [training_step]: the framework's call, then [compute]. *)
Lemma training_step_spec (b : batch) (w : world) :
  bc_ok (b_preds b) (b_targets b) -> wf w ->
  exists w' a, training_step b w = (w', Ok (b_loss b, a)) /\ wf w' /\
    (forall g, field_value w' g =
               field_value w g + Z.of_nat calls_per_forward * batch_count (b_preds b) (b_targets b) g) /\
    exists w0, metric_call (b_preds b) (b_targets b) w = (w0, Ok tt) /\ compute w0 = (w', Ok a).
Proof.
  intros Hbc Hwf.
  destruct (call_spec _ _ w Hbc Hwf) as (w1 & E1 & Hwf1 & _ & Hv1 & Ht1 & Hp1).
  destruct (compute_keeps w1 Ht1 Hp1 Hwf1) as (w2 & a & E2 & Hwf2 & _ & Hv2 & _).
  exists w2, a. unfold training_step.
  rewrite (st_bind_ok _ _ _ _ _ E1), (st_bind_ok _ _ _ _ _ E2), (st_bind_ok _ _ _ _ _ (reset_spec w2)).
  split; [reflexivity|]. split; [exact Hwf2|]. split; [intros g; rewrite Hv2; apply Hv1|].
  exists w1. split; assumption.
Qed.

(** A run of training steps adds every batch's counts, [calls_per_forward]
    times: [reset] clears nothing. *)
Lemma training_run_spec (bs : list batch) (w : world) :
  Forall (fun b => bc_ok (b_preds b) (b_targets b)) bs -> wf w ->
  exists w' outs, run_steps training_step bs w = (w', Ok outs) /\ wf w' /\
    map fst outs = map b_loss bs /\
    forall g, field_value w' g = field_value w g + Z.of_nat calls_per_forward * batches_count bs g.
Proof.
  intros Hbs. revert w. induction Hbs as [|b bs Hb Hbs IH]; intros w Hwf.
  - exists w, []. split; [reflexivity|]. split; [exact Hwf|]. split; [reflexivity|].
    intros g. cbn. lia.
  - destruct (training_step_spec b w Hb Hwf) as (w1 & a & E1 & Hwf1 & Hv1 & _).
    destruct (IH w1 Hwf1) as (w' & outs & E & Hwf' & Hl & Hv).
    exists w', ((b_loss b, a) :: outs). cbn [run_steps].
    rewrite (st_bind_ok _ _ _ _ _ E1), (st_bind_ok _ _ _ _ _ E).
    split; [reflexivity|]. split; [exact Hwf'|]. split; [cbn; now f_equal|].
    intros g. rewrite Hv, Hv1. cbn [batches_count map fold_right]. unfold batches_count. lia.
Qed.


(** One [validation_step] returns the metric's own counter objects. *)
Lemma validation_step_spec (b : batch) (w : world) :
  bc_ok (b_preds b) (b_targets b) -> wf w ->
  exists w' a, validation_step b w =
      (w', Ok (mkOut (b_loss b) (correct_counts_k (acc w')) (total_counts_k (acc w')) a)) /\
    wf w' /\ keeps_cells w w' /\
    (forall g, field_value w' g =
               field_value w g + Z.of_nat calls_per_forward * batch_count (b_preds b) (b_targets b) g) /\
    (forall g, is_tensor (get_field g (acc w')) = true) /\ positive_count (acc w') <> None.
Proof.
  intros Hbc Hwf.
  destruct (call_spec _ _ w Hbc Hwf) as (w1 & E1 & Hwf1 & K1 & Hv1 & Ht1 & Hp1).
  destruct (compute_keeps w1 Ht1 Hp1 Hwf1) as (w2 & a & E2 & Hwf2 & K2 & Hv2 & Hg2 & Hp2).
  exists w2, a. unfold validation_step.
  rewrite (st_bind_ok _ _ _ _ _ E1), (st_bind_ok _ _ _ _ _ E2), st_bind_get.
  split; [reflexivity|]. split; [exact Hwf2|]. split; [exact (keeps_trans _ _ _ K1 K2)|].
  split; [intros g; rewrite Hv2; apply Hv1|].
  split; [intros g; rewrite Hg2; apply Ht1|exact Hp2].
Qed.

(** A non-empty run of validation steps returns, in every output, the
    same two counter objects: those the metric holds at the end. *)
Lemma validation_run_spec (bs : list batch) (w : world) :
  Forall (fun b => bc_ok (b_preds b) (b_targets b)) bs -> wf w -> bs <> [] ->
  exists w' outs, run_steps validation_step bs w = (w', Ok outs) /\ wf w' /\ keeps_cells w w' /\
    length outs = length bs /\
    (forall g, field_value w' g = field_value w g + Z.of_nat calls_per_forward * batches_count bs g) /\
    (forall g, is_tensor (get_field g (acc w')) = true) /\ positive_count (acc w') <> None /\
    Forall (fun o => o_correct_counts o = correct_counts_k (acc w') /\
                     o_total_counts o = total_counts_k (acc w')) outs.
Proof.
  intros Hbs. revert w. induction Hbs as [|b bs Hb Hbs IH]; intros w Hwf Hne; [congruence|].
  destruct (validation_step_spec b w Hb Hwf) as (w1 & a & E1 & Hwf1 & K1 & Hv1 & Ht1 & Hp1).
  cbn [run_steps]. rewrite (st_bind_ok _ _ _ _ _ E1).
  destruct bs as [|b' bs'].
  - exists w1. eexists. split; [reflexivity|]. split; [exact Hwf1|]. split; [exact K1|].
    split; [reflexivity|].
    split; [intros g; rewrite Hv1; unfold batches_count; cbn; lia|].
    split; [exact Ht1|]. split; [exact Hp1|]. repeat constructor.
  - destruct (IH w1 Hwf1 ltac:(discriminate)) as (w' & outs & E & Hwf' & K & Hl & Hv & Ht & Hp & Ho).
    exists w', (mkOut (b_loss b) (correct_counts_k (acc w1)) (total_counts_k (acc w1)) a :: outs).
    rewrite (st_bind_ok _ _ _ _ _ E).
    split; [reflexivity|]. split; [exact Hwf'|]. split; [exact (keeps_trans _ _ _ K1 K)|].
    split; [cbn; now f_equal|].
    split; [intros g; rewrite Hv, Hv1; unfold batches_count; cbn [map fold_right]; lia|].
    split; [exact Ht|]. split; [exact Hp|]. constructor; [|exact Ho].
    cbn [o_correct_counts o_total_counts].
    exact (conj (eq_sym (keeps_tensor_same _ _ FCorrect K (Ht1 FCorrect)))
                (eq_sym (keeps_tensor_same _ _ FTotal K (Ht1 FTotal)))).
Qed.


(** The epoch end on outputs that all hold the metric's two counter
    objects: it sets the two counters to new tensors holding [n] times
    their value, and reports the accuracy [compute] gives on the metric
    before the assignment. *)
Lemma epoch_end_aliased (outs : list step_out) (w : world) :
  wf w -> (forall g, is_tensor (get_field g (acc w)) = true) -> positive_count (acc w) <> None ->
  outs <> [] ->
  Forall (fun o => o_correct_counts o = correct_counts_k (acc w) /\
                   o_total_counts o = total_counts_k (acc w)) outs ->
  exists w' lm a, multi_validation_epoch_end outs w = (w', Ok (lm, a)) /\
    (exists w0, compute w = (w0, Ok a)) /\
    field_value w' FCorrect = Z.of_nat (length outs) * field_value w FCorrect /\
    field_value w' FTotal = Z.of_nat (length outs) * field_value w FTotal /\
    (forall g, g <> FCorrect -> g <> FTotal -> field_value w' g = field_value w g).
Proof.
  intros Hwf Ht Hpc Hne Ho.
  destruct outs as [|o os] eqn:Eo; [congruence|]. rewrite <- Eo in *.
  set (n := length outs).
  assert (Hc : stack_sum (heap w) (map o_correct_counts outs) = Ok (Z.of_nat n * field_value w FCorrect)).
  { rewrite (stack_sum_alias _ _ (correct_counts_k (acc w))).
    - now rewrite length_map.
    - apply Forall_map. eapply Forall_impl; [|exact Ho]. now intros ? [].
    - now rewrite Eo.
    - exact (Ht FCorrect). }
  set (c := Z.of_nat n * field_value w FCorrect) in Hc.
  destruct (wf_new_cell w FCorrect c Hwf) as (Hwf1 & Hf1 & Hg1).
  set (w1 := mkWorld (heap w ++ [c]) (set_field FCorrect (CRef (length (heap w))) (acc w))) in *.
  assert (Ht1 : stack_sum (heap w1) (map o_total_counts outs) = Ok (Z.of_nat n * field_value w FTotal)).
  { rewrite (stack_sum_alias _ _ (total_counts_k (acc w))).
    - rewrite length_map. f_equal. f_equal. rewrite <- (Hg1 FTotal) by discriminate. reflexivity.
    - apply Forall_map. eapply Forall_impl; [|exact Ho]. now intros ? [].
    - now rewrite Eo.
    - exact (Ht FTotal). }
  set (t := Z.of_nat n * field_value w FTotal) in Ht1.
  destruct (wf_new_cell w1 FTotal t Hwf1) as (Hwf2 & Hf2 & Hg2).
  set (w2 := mkWorld (heap w1 ++ [t]) (set_field FTotal (CRef (length (heap w1))) (acc w1))) in *.
  assert (Ht2 : forall g, is_tensor (get_field g (acc w2)) = true)
    by (apply tensors_set_field; [reflexivity|]; apply tensors_set_field; [reflexivity|exact Ht]).
  assert (Hp2 : positive_count (acc w2) <> None) by exact Hpc.
  assert (Hsame : forall g, g <> FCorrect -> g <> FTotal -> field_value w2 g = field_value w g).
  { intros g H1 H2. rewrite (Hg2 g H2). exact (Hg1 g H1). }
  destruct (compute_same_f1 w2 w Ht2 Hp2 Ht Hpc) as (w2' & w' & a & C2 & C);
    try (apply Hsame; discriminate).
  destruct (compute_tensor w2 Ht2 Hp2) as (w3 & C3 & Hh3 & Hg3 & _).
  rewrite C2 in C3. injection C3 as <- _.
  assert (Hm : exists lm, stack_mean (map o_loss outs) = Ok lm) by (rewrite Eo; eexists; reflexivity).
  destruct Hm as [lm Hm].
  exists w2', lm, a. unfold multi_validation_epoch_end, new_tensor.
  unfold w1 in Ht1. cbn [heap] in Ht1.
  rewrite st_bind_lift, Hm, st_bind_get, st_bind_lift, Hc.
  cbn [st_bind st_get st_put st_lift st_ret set_acc heap acc].
  rewrite Ht1. cbn [st_bind st_get st_put st_lift st_ret set_acc heap acc].
  erewrite st_bind_ok; [|exact C2].
  rewrite st_bind_ok with (s' := w2') (a := tt) by apply reset_spec.
  split; [reflexivity|]. split; [eauto|].
  assert (Hv : forall g, field_value w2' g = field_value w2 g)
    by (intros g; unfold field_value; rewrite Hg3, Hh3; reflexivity).
  rewrite !Hv. split; [|split].
  - rewrite (Hg2 FCorrect) by discriminate. exact Hf1.
  - exact Hf2.
  - intros g H1 H2. rewrite Hv. exact (Hsame g H1 H2).
Qed.


(** The accuracy a training step logs is the F1 of the counts the metric
    holds after the batch. *)
Lemma training_step_f1 (b : batch) (w : world) :
  bc_ok (b_preds b) (b_targets b) -> wf w -> (forall g, 0 <= field_value w g) ->
  let v g := field_value w g + Z.of_nat calls_per_forward * batch_count (b_preds b) (b_targets b) g in
  exists w' a, training_step b w = (w', Ok (b_loss b, a)) /\ wf w' /\
    (forall g, field_value w' g = v g) /\ f1_spec (v FTP) (v FFP) (v FFN) a.
Proof.
  intros Hbc Hwf Hnn v.
  destruct (training_step_spec b w Hbc Hwf) as (w' & a & E & Hwf' & Hv & w0 & E0 & C0).
  destruct (call_spec _ _ w Hbc Hwf) as (w1 & E1 & _ & _ & Hv1 & Ht1 & Hp1).
  rewrite E0 in E1. injection E1 as <-.
  assert (Hnn1 : forall g, 0 <= field_value w0 g).
  { intros g. rewrite Hv1. specialize (Hnn g).
    destruct (batch_laws _ _ (proj2 Hbc)) as (_ & _ & _ & L4). specialize (L4 g). lia. }
  destruct (compute_f1 w0 Ht1 Hp1 Hnn1) as (w1 & f1 & C1 & _ & _ & _ & Hf).
  rewrite C0 in C1. injection C1 as <- <-.
  exists w', a. split; [exact E|]. split; [exact Hwf'|]. split; [exact Hv|].
  rewrite !Hv1 in Hf. exact Hf.
Qed.

End StepLemmas.

Section StepTheorems.
Context {M : MetricHooks} {L : MetricLaws M}.

(** C33 (safety).  [validation_step] returns the metric's counter objects
    themselves, which later steps keep adding to in place.  So after [n]
    validation batches, [multi_validation_epoch_end] sets
    [correct_counts_k] and [total_counts_k] to [n] times their final
    cumulative values (not to the sum of the batches' counts), and the
    accuracy it reports is what [compute] gives before that assignment:
    the two sums are never read. *)
Theorem validation_epoch_counts_aliased (bs : list batch) (w : world) :
  Forall (fun b => bc_ok (b_preds b) (b_targets b)) bs -> wf w -> bs <> [] ->
  exists w1 outs, run_steps validation_step bs w = (w1, Ok outs) /\
  exists w2 lm a, multi_validation_epoch_end outs w1 = (w2, Ok (lm, a)) /\
    (exists w0, compute w1 = (w0, Ok a)) /\
    field_value w2 FCorrect = Z.of_nat (length bs) *
      (field_value w FCorrect + Z.of_nat calls_per_forward * batches_count bs FCorrect) /\
    field_value w2 FTotal = Z.of_nat (length bs) *
      (field_value w FTotal + Z.of_nat calls_per_forward * batches_count bs FTotal).
Proof.
  intros Hbs Hwf Hne.
  destruct (validation_run_spec bs w Hbs Hwf Hne) as (w1 & outs & E & Hwf1 & _ & Hl & Hv & Ht & Hp & Ho).
  assert (Hne' : outs <> []) by (intros ->; destruct bs; cbn in Hl; congruence).
  destruct (epoch_end_aliased outs w1 Hwf1 Ht Hp Hne' Ho) as (w2 & lm & a & E2 & C & H1 & H2 & _).
  exists w1, outs. split; [exact E|]. exists w2, lm, a. split; [exact E2|]. split; [exact C|].
  rewrite H1, H2, Hl, !Hv. split; reflexivity.
Qed.

(** C34 (invariant).  [reset] clears nothing of [MultiBinaryAcc], so over a
    run of training steps from a new model every counter holds the counts
    of all batches so far, each counted [calls_per_forward] times. *)
Theorem training_counts_cumulative (bs : list batch) :
  Forall (fun b => bc_ok (b_preds b) (b_targets b)) bs ->
  exists w' outs, run_steps training_step bs (mkWorld [] __init__) = (w', Ok outs) /\
    map fst outs = map b_loss bs /\
    forall g, field_value w' g = Z.of_nat calls_per_forward * batches_count bs g.
Proof.
  intros Hbs. destruct (training_run_spec bs _ Hbs wf_init) as (w' & outs & E & _ & Hl & Hv).
  exists w', outs. split; [exact E|]. split; [exact Hl|].
  intros g. rewrite Hv, field_value_init. reflexivity.
Qed.

(** The [training_batch_accuracy] a training step logs
    after the batches [bs] is the F1 of the counts of [bs] and the step's
    batch together, not of the batch alone. *)
Theorem training_accuracy_cumulative (bs : list batch) (b : batch) :
  Forall (fun b => bc_ok (b_preds b) (b_targets b)) (bs ++ [b]) ->
  let v g := Z.of_nat calls_per_forward * batches_count (bs ++ [b]) g in
  exists w1 outs w2 a, run_steps training_step bs (mkWorld [] __init__) = (w1, Ok outs) /\
    training_step b w1 = (w2, Ok (b_loss b, a)) /\ f1_spec (v FTP) (v FFP) (v FFN) a.
Proof.
  intros Hall v. apply Forall_app in Hall as [Hbs Hb]. inversion Hb as [|? ? Hb1 _]; subst.
  destruct (training_run_spec bs _ Hbs wf_init) as (w1 & outs & E & Hwf1 & _ & Hv1).
  assert (Hnn : forall g, 0 <= field_value w1 g).
  { intros g. rewrite Hv1, field_value_init. pose proof (batches_count_nonneg bs g Hbs). lia. }
  destruct (training_step_f1 b w1 Hb1 Hwf1 Hnn) as (w2 & a & E2 & _ & _ & Hf).
  exists w1, outs, w2, a. split; [exact E|]. split; [exact E2|].
  assert (Hsum : forall g, v g = field_value w1 g +
                   Z.of_nat calls_per_forward * batch_count (b_preds b) (b_targets b) g).
  { intros g. unfold v. rewrite Hv1, field_value_init, batches_count_app.
    unfold batches_count at 2. cbn [map fold_right]. lia. }
  rewrite !Hsum. exact Hf.
Qed.


(** The epoch end's exceptions: [multi_validation_epoch_end] raises [RuntimeError] on an
    epoch without outputs ([torch.stack] of nothing), and [TypeError]
    when an output's [correct_counts_k] is still a Python int; in both
    cases before any attribute of the metric is written. *)
Theorem epoch_end_errors (outs : list step_out) (w : world) :
  (outs = [] -> multi_validation_epoch_end outs w = (w, Err RuntimeError)) /\
  (outs <> [] -> existsb (fun o => negb (is_tensor (o_correct_counts o))) outs = true ->
   multi_validation_epoch_end outs w = (w, Err TypeError)).
Proof.
  split; [intros ->; reflexivity|]. intros Hne Hex.
  destruct outs as [|o os]; [congruence|].
  assert (Hf : forallb is_tensor (map o_correct_counts (o :: os)) = false).
  { apply not_true_is_false. intros Hall. rewrite forallb_forall in Hall.
    apply existsb_exists in Hex as (o' & Hin & Ho').
    rewrite (Hall _ (in_map o_correct_counts _ _ Hin)) in Ho'. discriminate. }
  unfold multi_validation_epoch_end, stack_mean, stack_sum. cbn [map].
  rewrite st_bind_lift, st_bind_get. cbn [map] in Hf. rewrite Hf. reflexivity.
Qed.

End StepTheorems.



(** The witnesses run the framework whose [forward] calls [update] once. *)
Lemma validation_epoch_counts_aliased_witness :
  exists w1 outs,
    run_steps (@validation_step (repeat_update 1)) [ex_batch; ex_batch] (mkWorld [] __init__) =
      (w1, Ok outs) /\
  exists w2 lm a, @multi_validation_epoch_end (repeat_update 1) outs w1 = (w2, Ok (lm, a)) /\
    (exists w0, compute w1 = (w0, Ok a)) /\
    field_value w2 FCorrect = 2 * (0 + 1 * batches_count [ex_batch; ex_batch] FCorrect) /\
    field_value w2 FTotal = 2 * (0 + 1 * batches_count [ex_batch; ex_batch] FTotal).
Proof.
  refine (@validation_epoch_counts_aliased (repeat_update 1) (repeat_update_laws 1 (le_n 1))
            [ex_batch; ex_batch] (mkWorld [] __init__) _ wf_init _);
    [repeat constructor|discriminate].
Defined.

Lemma training_counts_cumulative_witness :
  exists w' outs,
    run_steps (@training_step (repeat_update 1)) [ex_batch; ex_batch] (mkWorld [] __init__) =
      (w', Ok outs) /\
    map fst outs = map b_loss [ex_batch; ex_batch] /\
    forall g, field_value w' g = 1 * batches_count [ex_batch; ex_batch] g.
Proof.
  refine (@training_counts_cumulative (repeat_update 1) (repeat_update_laws 1 (le_n 1))
            [ex_batch; ex_batch] _).
  repeat constructor.
Defined.

Lemma training_accuracy_cumulative_witness :
  exists w1 outs w2 a,
    run_steps (@training_step (repeat_update 1)) [ex_batch] (mkWorld [] __init__) = (w1, Ok outs) /\
    @training_step (repeat_update 1) ex_batch w1 = (w2, Ok (b_loss ex_batch, a)) /\
    f1_spec (1 * batches_count [ex_batch; ex_batch] FTP) (1 * batches_count [ex_batch; ex_batch] FFP)
            (1 * batches_count [ex_batch; ex_batch] FFN) a.
Proof.
  refine (@training_accuracy_cumulative (repeat_update 1) (repeat_update_laws 1 (le_n 1))
            [ex_batch] ex_batch _).
  repeat constructor.
Defined.


Lemma epoch_end_errors_witness :
  (@multi_validation_epoch_end (repeat_update 1) [] (mkWorld [] __init__) =
     (mkWorld [] __init__, Err RuntimeError)) /\
  @multi_validation_epoch_end (repeat_update 1) [mkOut 0 (CInt 0) (CInt 0) (F1Int (-1))]
     (mkWorld [] __init__) = (mkWorld [] __init__, Err TypeError).
Proof.
  destruct (@epoch_end_errors (repeat_update 1) [] (mkWorld [] __init__)) as [H1 _].
  destruct (@epoch_end_errors (repeat_update 1) [mkOut 0 (CInt 0) (CInt 0) (F1Int (-1))]
              (mkWorld [] __init__)) as [_ H2].
  split; [apply H1; reflexivity|apply H2; [discriminate|reflexivity]].
Defined.

End DiarSteps.
