(* ===== verification/ClusterEmb.v ===== *)
(** * ClusterEmb: the clustering bookkeeping of [ClusterEmbedding]

    Models the pure parts of [ClusterEmbedding] in
    [src/nemo/collections/asr/models/tsvad_models.py]:
    [assign_labels_to_longer_segs] (lines 235-250), [get_clus_emb]
    (252-282), [get_uniq_id] (299-300), [s2n] (305-306), [parse_rttm]
    (308-316), [get_manifest_uniq_ids] (284-297) and
    [check_embedding_and_RTTM] (318-335).

    Python dicts are stdpp [gmap]s; where the code iterates over a dict,
    the iteration order is an argument (the dict's insertion order), and
    a dict whose order is read back ([emb_scale_seq_dict[scale]]) is an
    association list.  A Python [set] is a [gset]; the order in which a
    set is iterated (by hash, and randomised per process for [str]) is
    the environment's [set_order] and [int_set_order], of which the laws
    only say that they list each element once, so the theorems hold for
    every order.  Reading files, [float], [int], [json.loads] and
    [get_uniqname_from_filepath] are also the environment's
    ([ClusterEnv]).  An opened file is its lines and a position, so that
    a second iteration after [readlines] sees nothing.

    A torch tensor of embeddings is the list of its rows; the
    [dim x max_num_of_spks] tensor [avg_embs] is the list of its columns,
    so that [avg_embs[:, spk_idx] = v] is a list assignment, with
    PyTorch's [IndexError] out of range and [RuntimeError] when [v] is
    neither of length [dim] nor of length one.  Entries are rationals.
    An entry of [emb_sess_avg_dict] is a placeholder (the empty list the
    dict starts with) or the [{mapping, avg_embs}] dict.

    The theorems: the average embeddings of a session (C9), the
    [IndexError] on a label at or above [max_num_of_spks] (C10), the
    composition of [get_clus_emb] (C20); when the mapping completion
    passes (C37); that a passing check leaves every mapping keyed by its
    RTTM speakers (C38); the mode labels of longer segments (C39); the
    labels a session missing from the base labels gets (C40). *)

From Stdlib Require Import QArith.
From S2P Require Import Prelude PyStr DiarMetric.
From stdpp Require Import base gmap sets strings pretty.

Module ClusterEmb.
Import PyStr.
Local Open Scope Z_scope.
#[local] Set Warnings "-clear-no-such-hyp".

(** ** The environment *)

Class ClusterEnv := {
  read_lines : string -> res (list string);          (* open(path) and its lines *)
  py_float : string -> res Q;                        (* float(x) *)
  py_int : string -> res Z;                          (* int(x) *)
  json_loads : string -> res (gmap string string);   (* json.loads(s) *)
  get_uniqname_from_filepath : string -> string;
  set_order : gset string -> list string;            (* iterating a set of str *)
  int_set_order : list Z -> list Z                   (* list(set(xs)) of ints *)
}.

Class ClusterEnvLaws (E : ClusterEnv) := {
  set_order_nodup : forall X, NoDup (set_order X);
  set_order_elem : forall X x, x ∈ set_order X <-> x ∈ X;
  int_set_order_nodup : forall xs, NoDup (int_set_order xs);
  int_set_order_elem : forall xs x, In x (int_set_order xs) <-> In x xs
}.

(** ** Data *)

(** [{'mapping': inv_map, 'avg_embs': avg_embs}]; [avg_embs] is the
    [dim x max_num_of_spks] tensor, as the list of its columns. *)
Record emb_entry := mkEntry { mapping : gmap string string; avg_embs : list (list Q) }.

(** A value of [emb_sess_avg_dict[scale_index]]: the empty list
    [get_clus_emb] starts with, or an entry. *)
Inductive emb_slot := Placeholder | Entry (e : emb_entry).

(** [emb_sess_avg_dict[scale_index][uniq_id]]. *)
Abbreviation emb_dict := (gmap Z (gmap string emb_slot)).

(** [x['mapping']]: a list cannot be indexed by a string. *)
Definition slot_entry (x : emb_slot) : res emb_entry :=
  match x with Entry e => Ok e | Placeholder => Err TypeError end.

(** An opened file: its lines and the position of the next one. *)
Record pyfile := mkFile { f_lines : list string; f_pos : nat }.

(** [f.readlines()]: the lines from the position on; the file ends at its end. *)
Definition readlines (f : pyfile) : list string * pyfile :=
  (drop (f_pos f) (f_lines f), mkFile (f_lines f) (length (f_lines f))).

(** [for x in f]: the lines from the position on. *)
Definition iter_lines (f : pyfile) : list string := drop (f_pos f) (f_lines f).

(** An element of [manifest_lines]: a line, or a dict appended to it. *)
Inductive mline := MStr (s : string) | MDict (d : gmap string string).

(** [json.loads] of a list element: a dict is not a string. *)
Definition json_loads_m `{ClusterEnv} (x : mline) : res (gmap string string) :=
  match x with MStr s => json_loads s | MDict _ => Err TypeError end.

(** [set(['speaker_'+str(x) for x in range(n)])]. *)
Definition speaker_name (x : nat) : string := String.append "speaker_" (pretty (N.of_nat x)).

Definition speaker_names (n : nat) : gset string := list_to_set (map speaker_name (seq 0 n)).

(** [statistics.mode] (Python 3.8 on): of the values of highest count the
    first to occur; [StatisticsError] on no data. *)
Definition count_of (l : list Z) (x : Z) : nat := length (List.filter (fun y => Z.eqb y x) l).

Definition py_mode (l : list Z) : res Z :=
  match l with
  | [] => Err StatisticsError
  | x :: _ => Ok (fold_left (fun best y => if Nat.ltb (count_of l best) (count_of l y) then y else best) l x)
  end.

(** [base[mapping == seg_idx]] on two numpy arrays: [IndexError] when the
    lengths differ. *)
Definition segment_labels (base mp : list Z) (seg_idx : Z) : list Z :=
  map fst (List.filter (fun p => Z.eqb (snd p) seg_idx) (combine base mp)).

Definition mask_select (base mp : list Z) (seg_idx : Z) : res (list Z) :=
  if Nat.eqb (length base) (length mp) then Ok (segment_labels base mp seg_idx) else Err IndexError.

(** A mapping no two speakers of which share a name. *)
Definition map_inj (m : gmap string string) : Prop :=
  forall k1 k2 v, m !! k1 = Some v -> m !! k2 = Some v -> k1 = k2.

(** [for k, v in kvs: m[k] = v]. *)
Definition insert_all (kvs : list (string * string)) (m : gmap string string) : gmap string string :=
  fold_left (fun m kv => <[fst kv := snd kv]> m) kvs m.

(** [new_clus_label_dict[scale][uniq_id]]: the labels of a session's segments. *)
Abbreviation label_dict := (gmap Z (gmap string (list Z))).

(** [{scale_index: {} for scale_index in range(scale_n)}]. *)
Definition new_labels_init (scale_n : nat) : label_dict :=
  list_to_map (map (fun i => (Z.of_nat i, ∅)) (seq 0 scale_n)).

(** [d[k1][k2] = v]: [KeyError] when [d] lacks [k1]. *)
Definition set_nested (d : label_dict) (k1 : Z) (k2 : string) (v : list Z) : res label_dict :=
  let? inner := py_getitem (d !! k1) in Ok (<[k1 := <[k2 := v]> inner]> d).

(** [x[-1]] of a row [[stt, end, label]] of [base_clus_label_dict]. *)
Definition row_label (row : Q * Q * Z) : Z := snd row.

(** [d[s][uid]] of a label dict. *)
Definition lookup_labels (d : label_dict) (s : Z) (uid : string) : option (list Z) :=
  match d !! s with Some sd => sd !! uid | None => None end.

(** [lab] is a value of highest count of [vals]. *)
Definition is_mode (vals : list Z) (lab : Z) : Prop :=
  In lab vals /\ forall y, (count_of vals y <= count_of vals lab)%nat.

(** [d] has the keys [0 .. scale_n - 1]. *)
Definition has_scales (scale_n : nat) (d : label_dict) : Prop :=
  forall i, (i < scale_n)%nat -> is_Some (d !! Z.of_nat i).

(** [d[s][uid]], or nothing. *)
Definition lookup2 (d : emb_dict) (s : Z) (uid : string) : option emb_slot :=
  match d !! s with Some sd => sd !! uid | None => None end.

(** [d[k]] on a dict kept in insertion order. *)
Fixpoint assoc_get {V} (k : string) (l : list (string * V)) : res V :=
  match l with
  | [] => Err KeyError
  | (k', v) :: l' => if String.eqb k k' then Ok v else assoc_get k l'
  end.

(** [emb_tensor[label_array == spk_idx]]: the rows whose label is
    [spk_idx]; [IndexError] when the lengths differ. *)
Definition masked_rows (emb : list (list Q)) (labels : list Z) (spk_idx : Z) : list (list Q) :=
  map fst (List.filter (fun p => Z.eqb (snd p) spk_idx) (combine emb labels)).

Definition select_rows (emb : list (list Q)) (labels : list Z) (spk_idx : Z) : res (list (list Q)) :=
  if Nat.eqb (length emb) (length labels) then Ok (masked_rows emb labels spk_idx)
  else Err IndexError.

(** [torch.mean(rows, dim=0)] on rows of the first row's width, over the
    rationals. *)
Definition col_mean (rows : list (list Q)) : list Q :=
  map (fun j => (fold_right Qplus 0 (map (fun r => nth j r 0) rows) / inject_Z (Z.of_nat (length rows)))%Q)
      (seq 0 (length (hd [] rows))).

(** [avg_embs[:, spk_idx] = v] on the list of [dim]-long columns: an
    index out of range raises [IndexError] (negative ones count from the
    end); a vector of length one broadcasts, another length raises
    [RuntimeError]. *)
Definition set_column (dim : nat) (cols : list (list Q)) (spk_idx : Z) (v : list Q) : res (list (list Q)) :=
  let? _ := py_setitem cols spk_idx v in
  if Nat.eqb (length v) dim then py_setitem cols spk_idx v
  else if Nat.eqb (length v) 1 then py_setitem cols spk_idx (replicate dim (hd 0%Q v))
  else Err RuntimeError.

(** [{clus_key: rttm_key for rttm_key, clus_key in m.items()}]. *)
Definition invert_map (m : list (string * string)) : gmap string string :=
  fold_left (fun acc kv => <[snd kv := fst kv]> acc) m ∅.

Section Model.
Context `{ClusterEnv}.

(** [get_uniq_id]: [rttm_path.split('/')[-1].split('.rttm')[0]]. *)
Definition get_uniq_id (rttm_path : string) : res string :=
  let? parts := py_split_sep rttm_path "/" in
  let? last := py_index parts (-1) in
  let? parts' := py_split_sep last ".rttm" in
  py_index parts' 0.

(** [round(x, 2)] on the exact value, half to even. *)
Definition round2 (q : Q) : Q := (inject_Z (DiarMetric.round_half_even (q * 100)) / 100)%Q.

(** [s2n]: [round(float(x), 2)]. *)
Definition s2n (x : string) : res Q := let? q := py_float x in Ok (round2 q).

(** The body of the loop of [parse_rttm] on one line: the speaker.  The
    [strip()] is absorbed by [split()], which skips white space at both
    ends; the tuple is evaluated from left to right. *)
Definition parse_line (line : string) : res string :=
  let rttm := py_split line in
  let? x3 := py_index rttm 3 in
  let? start := s2n x3 in
  let? x4 := py_index rttm 4 in
  let? e4 := s2n x4 in
  let? x3' := py_index rttm 3 in
  let? e3 := s2n x3' in
  let _end := (e4 + e3)%Q in
  py_index rttm 7.

(** [parse_rttm]: the set of speakers of an RTTM file. *)
Definition parse_rttm (rttm_path : string) : res (gset string) :=
  let? rttm_lines := read_lines rttm_path in
  let? uniq_id := get_uniq_id rttm_path in
  let? speaker_list := res_map parse_line rttm_lines in
  Ok (list_to_set speaker_list).

(** [get_manifest_uniq_ids]: the loop over [f] after [f.readlines()] runs
    on what is left of the file. *)
Definition get_manifest_uniq_ids (manifest_filepath : string)
    : res (list string * list (gmap string string)) :=
  let? lines := read_lines manifest_filepath in
  let f := mkFile lines 0 in
  let '(manifest_lines, f) := readlines f in
  let? extra := res_map json_loads (iter_lines f) in
  let manifest_lines := app (map MStr manifest_lines) (map MDict extra) in
  let? entries := res_map (fun json_string =>
       let? json_dict := json_loads_m json_string in
       let? audio := py_getitem (json_dict !! "audio_filepath") in
       Ok (get_uniqname_from_filepath audio, json_dict)) manifest_lines in
  Ok (map fst entries, map snd entries).

(** The [if] of [check_embedding_and_RTTM] on one mapping: complete the
    mapping with the RTTM speakers it lacks, paired with the
    [speaker_<i>] names it does not use yet, and assert that its keys
    are then the RTTM speakers. *)
Definition complete_mapping (rttm_speaker_set : gset string) (mp : gmap string string)
    : res (gmap string string) :=
  let dict_speaker_set : gset string := dom mp in
  let dict_speaker_value_set : gset string := map_img mp in
  if decide (rttm_speaker_set = dict_speaker_set) then Ok mp else
  let remainder_rttm_keys := set_order (rttm_speaker_set ∖ dict_speaker_set) in
  let total_spk_set := speaker_names (size rttm_speaker_set) in
  let remainder_dict_keys := set_order (total_spk_set ∖ dict_speaker_value_set) in
  let mp' := insert_all (combine remainder_rttm_keys remainder_dict_keys) mp in
  if decide (rttm_speaker_set = dom mp') then Ok mp' else Err AssertionError.

(** The body of the inner loop, for one scale and one manifest line. *)
Definition check_entry (scale_index : Z) (d : emb_dict) (uj : string * gmap string string)
    : res emb_dict :=
  let '(uniq_id, json_dict) := uj in
  let? rttm_filepath := py_getitem (json_dict !! "rttm_filepath") in
  let? rttm_speaker_set := parse_rttm rttm_filepath in
  let? sd := py_getitem (d !! scale_index) in
  let? slot := py_getitem (sd !! uniq_id) in
  let? e := slot_entry slot in
  let? mp' := complete_mapping rttm_speaker_set (mapping e) in
  Ok (<[scale_index := <[uniq_id := Entry (mkEntry mp' (avg_embs e))]> sd]> d).

(** [check_embedding_and_RTTM]; [scales] is [list(emb_sess_avg_dict.keys())]. *)
Definition check_embedding_and_RTTM (d : emb_dict) (scales : list Z) (manifest_filepath : string)
    : res emb_dict :=
  let? ids := get_manifest_uniq_ids manifest_filepath in
  let '(uniq_id_list, json_lines_list) := ids in
  res_fold_left (fun d scale_index =>
      res_fold_left (check_entry scale_index) (combine uniq_id_list json_lines_list) d)
    scales d.

(** The inner loop: one label, the mode, per segment of a longer scale. *)
Definition seg_labels (base mp : list Z) : res (list Z) :=
  res_map (fun seg_idx => let? sel := mask_select base mp seg_idx in py_mode sel) (int_set_order mp).

(** One scale [scale_index < scale_n - 1] of one session. *)
Definition assign_scale (uniq_id : string) (uniq_scale_mapping_dict : gmap Z (list Z))
    (base_scale_clus_label : list Z) (d : label_dict) (scale_index : Z) : res label_dict :=
  let? mp := py_getitem (uniq_scale_mapping_dict !! scale_index) in
  let? new_clus_label := seg_labels base_scale_clus_label mp in
  set_nested d scale_index uniq_id new_clus_label.

(** One session of [assign_labels_to_longer_segs].  [prev] is the value
    the variable [base_scale_clus_label] holds from the previous
    iteration, if any: when the session has no base labels the [except]
    branch runs the debugger, and on [continue] the loop goes on with that
    value, or raises [UnboundLocalError] (a [NameError]) in the first
    iteration. *)
Definition assign_step (scale_n : nat) (base_clus_label_dict : gmap string (list (Q * Q * Z)))
    (st : label_dict * option (list Z)) (item : string * gmap Z (list Z))
    : res (label_dict * option (list Z)) :=
  let '(new_clus_label_dict, prev) := st in
  let '(uniq_id, uniq_scale_mapping_dict) := item in
  let cur := match base_clus_label_dict !! uniq_id with
             | Some rows => Some (map row_label rows)
             | None => prev
             end in
  let? base_scale_clus_label := match cur with Some b => Ok b | None => Err NameError end in
  let? new_clus_label_dict :=
    set_nested new_clus_label_dict (Z.of_nat scale_n - 1) uniq_id base_scale_clus_label in
  let? new_clus_label_dict :=
    res_fold_left (assign_scale uniq_id uniq_scale_mapping_dict base_scale_clus_label)
      (map Z.of_nat (seq 0 (scale_n - 1))) new_clus_label_dict in
  Ok (new_clus_label_dict, Some base_scale_clus_label).

(** [assign_labels_to_longer_segs]; [sessions] is
    [session_scale_mapping_dict.items()] in its order. *)
Definition assign_labels_to_longer_segs (scale_n : nat)
    (base_clus_label_dict : gmap string (list (Q * Q * Z)))
    (sessions : list (string * gmap Z (list Z))) : res label_dict :=
  let? r := res_fold_left (assign_step scale_n base_clus_label_dict) sessions
              (new_labels_init scale_n, None) in
  Ok (fst r).

(** One line of the cluster-label file: [uniq_id], then
    [int(line.split()[-1].split('_')[-1])], then the rounded start and
    end; unpacking anything but two times raises [ValueError]. *)
Definition parse_label_line (line : string) : res (string * (Q * Q * Z)) :=
  let parts := py_split line in
  let? uniq_id := py_index parts 0 in
  let? last := py_index parts (-1) in
  let? pieces := py_split_sep last "_" in
  let? lab := py_index pieces (-1) in
  let? label := py_int lab in
  let? times := res_map s2n (py_slice parts (Some 1) (Some 3)) in
  match times with
  | [stt; end_] => Ok (uniq_id, (stt, end_, label))
  | _ => Err ValueError
  end.

(** The first loop of [get_clus_emb] on one line; it also keeps the last
    [uniq_id], which the code reads after the loop. *)
Definition add_label_line (st : gmap string (list (Q * Q * Z)) * option string) (line : string)
    : res (gmap string (list (Q * Q * Z)) * option string) :=
  let '(base_clus_label_dict, _) := st in
  let? parsed := parse_label_line line in
  let '(uniq_id, row) := parsed in
  let? rows := py_getitem (base_clus_label_dict !! uniq_id) in
  Ok (<[uniq_id := app rows [row]]> base_clus_label_dict, Some uniq_id).

(** [for spk_idx in spk_set]: one speaker's average embedding. *)
Definition avg_emb_step (dim : nat) (emb_tensor : list (list Q)) (clus_label_list : list Z)
    (avg_embs : list (list Q)) (spk_idx : Z) : res (list (list Q)) :=
  let? selected_embs := select_rows emb_tensor clus_label_list spk_idx in
  set_column dim avg_embs spk_idx (col_mean selected_embs).

(** The body of the inner loop of [get_clus_emb] for one session at one
    scale: the assertion, the average embedding of each speaker, and the
    inverted speaker mapping. *)
Definition emb_avg_entry (max_num_of_spks : Z) (dim : nat) (clus_label_list : list Z)
    (emb_tensor : list (list Q)) (speaker_mapping_dict : gmap string (list (string * string)))
    (uniq_id : string) : res emb_entry :=
  let spk_set := int_set_order clus_label_list in
  let spk_N := length spk_set in
  if Z.of_nat spk_N <=? max_num_of_spks then
    let avg_embs := replicate (Z.to_nat max_num_of_spks) (replicate dim 0%Q) in
    let? avg_embs := res_fold_left (avg_emb_step dim emb_tensor clus_label_list) spk_set avg_embs in
    let? m := py_getitem (speaker_mapping_dict !! uniq_id) in
    Ok (mkEntry (invert_map m) avg_embs)
  else Err AssertionError.

(** The body of [for uniq_id, emb_tensor in emb_scale_seq_dict[scale_index].items()]. *)
Definition clus_emb_session (max_num_of_spks : Z) (dim : nat)
    (speaker_mapping_dict : gmap string (list (string * string))) (all_scale_clus_label_dict : label_dict)
    (scale_index : Z) (emb_sess_avg_dict : emb_dict) (kv : string * list (list Q)) : res emb_dict :=
  let '(uniq_id, emb_tensor) := kv in
  let? sd := py_getitem (all_scale_clus_label_dict !! scale_index) in
  let? clus_label_list := py_getitem (sd !! uniq_id) in
  let? e := emb_avg_entry max_num_of_spks dim clus_label_list emb_tensor speaker_mapping_dict uniq_id in
  let? inner := py_getitem (emb_sess_avg_dict !! scale_index) in
  Ok (<[scale_index := <[uniq_id := Entry e]> inner]> emb_sess_avg_dict).

(** The body of [for scale_index in emb_scale_seq_dict.keys()]. *)
Definition clus_emb_scale (emb_scale_seq_dict : gmap Z (list (string * list (list Q))))
    (max_num_of_spks : Z) (dim : nat) (speaker_mapping_dict : gmap string (list (string * string)))
    (all_scale_clus_label_dict : label_dict) (emb_sess_avg_dict : emb_dict) (scale_index : Z) : res emb_dict :=
  let? items := py_getitem (emb_scale_seq_dict !! scale_index) in
  res_fold_left (clus_emb_session max_num_of_spks dim speaker_mapping_dict all_scale_clus_label_dict scale_index)
    items emb_sess_avg_dict.

(** [{key: v for key in keys}]. *)
Definition const_dict {V} (keys : list string) (v : V) : gmap string V :=
  list_to_map (map (fun k => (k, v)) keys).

(** [get_clus_emb].  [scales] is [list(emb_scale_seq_dict.keys())], each
    scale's sessions are in their insertion order, and [sessions] is
    [session_scale_mapping_dict.items()]. *)
Definition get_clus_emb (scales : list Z) (emb_scale_seq_dict : gmap Z (list (string * list (list Q))))
    (clus_label : list string) (speaker_mapping_dict : gmap string (list (string * string)))
    (sessions : list (string * gmap Z (list Z))) (max_num_of_spks : Z)
    : res (emb_dict * gmap string (list (Q * Q * Z))) :=
  let scale_n := length scales in
  let? base_scale := py_getitem (emb_scale_seq_dict !! (Z.of_nat scale_n - 1)) in
  let base_clus_label_dict := const_dict (map fst base_scale) [] in
  let emb_sess_avg_dict : emb_dict :=
    list_to_map (map (fun s => (s, const_dict (map fst base_scale) Placeholder)) scales) in
  let? st := res_fold_left add_label_line clus_label (base_clus_label_dict, None) in
  let '(base_clus_label_dict, last_uniq_id) := st in
  let? all_scale_clus_label_dict := assign_labels_to_longer_segs scale_n base_clus_label_dict sessions in
  let? uniq_id := match last_uniq_id with Some u => Ok u | None => Err NameError end in
  let? scale0 := py_getitem (emb_scale_seq_dict !! 0) in
  let? emb0 := assoc_get uniq_id scale0 in
  let? row0 := py_index emb0 0 in
  let dim := length row0 in
  let? emb_sess_avg_dict := res_fold_left
      (clus_emb_scale emb_scale_seq_dict max_num_of_spks dim speaker_mapping_dict all_scale_clus_label_dict)
      scales emb_sess_avg_dict in
  Ok (emb_sess_avg_dict, base_clus_label_dict).

(** The labels [assign_labels_to_longer_segs] is to give a session with
    base labels [b]: [b] at the base scale, and at each longer scale the
    [seg_labels] of its mapping. *)
Definition session_labels (scale_n : nat) (uid : string) (smap : gmap Z (list Z))
    (b : list Z) (d : label_dict) : Prop :=
  lookup_labels d (Z.of_nat scale_n - 1) uid = Some b /\
  forall s mp, (s < scale_n - 1)%nat -> smap !! Z.of_nat s = Some mp ->
    exists labels, lookup_labels d (Z.of_nat s) uid = Some labels /\ seg_labels b mp = Ok labels.

(** The rows of the parsed label lines of session [uid], in order. *)
Definition rows_of (parsed : list (string * (Q * Q * Z))) (uid : string) : list (Q * Q * Z) :=
  map snd (List.filter (fun p => String.eqb (fst p) uid) parsed).

End Model.

(** The keys of each scale of an embedding dict. *)
Definition keys_of (d : emb_dict) : gmap Z (gset string) := (fun sd => dom sd) <$> d.


(** ** A concrete environment for the examples

    A manifest ["m.json"] of one line, one RTTM file ["a.rttm"] with the
    speaker [spk1], [json.loads] giving the manifest entry of session
    ["a"], and stdpp's [elements] and [nodup] as the set orders. *)
Definition ex_json : gmap string string :=
  <["audio_filepath" := "a.wav"]> {[ "rttm_filepath" := "a.rttm" ]}.

Definition ex_env : ClusterEnv := {|
  read_lines := fun p =>
    if String.eqb p "m.json" then Ok ["m"]
    else if String.eqb p "a.rttm" then Ok ["SPEAKER a 1 0.00 1.00 <NA> <NA> spk1 <NA> <NA>"]
    else Err OSError;
  py_float := fun _ => Ok 0%Q;
  py_int := fun x => if String.eqb x "5" then Ok 5 else Ok 0;
  json_loads := fun _ => Ok ex_json;
  get_uniqname_from_filepath := fun _ => "a";
  set_order := elements;
  int_set_order := nodup Z.eq_dec |}.

Definition ex_emb : emb_dict := {[ 0 := {[ "a" := Entry (mkEntry {[ "spk1" := "speaker_0" ]} []) ]} ]}.

Definition ex_esd : gmap Z (list (string * list (list Q))) := {[ 0 := [("a", [[1%Q]; [3%Q]])] ]}.
Definition ex_smd : gmap string (list (string * string)) := {[ "a" := [("spk1", "0")] ]}.
Definition ex_lines : list string := ["a 0.0 1.0 spk_0"; "a 1.0 2.0 spk_0"].

(** ** Lemmas: lists, maps and sets *)

Lemma combine_fst {A B} (ks : list A) (vs : list B) : map fst (combine ks vs) = take (length vs) ks.
Proof.
  revert vs. induction ks as [|k ks IH]; intros [|v vs]; cbn; [done..|]. now rewrite IH.
Qed.

Lemma combine_snd {A B} (ks : list A) (vs : list B) : map snd (combine ks vs) = take (length ks) vs.
Proof.
  revert vs. induction ks as [|k ks IH]; intros [|v vs]; cbn; [done..|]. now rewrite IH.
Qed.

Lemma NoDup_take_l {A} (n : nat) (l : list A) : NoDup l -> NoDup (take n l).
Proof.
  intros Hl. rewrite <- (take_drop n l) in Hl. apply NoDup_app in Hl. tauto.
Qed.

Lemma dom_insert_all (kvs : list (string * string)) (m : gmap string string) :
  dom (insert_all kvs m) = dom m ∪ list_to_set (map fst kvs).
Proof.
  unfold insert_all. revert m. induction kvs as [|[k v] kvs IH]; intros m; cbn.
  - set_solver.
  - rewrite IH, dom_insert_L. set_solver.
Qed.

Lemma lookup_insert_all_old (kvs : list (string * string)) (m : gmap string string) (k : string) :
  k ∉ map fst kvs -> insert_all kvs m !! k = m !! k.
Proof.
  unfold insert_all. revert m. induction kvs as [|[k' v] kvs IH]; intros m Hk; cbn; [done|].
  cbn in Hk. rewrite IH by set_solver. apply lookup_insert_ne. set_solver.
Qed.

(** Inserting fresh keys with fresh, distinct names keeps a mapping injective. *)
Lemma insert_all_inj (kvs : list (string * string)) (m : gmap string string) :
  NoDup (map fst kvs) -> NoDup (map snd kvs) ->
  (forall k, k ∈ map fst kvs -> k ∉ dom m) -> (forall v, v ∈ map snd kvs -> v ∉ (map_img m : gset string)) ->
  map_inj m -> map_inj (insert_all kvs m).
Proof.
  unfold insert_all. revert m. induction kvs as [|[k v] kvs IH]; intros m Hk Hv Hkd Hvd Hinj; cbn; [done|].
  cbn in Hk, Hv. apply NoDup_cons in Hk as [Hk1 Hk], Hv as [Hv1 Hv].
  assert (Hkm : k ∉ dom m) by (apply Hkd; set_solver).
  assert (Hvm : v ∉ (map_img m : gset string)) by (apply Hvd; set_solver).
  apply IH; [done|done| | |].
  - intros k' Hk'. rewrite dom_insert_L. assert (k' ∉ dom m) by (apply Hkd; set_solver). set_solver.
  - intros v' Hv'. rewrite map_img_insert_notin_L by (now apply not_elem_of_dom).
    assert (v' ∉ (map_img m : gset string)) by (apply Hvd; set_solver). set_solver.
  - intros k1 k2 w. rewrite !lookup_insert_Some. intros [[<- <-]|[Hne1 H1]] [[<- Hw]|[Hne2 H2]]; [done| | |].
    + exfalso. apply Hvm. apply elem_of_map_img. eauto.
    + exfalso. subst w. apply Hvm. apply elem_of_map_img. eauto.
    + exact (Hinj _ _ _ H1 H2).
Qed.

Lemma lookup_const_dict {V} (keys : list string) (v : V) (k : string) :
  const_dict keys v !! k = if decide (k ∈ keys) then Some v else None.
Proof.
  unfold const_dict. induction keys as [|k' ks IH]; cbn [map]; [rewrite list_to_map_nil|rewrite list_to_map_cons].
  - rewrite lookup_empty. case_decide as Hk; [by apply not_elem_of_nil in Hk|done].
  - rewrite lookup_insert, IH. destruct (decide (k' = k)) as [->|Hne].
    + rewrite decide_True; [done|apply list_elem_of_here].
    + repeat case_decide; rewrite ?elem_of_cons in *; naive_solver.
Qed.

Lemma last_cons_default {A} (x : A) (l : list A) (d d' : A) : List.last (x :: l) d = List.last (x :: l) d'.
Proof. revert x. induction l as [|y l IH]; intros x; [done|]. exact (IH y). Qed.

Lemma py_setitem_nonneg {A} (l : list A) (i : Z) (x : A) : 0 <= i ->
  py_setitem l i x = if Z.of_nat (length l) <=? i then Err IndexError else Ok (<[Z.to_nat i := x]> l).
Proof.
  intros Hi. unfold py_setitem. destruct (Z.ltb_spec i 0); [lia|].
  destruct (Z.ltb_spec i 0), (Z.leb_spec (Z.of_nat (length l)) i); cbn; [lia..|done|].
  now rewrite insert_take_drop by lia.
Qed.

Lemma py_setitem_cases {A} (l : list A) (i : Z) (x : A) :
  py_setitem l i x = Err IndexError \/ exists l', py_setitem l i x = Ok l' /\ length l' = length l.
Proof.
  unfold py_setitem. destruct (_ || _) eqn:Eb; [now left|right].
  apply orb_false_iff in Eb as [E1 E2]. apply Z.ltb_ge in E1. apply Z.leb_gt in E2.
  eexists; split; [reflexivity|]. rewrite length_app; cbn. rewrite length_take, length_drop. lia.
Qed.

Lemma set_column_full (dim : nat) (cols : list (list Q)) (i : Z) (v : list Q) :
  length v = dim -> set_column dim cols i v = py_setitem cols i v.
Proof.
  intros <-. unfold set_column. destruct (py_setitem cols i v); cbn; [|done].
  now rewrite Nat.eqb_refl.
Qed.

Lemma masked_rows_in (emb : list (list Q)) (labels : list Z) (j : Z) (r : list Q) :
  In r (masked_rows emb labels j) -> In r emb.
Proof.
  unfold masked_rows. intros (p & <- & Hp)%in_map_iff.
  apply filter_In in Hp as [Hp _]. destruct p; cbn. now apply in_combine_l in Hp.
Qed.

Lemma masked_rows_nonempty (emb : list (list Q)) (labels : list Z) (j : Z) :
  length emb = length labels -> In j labels -> masked_rows emb labels j <> [].
Proof.
  revert labels. unfold masked_rows. induction emb as [|r emb IH]; intros [|l labels] Hlen Hj; cbn in *;
    try done; try lia.
  destruct (Z.eqb_spec l j) as [->|Hne]; cbn; [done|].
  apply IH; [lia|]. destruct Hj; [congruence|done].
Qed.

Lemma length_col_mean (rows : list (list Q)) : length (col_mean rows) = length (hd [] rows).
Proof. unfold col_mean. now rewrite length_map, length_seq. Qed.

Lemma nodup_range_length (xs : list Z) (n : Z) : 0 <= n ->
  NoDup xs -> Forall (fun x => 0 <= x < n) xs -> (Z.of_nat (length xs) <= n).
Proof.
  intros Hn Hnd Hr. assert (Hsub : xs ⊆+ seqZ 0 n).
  { apply NoDup_submseteq; [done|]. intros x Hx. apply elem_of_seqZ.
    rewrite Forall_forall in Hr. specialize (Hr x Hx). lia. }
  apply submseteq_length in Hsub. rewrite length_seqZ in Hsub. lia.
Qed.

(** ** Lemmas: the average embeddings of one session *)

Section AvgLemmas.
Context (dim : nat) (emb : list (list Q)) (labels : list Z).
Hypothesis Hlen : length emb = length labels.
Hypothesis Hwidth : Forall (fun r => length r = dim) emb.

Lemma col_mean_masked_length (j : Z) : In j labels -> length (col_mean (masked_rows emb labels j)) = dim.
Proof.
  intros Hj. rewrite length_col_mean. pose proof (masked_rows_nonempty emb labels j Hlen Hj) as Hne.
  destruct (masked_rows emb labels j) as [|r rs] eqn:Er; [done|]. cbn.
  rewrite Forall_forall in Hwidth. apply Hwidth, list_elem_of_In, (masked_rows_in emb labels j). rewrite Er. now left.
Qed.

Lemma avg_emb_step_spec (avg : list (list Q)) (j : Z) : In j labels -> 0 <= j ->
  avg_emb_step dim emb labels avg j =
    if Z.of_nat (length avg) <=? j then Err IndexError
    else Ok (<[Z.to_nat j := col_mean (masked_rows emb labels j)]> avg).
Proof.
  intros Hj Hj0. unfold avg_emb_step, select_rows. rewrite Hlen, Nat.eqb_refl. cbn [res_bind].
  rewrite set_column_full by now apply col_mean_masked_length. now apply py_setitem_nonneg.
Qed.

Lemma avg_emb_step_cases (avg : list (list Q)) (j : Z) : In j labels ->
  avg_emb_step dim emb labels avg j = Err IndexError \/
  exists avg', avg_emb_step dim emb labels avg j = Ok avg' /\ length avg' = length avg.
Proof.
  intros Hj. unfold avg_emb_step, select_rows. rewrite Hlen, Nat.eqb_refl. cbn [res_bind].
  rewrite set_column_full by now apply col_mean_masked_length. apply py_setitem_cases.
Qed.

End AvgLemmas.

(** ** Lemmas: [statistics.mode] and the label dicts *)

(** The fold of [py_mode] keeps a value of highest count so far. *)
Lemma mode_fold (l suf : list Z) (best : Z) :
  let r := fold_left (fun best y => if Nat.ltb (count_of l best) (count_of l y) then y else best) suf best in
  (r = best \/ In r suf) /\ (count_of l best <= count_of l r)%nat /\
  forall y, In y suf -> (count_of l y <= count_of l r)%nat.
Proof.
  revert best. induction suf as [|y suf IH]; intros best; cbn [fold_left]; [split; [now left|]; split; [lia|done]|].
  set (b' := if Nat.ltb (count_of l best) (count_of l y) then y else best).
  destruct (IH b') as (Hin & Hle & Hall). cbv zeta in *.
  assert (Hb : (count_of l best <= count_of l b')%nat /\ (count_of l y <= count_of l b')%nat /\ (b' = best \/ b' = y)).
  { unfold b'. destruct (Nat.ltb_spec (count_of l best) (count_of l y)); repeat split; try lia; auto. }
  destruct Hb as (H1 & H2 & H3). split; [|split; [lia|]].
  - destruct Hin as [-> | Hin]; [destruct H3 as [-> | ->]; [now left|right; now left]|right; now right].
  - intros z [<-|Hz]; [lia|exact (Hall z Hz)].
Qed.

Lemma count_of_not_in (l : list Z) (y : Z) : ~ In y l -> count_of l y = 0%nat.
Proof.
  unfold count_of. induction l as [|x l IH]; intros Hy; cbn; [done|].
  destruct (Z.eqb_spec x y) as [->|]; [exfalso; apply Hy; now left|]. apply IH. intros H. apply Hy. now right.
Qed.

(** [statistics.mode] returns a value of the data of highest count. *)
Lemma py_mode_spec (l : list Z) :
  l <> [] -> exists m, py_mode l = Ok m /\ In m l /\ forall y, (count_of l y <= count_of l m)%nat.
Proof.
  destruct l as [|x l']; [done|]. intros _. cbn [py_mode].
  destruct (mode_fold (x :: l') (x :: l') x) as (Hin & _ & Hall). cbv zeta in *.
  eexists. split; [reflexivity|]. split; [destruct Hin as [->|Hin]; [now left|exact Hin]|].
  intros y. destruct (in_dec Z.eq_dec y (x :: l')) as [Hy|Hy]; [exact (Hall y Hy)|].
  rewrite (count_of_not_in _ _ Hy). lia.
Qed.

Lemma segment_labels_nonempty (base mp : list Z) (seg : Z) :
  length base = length mp -> In seg mp -> segment_labels base mp seg <> [].
Proof.
  unfold segment_labels. revert mp. induction base as [|x base IH]; intros [|m mp] Hl Hin; cbn in *;
    try lia; try done.
  destruct (Z.eqb_spec m seg) as [->|Hne]; cbn; [done|].
  apply IH; [lia|]. destruct Hin; congruence.
Qed.

Lemma mask_select_ok (base mp : list Z) (seg : Z) :
  length base = length mp -> mask_select base mp seg = Ok (segment_labels base mp seg).
Proof. intros Hl. unfold mask_select. now rewrite (proj2 (Nat.eqb_eq _ _) Hl). Qed.

Lemma new_labels_init_scales (scale_n : nat) : has_scales scale_n (new_labels_init scale_n).
Proof.
  intros i Hi. exists ∅. apply elem_of_list_to_map_1'.
  - intros y Hy. apply list_elem_of_fmap in Hy as (j & [= _ <-] & _). done.
  - apply list_elem_of_fmap. exists i. split; [done|]. apply list_elem_of_In, in_seq. lia.
Qed.

Lemma set_nested_ok (d d' : label_dict) (k1 : Z) (k2 : string) (v : list Z) :
  set_nested d k1 k2 v = Ok d' ->
  lookup_labels d' k1 k2 = Some v /\
  (forall k1' k2', (k1' <> k1 \/ k2' <> k2) -> lookup_labels d' k1' k2' = lookup_labels d k1' k2') /\
  (forall k, is_Some (d' !! k) <-> is_Some (d !! k)).
Proof.
  unfold set_nested, py_getitem, lookup_labels.
  destruct (d !! k1) as [inner|] eqn:E; cbn [res_bind]; [intros [= <-]|discriminate].
  split; [now rewrite !lookup_insert_eq|]. split.
  - intros k1' k2' Hne. destruct (decide (k1' = k1)) as [->|Hk].
    + rewrite lookup_insert_eq, E, lookup_insert_ne; [done|]. destruct Hne; congruence.
    + rewrite lookup_insert_ne; congruence.
  - intros k. destruct (decide (k = k1)) as [->|Hk]; [rewrite lookup_insert_eq, E; split; eauto|].
    rewrite lookup_insert_ne; [done|congruence].
Qed.

Lemma set_nested_some (d : label_dict) (k1 : Z) (k2 : string) (v : list Z) :
  is_Some (d !! k1) -> exists d', set_nested d k1 k2 v = Ok d'.
Proof. intros [inner E]. unfold set_nested, py_getitem. rewrite E. eauto. Qed.

Section EnvLemmas.
Context `{EL : ClusterEnvLaws}.

Lemma length_set_order (X : gset string) : length (set_order X) = size X.
Proof.
  unfold size, set_size. cbn. apply Permutation_length, NoDup_Permutation.
  - apply set_order_nodup.
  - apply NoDup_elements.
  - intros x. rewrite set_order_elem, elem_of_elements. done.
Qed.

Lemma list_to_set_set_order (X : gset string) : list_to_set (set_order X) = X.
Proof. apply set_eq. intros x. rewrite elem_of_list_to_set. apply set_order_elem. Qed.


(** The keys [complete_mapping] adds: the first [n] of the RTTM speakers
    the mapping lacks, [n] the number of unused names. *)
Lemma dom_completed (R : gset string) (mp : gmap string string) :
  let kvs := combine (set_order (R ∖ dom mp)) (set_order (speaker_names (size R) ∖ map_img mp)) in
  dom (insert_all kvs mp) =
    dom mp ∪ list_to_set (take (size (speaker_names (size R) ∖ map_img mp)) (set_order (R ∖ dom mp))).
Proof. cbv zeta. rewrite dom_insert_all, combine_fst, length_set_order. reflexivity. Qed.

Lemma completed_keys (R : gset string) (mp : gmap string string) (k : string) :
  k ∈ map fst (combine (set_order (R ∖ dom mp)) (set_order (speaker_names (size R) ∖ map_img mp))) ->
  k ∈ R ∖ dom mp.
Proof.
  rewrite combine_fst. intros Hk. apply set_order_elem. exact (subseteq_take _ _ _ Hk).
Qed.

Lemma completed_values (R : gset string) (mp : gmap string string) (v : string) :
  v ∈ map snd (combine (set_order (R ∖ dom mp)) (set_order (speaker_names (size R) ∖ map_img mp))) ->
  v ∈ speaker_names (size R) ∖ (map_img mp : gset string).
Proof.
  rewrite combine_snd. intros Hv. apply set_order_elem. exact (subseteq_take _ _ _ Hv).
Qed.


Lemma complete_mapping_dom (R : gset string) (mp mp' : gmap string string) :
  complete_mapping R mp = Ok mp' -> dom mp' = R.
Proof.
  unfold complete_mapping. destruct (decide (R = dom mp)) as [->|]; [now intros [= <-]|].
  case_decide; [now intros [= <-]|discriminate].
Qed.

(** What the check of one manifest line at one scale establishes. *)
Definition checked (d : emb_dict) (s : Z) (uid : string) (json : gmap string string) : Prop :=
  exists rttm R e, json !! "rttm_filepath" = Some rttm /\ parse_rttm rttm = Ok R /\
    lookup2 d s uid = Some (Entry e) /\ dom (mapping e) = R.

Lemma check_entry_spec (s : Z) (d d1 : emb_dict) (uid : string) (json : gmap string string) :
  check_entry s d (uid, json) = Ok d1 ->
  checked d1 s uid json /\
  forall s' uid', (s' <> s \/ uid' <> uid) -> lookup2 d1 s' uid' = lookup2 d s' uid'.
Proof.
  unfold check_entry, py_getitem.
  destruct (json !! "rttm_filepath") as [rttm|] eqn:Ej; cbn [res_bind]; [|discriminate].
  destruct (parse_rttm rttm) as [R|] eqn:Ep; cbn [res_bind]; [|discriminate].
  destruct (d !! s) as [sd|] eqn:Es; cbn [res_bind]; [|discriminate].
  destruct (sd !! uid) as [slot|] eqn:Eu; cbn [res_bind]; [|discriminate].
  destruct slot as [|e]; cbn [slot_entry res_bind]; [discriminate|].
  destruct (complete_mapping R (mapping e)) as [mp'|] eqn:Ec; cbn [res_bind]; [|discriminate].
  intros [= <-]. split.
  - exists rttm, R, (mkEntry mp' (avg_embs e)). split; [done|]. split; [done|].
    unfold lookup2. rewrite !lookup_insert_eq. split; [done|]. exact (complete_mapping_dom _ _ _ Ec).
  - intros s' uid' Hne. unfold lookup2.
    destruct (decide (s' = s)) as [->|Hs].
    + rewrite lookup_insert_eq, Es, lookup_insert_ne; [done|]. destruct Hne; congruence.
    + rewrite lookup_insert_ne; congruence.
Qed.

(** The inner loop, for one scale. *)
Lemma check_scale_spec (s : Z) (pairs : list (string * gmap string string)) (d d1 : emb_dict) :
  NoDup (map fst pairs) ->
  res_fold_left (check_entry s) pairs d = Ok d1 ->
  (forall uid json, In (uid, json) pairs -> checked d1 s uid json) /\
  (forall s' uid, s' <> s -> lookup2 d1 s' uid = lookup2 d s' uid).
Proof.
  intros Hnd Hf. split.
  - intros uid json Hin.
    refine (res_fold_left_keyed (check_entry s) fst (fun p d => checked d s (fst p) (snd p)) pairs d d1
              _ _ _ Hf (uid, json) Hin); [| |now apply NoDup_ListNoDup].
    + intros [u j] b b' _ Eb. exact (proj1 (check_entry_spec s b b' u j Eb)).
    + intros [u j] [u' j'] b b' _ _ Eb Hne (r & R & e & H1 & H2 & H3 & H4). cbn in Hne |- *.
      exists r, R, e. split; [done|]. split; [done|]. split; [|done].
      rewrite (proj2 (check_entry_spec s b b' u j Eb)); [done|]. right. congruence.
  - intros s' uid Hs.
    apply (res_fold_left_invariant (check_entry s) (fun b => lookup2 b s' uid = lookup2 d s' uid) pairs d d1);
      [|done|exact Hf].
    intros [u j] b b' _ Eb Hb. rewrite (proj2 (check_entry_spec s b b' u j Eb)); [done|]. now left.
Qed.


(** [seg_labels] gives, per segment of the mapping, a mode of its base labels. *)
Lemma seg_labels_spec (base mp : list Z) :
  length base = length mp ->
  exists labels, seg_labels base mp = Ok labels /\
    Forall2 (fun seg lab => is_mode (segment_labels base mp seg) lab) (int_set_order mp) labels.
Proof.
  intros Hl. unfold seg_labels.
  assert (Hsub : forall x, In x (int_set_order mp) -> In x mp) by (intros x; apply int_set_order_elem).
  induction (int_set_order mp) as [|seg segs IH]; cbn [res_map]; [eauto|].
  destruct IH as (labels & Ef & Hf); [intros x Hx; apply Hsub; now right|].
  destruct (py_mode_spec (segment_labels base mp seg)) as (m & Em & Hin & Hmax).
  { apply segment_labels_nonempty; [done|]. apply Hsub. now left. }
  rewrite (mask_select_ok _ _ _ Hl). cbn [res_bind]. rewrite Em. cbn [res_bind].
  rewrite Ef. cbn [res_bind]. eexists. split; [reflexivity|]. constructor; [|exact Hf]. split; assumption.
Qed.

Lemma assign_scale_ok (uid : string) (smap : gmap Z (list Z)) (b : list Z) (d d' : label_dict) (k : Z) :
  assign_scale uid smap b d k = Ok d' ->
  (exists mp labels, smap !! k = Some mp /\ seg_labels b mp = Ok labels /\
                     lookup_labels d' k uid = Some labels) /\
  (forall k' uid', (k' <> k \/ uid' <> uid) -> lookup_labels d' k' uid' = lookup_labels d k' uid') /\
  (forall k', is_Some (d' !! k') <-> is_Some (d !! k')).
Proof.
  unfold assign_scale, py_getitem.
  destruct (smap !! k) as [mp|] eqn:Em; cbn [res_bind]; [|discriminate].
  destruct (seg_labels b mp) as [labels|] eqn:El; cbn [res_bind]; [|discriminate].
  intros Ef. destruct (set_nested_ok _ _ _ _ _ Ef) as (H1 & H2 & H3). eauto 10.
Qed.

(** The inner loop of one session over the scales below the base scale. *)
Lemma assign_scales_spec (scale_n : nat) (uid : string) (smap : gmap Z (list Z)) (b : list Z)
    (d : label_dict) :
  has_scales scale_n d ->
  (forall s, (s < scale_n - 1)%nat -> exists mp, smap !! Z.of_nat s = Some mp /\ length mp = length b) ->
  exists d', res_fold_left (assign_scale uid smap b) (map Z.of_nat (seq 0 (scale_n - 1))) d = Ok d' /\
    has_scales scale_n d' /\
    (forall s mp, (s < scale_n - 1)%nat -> smap !! Z.of_nat s = Some mp ->
       exists labels, lookup_labels d' (Z.of_nat s) uid = Some labels /\ seg_labels b mp = Ok labels) /\
    (forall k uid', uid' <> uid -> lookup_labels d' k uid' = lookup_labels d k uid') /\
    lookup_labels d' (Z.of_nat scale_n - 1) uid = lookup_labels d (Z.of_nat scale_n - 1) uid.
Proof.
  intros Hd Hs.
  set (ks := map Z.of_nat (seq 0 (scale_n - 1))).
  assert (Hks : forall k, In k ks -> exists s, k = Z.of_nat s /\ (s < scale_n - 1)%nat).
  { intros k Hk. apply in_map_iff in Hk as (s & <- & Hs'). apply in_seq in Hs'. exists s. split; [done|lia]. }
  destruct (res_fold_left_ok (assign_scale uid smap b) (has_scales scale_n) ks d) as (d' & Ef & Hd');
    [|exact Hd|].
  { intros k d0 Hk Hd0. destruct (Hks k Hk) as (s & -> & Hlt). destruct (Hs s Hlt) as (mp & Em & Hl).
    destruct (seg_labels_spec b mp ltac:(lia)) as (labels & El & _).
    destruct (set_nested_some d0 (Z.of_nat s) uid labels (Hd0 s ltac:(lia))) as (d1 & E1).
    exists d1. unfold assign_scale, py_getitem. rewrite Em. cbn [res_bind]. rewrite El. cbn [res_bind].
    split; [exact E1|]. intros i Hi. apply (proj2 (proj2 (set_nested_ok _ _ _ _ _ E1))). now apply Hd0. }
  exists d'. split; [exact Ef|]. split; [exact Hd'|]. split; [|split].
  - intros s mp Hlt Em.
    refine (res_fold_left_keyed (assign_scale uid smap b) id
              (fun k d => forall mp, smap !! k = Some mp ->
                 exists labels, lookup_labels d k uid = Some labels /\ seg_labels b mp = Ok labels)
              ks d d' _ _ _ Ef (Z.of_nat s) _ mp Em).
    + intros k d0 d1 _ E1 mp' Em'. destruct (assign_scale_ok _ _ _ _ _ _ E1) as ((mp0 & l0 & H1 & H2 & H3) & _).
      rewrite Em' in H1. injection H1 as <-. eauto.
    + intros k k' d0 d1 _ _ E1 Hne Hk mp' Em'. destruct (Hk mp' Em') as (l0 & H1 & H2). exists l0.
      rewrite (proj1 (proj2 (assign_scale_ok _ _ _ _ _ _ E1))); [done|]. left. done.
    + rewrite map_id. apply Finite.Injective_map_NoDup; [intros x y; lia|apply seq_NoDup].
    + apply in_map, in_seq. lia.
  - intros k uid' Hne.
    apply (res_fold_left_invariant (assign_scale uid smap b) (fun d0 => lookup_labels d0 k uid' = lookup_labels d k uid') ks d d');
      [|done|exact Ef].
    intros x d0 d1 _ E1 H0. rewrite (proj1 (proj2 (assign_scale_ok _ _ _ _ _ _ E1))); [done|]. now right.
  - apply (res_fold_left_invariant (assign_scale uid smap b)
             (fun d0 => lookup_labels d0 (Z.of_nat scale_n - 1) uid = lookup_labels d (Z.of_nat scale_n - 1) uid) ks d d');
      [|done|exact Ef].
    intros x d0 d1 Hx E1 H0. rewrite (proj1 (proj2 (assign_scale_ok _ _ _ _ _ _ E1))); [done|].
    left. destruct (Hks x Hx) as (s & -> & Hlt). lia.
Qed.


(** A session's step changes no other session's labels. *)
Lemma assign_step_other (scale_n : nat) bd (d d' : label_dict) prev p' (uid : string) smap :
  assign_step scale_n bd (d, prev) (uid, smap) = Ok (d', p') ->
  forall k uid', uid' <> uid -> lookup_labels d' k uid' = lookup_labels d k uid'.
Proof.
  unfold assign_step. set (cur := match bd !! uid with Some rows => _ | None => prev end).
  destruct cur as [b|]; cbn [res_bind]; [|discriminate].
  destruct (set_nested d (Z.of_nat scale_n - 1) uid b) as [d1|] eqn:E1; cbn [res_bind]; [|discriminate].
  destruct (res_fold_left _ _ d1) as [d2|] eqn:E2; cbn [res_bind]; [|discriminate].
  intros [= <- _] k uid' Hne.
  rewrite <- (proj1 (proj2 (set_nested_ok _ _ _ _ _ E1)) k uid') by now right.
  apply (res_fold_left_invariant (assign_scale uid smap b) (fun d0 => lookup_labels d0 k uid' = lookup_labels d1 k uid')
           (map Z.of_nat (seq 0 (scale_n - 1))) d1 d2); [|done|exact E2].
  intros x d0 d3 _ E3 H0. rewrite (proj1 (proj2 (assign_scale_ok _ _ _ _ _ _ E3))); [done|]. now right.
Qed.

(** A session whose step uses the base labels [b] (its own, or after the
    debugger the previous session's) and whose mappings have their
    length gets its [session_labels]. *)
Lemma assign_step_spec (scale_n : nat) bd (d : label_dict) prev (uid : string) smap (b : list Z) :
  (1 <= scale_n)%nat -> has_scales scale_n d ->
  match bd !! uid with Some rows => Some (map row_label rows) | None => prev end = Some b ->
  (forall s, (s < scale_n - 1)%nat -> exists mp, smap !! Z.of_nat s = Some mp /\ length mp = length b) ->
  exists d', assign_step scale_n bd (d, prev) (uid, smap) = Ok (d', Some b) /\
    has_scales scale_n d' /\ session_labels scale_n uid smap b d'.
Proof.
  intros Hn Hd Hb Hs. unfold assign_step. rewrite Hb. cbn [res_bind].
  destruct (set_nested_some d (Z.of_nat scale_n - 1) uid b) as (d1 & E1).
  { replace (Z.of_nat scale_n - 1) with (Z.of_nat (scale_n - 1)) by lia. apply Hd. lia. }
  destruct (set_nested_ok _ _ _ _ _ E1) as (H1 & _ & H3).
  rewrite E1. cbn [res_bind].
  destruct (assign_scales_spec scale_n uid smap b d1) as (d2 & E2 & Hd2 & Hl2 & _ & Hb2).
  - intros i Hi. apply H3. now apply Hd.
  - exact Hs.
  - rewrite E2. cbn [res_bind]. exists d2. split; [done|]. split; [done|]. split; [congruence|exact Hl2].
Qed.

(** The loop over the sessions. *)
Lemma assign_sessions_spec (scale_n : nat) bd (sessions : list (string * gmap Z (list Z))) d prev :
  (1 <= scale_n)%nat -> has_scales scale_n d -> List.NoDup (map fst sessions) ->
  (forall uid smap, In (uid, smap) sessions -> exists rows, bd !! uid = Some rows /\
     forall s, (s < scale_n - 1)%nat -> exists mp, smap !! Z.of_nat s = Some mp /\ length mp = length rows) ->
  exists d' p', res_fold_left (assign_step scale_n bd) sessions (d, prev) = Ok (d', p') /\
    forall uid smap rows, In (uid, smap) sessions -> bd !! uid = Some rows ->
      session_labels scale_n uid smap (map row_label rows) d'.
Proof.
  intros Hn. revert d prev. induction sessions as [|[uid smap] ss IH]; intros d prev Hd Hnd Hall;
    cbn [res_fold_left]; [exists d, prev; split; [done|intros ? ? ? []]|].
  apply NoDup_cons_iff in Hnd as [Hu Hnd].
  destruct (Hall uid smap (or_introl eq_refl)) as (rows & Hb & Hs).
  destruct (assign_step_spec scale_n bd d prev uid smap (map row_label rows) Hn Hd ltac:(now rewrite Hb))
    as (d1 & E1 & Hd1 & Hl1); [intros s' Hs'; rewrite length_map; exact (Hs s' Hs')|].
  rewrite E1. cbn [res_bind].
  destruct (IH d1 (Some (map row_label rows)) Hd1 Hnd) as (d' & p' & Ef & Hl);
    [intros u m Hin; apply Hall; now right|].
  exists d', p'. split; [exact Ef|]. intros u m r [Heq|Hin] Hr.
  - injection Heq as <- <-. rewrite Hb in Hr. injection Hr as <-.
    assert (Hsame : forall k, lookup_labels d' k uid = lookup_labels d1 k uid).
    { intros k.
      apply (res_fold_left_invariant (assign_step scale_n bd)
               (fun st => lookup_labels (fst st) k uid = lookup_labels d1 k uid) ss
               (d1, Some (map row_label rows)) (d', p')); [|done|exact Ef].
      intros [u' m'] [d0 q0] [d3 q3] Hin' E3 H0. cbn [fst] in *.
      rewrite (assign_step_other _ _ _ _ _ _ _ _ E3); [done|].
      intros ->. apply Hu. now apply (in_map fst) in Hin'. }
    destruct Hl1 as [Hb1 Hs1]. split; [now rewrite Hsame|].
    intros s mp Hlt Em. rewrite Hsame. exact (Hs1 s mp Hlt Em).
  - exact (Hl u m r Hin Hr).
Qed.

Lemma add_label_lines_spec (ls : list string) (bd bd' : gmap string (list (Q * Q * Z))) (o o' : option string) :
  res_fold_left add_label_line ls (bd, o) = Ok (bd', o') ->
  exists parsed, res_map parse_label_line ls = Ok parsed /\
    (forall p, In p parsed -> fst p ∈ dom bd) /\
    (forall uid, bd' !! uid = (fun rows => app rows (rows_of parsed uid)) <$> bd !! uid) /\
    o' = List.last (map (fun p => Some (fst p)) parsed) o.
Proof.
  revert bd o. induction ls as [|l ls IH]; intros bd o Hf; cbn [res_fold_left] in Hf.
  - injection Hf as <- <-. exists []. split; [done|]. split; [intros _ []|]. split; [|done].
    intros uid. destruct (bd !! uid); cbn; [by rewrite app_nil_r|done].
  - cbn [add_label_line] in Hf.
    destruct (parse_label_line l) as [[uid row]|e] eqn:Ep; cbn [res_bind] in Hf; [|discriminate].
    destruct (bd !! uid) as [rows|] eqn:Eb; cbn [py_getitem res_bind] in Hf; [|discriminate].
    destruct (IH _ _ Hf) as (parsed & Hm & Hdom & Hrows & Ho).
    exists ((uid, row) :: parsed). cbn [res_map]. rewrite Ep, Hm. split; [done|].
    assert (Huid : uid ∈ dom bd) by (apply elem_of_dom; eauto).
    split; [|split].
    + intros p [<-|Hp]; [done|]. specialize (Hdom p Hp). rewrite dom_insert_L in Hdom. set_solver.
    + intros u. rewrite Hrows. unfold rows_of. cbn [List.filter fst].
      destruct (String.eqb_spec uid u) as [<-|Hne].
      * rewrite lookup_insert_eq, Eb. cbn. by rewrite <- app_assoc.
      * rewrite lookup_insert_ne by done. done.
    + rewrite Ho. destruct parsed as [|p ps]; [done|].
      transitivity (List.last (map (fun p => Some (fst p)) (p :: ps)) o); [apply last_cons_default|reflexivity].
Qed.

Lemma clus_emb_session_spec max_num_of_spks dim smd (all : label_dict) (s : Z) (d d' : emb_dict)
    (uid : string) (emb : list (list Q)) :
  clus_emb_session max_num_of_spks dim smd all s d (uid, emb) = Ok d' ->
  (exists labels e, lookup_labels all s uid = Some labels /\
     emb_avg_entry max_num_of_spks dim labels emb smd uid = Ok e /\ lookup2 d' s uid = Some (Entry e)) /\
  forall s' u, (s' <> s \/ u <> uid) -> lookup2 d' s' u = lookup2 d s' u.
Proof.
  unfold clus_emb_session, lookup_labels, lookup2, py_getitem.
  destruct (all !! s) as [sd|]; cbn [res_bind]; [|discriminate].
  destruct (sd !! uid) as [labels|]; cbn [res_bind]; [|discriminate].
  destruct (emb_avg_entry _ _ _ _ _ _) as [e|] eqn:Ee; cbn [res_bind]; [|discriminate].
  destruct (d !! s) as [inner|] eqn:Ed; cbn [res_bind]; [|discriminate].
  intros [= <-]. split.
  - exists labels, e. rewrite !lookup_insert_eq. done.
  - intros s' u Hne. rewrite lookup_insert. case_decide as Hs; [subst s'|done].
    rewrite Ed, lookup_insert_ne; [done|]. intros ->. destruct Hne; congruence.
Qed.
Lemma clus_emb_scale_other esd max_num_of_spks dim smd (all : label_dict) (d d' : emb_dict) (s s' : Z) (u : string) :
  clus_emb_scale esd max_num_of_spks dim smd all d s = Ok d' -> s' <> s -> lookup2 d' s' u = lookup2 d s' u.
Proof.
  unfold clus_emb_scale, py_getitem. destruct (esd !! s) as [items|]; cbn [res_bind]; [|discriminate].
  intros Ef Hs. apply (res_fold_left_invariant (clus_emb_session max_num_of_spks dim smd all s) (fun b => lookup2 b s' u = lookup2 d s' u) items d d');
    [|done|exact Ef].
  intros [uid emb] b b' _ Eb Hb. rewrite <- Hb. apply (proj2 (clus_emb_session_spec _ _ _ _ _ _ _ _ _ Eb)).
  now left.
Qed.

Lemma clus_emb_scale_spec esd max_num_of_spks dim smd (all : label_dict) (d d' : emb_dict) (s : Z) items :
  esd !! s = Some items -> NoDup (map fst items) ->
  clus_emb_scale esd max_num_of_spks dim smd all d s = Ok d' ->
  forall uid emb, In (uid, emb) items -> exists labels e, lookup_labels all s uid = Some labels /\
    emb_avg_entry max_num_of_spks dim labels emb smd uid = Ok e /\ lookup2 d' s uid = Some (Entry e).
Proof.
  unfold clus_emb_scale, py_getitem. intros -> Hnd Ef uid emb Hin. cbn [res_bind] in Ef.
  refine (res_fold_left_keyed (clus_emb_session max_num_of_spks dim smd all s) fst (fun kv b => exists labels e, lookup_labels all s (fst kv) = Some labels /\
            emb_avg_entry max_num_of_spks dim labels (snd kv) smd (fst kv) = Ok e /\
            lookup2 b s (fst kv) = Some (Entry e)) items d d' _ _ _ Ef (uid, emb) Hin);
    [| |now apply NoDup_ListNoDup].
  - intros [u em] b b' _ Eb. exact (proj1 (clus_emb_session_spec _ _ _ _ _ _ _ _ _ Eb)).
  - intros [u em] [u' em'] b b' _ _ Eb Hne (l & e & H1 & H2 & H3). exists l, e. cbn in *.
    rewrite (proj2 (clus_emb_session_spec _ _ _ _ _ _ _ _ _ Eb)); [done|]. right. congruence.
Qed.
End EnvLemmas.

(** ** Lemmas: what a returning check or [get_clus_emb] says of the keys *)

Section KeyLemmas.
Context `{ClusterEnv}.

Lemma check_entry_keys (s : Z) (d d1 : emb_dict) (uid : string) (json : gmap string string) :
  check_entry s d (uid, json) = Ok d1 ->
  keys_of d1 = keys_of d /\ exists sd, d !! s = Some sd /\ uid ∈ dom sd.
Proof.
  unfold check_entry, py_getitem.
  destruct (json !! "rttm_filepath"); cbn [res_bind]; [|discriminate].
  destruct (parse_rttm _); cbn [res_bind]; [|discriminate].
  destruct (d !! s) as [sd|] eqn:Es; cbn [res_bind]; [|discriminate].
  destruct (sd !! uid) as [slot|] eqn:Eu; cbn [res_bind]; [|discriminate].
  destruct (slot_entry slot); cbn [res_bind]; [|discriminate].
  destruct (complete_mapping _ _); cbn [res_bind]; [|discriminate].
  intros [= <-]. assert (Hu : uid ∈ dom sd) by (apply elem_of_dom; eauto).
  split; [|eauto]. unfold keys_of. rewrite fmap_insert, dom_insert_L.
  replace ({[uid]} ∪ dom sd) with (dom sd) by set_solver.
  apply insert_id. by rewrite lookup_fmap, Es.
Qed.

Lemma check_embedding_and_RTTM_keys (d d' : emb_dict) (scales : list Z) (m : string)
    (ids : list string) (js : list (gmap string string)) :
  check_embedding_and_RTTM d scales m = Ok d' -> get_manifest_uniq_ids m = Ok (ids, js) ->
  forall s p, In s scales -> In p (combine ids js) -> exists sd, d !! s = Some sd /\ fst p ∈ dom sd.
Proof.
  unfold check_embedding_and_RTTM. intros Hc Hm. rewrite Hm in Hc. cbn [res_bind] in Hc.
  intros s p Hs Hp.
  assert (Hinner : forall s' b b', res_fold_left (check_entry s') (combine ids js) b = Ok b' -> keys_of b' = keys_of b).
  { intros s' b b' Hf. apply (res_fold_left_invariant (check_entry s') (fun x => keys_of x = keys_of b) (combine ids js) b b');
      [|done|exact Hf]. intros [u j] x x' _ Ex Hx. rewrite <- Hx. exact (proj1 (check_entry_keys _ _ _ _ _ Ex)). }
  destruct (res_fold_left_step_ok (fun d scale_index => res_fold_left (check_entry scale_index) (combine ids js) d) (fun x => keys_of x = keys_of d) scales d d'
              (fun s' b b' _ Eb Hb => eq_trans (Hinner s' b b' Eb) Hb) eq_refl Hc s Hs) as (b & b' & Hb & Eb).
  assert (Hstep : forall x c c', In x (combine ids js) -> check_entry s c x = Ok c' ->
            keys_of c = keys_of b -> keys_of c' = keys_of b).
  { intros [u j] c c' _ Ec Hcb. rewrite <- Hcb. exact (proj1 (check_entry_keys _ _ _ _ _ Ec)). }
  destruct (res_fold_left_step_ok (check_entry s) (fun x => keys_of x = keys_of b) (combine ids js) b b' Hstep eq_refl Eb p Hp)
    as (c & c' & Hcb & Ec).
  destruct p as [u j]. destruct (check_entry_keys _ _ _ _ _ Ec) as [_ (sd & Hsd & Hu)].
  rewrite Hb in Hcb. assert (Hk : keys_of c !! s = keys_of d !! s) by now rewrite Hcb.
  unfold keys_of in Hk. rewrite !lookup_fmap, Hsd in Hk.
  destruct (d !! s) as [sd'|]; cbn in Hk; [|discriminate]. injection Hk as Hk.
  exists sd'. split; [done|]. cbn. by rewrite <- Hk.
Qed.
Lemma clus_emb_session_dom max_num_of_spks dim smd (all : label_dict) (s : Z) (d d' : emb_dict) kv :
  clus_emb_session max_num_of_spks dim smd all s d kv = Ok d' -> dom d' = dom d.
Proof.
  destruct kv as [uid emb]. unfold clus_emb_session, py_getitem.
  destruct (all !! s); cbn [res_bind]; [|discriminate].
  destruct (_ !! uid); cbn [res_bind]; [|discriminate].
  destruct (emb_avg_entry _ _ _ _ _ _); cbn [res_bind]; [|discriminate].
  destruct (d !! s) eqn:Ed; cbn [res_bind]; [|discriminate].
  intros [= <-]. rewrite dom_insert_L. apply elem_of_dom_2 in Ed. set_solver.
Qed.

Lemma clus_emb_scale_dom esd max_num_of_spks dim smd (all : label_dict) (d d' : emb_dict) (s : Z) :
  clus_emb_scale esd max_num_of_spks dim smd all d s = Ok d' -> dom d' = dom d.
Proof.
  unfold clus_emb_scale, py_getitem. destruct (esd !! s) as [items|]; cbn [res_bind]; [|discriminate].
  apply (res_fold_left_invariant _ (fun x => dom x = dom d)); [|done].
  intros kv b b' _ Eb Hb. rewrite <- Hb. exact (clus_emb_session_dom _ _ _ _ _ _ _ _ Eb).
Qed.

Lemma get_clus_emb_dom (scales : list Z) esd clus_label smd sessions max_num_of_spks (d : emb_dict) b :
  get_clus_emb scales esd clus_label smd sessions max_num_of_spks = Ok (d, b) ->
  dom d = list_to_set scales.
Proof.
  unfold get_clus_emb, py_getitem.
  destruct (esd !! _) as [base|]; cbn [res_bind]; [|discriminate].
  destruct (res_fold_left add_label_line _ _) as [[bd last]|]; cbn [res_bind]; [|discriminate].
  destruct (assign_labels_to_longer_segs _ bd sessions); cbn [res_bind]; [|discriminate].
  destruct last as [u|]; cbn [res_bind]; [|discriminate].
  destruct (esd !! 0) as [sc0|]; cbn [res_bind]; [|discriminate].
  destruct (assoc_get u sc0); cbn [res_bind]; [|discriminate].
  destruct (py_index _ 0) as [row0|]; cbn [res_bind]; [|discriminate].
  destruct (res_fold_left (clus_emb_scale _ _ _ _ _) _ _) as [d1|] eqn:Ed; cbn [res_bind]; [|discriminate].
  intros [= <- _].
  refine (res_fold_left_invariant _ (fun x => dom x = list_to_set scales) _ _ _ _ _ Ed).
  - intros s b0 b1 _ E1 H1. rewrite <- H1. exact (clus_emb_scale_dom _ _ _ _ _ _ _ _ E1).
  - rewrite dom_list_to_map_L. f_equal. clear. induction scales; cbn; congruence.
Qed.
Lemma get_manifest_uniq_ids_length (m : string) (ids : list string) (js : list (gmap string string)) :
  get_manifest_uniq_ids m = Ok (ids, js) -> length ids = length js.
Proof.
  unfold get_manifest_uniq_ids. destruct (read_lines m); cbn [res_bind]; [|discriminate].
  destruct (readlines _) as [ml f]. destruct (res_map json_loads _); cbn [res_bind]; [|discriminate].
  destruct (res_map _ _) as [es|]; cbn [res_bind]; [|discriminate].
  intros [= <- <-]. now rewrite !length_map.
Qed.
End KeyLemmas.

Lemma ex_env_laws : ClusterEnvLaws ex_env.
Proof.
  split; cbn [set_order int_set_order ex_env].
  - intros X. apply NoDup_elements.
  - intros X x. apply elem_of_elements.
  - intros xs. apply NoDup_ListNoDup, NoDup_nodup.
  - intros xs x. apply nodup_In.
Qed.

Section Theorems.
Context `{EL : ClusterEnvLaws}.

(** C37 (functional).  The completion of a speaker mapping in
    [check_embedding_and_RTTM] passes its assertion exactly when the
    mapping names no speaker outside the RTTM file and there are at least
    as many unused [speaker_<i>] names ([i] below the number of RTTM
    speakers) as RTTM speakers it lacks, whatever order the sets are
    iterated in.  When it passes, the mapping's keys are the RTTM
    speakers, its old entries are kept, and an injective mapping stays
    injective. *)
Theorem complete_mapping_correct (R : gset string) (mp : gmap string string) :
  (is_ok (complete_mapping R mp) = true <->
     dom mp ⊆ R /\ (size (R ∖ dom mp) <= size (speaker_names (size R) ∖ (map_img mp : gset string)))%nat) /\
  forall mp', complete_mapping R mp = Ok mp' ->
    dom mp' = R /\ mp ⊆ mp' /\ (map_inj mp -> map_inj mp').
Proof.
  unfold complete_mapping.
  pose proof (dom_completed R mp) as Hdom. cbv zeta in Hdom.
  set (kvs := combine (set_order (R ∖ dom mp)) (set_order (speaker_names (size R) ∖ map_img mp))) in *.
  set (n2 := size (speaker_names (size R) ∖ (map_img mp : gset string))) in *.
  pose proof (length_set_order (R ∖ dom mp)) as Hlen.
  destruct (decide (R = dom mp)) as [HR|HR].
  - split; [|intros mp' [= <-]; split; [done|split; [done|tauto]]].
    split; [intros _; split; [set_solver|]|done].
    rewrite HR, difference_diag_L, size_empty. lia.
  - destruct (decide (R = dom (insert_all kvs mp))) as [HR'|HR'].
    + split.
      * split; [intros _|done]. rewrite Hdom in HR'. split; [set_solver|].
        assert (Hsub : R ∖ dom mp ⊆ list_to_set (take n2 (set_order (R ∖ dom mp)))) by set_solver.
        apply subseteq_size in Hsub.
        rewrite size_list_to_set in Hsub by (apply NoDup_take_l, set_order_nodup).
        rewrite length_take in Hsub. lia.
      * intros mp' [= <-]. split; [done|]. split.
        -- apply map_subseteq_spec. intros k v Hk.
           rewrite lookup_insert_all_old; [done|]. intros Hin.
           apply completed_keys in Hin. apply elem_of_dom_2 in Hk. set_solver.
        -- apply insert_all_inj.
           ++ unfold kvs. rewrite combine_fst. apply NoDup_take_l, set_order_nodup.
           ++ unfold kvs. rewrite combine_snd. apply NoDup_take_l, set_order_nodup.
           ++ intros k Hk. apply completed_keys in Hk. set_solver.
           ++ intros v Hv. apply completed_values in Hv. set_solver.
    + split; [|discriminate]. split; [discriminate|]. intros [Hsub Hle]. exfalso. apply HR'.
      rewrite Hdom, take_ge by lia. rewrite list_to_set_set_order.
      apply set_eq. intros x. split; [|set_solver].
      intros Hx. destruct (decide (x ∈ dom mp)); set_solver.
Qed.


(** C38 (safety).  When [check_embedding_and_RTTM] passes, then at every
    scale and for every manifest line (of distinct unique ids) the RTTM
    file it names parses, and the speaker mapping of that session at that
    scale has exactly the file's speakers as keys: the check's assertion
    holds of the dict it returns, not only at the moment it is made. *)
Theorem check_embedding_and_RTTM_sound (d d' : emb_dict) (scales : list Z) (path : string)
    (ids : list string) (jsons : list (gmap string string)) :
  get_manifest_uniq_ids path = Ok (ids, jsons) -> NoDup scales -> NoDup ids ->
  check_embedding_and_RTTM d scales path = Ok d' ->
  forall s uid json, In s scales -> In (uid, json) (combine ids jsons) -> checked d' s uid json.
Proof.
  intros Hm Hs Hids. unfold check_embedding_and_RTTM. rewrite Hm. cbn [res_bind].
  set (pairs := combine ids jsons).
  assert (Hnd : NoDup (map fst pairs)) by (unfold pairs; rewrite combine_fst; now apply NoDup_take_l).
  intros Hf s uid json Hin Hp.
  refine (res_fold_left_keyed _ id (fun s d => forall uid json, In (uid, json) pairs -> checked d s uid json)
           scales d d' _ _ _ Hf s Hin uid json Hp); [| |by rewrite map_id; apply NoDup_ListNoDup].
  - intros x b b' _ Eb. exact (proj1 (check_scale_spec x pairs b b' Hnd Eb)).
  - intros x y b b' _ _ Eb Hne Hy u j Hu. destruct (Hy u j Hu) as (r & R & e & H1 & H2 & H3 & H4).
    exists r, R, e. split; [done|]. split; [done|]. split; [|done].
    rewrite (proj2 (check_scale_spec x pairs b b' Hnd Eb)); [done|]. cbn in Hne. congruence.
Qed.


(** C39 (functional).  [assign_labels_to_longer_segs] gives every session
    whose base labels exist and whose segment mappings have their length
    its base labels at the base scale, and at every longer scale one
    label per segment, in the order [list(set(...))] lists the segments,
    which is a most frequent base label among the segment's base
    segments ([statistics.mode]). *)
Theorem assign_labels_modes (scale_n : nat) (bd : gmap string (list (Q * Q * Z)))
    (sessions : list (string * gmap Z (list Z))) :
  (1 <= scale_n)%nat -> List.NoDup (map fst sessions) ->
  (forall uid smap, In (uid, smap) sessions -> exists rows, bd !! uid = Some rows /\
     forall s, (s < scale_n - 1)%nat -> exists mp, smap !! Z.of_nat s = Some mp /\ length mp = length rows) ->
  exists nd, assign_labels_to_longer_segs scale_n bd sessions = Ok nd /\
    forall uid smap rows, In (uid, smap) sessions -> bd !! uid = Some rows ->
      let b := map row_label rows in
      lookup_labels nd (Z.of_nat scale_n - 1) uid = Some b /\
      forall s mp, (s < scale_n - 1)%nat -> smap !! Z.of_nat s = Some mp ->
        exists labels, lookup_labels nd (Z.of_nat s) uid = Some labels /\
          Forall2 (fun seg lab => is_mode (segment_labels b mp seg) lab) (int_set_order mp) labels.
Proof.
  intros Hn Hnd Hall.
  destruct (assign_sessions_spec scale_n bd sessions (new_labels_init scale_n) None Hn
              (new_labels_init_scales scale_n) Hnd Hall) as (d' & p' & Ef & Hl).
  exists d'. unfold assign_labels_to_longer_segs. rewrite Ef. split; [done|].
  intros uid smap rows Hin Hr. set (b := map row_label rows). destruct (Hl uid smap rows Hin Hr) as [Hb Hs].
  split; [exact Hb|]. intros s mp Hlt Em. destruct (Hs s mp Hlt Em) as (labels & Hlab & El).
  exists labels. split; [exact Hlab|].
  destruct (Hall uid smap Hin) as (rows' & Hr' & Hlen). rewrite Hr in Hr'. injection Hr' as <-.
  destruct (Hlen s Hlt) as (mp' & Em' & Hl'). rewrite Em in Em'. injection Em' as <-.
  destruct (seg_labels_spec b mp ltac:(unfold b; rewrite length_map; lia)) as (labels' & El' & Hf).
  fold b in El. rewrite El in El'. injection El' as <-. exact Hf.
Qed.


(** C40 (error).  A session missing from [base_clus_label_dict] makes the
    bare [except] open the debugger; when the run continues, the session
    gets the base labels of the session before it, and the first session
    raises [UnboundLocalError] instead. *)
Theorem assign_labels_stale (scale_n : nat) (bd : gmap string (list (Q * Q * Z)))
    (u1 u2 : string) (m1 m2 : gmap Z (list Z)) (rows1 : list (Q * Q * Z)) :
  (1 <= scale_n)%nat -> bd !! u1 = Some rows1 -> bd !! u2 = None ->
  (forall s, (s < scale_n - 1)%nat -> exists mp, m1 !! Z.of_nat s = Some mp /\ length mp = length rows1) ->
  (forall s, (s < scale_n - 1)%nat -> exists mp, m2 !! Z.of_nat s = Some mp /\ length mp = length rows1) ->
  (exists nd, assign_labels_to_longer_segs scale_n bd [(u1, m1); (u2, m2)] = Ok nd /\
     lookup_labels nd (Z.of_nat scale_n - 1) u2 = Some (map row_label rows1)) /\
  assign_labels_to_longer_segs scale_n bd [(u2, m2)] = Err NameError.
Proof.
  intros Hn H1 H2 Hs1 Hs2. split.
  - destruct (assign_step_spec scale_n bd (new_labels_init scale_n) None u1 m1 (map row_label rows1) Hn
                (new_labels_init_scales scale_n) ltac:(now rewrite H1)) as (d1 & E1 & Hd1 & _);
      [intros s Hs; rewrite length_map; exact (Hs1 s Hs)|].
    destruct (assign_step_spec scale_n bd d1 (Some (map row_label rows1)) u2 m2 (map row_label rows1) Hn
                Hd1 ltac:(now rewrite H2)) as (d2 & E2 & _ & [Hb _]);
      [intros s Hs; rewrite length_map; exact (Hs2 s Hs)|].
    exists d2. unfold assign_labels_to_longer_segs. cbn [res_fold_left].
    rewrite E1. cbn [res_bind res_fold_left]. rewrite E2. cbn [res_bind res_fold_left fst].
    split; [reflexivity|exact Hb].
  - unfold assign_labels_to_longer_segs, assign_step. cbn [res_fold_left]. rewrite H2. reflexivity.
Qed.

(** C9 (functional).  For a session whose labels are all in
    [0, max_num_of_spks) and whose embeddings match the labels in number
    and have [dim] entries each, the inner loop body of [get_clus_emb]
    stores the inverted speaker mapping and a [dim x max_num_of_spks]
    tensor whose column [j] is the mean of the embeddings labelled [j]
    when [j] is a label, and zero otherwise, whatever order the set of
    labels is iterated in. *)
Theorem emb_avg_entry_spec (max_num_of_spks : Z) (dim : nat) (labels : list Z) (emb : list (list Q))
    (smd : gmap string (list (string * string))) (uid : string) (m : list (string * string)) :
  0 <= max_num_of_spks -> length emb = length labels ->
  Forall (fun x => 0 <= x < max_num_of_spks) labels -> Forall (fun r => length r = dim) emb ->
  smd !! uid = Some m ->
  exists e, emb_avg_entry max_num_of_spks dim labels emb smd uid = Ok e /\
    mapping e = invert_map m /\ length (avg_embs e) = Z.to_nat max_num_of_spks /\
    forall j, 0 <= j < max_num_of_spks -> avg_embs e !! Z.to_nat j =
      Some (if decide (j ∈ labels) then col_mean (masked_rows emb labels j) else replicate dim 0%Q).
Proof.
  intros Hmax Hlen Hr Hw Hm. unfold emb_avg_entry.
  set (L := int_set_order labels).
  assert (HL : forall x, In x L <-> In x labels) by apply int_set_order_elem.
  assert (Hnd : NoDup L) by apply int_set_order_nodup.
  rewrite Forall_forall in Hr.
  assert (HrL : forall x, In x L -> 0 <= x < max_num_of_spks) by (intros x Hx; apply Hr, list_elem_of_In, HL, Hx).
  rewrite (proj2 (Z.leb_le _ _));
    [|apply nodup_range_length; [done|done|rewrite Forall_forall; intros x Hx; apply HrL, list_elem_of_In, Hx]].
  destruct (res_fold_left_ok (avg_emb_step dim emb labels)
              (fun a => length a = Z.to_nat max_num_of_spks /\ forall y, ~ In y labels ->
                 0 <= y < max_num_of_spks -> a !! Z.to_nat y = Some (replicate dim 0%Q))
              L (replicate (Z.to_nat max_num_of_spks) (replicate dim 0%Q))) as (a & Ea & Ia & Za).
  - intros x b Hx [Ib Zb]. pose proof (HrL x Hx).
    rewrite avg_emb_step_spec by (done || apply HL, Hx || lia).
    destruct (Z.leb_spec (Z.of_nat (length b)) x); [lia|].
    eexists; split; [reflexivity|]. split; [by rewrite length_insert|].
    intros y Hy Hy'. rewrite list_lookup_insert_ne; [auto|].
    intros Exy. apply Hy. replace y with x by lia. now apply HL.
  - split; [by rewrite length_replicate|]. intros y _ Hy. apply lookup_replicate_2. lia.
  - rewrite Ea. cbn [res_bind]. rewrite Hm. cbn [py_getitem res_bind].
    eexists; split; [reflexivity|]. cbn [mapping avg_embs]. split; [done|]. split; [done|].
    intros j Hj. case_decide as Hin; [|apply Za; [now rewrite <- list_elem_of_In|done]].
    refine (res_fold_left_keyed (avg_emb_step dim emb labels) id
              (fun x a => a !! Z.to_nat x = Some (col_mean (masked_rows emb labels x))) L _ a
              _ _ _ Ea j _).
    + intros x b b' Hx Eb. pose proof (HrL x Hx).
      rewrite avg_emb_step_spec in Eb by (done || apply HL, Hx || lia).
      destruct (Z.leb_spec (Z.of_nat (length b)) x); [discriminate|]. injection Eb as <-.
      apply list_lookup_insert_eq. lia.
    + intros x y b b' Hx Hy Eb Hne Hb. pose proof (HrL x Hx). pose proof (HrL y Hy).
      rewrite avg_emb_step_spec in Eb by (done || apply HL, Hx || lia).
      destruct (Z.leb_spec (Z.of_nat (length b)) x); [discriminate|]. injection Eb as <-.
      rewrite list_lookup_insert_ne; [done|]. cbn in Hne. lia.
    + rewrite map_id. now apply NoDup_ListNoDup.
    + apply HL. now apply list_elem_of_In.
Qed.

(** C10 (error, finding).  The assertion of [get_clus_emb] bounds the
    number of distinct labels by [max_num_of_spks], not the labels: when
    it passes and some label is [max_num_of_spks] or more, the column
    assignment [avg_embs[:, spk_idx]] raises [IndexError], for every set
    order. *)
Theorem emb_avg_entry_index_error (max_num_of_spks : Z) (dim : nat) (labels : list Z)
    (emb : list (list Q)) (smd : gmap string (list (string * string))) (uid : string) (j : Z) :
  length emb = length labels -> Forall (fun r => length r = dim) emb ->
  Z.of_nat (length (int_set_order labels)) <= max_num_of_spks -> In j labels -> max_num_of_spks <= j ->
  emb_avg_entry max_num_of_spks dim labels emb smd uid = Err IndexError.
Proof.
  intros Hlen Hw HN Hj Hbig. unfold emb_avg_entry. rewrite (proj2 (Z.leb_le _ _)) by exact HN.
  rewrite (res_fold_left_err _ (fun a => length a = Z.to_nat max_num_of_spks) _ _ j IndexError);
    [reflexivity|..].
  - intros x b Hx Hb. apply (proj1 (int_set_order_elem labels x)) in Hx.
    destruct (avg_emb_step_cases dim emb labels Hlen Hw b x Hx) as [E1|(b' & E1 & Hb')]; [now right|].
    left. exists b'. split; [exact E1|lia].
  - intros b Hb. rewrite avg_emb_step_spec by (done || lia).
    destruct (Z.leb_spec (Z.of_nat (length b)) j); [done|lia].
  - now apply (proj2 (int_set_order_elem labels j)).
  - apply length_replicate.
Qed.
(** C20 (functional).  When [get_clus_emb] returns (scales distinct and
    each scale's sessions distinct), the label file had at least one line
    and every line parsed to a session of the base scale; the returned
    [base_clus_label_dict] holds, for each base session, the rows of its
    lines in file order; and the returned embedding dict holds, at every
    scale and for every session of that scale, the entry of C9 computed
    from the labels [assign_labels_to_longer_segs] gave it and one
    embedding width [dim] for all sessions. *)
Theorem get_clus_emb_spec (scales : list Z) (esd : gmap Z (list (string * list (list Q))))
    (clus_label : list string) (smd : gmap string (list (string * string)))
    (sessions : list (string * gmap Z (list Z))) (max_num_of_spks : Z) (d : emb_dict)
    (b : gmap string (list (Q * Q * Z))) :
  NoDup scales -> (forall s items, esd !! s = Some items -> NoDup (map fst items)) ->
  get_clus_emb scales esd clus_label smd sessions max_num_of_spks = Ok (d, b) ->
  exists base parsed all dim,
    esd !! (Z.of_nat (length scales) - 1) = Some base /\
    res_map parse_label_line clus_label = Ok parsed /\ parsed <> [] /\
    (forall p, In p parsed -> fst p ∈ map fst base) /\
    (forall uid, b !! uid = if decide (uid ∈ map fst base) then Some (rows_of parsed uid) else None) /\
    assign_labels_to_longer_segs (length scales) b sessions = Ok all /\
    forall s items uid emb, In s scales -> esd !! s = Some items -> In (uid, emb) items ->
      exists labels e, lookup_labels all s uid = Some labels /\
        emb_avg_entry max_num_of_spks dim labels emb smd uid = Ok e /\ lookup2 d s uid = Some (Entry e).
Proof.
  intros Hnd Hitems. unfold get_clus_emb, py_getitem.
  destruct (esd !! _) as [base|] eqn:Eb; cbn [res_bind]; [|discriminate].
  destruct (res_fold_left add_label_line _ _) as [[bd last]|] eqn:Ef; cbn [res_bind]; [|discriminate].
  destruct (assign_labels_to_longer_segs _ bd sessions) as [all|] eqn:Ea; cbn [res_bind]; [|discriminate].
  destruct last as [u|]; cbn [res_bind]; [|discriminate].
  destruct (esd !! 0) as [sc0|]; cbn [res_bind]; [|discriminate].
  destruct (assoc_get u sc0) as [emb0|]; cbn [res_bind]; [|discriminate].
  destruct (py_index emb0 0) as [row0|]; cbn [res_bind]; [|discriminate].
  destruct (res_fold_left (clus_emb_scale _ _ _ _ _) _ _) as [d1|] eqn:Ed; cbn [res_bind]; [|discriminate].
  intros [= <- <-]. destruct (add_label_lines_spec _ _ _ _ _ Ef) as (parsed & Hm & Hdom & Hrows & Ho).
  exists base, parsed, all, (length row0). do 2 (split; [done|]).
  split; [intros ->; discriminate|]. split; [|split; [|split; [done|]]].
  - intros p Hp. specialize (Hdom p Hp). rewrite elem_of_dom, lookup_const_dict in Hdom.
    case_decide; [done|]. by destruct Hdom.
  - intros uid. rewrite Hrows, lookup_const_dict. by case_decide.
  - intros s items uid emb Hs Hi Hin.
    refine (res_fold_left_keyed (clus_emb_scale esd max_num_of_spks (length row0) smd all) id
              (fun s d => forall items uid emb, esd !! s = Some items -> In (uid, emb) items ->
                 exists labels e, lookup_labels all s uid = Some labels /\
                   emb_avg_entry max_num_of_spks (length row0) labels emb smd uid = Ok e /\
                   lookup2 d s uid = Some (Entry e)) scales _ d1 _ _ _ Ed s Hs items uid emb Hi Hin);
      [| |by rewrite map_id; apply NoDup_ListNoDup].
    + intros x b0 b' _ Eb0 its v em Hits. exact (clus_emb_scale_spec _ _ _ _ _ _ _ _ _ Hits (Hitems _ _ Hits) Eb0 v em).
    + intros x y b0 b' _ _ Eb0 Hne Hy its v em Hits Hv. destruct (Hy its v em Hits Hv) as (l & e & H1 & H2 & H3).
      exists l, e. rewrite (clus_emb_scale_other _ _ _ _ _ _ _ _ _ _ Eb0); [done|]. cbn in Hne. congruence.
Qed.
End Theorems.

Lemma complete_mapping_correct_witness :
  let R : gset string := {[ "spk1"; "spk2" ]} in
  let mp : gmap string string := {[ "spk1" := "speaker_0" ]} in
  (is_ok (@complete_mapping ex_env R mp) = true <->
     dom mp ⊆ R /\ (size (R ∖ dom mp) <= size (speaker_names (size R) ∖ (map_img mp : gset string)))%nat) /\
  forall mp', @complete_mapping ex_env R mp = Ok mp' ->
    dom mp' = R /\ mp ⊆ mp' /\ (map_inj mp -> map_inj mp').
Proof. exact (@complete_mapping_correct ex_env ex_env_laws _ _). Defined.

Lemma check_embedding_and_RTTM_sound_witness : @checked ex_env ex_emb 0 "a" ex_json.
Proof.
  apply (@check_embedding_and_RTTM_sound ex_env ex_emb ex_emb [0] "m.json" ["a"] [ex_json]).
  - vm_compute. reflexivity.
  - apply NoDup_singleton.
  - apply NoDup_singleton.
  - vm_compute. reflexivity.
  - left. reflexivity.
  - left. reflexivity.
Defined.

Lemma assign_labels_modes_witness :
  let bd : gmap string (list (Q * Q * Z)) := {[ "a" := [(0%Q, 1%Q, 5); (1%Q, 2%Q, 5); (2%Q, 3%Q, 7)] ]} in
  let sessions := [("a", ({[ 0 := [0; 0; 1] ]} : gmap Z (list Z)))] in
  exists nd, @assign_labels_to_longer_segs ex_env 2 bd sessions = Ok nd /\
    forall uid smap rows, In (uid, smap) sessions -> bd !! uid = Some rows ->
      let b := map row_label rows in
      lookup_labels nd (Z.of_nat 2 - 1) uid = Some b /\
      forall s mp, (s < 2 - 1)%nat -> smap !! Z.of_nat s = Some mp ->
        exists labels, lookup_labels nd (Z.of_nat s) uid = Some labels /\
          Forall2 (fun seg lab => is_mode (segment_labels b mp seg) lab) (@int_set_order ex_env mp) labels.
Proof.
  intros bd sessions. apply (@assign_labels_modes ex_env ex_env_laws).
  - lia.
  - repeat constructor. intros [].
  - intros uid smap [Heq|[]]. injection Heq as <- <-. eexists. split; [reflexivity|].
    intros s Hs. assert (s = 0%nat) as -> by lia. eexists. split; reflexivity.
Defined.

Lemma assign_labels_stale_witness :
  let bd : gmap string (list (Q * Q * Z)) := {[ "a" := [(0%Q, 1%Q, 3)] ]} in
  (exists nd, @assign_labels_to_longer_segs ex_env 1 bd [("a", ∅); ("b", ∅)] = Ok nd /\
     lookup_labels nd (Z.of_nat 1 - 1) "b" = Some (map row_label [(0%Q, 1%Q, 3)])) /\
  @assign_labels_to_longer_segs ex_env 1 bd [("b", ∅)] = Err NameError.
Proof.
  intros bd. apply (@assign_labels_stale ex_env ex_env_laws); [lia|reflexivity|reflexivity|intros; lia..].
Defined.


Lemma emb_avg_entry_spec_witness :
  exists e, @emb_avg_entry ex_env 2 1 [1; 1] [[2%Q]; [4%Q]] ex_smd "a" = Ok e /\
    mapping e = invert_map [("spk1", "0")] /\ length (avg_embs e) = Z.to_nat 2 /\
    forall j, 0 <= j < 2 -> avg_embs e !! Z.to_nat j =
      Some (if decide (j ∈ [1; 1]) then col_mean (masked_rows [[2%Q]; [4%Q]] [1; 1] j) else replicate 1 0%Q).
Proof.
  apply (@emb_avg_entry_spec ex_env ex_env_laws 2 1 [1; 1] [[2%Q]; [4%Q]] ex_smd "a" [("spk1", "0")]);
    [lia|reflexivity|repeat constructor; lia|repeat constructor|reflexivity].
Defined.

Lemma emb_avg_entry_index_error_witness :
  @emb_avg_entry ex_env 4 1 [0; 5] [[1%Q]; [2%Q]] {[ "a" := [("spk1", "0")] ]} "a" = Err IndexError.
Proof.
  apply (@emb_avg_entry_index_error ex_env ex_env_laws 4 1 [0; 5] [[1%Q]; [2%Q]] _ "a" 5);
    [reflexivity|repeat constructor|vm_compute; discriminate|right; left; reflexivity|lia].
Defined.

Lemma get_clus_emb_spec_witness :
  let r := @get_clus_emb ex_env [0] ex_esd ex_lines ex_smd [("a", ∅)] 2 in
  exists d b, r = Ok (d, b) /\
  exists base parsed all dim,
    ex_esd !! (Z.of_nat (length [0]) - 1) = Some base /\
    res_map (@parse_label_line ex_env) ex_lines = Ok parsed /\ parsed <> [] /\
    (forall p, In p parsed -> fst p ∈ map fst base) /\
    (forall uid, b !! uid = if decide (uid ∈ map fst base) then Some (rows_of parsed uid) else None) /\
    @assign_labels_to_longer_segs ex_env (length [0]) b [("a", ∅)] = Ok all /\
    forall s items uid emb, In s [0] -> ex_esd !! s = Some items -> In (uid, emb) items ->
      exists labels e, lookup_labels all s uid = Some labels /\
        @emb_avg_entry ex_env 2 dim labels emb ex_smd uid = Ok e /\ lookup2 d s uid = Some (Entry e).
Proof.
  intros r. match eval vm_compute in r with Ok (?d, ?b) => exists d, b end.
  assert (E : r = Ok _) by (vm_compute; reflexivity). split; [exact E|].
  apply (@get_clus_emb_spec ex_env ex_env_laws _ _ _ _ _ _ _ _ (NoDup_singleton 0)); [|exact E].
  intros s items Hs. unfold ex_esd in Hs. apply lookup_singleton_Some in Hs as [_ <-]. apply NoDup_singleton.
Defined.

End ClusterEmb.
