(* ===== verification/ClusterRun.v ===== *)
(** * ClusterRun: [run_clustering_diarizer] and the pickles around it

    Models [ClusterEmbedding.__init__] (lines 169-175),
    [prepare_cluster_embs] (177-189), [run_clustering_diarizer]
    (337-382), the pickle loaders and saver (384-402), [get_scale_map]
    (404-409), [load_embeddings_from_pickle] (411-432) and the module
    function [getMultiScaleCosAffinityMatrix] (81-115) of
    [src/nemo/collections/asr/models/tsvad_models.py], on top of the
    clustering bookkeeping of [ClusterEmb].

    The files the clustering diarizer leaves in [out_dir] are a small file
    system [fs]: a set of directories, the pickled objects and the text
    files, each keyed by its path string ([open] of a missing file raises
    [OSError], [open(p, 'wb')] needs the directory of [p]).  Two strings
    are two paths: the model does not identify a path with a doubled
    slash, which only arises for an [out_dir] ending in a slash.  A
    pickled object is one of the four kinds the class stores; loading
    one of another kind than the caller expects is [TypeError] at the
    load.  The manifest and RTTM files are read through [ClusterEmb]'s
    environment, as there.  [ClusteringDiarizer(cfg).diarize()] and
    [nmesc_clustering.get_argmin_mat] are library code: the environment
    class [DiarizerEnv] gives them, the diarizer as a function of the
    object's configuration and of the file system, which it may change
    before it returns or raises.

    [run_clustering_diarizer] and [prepare_cluster_embs] run in the state
    and exception monad [st] of the prelude on the object and the file
    system, so that what they change before an exception (the
    configuration, the diarizer's files, the pickles already written,
    the results already stored) stays changed.

    The theorems: a run that returned makes a second run with the same
    arguments take the cached branch and give the same result, leaving
    the object and the files unchanged (C11); what [save_dict_as_pkl]
    writes, [load_dict_from_pkl] and [load_mapping_from_pkl] read back
    (C13); the lemmas under C11 are
    the two branches of [run_clustering_diarizer] ([run_cached],
    [run_fresh]), what [save_dict_as_pkl] writes and that it leaves the
    embedding pickles and label files alone ([load_embeddings_frame],
    [emb_pickle_path_ne]).

    The key ['session_scale_mapping'] that [run_clustering_diarizer] adds
    to the integer-keyed [emb_scale_seq_dict] is the field
    [r_session_scale_mapping] of the result. *)

From Stdlib Require Import QArith Ascii String.
From S2P Require Import Prelude PyStr DiarMetric ClusterEmb.
From stdpp Require Import base gmap sets strings pretty sorting.

Module ClusterRun.
Import PyStr ClusterEmb.
Local Open Scope Z_scope.
#[local] Set Warnings "-clear-no-such-hyp".

(** ** Data *)

(** [self]: the two configuration fields the methods read
    ([max_num_speakers] and the number of window lengths), the two that
    [run_clustering_diarizer] writes, and the three pairs of results of
    [prepare_cluster_embs]. *)
Record run_result := mkRun {
  r_emb_sess_avg_dict : emb_dict;
  r_emb_scale_seq_dict : gmap Z (list (string * list (list Q)));
  r_session_scale_mapping : list (string * gmap Z (list Z));
  r_base_clus_label_dict : gmap string (list (Q * Q * Z))
}.

Record clus_emb := mkCE {
  max_num_of_spks : Z;
  window_len_n : nat;
  cfg_manifest_filepath : option string;
  cfg_out_dir : option string;
  train_result : option run_result;
  dev_result : option run_result;
  test_result : option run_result
}.

(** One scale of [uniq_embs_and_timestamps['scale_dict']]; a missing key
    is [None]. *)
Record scale_entry := mkScale {
  se_embeddings : option (list (list Q));
  se_time_stamps : option (list (Q * Q))
}.

Record uniq_embs := mkUniqEmbs {
  u_scale_dict : option (gmap Z scale_entry);
  u_multiscale_weights : option (list Q)
}.

Inductive pobj :=
  | PEmbSess (d : emb_dict)
  | PScaleMap (m : list (string * gmap Z (list Z)))
  | PSpkMap (m : gmap string (list (string * string)))
  | PEmbs (e : list (string * list (list Q))).

Record fs := mkFS {
  fs_dirs : gset string;
  fs_pickles : gmap string pobj;
  fs_texts : gmap string (list string)
}.

(** ** The environment *)

Class DiarizerEnv := {
  (* ClusteringDiarizer(cfg=self._cfg).diarize(): the new files, the
     speaker mapping of the score and sd_model.embs_and_timestamps *)
  diarize : clus_emb -> fs -> fs * res (gmap string (list (string * string)) * list (string * uniq_embs));
  (* nmesc_clustering.get_argmin_mat *)
  get_argmin_mat : gmap Z scale_entry -> res (gmap Z (list Z))
}.

(** ** Paths and files *)

Definition clus_emb_path : string := "speaker_outputs/embeddings/clus_emb_info.pkl".
Definition clus_map_path : string := "speaker_outputs/embeddings/clus_mapping.pkl".
Definition scale_map_path : string := "speaker_outputs/embeddings/scale_mapping.pkl".

(** [f'{out_dir}/{p}']. *)
Definition fjoin (out_dir p : string) : string := out_dir ++ "/" ++ p.

Fixpoint ends_with_slash (a : string) : bool :=
  match a with
  | EmptyString => false
  | String c EmptyString => Ascii.eqb c "/"%char
  | String _ s => ends_with_slash s
  end.

(** [os.path.join(a, b)]: an absolute [b] replaces [a]; otherwise a
    slash is put between them unless [a] is empty or ends in one. *)
Definition os_path_join (a b : string) : string :=
  match b with
  | String c _ => if Ascii.eqb c "/"%char then b
                  else if String.eqb a "" then b else if ends_with_slash a then a ++ b else a ++ "/" ++ b
  | EmptyString => if String.eqb a "" then b else if ends_with_slash a then a ++ b else a ++ "/" ++ b
  end.

Definition os_path_join_all (a : string) (bs : list string) : string := fold_left os_path_join bs a.

Fixpoint drop_to_slash (l : list Ascii.ascii) : list Ascii.ascii :=
  match l with
  | [] => []
  | c :: l' => if Ascii.eqb c "/"%char then l' else drop_to_slash l'
  end.

(** The directory a file path is in: everything before its last slash. *)
Definition dirname (p : string) : string :=
  string_of_list_ascii (rev (drop_to_slash (rev (list_ascii_of_string p)))).

(** [os.path.exists(p)]. *)
Definition path_exists (w : fs) (p : string) : bool :=
  bool_decide (p ∈ fs_dirs w) || bool_decide (p ∈ dom (fs_pickles w)) || bool_decide (p ∈ dom (fs_texts w)).

(** [with open(p, 'rb') as handle: pkl.load(handle)]. *)
Definition load_pickle (w : fs) (p : string) : res pobj :=
  match fs_pickles w !! p with Some o => Ok o | None => Err OSError end.

(** [with open(p, 'wb') as handle: pkl.dump(o, handle, ...)]. *)
Definition dump_pickle (w : fs) (p : string) (o : pobj) : res fs :=
  if bool_decide (dirname p ∈ fs_dirs w)
  then Ok (mkFS (fs_dirs w) (<[p := o]> (fs_pickles w)) (fs_texts w))
  else Err OSError.

(** [with open(p) as f: f.readlines()]. *)
Definition read_text (w : fs) (p : string) : res (list string) :=
  match fs_texts w !! p with Some ls => Ok ls | None => Err OSError end.

Definition as_emb_sess (o : pobj) : res emb_dict :=
  match o with PEmbSess d => Ok d | _ => Err TypeError end.
Definition as_scale_map (o : pobj) : res (list (string * gmap Z (list Z))) :=
  match o with PScaleMap m => Ok m | _ => Err TypeError end.
Definition as_spk_map (o : pobj) : res (gmap string (list (string * string))) :=
  match o with PSpkMap m => Ok m | _ => Err TypeError end.
Definition as_embs (o : pobj) : res (list (string * list (list Q))) :=
  match o with PEmbs e => Ok e | _ => Err TypeError end.

(** ** Small Python operations *)

(** [max(keys)] of a non-empty collection of ints. *)
Definition py_max_Z (l : list Z) : res Z :=
  match l with [] => Err ValueError | x :: l' => Ok (fold_left Z.max l' x) end.

(** [set(xs).issubset(set(ys))]. *)
Definition is_subset (xs ys : list string) : bool := forallb (fun x => bool_decide (x ∈ ys)) xs.

(** [d[k] = v] on a dict kept in insertion order. *)
Fixpoint assoc_set {V} (k : string) (v : V) (l : list (string * V)) : list (string * V) :=
  match l with
  | [] => [(k, v)]
  | (k', v') :: l' => if String.eqb k k' then (k, v) :: l' else (k', v') :: assoc_set k v l'
  end.

(** [torch.tensor(val)] of a list of rows: rows of different lengths
    raise [ValueError]. *)
Definition torch_tensor (val : list (list Q)) : res (list (list Q)) :=
  if forallb (fun r => Nat.eqb (length r) (length (hd [] val))) val then Ok val else Err ValueError.

(** ** The operations *)

Section Ops.
Context `{CE : ClusterEnv} `{DE : DiarizerEnv}.

(** [ClusterEmbedding.__init__]: the path attributes are the constants
    above. *)
Definition __init__ (max_num_speakers : Z) (window_length_in_sec : list Q) : clus_emb :=
  mkCE max_num_speakers (length window_length_in_sec) None None None None None.

(** [getMultiScaleCosAffinityMatrix]. *)
Definition getMultiScaleCosAffinityMatrix (uniq_embs_and_timestamps : uniq_embs) : res (gmap Z (list Z)) :=
  let? uniq_scale_dict := py_getitem (u_scale_dict uniq_embs_and_timestamps) in
  let? base_scale_idx := py_max_Z (map fst (map_to_list uniq_scale_dict)) in
  let? base := py_getitem (uniq_scale_dict !! base_scale_idx) in
  let? _base_scale_emb := py_getitem (se_embeddings base) in
  let? _multiscale_weights := py_getitem (u_multiscale_weights uniq_embs_and_timestamps) in
  let? session_scale_mapping_dict := get_argmin_mat uniq_scale_dict in
  res_fold_left (fun scale_mapping_argmat scale_idx =>
      let? mapping_argmat := py_getitem (session_scale_mapping_dict !! scale_idx) in
      Ok (<[scale_idx := mapping_argmat]> scale_mapping_argmat))
    (merge_sort Z.le (map fst (map_to_list uniq_scale_dict))) ∅.

(** [get_scale_map]. *)
Definition get_scale_map (embs_and_timestamps : list (string * uniq_embs))
    : res (list (string * gmap Z (list Z))) :=
  res_fold_left (fun session_scale_mapping_dict kv =>
      let? scale_mapping_dict := getMultiScaleCosAffinityMatrix (snd kv) in
      Ok (assoc_set (fst kv) scale_mapping_dict session_scale_mapping_dict))
    embs_and_timestamps [].

(** [load_dict_from_pkl]. *)
Definition load_dict_from_pkl (w : fs) (out_dir : string)
    : res (emb_dict * list (string * gmap Z (list Z))) :=
  let? o1 := load_pickle w (fjoin out_dir clus_emb_path) in
  let? emb_sess_avg_dict := as_emb_sess o1 in
  let? o2 := load_pickle w (fjoin out_dir scale_map_path) in
  let? session_scale_mapping_dict := as_scale_map o2 in
  Ok (emb_sess_avg_dict, session_scale_mapping_dict).

(** [load_mapping_from_pkl]. *)
Definition load_mapping_from_pkl (w : fs) (out_dir : string) : res (gmap string (list (string * string))) :=
  let? o := load_pickle w (fjoin out_dir clus_map_path) in as_spk_map o.

(** [with open(p, 'wb') ...] on the file system of the state. *)
Definition dump_pickle_st (p : string) (o : pobj) : st (clus_emb * fs) unit :=
  let! s := st_get in
  let! w := st_lift (dump_pickle (snd s) p o) in
  st_put (fst s, w).

(** [save_dict_as_pkl]. *)
Definition save_dict_as_pkl (out_dir : string) (emb_sess_avg_dict : emb_dict)
    (speaker_mapping_dict : gmap string (list (string * string)))
    (session_scale_mapping_dict : list (string * gmap Z (list Z))) : st (clus_emb * fs) unit :=
  let! _ := dump_pickle_st (fjoin out_dir clus_emb_path) (PEmbSess emb_sess_avg_dict) in
  let! _ := dump_pickle_st (fjoin out_dir clus_map_path) (PSpkMap speaker_mapping_dict) in
  dump_pickle_st (fjoin out_dir scale_map_path) (PScaleMap session_scale_mapping_dict).

(** [range(len(window_len_list))] as the scale indices. *)
Definition scale_range (n : nat) : list Z := map Z.of_nat (seq 0 n).

Definition emb_pickle_path (out_dir : string) (scale_index : Z) : string :=
  os_path_join_all out_dir ["speaker_outputs"; "embeddings";
    String.append "subsegments_scale" (String.append (pretty scale_index) "_embeddings.pkl")].

Definition clus_label_path (out_dir : string) (base_scale_index : Z) : string :=
  os_path_join_all out_dir ["speaker_outputs"; String.append "subsegments_scale" (String.append (pretty base_scale_index) "_cluster.label")].

(** One scale of the loop of [load_embeddings_from_pickle]. *)
Definition load_scale (w : fs) (out_dir : string) (emb_scale_seq_dict : gmap Z (list (string * list (list Q))))
    (scale_index : Z) : res (gmap Z (list (string * list (list Q)))) :=
  let? o := load_pickle w (emb_pickle_path out_dir scale_index) in
  let? emb_dict := as_embs o in
  let? emb_dict := res_map (fun kv => let? t := torch_tensor (snd kv) in Ok (fst kv, t)) emb_dict in
  Ok (<[scale_index := emb_dict]> emb_scale_seq_dict).

(** [load_embeddings_from_pickle]; the [None] placeholders of
    [emb_scale_seq_dict] are all overwritten before any read, so the
    dict starts empty. *)
Definition load_embeddings_from_pickle (self : clus_emb) (w : fs) (out_dir : string)
    (speaker_mapping_dict : gmap string (list (string * string)))
    (session_scale_mapping_dict : list (string * gmap Z (list Z)))
    : res (emb_dict * gmap Z (list (string * list (list Q))) * gmap string (list (Q * Q * Z))) :=
  let scales := scale_range (window_len_n self) in
  let? emb_scale_seq_dict := res_fold_left (load_scale w out_dir) scales ∅ in
  let base_scale_index := Z.of_nat (window_len_n self) - 1 in
  let? clus_label := read_text w (clus_label_path out_dir base_scale_index) in
  let? r := get_clus_emb scales emb_scale_seq_dict clus_label speaker_mapping_dict
              session_scale_mapping_dict (max_num_of_spks self) in
  let '(emb_sess_avg_dict, base_clus_label_dict) := r in
  Ok (emb_sess_avg_dict, emb_scale_seq_dict, base_clus_label_dict).

(** The [try] block of [run_clustering_diarizer]: [isEmbReady] and the
    loaded scale mapping. *)
Definition try_emb_ready (w : fs) (manifest_filepath out_dir : string)
    : res (bool * list (string * gmap Z (list Z))) :=
  let? p := load_dict_from_pkl w out_dir in
  let '(emb_sess_avg_dict, session_scale_mapping_dict) := p in
  let? ids := get_manifest_uniq_ids manifest_filepath in
  let uniq_id_list := fst ids in
  let? base_scale_index := py_max_Z (map fst (map_to_list emb_sess_avg_dict)) in
  let? sd := py_getitem (emb_sess_avg_dict !! base_scale_index) in
  let condA := is_subset uniq_id_list (map fst (map_to_list sd)) in
  let condB := is_subset uniq_id_list (map fst session_scale_mapping_dict) in
  Ok (condA && condB, session_scale_mapping_dict).

(** [isEmbReady]: [Some] of the loaded scale mapping when it is true;
    the bare [except] turns every exception of the [try] into [False]. *)
Definition emb_ready (w : fs) (manifest_filepath out_dir : string) : option (list (string * gmap Z (list Z))) :=
  if path_exists w (out_dir ++ "/speaker_outputs/embeddings") then
    match try_emb_ready w manifest_filepath out_dir with
    | Ok (true, session_scale_mapping_dict) => Some session_scale_mapping_dict
    | _ => None
    end
  else None.

(** The end of [run_clustering_diarizer], common to both branches. *)
Definition run_finish (n : nat) (manifest_filepath : string) (emb_sess_avg_dict : emb_dict)
    (emb_scale_seq_dict : gmap Z (list (string * list (list Q))))
    (session_scale_mapping_dict : list (string * gmap Z (list Z)))
    (base_clus_label_dict : gmap string (list (Q * Q * Z))) : res run_result :=
  let? emb_sess_avg_dict := check_embedding_and_RTTM emb_sess_avg_dict (scale_range n) manifest_filepath in
  Ok (mkRun emb_sess_avg_dict emb_scale_seq_dict session_scale_mapping_dict base_clus_label_dict).

(** [self._cfg.diarizer.manifest_filepath = ...; self._cfg.diarizer.out_dir = ...]. *)
Definition set_diarizer_cfg (self : clus_emb) (manifest_filepath out_dir : string) : clus_emb :=
  mkCE (max_num_of_spks self) (window_len_n self) (Some manifest_filepath) (Some out_dir)
    (train_result self) (dev_result self) (test_result self).

(** [ClusteringDiarizer(cfg=self._cfg).diarize()] on the state. *)
Definition diarize_st : st (clus_emb * fs) (gmap string (list (string * string)) * list (string * uniq_embs)) :=
  fun s => let '(w, r) := diarize (fst s) (snd s) in ((fst s, w), r).

(** [run_clustering_diarizer]. *)
Definition run_clustering_diarizer (manifest_filepath out_dir : string) : st (clus_emb * fs) run_result :=
  let! s := st_get in
  let '(self, w) := s in
  match emb_ready w manifest_filepath out_dir with
  | Some session_scale_mapping_dict =>
      let! speaker_mapping_dict := st_lift (load_mapping_from_pkl w out_dir) in
      let! r := st_lift (load_embeddings_from_pickle self w out_dir speaker_mapping_dict session_scale_mapping_dict) in
      let '(emb_sess_avg_dict, emb_scale_seq_dict, base_clus_label_dict) := r in
      st_lift (run_finish (window_len_n self) manifest_filepath emb_sess_avg_dict emb_scale_seq_dict
                 session_scale_mapping_dict base_clus_label_dict)
  | None =>
      let! _ := st_put (set_diarizer_cfg self manifest_filepath out_dir, w) in
      let! score := diarize_st in
      let '(speaker_mapping_dict, embs_and_timestamps) := score in
      let! session_scale_mapping_dict := st_lift (get_scale_map embs_and_timestamps) in
      let! s := st_get in
      let '(self, w) := s in
      let! r := st_lift (load_embeddings_from_pickle self w out_dir speaker_mapping_dict session_scale_mapping_dict) in
      let '(emb_sess_avg_dict, emb_scale_seq_dict, base_clus_label_dict) := r in
      let! _ := save_dict_as_pkl out_dir emb_sess_avg_dict speaker_mapping_dict session_scale_mapping_dict in
      st_lift (run_finish (window_len_n self) manifest_filepath emb_sess_avg_dict emb_scale_seq_dict
                 session_scale_mapping_dict base_clus_label_dict)
  end.

Definition set_train (self : clus_emb) (r : run_result) : clus_emb :=
  mkCE (max_num_of_spks self) (window_len_n self) (cfg_manifest_filepath self) (cfg_out_dir self)
    (Some r) (dev_result self) (test_result self).
Definition set_dev (self : clus_emb) (r : run_result) : clus_emb :=
  mkCE (max_num_of_spks self) (window_len_n self) (cfg_manifest_filepath self) (cfg_out_dir self)
    (train_result self) (Some r) (test_result self).
Definition set_test (self : clus_emb) (r : run_result) : clus_emb :=
  mkCE (max_num_of_spks self) (window_len_n self) (cfg_manifest_filepath self) (cfg_out_dir self)
    (train_result self) (dev_result self) (Some r).

(** [self.x, self.y, self.z = r] on the state. *)
Definition store_st (set : clus_emb -> run_result -> clus_emb) (r : run_result) : st (clus_emb * fs) unit :=
  let! s := st_get in st_put (set (fst s) r, snd s).

(** [prepare_cluster_embs] on the three [(manifest_filepath, emb_dir)]
    pairs of [ts_vad_model]. *)
Definition prepare_cluster_embs (train dev test : string * string) : st (clus_emb * fs) unit :=
  let! r := run_clustering_diarizer (fst train) (snd train) in
  let! _ := store_st set_train r in
  let! r := run_clustering_diarizer (fst dev) (snd dev) in
  let! _ := store_st set_dev r in
  let! r := run_clustering_diarizer (fst test) (snd test) in
  store_st set_test r.

End Ops.

(** The prefix [os.path.join] puts before a relative component. *)
Definition join_prefix (o : string) : string :=
  if String.eqb o "" then "" else if ends_with_slash o then o else String.append o "/".

(** ** A concrete run for the examples

    An empty file system, a diarizer that writes the embeddings of one
    session [a] at one scale and its label file, and [ClusterEmb]'s
    example environment for the manifest and the RTTM file. *)
Definition ex_out_fs : fs := mkFS {[ "out/speaker_outputs/embeddings" ]}
  {[ "out/speaker_outputs/embeddings/subsegments_scale0_embeddings.pkl" := PEmbs [("a", [[1%Q]])] ]}
  {[ "out/speaker_outputs/subsegments_scale0_cluster.label" := ["a 0.0 1.0 spk_0"] ]}.

Definition ex_denv : DiarizerEnv := {|
  diarize := fun _ _ => (ex_out_fs, Ok ({[ "a" := [("x", "spk1")] ]},
               [("a", mkUniqEmbs (Some {[ 0 := mkScale (Some [[1%Q]]) None ]}) (Some [1%Q]))]));
  get_argmin_mat := fun _ => Ok {[ 0 := [0] ]} |}.

Definition ex_fs0 : fs := mkFS ∅ ∅ ∅.

(** ** Lemmas: strings and paths *)

Lemma str_app_cons (c : ascii) (a b : string) : String.append (String c a) b = String c (String.append a b).
Proof. reflexivity. Qed.

Lemma str_app_cancel_l (a b c : string) : String.append a b = String.append a c -> b = c.
Proof. induction a as [|x a IH]; [done|]. rewrite !str_app_cons. intros [= H]. auto. Qed.

Lemma str_app_nonempty (a b : string) : b <> EmptyString -> String.append a b <> EmptyString.
Proof. destruct a; [done|]. rewrite str_app_cons. discriminate. Qed.

Lemma ends_with_slash_app (a b : string) : b <> EmptyString -> ends_with_slash (String.append a b) = ends_with_slash b.
Proof.
  intros Hb. induction a as [|x a IH]; [done|].
  rewrite str_app_cons.
  destruct (String.append a b) as [|y t] eqn:E; [by destruct (str_app_nonempty a b Hb)|]. exact IH.
Qed.

Lemma list_ascii_of_string_app (a b : string) :
  list_ascii_of_string (String.append a b) = app (list_ascii_of_string a) (list_ascii_of_string b).
Proof. induction a as [|x a IH]; [done|]. rewrite str_app_cons. cbn. by rewrite IH. Qed.

Lemma string_of_list_ascii_app (a b : list ascii) :
  string_of_list_ascii (app a b) = String.append (string_of_list_ascii a) (string_of_list_ascii b).
Proof. induction a as [|x a IH]; cbn; [done|]. by rewrite IH. Qed.

Lemma drop_to_slash_app (l1 l2 : list ascii) : In "/"%char l1 -> drop_to_slash (app l1 l2) = app (drop_to_slash l1) l2.
Proof.
  induction l1 as [|c l1 IH]; cbn; [done|]. intros Hin.
  destruct (Ascii.eqb_spec c "/"%char) as [->|Hc]; [done|].
  apply IH. destruct Hin as [->|Hin]; [done|exact Hin].
Qed.

Lemma dirname_app (a b : string) : In "/"%char (list_ascii_of_string b) ->
  dirname (String.append a b) = String.append a (dirname b).
Proof.
  intros Hb. unfold dirname. rewrite list_ascii_of_string_app, rev_app_distr, drop_to_slash_app
    by now apply in_rev in Hb.
  rewrite rev_app_distr, rev_involutive, string_of_list_ascii_app, string_of_list_ascii_of_string. done.
Qed.

Lemma os_path_join_rel (a : string) (c : ascii) (t : string) : Ascii.eqb c "/"%char = false ->
  os_path_join a (String c t) = String.append (join_prefix a) (String c t).
Proof.
  intros Hc. unfold os_path_join, join_prefix. rewrite Hc.
  destruct (String.eqb a ""); [done|]. destruct (ends_with_slash a); [done|].
  now rewrite str_app_assoc.
Qed.

Lemma join_prefix_word (a b : string) : b <> EmptyString -> ends_with_slash b = false ->
  join_prefix (String.append a b) = String.append a (String.append b "/").
Proof.
  intros Hb Hs. unfold join_prefix.
  destruct (String.eqb_spec (String.append a b) "") as [E|_]; [by destruct (str_app_nonempty a b Hb)|].
  rewrite ends_with_slash_app, Hs by done. now rewrite str_app_assoc.
Qed.

Lemma emb_pickle_path_eq (o : string) (i : Z) :
  emb_pickle_path o i = String.append (join_prefix o) (String.append "speaker_outputs/embeddings/"
    (String.append "subsegments_scale" (String.append (pretty i) "_embeddings.pkl"))).
Proof.
  unfold emb_pickle_path, os_path_join_all. cbn [fold_left].
  rewrite os_path_join_rel by reflexivity.
  rewrite os_path_join_rel by reflexivity. rewrite join_prefix_word by (done || reflexivity).
  rewrite (str_app_cons "s"%char "ubsegments_scale"), os_path_join_rel by reflexivity.
  rewrite join_prefix_word by (rewrite <- ?str_app_assoc; done || reflexivity).
  rewrite <- !str_app_assoc. reflexivity.
Qed.

Lemma emb_pickle_path_ne (o : string) (i : Z) (X : string) :
  X = clus_emb_path \/ X = clus_map_path \/ X = scale_map_path -> emb_pickle_path o i <> fjoin o X.
Proof.
  intros HX. rewrite emb_pickle_path_eq. unfold fjoin, join_prefix.
  destruct (String.eqb_spec o "") as [->|Ho]; [destruct HX as [->|[->| ->]]; discriminate|].
  destruct (ends_with_slash o).
  - intros H%str_app_cancel_l. destruct HX as [->|[->| ->]]; discriminate.
  - rewrite <- str_app_assoc. intros H%str_app_cancel_l. injection H as H.
    destruct HX as [->|[->| ->]]; injection H as H; discriminate.
Qed.

Lemma fjoin_ne (o X Y : string) : X <> Y -> fjoin o X <> fjoin o Y.
Proof. unfold fjoin. intros HXY H%str_app_cancel_l. rewrite !str_app_cons in H. injection H. done. Qed.

Lemma dump_pickle_st_spec (p : string) (o : pobj) (self self' : clus_emb) (w w' : fs) (r : res unit) :
  dump_pickle_st p o (self, w) = ((self', w'), r) ->
  self' = self /\ fs_dirs w' = fs_dirs w /\ fs_texts w' = fs_texts w /\
  ((r = Ok tt /\ dirname p ∈ fs_dirs w /\ fs_pickles w' = <[p := o]> (fs_pickles w)) \/
   (r = Err OSError /\ w' = w)).
Proof.
  unfold dump_pickle_st, dump_pickle. rewrite st_bind_get. cbn [fst snd].
  case_bool_decide as Hd; rewrite st_bind_lift; cbn [st_put]; intros [= <- <- <-]; cbn; eauto 10.
Qed.

Lemma save_dict_as_pkl_spec (o : string) d smd ssm (self self' : clus_emb) (w w' : fs) :
  save_dict_as_pkl o d smd ssm (self, w) = ((self', w'), Ok tt) ->
  self' = self /\ fs_dirs w' = fs_dirs w /\ fs_texts w' = fs_texts w /\
  dirname (fjoin o clus_emb_path) ∈ fs_dirs w /\
  fs_pickles w' = <[fjoin o scale_map_path := PScaleMap ssm]> (<[fjoin o clus_map_path := PSpkMap smd]>
                    (<[fjoin o clus_emb_path := PEmbSess d]> (fs_pickles w))).
Proof.
  unfold save_dict_as_pkl.
  intros ([s1 w1] & [] & E1 & H1)%st_bind_Ok_inv.
  destruct (dump_pickle_st_spec _ _ _ _ _ _ _ E1) as (-> & D1 & T1 & [(_ & Hd1 & P1)|[? _]]); [|discriminate].
  apply st_bind_Ok_inv in H1 as ([s2 w2] & [] & E2 & E3).
  destruct (dump_pickle_st_spec _ _ _ _ _ _ _ E2) as (-> & D2 & T2 & [(_ & _ & P2)|[? _]]); [|discriminate].
  destruct (dump_pickle_st_spec _ _ _ _ _ _ _ E3) as (-> & D3 & T3 & [(_ & _ & P3)|[? _]]); [|discriminate].
  split; [done|]. split; [congruence|]. split; [congruence|]. split; [done|]. congruence.
Qed.

(** C13 (round trip).  What [save_dict_as_pkl] writes, the loaders read
    back: once it returned, [load_dict_from_pkl] gives the embedding dict
    and the scale mapping it was given, and [load_mapping_from_pkl] the
    speaker mapping, for every [out_dir]; the three pickles have
    distinct paths. *)
Theorem save_load_pickles_roundtrip (o : string) d smd ssm (self self' : clus_emb) (w w' : fs) :
  save_dict_as_pkl o d smd ssm (self, w) = ((self', w'), Ok tt) ->
  load_dict_from_pkl w' o = Ok (d, ssm) /\ load_mapping_from_pkl w' o = Ok smd.
Proof.
  intros (_ & _ & _ & _ & HP)%save_dict_as_pkl_spec.
  unfold load_dict_from_pkl, load_mapping_from_pkl, load_pickle. rewrite HP.
  rewrite lookup_insert_ne, lookup_insert_ne, lookup_insert_eq by (apply fjoin_ne; discriminate).
  rewrite lookup_insert_eq. cbn [res_bind as_emb_sess as_scale_map].
  rewrite lookup_insert_ne, lookup_insert_eq by (apply fjoin_ne; discriminate). done.
Qed.

Lemma dirname_clus_emb_path (o : string) :
  dirname (fjoin o clus_emb_path) = String.append o "/speaker_outputs/embeddings".
Proof. unfold fjoin. rewrite dirname_app by (vm_compute; tauto). reflexivity. Qed.

Lemma py_max_Z_in (l : list Z) : l <> [] -> exists x, py_max_Z l = Ok x /\ In x l.
Proof.
  destruct l as [|y l]; [done|]. intros _. exists (fold_left Z.max l y). split; [done|].
  revert y. induction l as [|z l IH]; intros y; cbn [fold_left]; [now left|].
  destruct (IH (Z.max y z)) as [Hm|Hm]; [|right; now right].
  rewrite <- Hm. destruct (Z.max_spec y z) as [[_ ->]|[_ ->]]; [right; now left|now left].
Qed.

Lemma keys_elem `{Countable K} {V} (m : gmap K V) (k : K) : k ∈ map fst (map_to_list m) <-> k ∈ dom m.
Proof.
  rewrite elem_of_dom. split.
  - intros ([k' v] & -> & Hkv)%list_elem_of_fmap. apply elem_of_map_to_list in Hkv. eauto.
  - intros [v Hv]. apply list_elem_of_fmap. exists (k, v). split; [done|]. by apply elem_of_map_to_list.
Qed.

Lemma is_subset_true (xs ys : list string) : is_subset xs ys = true <-> Forall (fun x => x ∈ ys) xs.
Proof.
  unfold is_subset. rewrite forallb_forall, Forall_forall. split.
  - intros H x Hx. apply (bool_decide_eq_true (x ∈ ys)), H. by apply list_elem_of_In.
  - intros H x Hx. apply (bool_decide_eq_true (x ∈ ys)), H. by apply list_elem_of_In.
Qed.

Lemma in_combine_fst {A B} (xs : list A) (ys : list B) (x : A) :
  length xs = length ys -> In x xs -> exists y, In (x, y) (combine xs ys).
Proof.
  revert ys. induction xs as [|x' xs IH]; intros [|y ys] Hl Hx; cbn in *; try done; try lia.
  destruct Hx as [<-|Hx]; [eauto|]. destruct (IH ys ltac:(lia) Hx) as [y' Hy']. eauto.
Qed.

Section RunLemmas.
Context `{CE : ClusterEnv} `{DE : DiarizerEnv}.

Lemma load_embeddings_frame (self : clus_emb) (w w' : fs) (o : string) smd ssm :
  (forall i, fs_pickles w !! emb_pickle_path o i = fs_pickles w' !! emb_pickle_path o i) ->
  fs_texts w = fs_texts w' ->
  load_embeddings_from_pickle self w o smd ssm = load_embeddings_from_pickle self w' o smd ssm.
Proof.
  intros Hp Ht. unfold load_embeddings_from_pickle, read_text.
  rewrite (res_fold_left_ext (load_scale w o) (load_scale w' o)), Ht; [done|].
  intros esd i. unfold load_scale, load_pickle. now rewrite Hp.
Qed.

Lemma load_embeddings_clus (self : clus_emb) (w : fs) (o : string) smd ssm d esd b :
  load_embeddings_from_pickle self w o smd ssm = Ok (d, esd, b) ->
  window_len_n self <> 0%nat /\
  exists clus_label, get_clus_emb (scale_range (window_len_n self)) esd clus_label smd ssm
                       (max_num_of_spks self) = Ok (d, b).
Proof.
  unfold load_embeddings_from_pickle.
  destruct (res_fold_left _ _ _) as [esd'|] eqn:Ef; cbn [res_bind]; [|discriminate].
  destruct (read_text _ _) as [cl|]; cbn [res_bind]; [|discriminate].
  destruct (get_clus_emb _ _ _ _ _ _) as [[d' b']|] eqn:Eg; cbn [res_bind]; [|discriminate].
  intros [= <- <- <-]. split; [|eauto].
  intros Hn. rewrite Hn in Ef, Eg. cbn in Ef. injection Ef as <-.
  unfold get_clus_emb in Eg. rewrite lookup_empty in Eg. discriminate.
Qed.

Lemma run_finish_ssm n m d esd ssm b r :
  run_finish n m d esd ssm b = Ok r -> r_session_scale_mapping r = ssm /\
    exists d', check_embedding_and_RTTM d (scale_range n) m = Ok d' /\ r = mkRun d' esd ssm b.
Proof.
  unfold run_finish. destruct (check_embedding_and_RTTM _ _ _) as [d'|]; cbn [res_bind]; [|discriminate].
  intros [= <-]. eauto.
Qed.

(** The cached branch: the object and the files are left as they are. *)
Lemma run_cached (m o : string) (self : clus_emb) (w : fs) ssm :
  emb_ready w m o = Some ssm ->
  run_clustering_diarizer m o (self, w) = ((self, w),
    let? smd := load_mapping_from_pkl w o in
    let? r := load_embeddings_from_pickle self w o smd ssm in
    let '(d, esd, b) := r in run_finish (window_len_n self) m d esd ssm b).
Proof.
  intros He. unfold run_clustering_diarizer. rewrite st_bind_get, He, st_bind_lift.
  destruct (load_mapping_from_pkl w o) as [smd|]; [|done]. rewrite st_bind_lift. cbn [res_bind].
  destruct (load_embeddings_from_pickle _ _ _ _ _) as [[[d esd] b]|]; reflexivity.
Qed.

(** The other branch, when it returns. *)
Lemma run_fresh (m o : string) (self self1 : clus_emb) (w w1 : fs) r1 :
  emb_ready w m o = None ->
  run_clustering_diarizer m o (self, w) = ((self1, w1), Ok r1) ->
  exists wd smd ets ssm d esd b,
    diarize (set_diarizer_cfg self m o) w = (wd, Ok (smd, ets)) /\ get_scale_map ets = Ok ssm /\
    load_embeddings_from_pickle (set_diarizer_cfg self m o) wd o smd ssm = Ok (d, esd, b) /\
    save_dict_as_pkl o d smd ssm (set_diarizer_cfg self m o, wd) = ((self1, w1), Ok tt) /\
    run_finish (window_len_n self) m d esd ssm b = Ok r1.
Proof.
  intros He. unfold run_clustering_diarizer. rewrite st_bind_get, He, st_bind_put.
  unfold st_bind at 1, diarize_st. cbn [fst snd].
  destruct (diarize _ w) as [wd [[smd ets]|e]] eqn:Ed; [|discriminate].
  rewrite st_bind_lift. destruct (get_scale_map ets) as [ssm|] eqn:Eg; [|discriminate].
  rewrite st_bind_get, st_bind_lift.
  destruct (load_embeddings_from_pickle _ _ _ _ _) as [[[d esd] b]|] eqn:El; [|discriminate].
  intros ([s2 w2] & [] & Es & Ef)%st_bind_Ok_inv.
  cbn in Ef. injection Ef as <- <- Ef.
  exists wd, smd, ets, ssm, d, esd, b. eauto 10.
Qed.

(** C11 (refinement).  The pickles [run_clustering_diarizer] saves make
    a rerun transparent: after a run that returns, a second run with the
    same manifest and [out_dir] finds the embeddings ready (when every
    manifest session is in the saved scale mapping), does not call the
    diarizer, leaves the object and the files as they are, and returns
    the same result. *)
Theorem run_clustering_diarizer_rerun (m o : string) (self self1 : clus_emb) (w w1 : fs) (r1 : run_result)
    (ids : list string) (js : list (gmap string string)) :
  run_clustering_diarizer m o (self, w) = ((self1, w1), Ok r1) ->
  get_manifest_uniq_ids m = Ok (ids, js) ->
  Forall (fun u => u ∈ map fst (r_session_scale_mapping r1)) ids ->
  emb_ready w1 m o = Some (r_session_scale_mapping r1) /\
  run_clustering_diarizer m o (self1, w1) = ((self1, w1), Ok r1).
Proof.
  intros Hrun Hm HB. destruct (emb_ready w m o) as [ssm|] eqn:He.
  - pose proof Hrun as Hrun'. rewrite (run_cached _ _ _ _ _ He) in Hrun. injection Hrun as <- <- Hr.
    destruct (load_mapping_from_pkl w o) as [smd|]; cbn [res_bind] in Hr; [|discriminate].
    destruct (load_embeddings_from_pickle _ _ _ _ _) as [[[d esd] b]|]; [|discriminate].
    rewrite (proj1 (run_finish_ssm _ _ _ _ _ _ _ Hr)). done.
  - destruct (run_fresh _ _ _ _ _ _ _ He Hrun) as (wd & smd & ets & ssm & d & esd & b & Ed & Eg & El & Es & Ef).
    destruct (run_finish_ssm _ _ _ _ _ _ _ Ef) as [Hs (d' & Hc & Hr1)]. rewrite Hs in HB |- *.
    destruct (save_dict_as_pkl_spec _ _ _ _ _ _ _ _ Es) as (-> & Hdirs & Htexts & Hdir & Hpk).
    assert (Hready : emb_ready w1 m o = Some ssm).
    { unfold emb_ready. replace (path_exists w1 _) with true; cycle 1.
      { unfold path_exists. rewrite Hdirs, <- dirname_clus_emb_path. by rewrite bool_decide_eq_true_2. }
      unfold try_emb_ready, load_dict_from_pkl, load_pickle. rewrite Hpk.
      rewrite lookup_insert_ne, lookup_insert_ne, lookup_insert_eq by (apply fjoin_ne; discriminate).
      rewrite lookup_insert_eq. cbn [res_bind as_emb_sess as_scale_map]. rewrite Hm. cbn [res_bind fst].
      destruct (load_embeddings_clus _ _ _ _ _ _ _ _ El) as [Hn (cl & Eg')].
      cbn [window_len_n max_num_of_spks set_diarizer_cfg] in Hn, Eg'.
      pose proof (get_clus_emb_dom _ _ _ _ _ _ _ _ Eg') as Hdom.
      destruct (py_max_Z_in (map fst (map_to_list d))) as (x & Ex & Hx).
      { intros Hnil. assert (H0 : (0 : Z) ∈ dom d).
        { rewrite Hdom. apply elem_of_list_to_set, list_elem_of_In. unfold scale_range.
          destruct (window_len_n self); [done|]. now left. }
        apply keys_elem in H0. rewrite Hnil in H0. by apply not_elem_of_nil in H0. }
      rewrite Ex. cbn [res_bind].
      apply list_elem_of_In, keys_elem, elem_of_dom in Hx as [sd Hsd]. rewrite Hsd. cbn [py_getitem res_bind].
      assert (Hx : In x (scale_range (window_len_n self))).
      { apply list_elem_of_In, (elem_of_list_to_set (C := gset Z)). rewrite <- Hdom. by apply elem_of_dom_2 in Hsd. }
      rewrite (proj2 (is_subset_true ids (map fst (map_to_list sd)))), (proj2 (is_subset_true ids (map fst ssm)));
        [done|exact HB|].
      apply Forall_forall. intros u Hu%list_elem_of_In. apply keys_elem.
      destruct (in_combine_fst ids js u (get_manifest_uniq_ids_length _ _ _ Hm) Hu) as [j Hj].
      destruct (check_embedding_and_RTTM_keys _ _ _ _ _ _ Hc Hm x (u, j) Hx Hj) as (sd' & Hsd' & Hu').
      rewrite Hsd in Hsd'. by injection Hsd' as <-. }
    split; [done|].
    rewrite (run_cached _ _ _ _ _ Hready). unfold load_mapping_from_pkl, load_pickle. rewrite Hpk.
    rewrite lookup_insert_ne, lookup_insert_eq by (apply fjoin_ne; discriminate). cbn [res_bind as_spk_map].
    rewrite (load_embeddings_frame _ w1 wd o smd ssm), El; [cbn; by rewrite Ef|..].
    + intros i. rewrite Hpk, !lookup_insert_ne; [done|intros Heq; symmetry in Heq; revert Heq; apply emb_pickle_path_ne; tauto..].
    + done.
Qed.
End RunLemmas.

Lemma run_clustering_diarizer_rerun_witness :
  exists self1 w1 r1,
    @run_clustering_diarizer ex_env ex_denv "m.json" "out" (__init__ 2 [1%Q], ex_fs0) = ((self1, w1), Ok r1) /\
    @emb_ready ex_env w1 "m.json" "out" = Some (r_session_scale_mapping r1) /\
    @run_clustering_diarizer ex_env ex_denv "m.json" "out" (self1, w1) = ((self1, w1), Ok r1).
Proof.
  match eval vm_compute in (@run_clustering_diarizer ex_env ex_denv "m.json" "out" (__init__ 2 [1%Q], ex_fs0))
  with ((?s1, ?w1), Ok ?r1) => exists s1, w1, r1 end.
  assert (E : @run_clustering_diarizer ex_env ex_denv "m.json" "out" (__init__ 2 [1%Q], ex_fs0) = ((_, _), Ok _))
    by (vm_compute; reflexivity).
  split; [exact E|].
  apply (@run_clustering_diarizer_rerun ex_env ex_denv "m.json" "out" _ _ _ _ _ ["a"] [ex_json] E);
    [vm_compute; reflexivity|repeat constructor].
Defined.

(** The three pickles of one session saved under [out], then read back. *)
Lemma save_load_pickles_roundtrip_witness :
  let smd : gmap string (list (string * string)) := {[ "a" := [("x", "spk1")] ]} in
  let ssm : list (string * gmap Z (list Z)) := [("a", {[ 0 := [0] ]})] in
  exists w', save_dict_as_pkl "out" ex_emb smd ssm (__init__ 2 [1%Q], ex_out_fs) = ((__init__ 2 [1%Q], w'), Ok tt) /\
    load_dict_from_pkl w' "out" = Ok (ex_emb, ssm) /\ load_mapping_from_pkl w' "out" = Ok smd.
Proof.
  intros smd ssm.
  match eval vm_compute in (save_dict_as_pkl "out" ex_emb smd ssm (__init__ 2 [1%Q], ex_out_fs))
  with ((_, ?w'), Ok tt) => exists w' end.
  assert (E : save_dict_as_pkl "out" ex_emb smd ssm (__init__ 2 [1%Q], ex_out_fs) = ((__init__ 2 [1%Q], _), Ok tt))
    by (vm_compute; reflexivity).
  split; [exact E | exact (save_load_pickles_roundtrip _ _ _ _ _ _ _ _ E)].
Defined.

End ClusterRun.
