(* ===== verification/TsvadModel.v ===== *)
(** * TsvadModel: the object [EncDecDiarLabelModel] and the module helpers

    Models, of [src/nemo/collections/asr/models/tsvad_models.py], the
    module helpers [sprint] (lines 65-70) and [write_json_file] (74-79),
    and the methods of [EncDecDiarLabelModel] that build the object and
    its data: [list_available_models] (444-452), [__init__] (454-471),
    [multispeaker_loss] (473-478), [get_emb_clus] (480-489),
    [extract_labels] (491-510), [__setup_dataloader_from_config]
    (512-559), [setup_training_data], [setup_validation_data] and
    [setup_test_data] (561-585), [test_dataloader] (587-589),
    [input_types] and [output_types] (591-605) and [forward] (607-621).
    The metric bookkeeping of the steps is [DiarSteps].

    A [DictConfig] is a [gmap] from keys to the values the code reads
    ([cval]): [c[k]] raises [KeyError] and [c.k] [AttributeError] on a
    missing key, [c.get(k, d)] and [k in c] never raise.  The
    configuration [cfg] of [__init__] is one record of its six
    sub-configurations; [self.ts_vad_model_cfg] is the same object as
    [cfg], so it holds the [num_spks] that [__init__] writes after
    storing it.  The [emb_clus] argument is [ClusterRun]'s
    [ClusterEmbedding] object: the nine attributes [get_emb_clus] copies
    are the three fields of the three results [prepare_cluster_embs]
    stores, and are missing ([AttributeError]) until it ran.

    [ModelPT.__init__] (which also sets [_train_dl], [_validation_dl]
    and [_test_dl] to [None]), [from_config_dict], the featurizer, the
    dataset and data loader constructors, [dataset.item_sim], the
    preprocessor and the TS-VAD module are library code: the environment
    class [TsvadEnv].  A featurizer, dataset or data loader is the record
    of the arguments it was built with.  A tensor is [DiarMetric]'s
    3-d tensor.  [print] appends a line to the standard output; the
    [sprint] calls of [forward] only print and are left out of it. *)

From Stdlib Require Import QArith Ascii String.
From S2P Require Import Prelude PyStr DiarMetric ClusterEmb ClusterRun.
From stdpp Require Import base gmap sets strings.

Module TsvadModel.
Import PyStr DiarMetric ClusterEmb ClusterRun.
Local Open Scope Z_scope.

(** ** Configurations *)

(** A value of a [DictConfig]: [None], a bool, an int, a string, or
    something else the code only passes on. *)
Inductive cval := CNone | CBool (b : bool) | CInt (z : Z) | CStr (s : string) | COther (tag : string).

Abbreviation config := (gmap string cval).

(** [c[k]]. *)
Definition cfg_getitem (c : config) (k : string) : res cval :=
  match c !! k with Some v => Ok v | None => Err KeyError end.

(** [c.k]. *)
Definition cfg_getattr (c : config) (k : string) : res cval :=
  match c !! k with Some v => Ok v | None => Err AttributeError end.

(** [c.get(k, d)]. *)
Definition cfg_get (c : config) (k : string) (d : cval) : cval :=
  match c !! k with Some v => v | None => d end.

(** [k in c]. *)
Definition cfg_in (c : config) (k : string) : bool :=
  match c !! k with Some _ => true | None => false end.

(** The [cfg] of [__init__]: its own keys ([max_num_of_spks],
    [subsample_rate]) and the sub-configurations it reads. *)
Record model_cfg := mkCfg {
  top : config;
  preprocessor_cfg : config;
  tsvad_module : config;
  train_ds : config;
  validation_ds : config;
  test_ds : config
}.

Record trainer := mkTrainer { num_nodes : Z; num_gpus : Z }.

(** ** The objects the methods build *)

Record featurizer := mkFeat {
  f_sample_rate : cval; f_int_values : cval; f_augmentor : option cval
}.

(** [AudioToSpeechTSVADDataset(...)]. *)
Record dataset := mkDataset {
  d_manifest_filepath : cval;
  d_emb_dict : emb_dict;
  d_clus_label_dict : gmap string (list (Q * Q * Z));
  d_emb_seq : gmap Z (list (string * list (list Q)));
  d_featurizer : featurizer;
  d_subsample_rate : cval;
  d_max_spks : cval
}.

(** [torch.utils.data.DataLoader(...)]; [collate_fn] is the dataset's
    [tsvad_collate_fn]. *)
Record dataloader := mkDL {
  dl_dataset : dataset;
  dl_batch_size : cval;
  dl_drop_last : cval;
  dl_shuffle : cval;
  dl_num_workers : cval;
  dl_pin_memory : cval
}.

(** NeMo's [BCELoss()] of [self.loss], and [torch.nn.BCELoss] with its
    reduction. *)
Inductive loss := NemoBCELoss | TorchBCELoss (reduction : string).

(** [self]: the attributes [__init__] and the setup methods write.  The
    nine dictionaries of [get_emb_clus] are kept as the three results
    they come from ([emb_sess_*_dict], [emb_seq_*], [clus_*_label_dict]
    are the fields [r_emb_sess_avg_dict], [r_emb_scale_seq_dict],
    [r_base_clus_label_dict]). *)
Record model := mkModel {
  ts_vad_model_cfg : model_cfg;
  res_train : run_result;
  res_dev : run_result;
  res_test : run_result;
  world_size : Z;
  model_loss : loss;
  task : option string;
  _accuracy : metric;
  labels : option (list string);
  _train_dl : option dataloader;
  _validation_dl : option dataloader;
  _test_dl : option dataloader
}.

Definition emb_sess_train_dict (m : model) := r_emb_sess_avg_dict (res_train m).
Definition emb_seq_train (m : model) := r_emb_scale_seq_dict (res_train m).
Definition clus_train_label_dict (m : model) := r_base_clus_label_dict (res_train m).
Definition emb_sess_dev_dict (m : model) := r_emb_sess_avg_dict (res_dev m).
Definition emb_seq_dev (m : model) := r_emb_scale_seq_dict (res_dev m).
Definition clus_dev_label_dict (m : model) := r_base_clus_label_dict (res_dev m).
Definition emb_sess_test_dict (m : model) := r_emb_sess_avg_dict (res_test m).
Definition emb_seq_test (m : model) := r_emb_scale_seq_dict (res_test m).
Definition clus_test_label_dict (m : model) := r_base_clus_label_dict (res_test m).

Definition set_train_dl (m : model) (dl : option dataloader) : model :=
  mkModel (ts_vad_model_cfg m) (res_train m) (res_dev m) (res_test m) (world_size m) (model_loss m)
    (task m) (_accuracy m) (labels m) dl (_validation_dl m) (_test_dl m).
Definition set_validation_dl (m : model) (dl : option dataloader) : model :=
  mkModel (ts_vad_model_cfg m) (res_train m) (res_dev m) (res_test m) (world_size m) (model_loss m)
    (task m) (_accuracy m) (labels m) (_train_dl m) dl (_test_dl m).
Definition set_test_dl (m : model) (dl : option dataloader) : model :=
  mkModel (ts_vad_model_cfg m) (res_train m) (res_dev m) (res_test m) (world_size m) (model_loss m)
    (task m) (_accuracy m) (labels m) (_train_dl m) (_validation_dl m) dl.

(** Neural types of [input_types] and [output_types]. *)
Inductive elem_type := AudioSignal (freq : option Z) | LengthsType | EncodedRepresentation | LogprobsType.
Record neural_type := mkNT { nt_axes : list string; nt_elem : elem_type }.

(** ** The environment *)

Class TsvadEnv := {
  model_pt_init : model_cfg -> option trainer -> res unit;         (* super().__init__ *)
  from_config_dict : config -> res unit;                           (* from_config_dict *)
  process_augmentations : cval -> res cval;
  featurizer_init : featurizer -> res unit;                        (* WaveformFeaturizer(...) *)
  dataset_init : dataset -> res unit;                              (* AudioToSpeechTSVADDataset(...) *)
  item_sim : dataset -> Z -> res (list cval);                      (* dataset.item_sim(i) *)
  dataloader_init : dataloader -> res unit;                        (* DataLoader(...) *)
  convert_to_config_list : cval -> res (list (list string));
  speech_label_uniq : string -> cval -> cval -> res (list string); (* ASRSpeechLabel(...).uniq_labels *)
  preprocessor : tensor Q -> list Z -> res (tensor Q * list Z);    (* self.preprocessor *)
  tsvad : tensor Q -> list Z -> tensor Q -> res (tensor Q);        (* self.tsvad *)
  preprocessor_sample_rate : option Z;                             (* self.preprocessor._sample_rate *)
  json_dump : list (string * cval) -> string                       (* json.dump *)
}.

(** ** Module helpers *)

(** [sprint( *args)]: [print( *args)], the arguments joined by spaces. *)
Definition sprint (stdout : list string) (args : list string) : list string :=
  app stdout [py_join " " args].

(** The attribute [opt] of an object that may not have it. *)
Definition attr {A} (o : option A) : res A :=
  match o with Some a => Ok a | None => Err AttributeError end.

Section Ops.
Context `{TE : TsvadEnv}.

(** [write_json_file]: [open(name, 'w')] needs the directory of [name]
    and replaces what was there; one line per dict.  [logging.info] only
    logs. *)
Definition write_json_file (w : fs) (name : string) (lines : list (list (string * cval))) : res fs :=
  if bool_decide (dirname name ∈ fs_dirs w)
  then Ok (mkFS (fs_dirs w) (delete name (fs_pickles w))
             (<[name := map (fun dic => String.append (json_dump dic) (String "010"%char EmptyString)) lines]> (fs_texts w)))
  else Err OSError.

(** ** [EncDecDiarLabelModel] *)

(** [list_available_models]: [result] is built and [None] returned. *)
Definition list_available_models : option (list string) :=
  let result := @nil string in None.

Definition multispeaker_loss : loss := TorchBCELoss "sum".

(** [get_emb_clus]: the nine attributes of [emb_clus], in the order of
    the source (train, dev, test of each kind). *)
Definition get_emb_clus (emb_clus : clus_emb) : res (run_result * run_result * run_result) :=
  let? tr := attr (train_result emb_clus) in
  let? dv := attr (dev_result emb_clus) in
  let? te := attr (test_result emb_clus) in
  Ok (tr, dv, te).

Definition set_num_spks (c : config) (v : cval) : config := <[ "num_spks" := v ]> c.

(** [__init__]. *)
Definition __init__ (cfg : model_cfg) (emb_clus : clus_emb) (tr : option trainer) : res model :=
  let? mx := cfg_getattr (top cfg) "max_num_of_spks" in
  let cfg := mkCfg (top cfg) (preprocessor_cfg cfg) (set_num_spks (tsvad_module cfg) mx)
               (set_num_spks (train_ds cfg) mx) (set_num_spks (validation_ds cfg) mx)
               (set_num_spks (test_ds cfg) mx) in
  let? r := get_emb_clus emb_clus in
  let '(rt, rd, re) := r in
  let ws := match tr with None => 1 | Some t => num_nodes t * num_gpus t end in
  let? _ := model_pt_init cfg tr in
  let? _ := from_config_dict (preprocessor_cfg cfg) in
  let? _ := from_config_dict (tsvad_module cfg) in
  Ok (mkModel cfg rt rd re ws NemoBCELoss None DiarMetric.__init__ None None None None).

(** [extract_labels]: the union of the labels of every manifest, listed
    in the set's order. *)
Definition extract_labels (data_layer_config : config) : res (option (list string)) :=
  match cfg_get data_layer_config "manifest_filepath" CNone with
  | CNone => Ok None
  | _ =>
    let? mf := cfg_getitem data_layer_config "manifest_filepath" in
    let? manifest_filepaths := convert_to_config_list mf in
    let? labels := res_fold_left (fun (labels : gset string) manifest_filepath =>
        let? uniq := speech_label_uniq manifest_filepath (cfg_get data_layer_config "min_duration" CNone)
                       (cfg_get data_layer_config "max_duration" CNone) in
        Ok (labels ∪ list_to_set uniq)) (concat manifest_filepaths) ∅ in
    Ok (Some (elements labels))
  end.

(** [config['manifest_filepath'] is None] for a present key. *)
Definition manifest_is_none (config : config) : bool :=
  match config !! "manifest_filepath" with Some CNone => true | _ => false end.

(** [__setup_dataloader_from_config]. *)
Definition __setup_dataloader_from_config (self : model) (config : config) (emb_dict : emb_dict)
    (emb_seq : gmap Z (list (string * list (list Q))))
    (clus_label_dict : gmap string (list (Q * Q * Z))) : res (option dataloader) :=
  let? augmentor :=
    if cfg_in config "augmentor"
    then let? a := cfg_getitem config "augmentor" in let? p := process_augmentations a in Ok (Some p)
    else Ok None in
  let? sample_rate := cfg_getitem config "sample_rate" in
  let featurizer := mkFeat sample_rate (cfg_get config "int_values" (CBool false)) augmentor in
  let? _ := featurizer_init featurizer in
  let shuffle := cfg_get config "shuffle" (CBool false) in
  if cfg_in config "manifest_filepath" && manifest_is_none config then Ok None
  else
  let? manifest_filepath := cfg_getitem config "manifest_filepath" in
  let? subsample_rate := cfg_getattr (top (ts_vad_model_cfg self)) "subsample_rate" in
  let? max_spks := cfg_getattr config "num_spks" in
  let ds := mkDataset manifest_filepath emb_dict clus_label_dict emb_seq featurizer subsample_rate max_spks in
  let? _ := dataset_init ds in
  let? s0 := item_sim ds 0 in
  let? s1 := item_sim ds 1 in
  let packed_batch := combine s0 s1 in
  let? batch_size := cfg_getitem config "batch_size" in
  let dl := mkDL ds batch_size (cfg_get config "drop_last" (CBool false)) shuffle
              (cfg_get config "num_workers" (CInt 0)) (cfg_get config "pin_memory" (CBool false)) in
  let? _ := dataloader_init dl in
  let? _ := dataloader_init dl in
  Ok (Some dl).

Definition setup_training_data (self : model) (train_data_config : config) : res model :=
  let? dl := __setup_dataloader_from_config self train_data_config (emb_sess_train_dict self)
               (emb_seq_train self) (clus_train_label_dict self) in
  Ok (set_train_dl self dl).

Definition setup_validation_data (self : model) (val_data_layer_config : config) : res model :=
  let? dl := __setup_dataloader_from_config self val_data_layer_config (emb_sess_dev_dict self)
               (emb_seq_dev self) (clus_dev_label_dict self) in
  Ok (set_validation_dl self dl).

Definition setup_test_data (self : model) (test_data_config : config) : res model :=
  let? dl := __setup_dataloader_from_config self test_data_config (emb_sess_test_dict self)
               (emb_seq_test self) (clus_test_label_dict self) in
  Ok (set_test_dl self dl).

(** [test_dataloader]: the loader when there is one, else the implicit
    [None]. *)
Definition test_dataloader (self : model) : option dataloader :=
  match _test_dl self with Some dl => Some dl | None => None end.

Definition input_types : list (string * neural_type) :=
  [("input_signal", mkNT ["B"; "T"] (AudioSignal preprocessor_sample_rate));
   ("input_signal_length", mkNT ["B"] LengthsType);
   ("ivectors", mkNT ["B"; "D"; "C"] EncodedRepresentation)].

Definition output_types : list (string * neural_type) :=
  [("probs", mkNT ["B"; "T"; "C"] LogprobsType)].

(** [x[:, :, :n]]. *)
Definition slice_time {A} (x : tensor A) (n : nat) : tensor A :=
  mkT (sz0 x) (sz1 x) (Nat.min (sz2 x) n) (get x).

(** [forward]: the features cut to their first 3000 frames, and every
    length set to 3000. *)
Definition forward (input_signal : tensor Q) (input_signal_length : list Z) (ivectors : tensor Q)
    : res (tensor Q) :=
  let length := 3000 in
  let? p := preprocessor input_signal input_signal_length in
  let '(processed_signal, processed_signal_len) := p in
  let processed_signal := slice_time processed_signal (Z.to_nat length) in
  let processed_signal_len := map (fun _ => length * 1) processed_signal_len in
  tsvad processed_signal processed_signal_len ivectors.

End Ops.

(** ** The three splits

    [ModelPT.__init__] calls [self.setup_training_data(self._cfg.train_ds)]
    and the like; [split] names the split, and [setup_data], [split_cfg],
    [split_dl] and [split_result] the method, the configuration, the
    loader attribute and the [ClusterEmbedding] result of each. *)
Inductive split := Train | Dev | Test.

Definition setup_data `{TsvadEnv} (sp : split) : model -> config -> res model :=
  match sp with Train => setup_training_data | Dev => setup_validation_data | Test => setup_test_data end.

Definition split_cfg (sp : split) (c : model_cfg) : config :=
  match sp with Train => train_ds c | Dev => validation_ds c | Test => test_ds c end.

Definition split_dl (sp : split) (m : model) : option dataloader :=
  match sp with Train => _train_dl m | Dev => _validation_dl m | Test => _test_dl m end.

Definition split_result (sp : split) (ce : clus_emb) : option run_result :=
  match sp with Train => train_result ce | Dev => dev_result ce | Test => test_result ce end.

(** The [(manifest_filepath, emb_dir)] of each split in
    [prepare_cluster_embs]. *)
Definition split_paths (sp : split) (tr dv te : string * string) : string * string :=
  match sp with Train => tr | Dev => dv | Test => te end.

(** ** A concrete model for the examples

    A library that accepts everything and whose preprocessor and TS-VAD
    module return their input; a configuration of two speakers whose
    three splits read [m.json]. *)
Definition ex_tenv : TsvadEnv := {|
  model_pt_init := fun _ _ => Ok tt;
  from_config_dict := fun _ => Ok tt;
  process_augmentations := fun a => Ok a;
  featurizer_init := fun _ => Ok tt;
  dataset_init := fun _ => Ok tt;
  item_sim := fun _ _ => Ok [];
  dataloader_init := fun _ => Ok tt;
  convert_to_config_list := fun v => match v with CStr p => Ok [[p]] | _ => Err TypeError end;
  speech_label_uniq := fun _ _ _ => Ok ["spk1"];
  preprocessor := fun x l => Ok (x, l);
  tsvad := fun x _ _ => Ok x;
  preprocessor_sample_rate := Some 16000;
  json_dump := fun _ => "{}"
|}.

Definition ex_split_cfg : config :=
  {[ "manifest_filepath" := CStr "m.json"; "sample_rate" := CInt 16000; "batch_size" := CInt 4 ]}.

Definition ex_cfg : model_cfg :=
  mkCfg {[ "max_num_of_spks" := CInt 2; "subsample_rate" := CInt 1 ]} ∅ ∅
    ex_split_cfg ex_split_cfg ex_split_cfg.

(** A signal of [t] frames of one feature. *)
Definition ex_signal (t : nat) : tensor Q := mkT 1 1 t (fun _ _ _ => 0%Q).

(** ** Lemmas *)

Section ClusterLemmas.
Context `{CE : ClusterEnv} `{DE : DiarizerEnv}.

Definition results (c : clus_emb) : option run_result * option run_result * option run_result :=
  (train_result c, dev_result c, test_result c).

Lemma diarize_st_keeps (P : clus_emb -> Prop) : st_inv (fun s => P (fst s)) diarize_st.
Proof. intros [self w] Hs. unfold diarize_st. now destruct (diarize _ _). Qed.

Lemma save_dict_as_pkl_keeps (P : clus_emb -> Prop) o d smd ssm :
  st_inv (fun s => P (fst s)) (save_dict_as_pkl o d smd ssm).
Proof. unfold save_dict_as_pkl, dump_pickle_st. st_inv_solve; assumption. Qed.

(** [run_clustering_diarizer] writes the diarizer's configuration, never
    the results of [prepare_cluster_embs]. *)
Lemma run_keeps_results (m o : string) (R : option run_result * option run_result * option run_result) :
  st_inv (fun s => results (fst s) = R) (run_clustering_diarizer m o).
Proof.
  unfold run_clustering_diarizer.
  st_inv_solve;
    first [ apply (diarize_st_keeps (fun c => results c = R))
          | apply (save_dict_as_pkl_keeps (fun c => results c = R))
          | assumption ].
Qed.

Lemma store_st_result (set : clus_emb -> run_result -> clus_emb) r s s' :
  store_st set r s = (s', Ok tt) -> s' = (set (fst s) r, snd s).
Proof. now intros [= <-]. Qed.

(** What [prepare_cluster_embs] stores: the result of the run of each
    split, the later runs leaving the earlier results alone. *)
Lemma prepare_cluster_embs_results (tr dv te : string * string) s0 s' :
  prepare_cluster_embs tr dv te s0 = (s', Ok tt) ->
  forall sp, exists s s1 r, run_clustering_diarizer (fst (split_paths sp tr dv te))
      (snd (split_paths sp tr dv te)) s = (s1, Ok r) /\ split_result sp (fst s') = Some r.
Proof.
  unfold prepare_cluster_embs.
  intros (s1 & rt & E1 & H)%st_bind_Ok_inv.
  apply st_bind_Ok_inv in H as (t1 & [] & ->%store_st_result & H).
  apply st_bind_Ok_inv in H as (s2 & rd & E2 & H).
  apply st_bind_Ok_inv in H as (t2 & [] & ->%store_st_result & H).
  apply st_bind_Ok_inv in H as (s3 & re & E3 & H). apply store_st_result in H as ->.
  pose proof (run_keeps_results (fst dv) (snd dv) _ (set_train (fst s1) rt, snd s1) eq_refl) as K2.
  pose proof (run_keeps_results (fst te) (snd te) _ (set_dev (fst s2) rd, snd s2) eq_refl) as K3.
  rewrite E2 in K2. rewrite E3 in K3. unfold results in K2, K3. cbn in K2, K3.
  injection K2 as K2 _ _. injection K3 as K3 K3' _.
  intros []; eexists _, _, _; split; eauto; cbn; congruence.
Qed.

End ClusterLemmas.

Section ModelLemmas.
Context `{TE : TsvadEnv}.

(** What a successful [__init__] stored. *)
Lemma init_Ok (cfg : model_cfg) (ec : clus_emb) (t : option trainer) (m : model) :
  __init__ cfg ec t = Ok m ->
  exists mx, top cfg !! "max_num_of_spks" = Some mx /\
    (forall sp, split_result sp ec = Some (match sp with Train => res_train m | Dev => res_dev m | Test => res_test m end)) /\
    (forall sp, split_cfg sp (ts_vad_model_cfg m) = set_num_spks (split_cfg sp cfg) mx) /\
    top (ts_vad_model_cfg m) = top cfg.
Proof.
  unfold __init__, cfg_getattr. destruct (top cfg !! "max_num_of_spks") as [mx|]; [|discriminate].
  cbn [res_bind]. unfold get_emb_clus, attr.
  destruct (train_result ec) as [rt|] eqn:Et; [|discriminate]. destruct (dev_result ec) as [rd|] eqn:Ed; [|discriminate].
  destruct (test_result ec) as [re|] eqn:Ee; [|discriminate]. cbn [res_bind].
  destruct (model_pt_init _ _); [|discriminate]. destruct (from_config_dict _); [|discriminate].
  destruct (from_config_dict _); [|discriminate]. intros [= <-].
  exists mx. split; [reflexivity|]. split; [intros []; assumption|]. split; [intros []; reflexivity|reflexivity].
Qed.

(** A loader built by [__setup_dataloader_from_config] holds the
    dictionaries it was given and [config.num_spks]. *)
Lemma setup_dataloader_Some (self : model) (c : config) ed es cl (dl : dataloader) :
  __setup_dataloader_from_config self c ed es cl = Ok (Some dl) ->
  d_emb_dict (dl_dataset dl) = ed /\ d_emb_seq (dl_dataset dl) = es /\
  d_clus_label_dict (dl_dataset dl) = cl /\ c !! "num_spks" = Some (d_max_spks (dl_dataset dl)).
Proof.
  unfold __setup_dataloader_from_config.
  intros (aug & _ & H)%res_bind_Ok_inv. apply res_bind_Ok_inv in H as (sr & _ & H).
  apply res_bind_Ok_inv in H as ([] & _ & H).
  destruct (cfg_in c "manifest_filepath" && manifest_is_none c); [discriminate|].
  apply res_bind_Ok_inv in H as (mf & _ & H). apply res_bind_Ok_inv in H as (sub & _ & H).
  apply res_bind_Ok_inv in H as (ms & Hms & H). unfold cfg_getattr in Hms.
  destruct (c !! "num_spks") as [v|]; [injection Hms as ->|discriminate].
  repeat (apply res_bind_Ok_inv in H as (? & _ & H)). injection H as <-. cbn. auto.
Qed.

Lemma setup_data_dl (sp : split) (m m' : model) (c : config) (dl : dataloader) :
  setup_data sp m c = Ok m' -> split_dl sp m' = Some dl ->
  __setup_dataloader_from_config m c
    (r_emb_sess_avg_dict (match sp with Train => res_train m | Dev => res_dev m | Test => res_test m end))
    (r_emb_scale_seq_dict (match sp with Train => res_train m | Dev => res_dev m | Test => res_test m end))
    (r_base_clus_label_dict (match sp with Train => res_train m | Dev => res_dev m | Test => res_test m end))
  = Ok (Some dl).
Proof.
  destruct sp; cbn; unfold setup_training_data, setup_validation_data, setup_test_data;
    intros (d & Hd & [= <-])%res_bind_Ok_inv Hdl; cbn in Hdl; subst d; exact Hd.
Qed.

End ModelLemmas.

(** ** What the model does *)

Section Theorems.
Context `{CE : ClusterEnv} `{DE : DiarizerEnv} `{TE : TsvadEnv}.

(** C12 (functional, composition).  [ClusterEmbedding.prepare_cluster_embs],
    then [EncDecDiarLabelModel.__init__] on the object it filled, then
    the setup method of a split on that split's configuration: the data
    loader's dataset is built from the embeddings, scale sequences and
    base labels of a clustering run on that split's manifest and
    [emb_dir], with [max_spks] the configuration's [max_num_of_spks]. *)
Theorem setup_data_from_clustering (tr dv te : string * string) (s0 s1 : clus_emb * fs)
    (cfg : model_cfg) (t : option trainer) (m m' : model) (sp : split) (dl : dataloader) :
  prepare_cluster_embs tr dv te s0 = (s1, Ok tt) ->
  __init__ cfg (fst s1) t = Ok m ->
  setup_data sp m (split_cfg sp (ts_vad_model_cfg m)) = Ok m' ->
  split_dl sp m' = Some dl ->
  exists s s' r,
    run_clustering_diarizer (fst (split_paths sp tr dv te)) (snd (split_paths sp tr dv te)) s = (s', Ok r) /\
    d_emb_dict (dl_dataset dl) = r_emb_sess_avg_dict r /\
    d_emb_seq (dl_dataset dl) = r_emb_scale_seq_dict r /\
    d_clus_label_dict (dl_dataset dl) = r_base_clus_label_dict r /\
    top cfg !! "max_num_of_spks" = Some (d_max_spks (dl_dataset dl)).
Proof.
  intros Hp Hi Hs Hdl.
  destruct (prepare_cluster_embs_results _ _ _ _ _ Hp sp) as (s & s' & r & Er & Hr).
  destruct (init_Ok _ _ _ _ Hi) as (mx & Hmx & Hres & Hcfg & _).
  destruct (setup_dataloader_Some _ _ _ _ _ _ (setup_data_dl _ _ _ _ _ Hs Hdl)) as (H1 & H2 & H3 & H4).
  rewrite Hcfg in H4. unfold set_num_spks in H4. rewrite lookup_insert_eq in H4. injection H4 as H4.
  specialize (Hres sp). rewrite Hr in Hres. injection Hres as Hres.
  exists s, s', r. split; [exact Er|]. rewrite Hres, H1, H2, H3, Hmx, H4. auto.
Qed.

(** C31 (bounds, finding).  [forward] hands the TS-VAD module the
    preprocessor's features cut to their first 3000 frames and a length
    of 3000 for every element of the batch, whatever the signal lengths
    and the number of frames: for features of fewer than 3000 frames
    every length exceeds the frames there are. *)
Theorem forward_lengths (s : tensor Q) (l : list Z) (iv : tensor Q) (x : tensor Q) (lens : list Z) :
  preprocessor s l = Ok (x, lens) ->
  exists x' lens', forward s l iv = tsvad x' lens' iv /\
    sz0 x' = sz0 x /\ sz1 x' = sz1 x /\ sz2 x' = Nat.min (sz2 x) 3000 /\
    (forall i j k, get x' i j k = get x i j k) /\
    length lens' = length lens /\ Forall (fun v => v = 3000) lens' /\
    ((sz2 x < 3000)%nat -> Forall (fun v => Z.of_nat (sz2 x') < v) lens').
Proof.
  intros Hp. unfold forward. rewrite Hp. cbn [res_bind].
  exists (slice_time x 3000), (map (fun _ => 3000 * 1) lens). cbn.
  split; [reflexivity|]. do 4 (split; [reflexivity|]). split; [now rewrite length_map|].
  split; [apply List.Forall_forall; intros v (? & <- & _)%in_map_iff; reflexivity|].
  intros Hx. apply List.Forall_forall. intros v (? & <- & _)%in_map_iff. lia.
Qed.

(** C5 (error, finding).  A configuration without [augmentor] and whose
    [manifest_filepath] is missing or [None] never gives a dataset: the
    featurizer is built first, so a missing [sample_rate] is [KeyError]
    even for the [None] manifest; after it a [None] manifest gives no
    loader, but a missing key raises [KeyError]. *)
Theorem setup_dataloader_no_manifest (self : model) (c : config) ed es cl :
  c !! "augmentor" = None ->
  c !! "manifest_filepath" = None \/ c !! "manifest_filepath" = Some CNone ->
  __setup_dataloader_from_config self c ed es cl =
    match c !! "sample_rate" with
    | None => Err KeyError
    | Some sr =>
        let? _ := featurizer_init (mkFeat sr (cfg_get c "int_values" (CBool false)) None) in
        if cfg_in c "manifest_filepath" then Ok None else Err KeyError
    end.
Proof.
  intros Ha Hm. unfold __setup_dataloader_from_config, cfg_in, cfg_getitem, manifest_is_none.
  rewrite Ha. cbn [res_bind]. destruct (c !! "sample_rate") as [sr|]; [cbn [res_bind]|reflexivity].
  destruct (featurizer_init _); [cbn [res_bind]|reflexivity].
  destruct Hm as [-> | ->]; reflexivity.
Qed.

End Theorems.

(** The three splits of one manifest, the model of [ex_cfg] on them,
    and its training loader. *)
Lemma setup_data_from_clustering_witness :
  exists s1 m m' dl,
    @prepare_cluster_embs ex_env ex_denv ("m.json", "out") ("m.json", "out") ("m.json", "out")
      (ClusterRun.__init__ 2 [1%Q], ex_fs0) = (s1, Ok tt) /\
    @__init__ ex_tenv ex_cfg (fst s1) None = Ok m /\
    @setup_data ex_tenv Train m (split_cfg Train (ts_vad_model_cfg m)) = Ok m' /\
    split_dl Train m' = Some dl /\
    exists s s' r,
      @run_clustering_diarizer ex_env ex_denv "m.json" "out" s = (s', Ok r) /\
      d_emb_dict (dl_dataset dl) = r_emb_sess_avg_dict r /\
      d_emb_seq (dl_dataset dl) = r_emb_scale_seq_dict r /\
      d_clus_label_dict (dl_dataset dl) = r_base_clus_label_dict r /\
      top ex_cfg !! "max_num_of_spks" = Some (d_max_spks (dl_dataset dl)).
Proof.
  match eval vm_compute in (@prepare_cluster_embs ex_env ex_denv ("m.json", "out") ("m.json", "out")
                              ("m.json", "out") (ClusterRun.__init__ 2 [1%Q], ex_fs0)) with
  | (?s1, Ok tt) =>
    match eval vm_compute in (@__init__ ex_tenv ex_cfg (fst s1) None) with
    | Ok ?m =>
      match eval vm_compute in (@setup_data ex_tenv Train m (split_cfg Train (ts_vad_model_cfg m))) with
      | Ok ?m' =>
        match eval vm_compute in (split_dl Train m') with
        | Some ?dl =>
          exists s1, m, m', dl; do 4 (split; [vm_compute; reflexivity|]);
          apply (@setup_data_from_clustering ex_env ex_denv ex_tenv ("m.json", "out") ("m.json", "out")
                   ("m.json", "out") (ClusterRun.__init__ 2 [1%Q], ex_fs0) s1 ex_cfg None m m' Train dl);
          vm_compute; reflexivity
        end
      end
    end
  end.
Defined.

(** Features of 10 frames: every length handed over is 3000. *)
Lemma forward_lengths_witness :
  exists x' lens', @forward ex_tenv (ex_signal 10) [10] (ex_signal 1) = @tsvad ex_tenv x' lens' (ex_signal 1) /\
    sz0 x' = 1%nat /\ sz1 x' = 1%nat /\ sz2 x' = Nat.min 10 3000 /\
    (forall i j k, get x' i j k = get (ex_signal 10) i j k) /\
    length lens' = length [10] /\ Forall (fun v => v = 3000) lens' /\
    ((10 < 3000)%nat -> Forall (fun v => Z.of_nat (sz2 x') < v) lens').
Proof. exact (@forward_lengths ex_tenv (ex_signal 10) [10] (ex_signal 1) (ex_signal 10) [10] eq_refl). Defined.

(** A test split whose manifest is [None] and which has no sample rate. *)
Lemma setup_dataloader_no_manifest_witness :
  let c : config := {[ "manifest_filepath" := CNone; "batch_size" := CInt 4 ]} in
  @__setup_dataloader_from_config ex_tenv (set_test_dl (mkModel ex_cfg (mkRun ∅ ∅ [] ∅) (mkRun ∅ ∅ [] ∅)
      (mkRun ∅ ∅ [] ∅) 1 NemoBCELoss None DiarMetric.__init__ None None None None) None) c ∅ ∅ ∅
    = Err KeyError.
Proof.
  intros c. rewrite (@setup_dataloader_no_manifest ex_tenv); [reflexivity | reflexivity | right; reflexivity].
Defined.

End TsvadModel.
